(** * OLog: staging buffer, format analysis, record codec and log assembler

    A shallow embedding of the parts of OLog (src/buffers.{h,cc},
    src/log_info.{h,cc}, src/logger.{h,cc}, src/olog.h) that the
    specification's claims talk about, followed by the theorems that settle
    them.

    Conventions.
    - [size_t] is 64 bits wide (the logger needs liburing, hence Linux LP64);
      a value stored into a [size_t] is reduced with [size_t_of].
    - A pointer into an array owned by the object is its offset from the start
      of that array; the null pointer is [None].
    - A [char] is an [ascii]; a [char] array is a [list ascii]. *)

From Stdlib Require Import ZArith List Ascii String Lia Bool Arith.
From Stdlib Require Import DecimalString.
Import ListNotations.

Local Open Scope Z_scope.

(** ** Machine integers *)

Definition size_t_of (z : Z) : Z := z mod 2 ^ 64.

(** ** src/buffers.h, src/buffers.cc *)

Module buffers.

(** [StagingBuffer]; the three positions are offsets from [storage.get()]. *)
Record StagingBuffer := mkStagingBuffer {
  producer_pos_ : Z;
  end_of_data_ : Z;
  consumer_pos_ : Z;
  buffer_id_ : Z;
  should_be_destructed_ : bool;
  capacity_ : Z;
  available_bytes_ : Z
}.

Definition set_producer_pos (b : StagingBuffer) (p : Z) : StagingBuffer :=
  mkStagingBuffer p (end_of_data_ b) (consumer_pos_ b) (buffer_id_ b)
    (should_be_destructed_ b) (capacity_ b) (available_bytes_ b).

Definition set_end_of_data (b : StagingBuffer) (p : Z) : StagingBuffer :=
  mkStagingBuffer (producer_pos_ b) p (consumer_pos_ b) (buffer_id_ b)
    (should_be_destructed_ b) (capacity_ b) (available_bytes_ b).

Definition set_consumer_pos (b : StagingBuffer) (p : Z) : StagingBuffer :=
  mkStagingBuffer (producer_pos_ b) (end_of_data_ b) p (buffer_id_ b)
    (should_be_destructed_ b) (capacity_ b) (available_bytes_ b).

Definition set_available_bytes (b : StagingBuffer) (n : Z) : StagingBuffer :=
  mkStagingBuffer (producer_pos_ b) (end_of_data_ b) (consumer_pos_ b)
    (buffer_id_ b) (should_be_destructed_ b) (capacity_ b) n.

Definition set_should_be_destructed (b : StagingBuffer) (f : bool)
  : StagingBuffer :=
  mkStagingBuffer (producer_pos_ b) (end_of_data_ b) (consumer_pos_ b)
    (buffer_id_ b) f (capacity_ b) (available_bytes_ b).

(** The constructor [StagingBuffer(buffer_id, capacity, guard)]. *)
Definition StagingBuffer_new (buffer_id capacity : Z) : StagingBuffer :=
  {| producer_pos_ := 0;
     end_of_data_ := 0 + capacity;
     consumer_pos_ := 0;
     buffer_id_ := buffer_id;
     should_be_destructed_ := false;
     capacity_ := capacity;
     available_bytes_ := capacity |}.

(** [~DestructGuard()] on the guard bound to [b]. *)
Definition DestructGuard_destroy (b : StagingBuffer) : StagingBuffer :=
  set_should_be_destructed b true.

(** [finishReservation]; [None] when one of its two assertions fails. *)
Definition finishReservation (b : StagingBuffer) (num_bytes : Z)
  : option StagingBuffer :=
  if negb (num_bytes <? available_bytes_ b) then None
  else if negb (producer_pos_ b + num_bytes <? 0 + capacity_ b) then None
  else
    let b1 := set_available_bytes b (size_t_of (available_bytes_ b - num_bytes)) in
    Some (set_producer_pos b1 (producer_pos_ b1 + num_bytes)).

(** [peek(size_t& available_bytes)]: the new state, the returned read
    position and the value left in [available_bytes]. *)
Definition peek (b : StagingBuffer) : StagingBuffer * (Z * Z) :=
  let cached_producer_pos := producer_pos_ b in
  if cached_producer_pos <? consumer_pos_ b then
    let available_bytes := size_t_of (end_of_data_ b - consumer_pos_ b) in
    if available_bytes >? 0 then (b, (consumer_pos_ b, available_bytes))
    else
      let b1 := set_consumer_pos b 0 in
      (b1, (consumer_pos_ b1, size_t_of (cached_producer_pos - consumer_pos_ b1)))
  else
    (b, (consumer_pos_ b, size_t_of (cached_producer_pos - consumer_pos_ b))).

(** [consume]; [None] when its assertion fails. *)
Definition consume (b : StagingBuffer) (num_bytes : Z) : option StagingBuffer :=
  if negb (consumer_pos_ b + num_bytes <? 0 + capacity_ b) then None
  else Some (set_consumer_pos b (consumer_pos_ b + num_bytes)).

Definition getId (b : StagingBuffer) : Z := buffer_id_ b.

Definition shouldBeDestructed (b : StagingBuffer) : bool :=
  should_be_destructed_ b && (consumer_pos_ b =? producer_pos_ b).

Definition getCapacity (b : StagingBuffer) : Z := capacity_ b.

(** What the consumer thread does to the buffer while the producer is inside
    the reservation loop: one entry per loop iteration, taken before the
    iteration reads [consumer_pos_]. *)
Inductive ConsumerOp :=
| ConsumerIdle
| ConsumerPeek
| ConsumerConsume (num_bytes : Z).

Definition consumer_acts (op : ConsumerOp) (b : StagingBuffer) : StagingBuffer :=
  match op with
  | ConsumerIdle => b
  | ConsumerPeek => fst (peek b)
  | ConsumerConsume n => match consume b n with Some b' => b' | None => b end
  end.

(** How a call of [reserveProducerSpace] ends. *)
Inductive Reservation :=
| Reserved (write_pos : Z)
| ReturnedNull
| StillSpinning
| AssertionFailed.

(** One pass through the body of the [while] loop of
    [reserveProducerSpaceInternal]: the state it leaves and, when it executes
    a [return], the returned pointer. *)
Definition reserve_iteration (b : StagingBuffer) (num_bytes : Z) (blocking : bool)
  : StagingBuffer * option (option Z) :=
  let end_of_storage := 0 + capacity_ b in
  let cached_consumer_pos := consumer_pos_ b in
  let after_branch : StagingBuffer * option (option Z) :=
    if cached_consumer_pos <=? producer_pos_ b then
      let b1 := set_available_bytes b (size_t_of (end_of_storage - producer_pos_ b)) in
      if available_bytes_ b1 >? num_bytes then (b1, Some (Some (producer_pos_ b1)))
      else
        let b2 := set_end_of_data b1 (producer_pos_ b1) in
        if negb (cached_consumer_pos =? 0) then
          let b3 := set_producer_pos b2 0 in
          (set_available_bytes b3 (size_t_of (cached_consumer_pos - producer_pos_ b3)), None)
        else (b2, None)
    else
      (set_available_bytes b (size_t_of (cached_consumer_pos - consumer_pos_ b)), None)
  in
  match after_branch with
  | (b', Some r) => (b', Some r)
  | (b', None) =>
      if negb blocking && (available_bytes_ b' <=? num_bytes) then (b', Some None)
      else (b', None)
  end.

(** [reserveProducerSpaceInternal]. [fuel] bounds the number of iterations
    that are followed; [sched] is what the consumer does meanwhile (idle once
    the list is used up). *)
Fixpoint reserveProducerSpaceInternal (fuel : nat) (sched : list ConsumerOp)
    (b : StagingBuffer) (num_bytes : Z) (blocking : bool)
  : Reservation * StagingBuffer :=
  if available_bytes_ b <=? num_bytes then
    match fuel with
    | O => (StillSpinning, b)
    | S fuel' =>
        let b0 := match sched with [] => b | op :: _ => consumer_acts op b end in
        match reserve_iteration b0 num_bytes blocking with
        | (b', Some (Some p)) => (Reserved p, b')
        | (b', Some None) => (ReturnedNull, b')
        | (b', None) =>
            reserveProducerSpaceInternal fuel' (tl sched) b' num_bytes blocking
        end
    end
  else (Reserved (producer_pos_ b), b).

(** [reserveProducerSpace]. *)
Definition reserveProducerSpace (fuel : nat) (sched : list ConsumerOp)
    (b : StagingBuffer) (num_bytes : Z) (blocking : bool)
  : Reservation * StagingBuffer :=
  if negb ((num_bytes <? capacity_ b) || negb blocking) then (AssertionFailed, b)
  else if num_bytes <? available_bytes_ b then (Reserved (producer_pos_ b), b)
  else reserveProducerSpaceInternal fuel sched b num_bytes blocking.

(** The reservation edge case: capacity 16, the producer commits 10 bytes,
    the consumer peeks and consumes what it was shown.  [None] if a step of
    the preparation does not go as the scenario says. *)
Definition edge_case_state : option StagingBuffer :=
  let b0 := StagingBuffer_new 0 16 in
  match reserveProducerSpace 0 [] b0 10 true with
  | (Reserved _, b1) =>
      match finishReservation b1 10 with
      | Some b2 =>
          let '(b3, (_, available_bytes)) := peek b2 in
          consume b3 available_bytes
      | None => None
      end
  | _ => None
  end.

End buffers.

(** ** src/logger.h, src/logger.cc: level and output file *)

Module logger.

(** [log_info::LogLevel] is an [enum class] over [uint8_t]; a value of the
    type is its underlying byte. *)
Definition LogLevel := Z.
Definition NONE : LogLevel := 0.
Definition ERROR : LogLevel := 1.
Definition WARNING : LogLevel := 2.
Definition INFO : LogLevel := 3.
Definition DEBUG : LogLevel := 4.
Definition NUMBER_OF_LOG_LEVELS : LogLevel := 5.

Definition uint8_t_of (z : Z) : Z := z mod 2 ^ 8.

Definition STDOUT_FILENO : Z := 1.

(** The operating system as [setLogFileInternal] sees it. *)
Record FileSystem := mkFileSystem {
  access_F_OK : list ascii -> Z;
  access_R_OK_W_OK : list ascii -> Z;
  open_LOG_FILE_FLAGS : list ascii -> Z
}.

(** The fields of [Logger] that the two setters touch, and the descriptors
    the logger has passed to [close], most recent first. *)
Record Logger := mkLogger {
  current_log_level_ : LogLevel;
  output_fd_ : Z;
  closed_fds : list Z
}.

(** The state the constructor leaves. *)
Definition Logger_new : Logger :=
  {| current_log_level_ := INFO; output_fd_ := STDOUT_FILENO; closed_fds := [] |}.

(** [setLogLevelInternal]. *)
Definition setLogLevelInternal (l : Logger) (level : LogLevel) : Logger :=
  let level :=
    if level >=? NUMBER_OF_LOG_LEVELS
    then uint8_t_of (uint8_t_of NUMBER_OF_LOG_LEVELS - 1)
    else level in
  {| current_log_level_ := level;
     output_fd_ := output_fd_ l;
     closed_fds := closed_fds l |}.

Definition getLogLevelInternal (l : Logger) : LogLevel := current_log_level_ l.

Definition SetLogLevel := setLogLevelInternal.
Definition GetLogLevel := getLogLevelInternal.

(** The two [std::ios_base::failure]s of [setLogFileInternal]. *)
Inductive io_failure :=
| UnableToReadWrite (filename : list ascii)
| CantOpen (filename : list ascii).

(** [setLogFileInternal]: the exception that leaves the call, if any, and
    the state of the logger when the call ends. *)
Definition setLogFileInternal (os : FileSystem) (l : Logger) (filename : list ascii)
  : option io_failure * Logger :=
  if (access_F_OK os filename =? 0) && negb (access_R_OK_W_OK os filename =? 0)
  then (Some (UnableToReadWrite filename), l)
  else
    let new_fd := open_LOG_FILE_FLAGS os filename in
    if new_fd <? 0 then (Some (CantOpen filename), l)
    else
      let closed := if output_fd_ l >? 0 then output_fd_ l :: closed_fds l
                    else closed_fds l in
      (None,
       {| current_log_level_ := current_log_level_ l;
          output_fd_ := new_fd;
          closed_fds := closed |}).

Definition SetLogFile := setLogFileInternal.

End logger.

(** ** src/log_info.h: format analysis *)

Module log_info.

Local Open Scope char_scope.

Definition NUL : ascii := "000".

(** The array a string literal denotes: its characters and the terminating
    NUL ([_FormatLength] is the length of this array). *)
Definition c_array (s : string) : list ascii := list_ascii_of_string s ++ [NUL].

(** The C string that starts at offset [pos] of [bytes]. *)
Fixpoint until_NUL (bytes : list ascii) : list ascii :=
  match bytes with
  | [] => []
  | c :: bytes' => if (c =? NUL)%char then [] else c :: until_NUL bytes'
  end.

Definition c_str_at (bytes : list ascii) (pos : nat) : list ascii :=
  until_NUL (skipn pos bytes).

(** What ends a computation other than a value: an exception, a failed
    [static_assert], a signed overflow (which a constant expression may not
    contain, so that the macro that evaluates it does not compile), or the
    end of the fuel given to a loop. *)
Inductive error :=
| UnrecognizedConversionSpecifier
| PercentNNotSupported
| NbytesNotSupported
| NumberOfArgumentsDiffers
| SignedOverflow.

Inductive result (A : Type) :=
| Return (a : A)
| Throw (e : error)
| OutOfFuel.
Arguments Return {A} a.
Arguments Throw {A} e.
Arguments OutOfFuel {A}.

Definition bind {A B : Type} (r : result A) (k : A -> result B) : result B :=
  match r with
  | Return a => k a
  | Throw e => Throw e
  | OutOfFuel => OutOfFuel
  end.

Fixpoint sequence {A : Type} (rs : list (result A)) : result (list A) :=
  match rs with
  | [] => Return []
  | r :: rs' =>
      bind r (fun a => bind (sequence rs') (fun l => Return (a :: l)))
  end.

(** [enum class LogLevel : uint8_t], as in [logger]. *)
Definition LogLevel := Z.

(** [enum class ParamType : int32_t]; [ParamType(precision)] is the
    precision itself. *)
Definition ParamType := Z.
Definition INVALID : ParamType := -6.
Definition DYNAMIC_WIDTH : ParamType := -5.
Definition DYNAMIC_PRECISION : ParamType := -4.
Definition NON_STRING : ParamType := -3.
Definition STRING_WITH_DYNAMIC_PRECISION : ParamType := -2.
Definition STRING_WITH_NO_PRECISION : ParamType := -1.
Definition STRING : ParamType := 0.

Inductive ConversionType :=
| NONE
| unsigned_char_t
| unsigned_short_int_t
| unsigned_int_t
| unsigned_long_int_t
| unsigned_long_long_int_t
| uintmax_t_t
| size_t_t
| wint_t_t
| signed_char_t
| short_int_t
| int_t
| long_int_t
| long_long_int_t
| intmax_t_t
| ptrdiff_t_t
| double_t
| long_double_t
| const_void_ptr_t
| const_char_ptr_t
| const_wchar_t_ptr_t.

Record FormatFragment := mkFormatFragment {
  conversion_type_ : ConversionType;
  specifier_length_ : nat;
  format_pos_ : nat;
  storage_pos_ : nat
}.

Definition is_char (c : ascii) (ds : list ascii) : bool :=
  existsb (Ascii.eqb c) ds.

Definition IsConversionSpecifier (c : ascii) : bool :=
  (c =? "d") || (c =? "i") || (c =? "u") || (c =? "o") || (c =? "x") ||
  (c =? "X") || (c =? "f") || (c =? "F") || (c =? "e") || (c =? "E") ||
  (c =? "g") || (c =? "G") || (c =? "a") || (c =? "A") || (c =? "c") ||
  (c =? "p") || (c =? "%") || (c =? "s") || (c =? "n").

Definition IsFlag (c : ascii) : bool :=
  (c =? "-") || (c =? "+") || (c =? " ") || (c =? "#") || (c =? "0").

Definition IsLength (c : ascii) : bool :=
  (c =? "h") || (c =? "l") || (c =? "j") || (c =? "z") || (c =? "t") || (c =? "L").

Definition IsDigit (c : ascii) : bool :=
  (nat_of_ascii "0" <=? nat_of_ascii c)%nat && (nat_of_ascii c <=? nat_of_ascii "9")%nat.

(** The walks below keep, instead of [index], the part of [fmt] that starts
    at [index]: [cur fmt] is [fmt[index]] and [tl fmt] is [++index].  The
    array ends with NUL and no walk steps over a NUL, so [fmt[index]] is never
    read past the end; [cur] answers NUL there. *)
Definition cur (fmt : list ascii) : ascii := hd NUL fmt.

(** [while (p(fmt[index])) ++index;] *)
Fixpoint skip_while (p : ascii -> bool) (fmt : list ascii) : list ascii :=
  match fmt with
  | c :: fmt' => if p c then skip_while p fmt' else fmt
  | [] => []
  end.

(** The largest and the smallest [int]. *)
Definition INT_MAX : Z := 2 ^ 31 - 1.
Definition INT_MIN : Z := - 2 ^ 31.

(** The result of an arithmetic operation on [int]s whose exact value is
    [z]. *)
Definition int_result (z : Z) : result Z :=
  if ((INT_MIN <=? z) && (z <=? INT_MAX))%Z then Return z else Throw SignedOverflow.

(** The digits loop of [GetParamInfo] that accumulates [precision], an
    [int]: [precision = precision * 10 + (fmt[index] - '0')]. *)
Fixpoint read_precision (fmt : list ascii) (precision : Z) : result (list ascii * Z) :=
  match fmt with
  | c :: fmt' =>
      if IsDigit c
      then
        bind (int_result (precision * 10)) (fun product =>
        bind (int_result
                (product + (Z.of_nat (nat_of_ascii c) - Z.of_nat (nat_of_ascii "0"))))
          (fun precision => read_precision fmt' precision))
      else Return (fmt, precision)
  | [] => Return ([], precision)
  end.

(** [GetParamInfo]: the [while] loop, one iteration per unit of [fuel]. *)
Fixpoint GetParamInfo_loop (fuel : nat) (fmt : list ascii) (param_num : nat)
  : result ParamType :=
  match fmt with
  | [] => Return INVALID
  | c :: fmt1 =>
    match fuel with
    | O => OutOfFuel
    | S fuel' =>
      if negb (c =? "%") then GetParamInfo_loop fuel' fmt1 param_num
      else if cur fmt1 =? "%" then GetParamInfo_loop fuel' (tl fmt1) param_num
      else
        let fmt2 := skip_while IsFlag fmt1 in
        let width : ParamType + list ascii * nat :=
          if cur fmt2 =? "*" then
            if (param_num =? 0)%nat then inl DYNAMIC_WIDTH
            else inr (tl fmt2, (param_num - 1)%nat)
          else inr (skip_while IsDigit fmt2, param_num) in
        match width with
        | inl t => Return t
        | inr (fmt3, param_num) =>
          let precision : result (ParamType + list ascii * nat * bool * Z) :=
            if cur fmt3 =? "." then
              if cur (tl fmt3) =? "*" then
                if (param_num =? 0)%nat then Return (inl DYNAMIC_PRECISION)
                else Return (inr (tl (tl fmt3), (param_num - 1)%nat, true, -1))
              else
                bind (read_precision (tl fmt3) 0) (fun '(fmt4, precision) =>
                Return (inr (fmt4, param_num, false, precision)))
            else Return (inr (fmt3, param_num, false, -1)) in
          match precision with
          | Throw e => Throw e
          | OutOfFuel => OutOfFuel
          | Return (inl t) => Return t
          | Return (inr (fmt4, param_num, has_dynamic_precision, precision)) =>
            let fmt5 := skip_while IsLength fmt4 in
            if negb (IsConversionSpecifier (cur fmt5))
            then Throw UnrecognizedConversionSpecifier
            else if cur fmt5 =? "n" then Throw PercentNNotSupported
            else if (0 <? param_num)%nat
            then GetParamInfo_loop fuel' (tl fmt5) (param_num - 1)%nat
            else if negb (cur fmt5 =? "s") then Return NON_STRING
            else if has_dynamic_precision then Return STRING_WITH_DYNAMIC_PRECISION
            else if (precision =? -1)%Z then Return STRING_WITH_NO_PRECISION
            else Return precision
          end
        end
    end
  end.

Definition GetParamInfo (fmt : list ascii) (param_num : nat) : result ParamType :=
  GetParamInfo_loop (List.length fmt) fmt param_num.

(** [FormatParametersCount]: [while (GetParamInfo(fmt, n) != INVALID) n++]. *)
Fixpoint FormatParametersCount_loop (fuel : nat) (fmt : list ascii)
    (num_parameters : nat) : result nat :=
  bind (GetParamInfo fmt num_parameters) (fun t =>
    if (t =? INVALID)%Z then Return num_parameters
    else match fuel with
         | O => OutOfFuel
         | S fuel' => FormatParametersCount_loop fuel' fmt (S num_parameters)
         end).

Definition FormatParametersCount (fmt : list ascii) : result nat :=
  FormatParametersCount_loop (List.length fmt) fmt 0%nat.

(** [AnalyzeFormatParameters<_NumParam>]. *)
Definition AnalyzeFormatParameters (NumParam : nat) (fmt : list ascii)
  : result (list ParamType) :=
  sequence (map (GetParamInfo fmt) (seq 0 NumParam)).

(** The locals of [GetConversionType] that survive an iteration. *)
Record LengthFlags := mkLengthFlags {
  h_cnt : nat;
  l_cnt : nat;
  L_flag : bool;
  j_flag : bool;
  z_flag : bool;
  t_flag : bool
}.

Definition no_length : LengthFlags := mkLengthFlags 0 0 false false false false.

(** The [switch] inside the length loop of [GetConversionType]. *)
Definition note_length (c : ascii) (f : LengthFlags) : LengthFlags :=
  if c =? "L" then mkLengthFlags (h_cnt f) (l_cnt f) true (j_flag f) (z_flag f) (t_flag f)
  else if c =? "h" then mkLengthFlags (S (h_cnt f)) (l_cnt f) (L_flag f) (j_flag f) (z_flag f) (t_flag f)
  else if c =? "j" then mkLengthFlags (h_cnt f) (l_cnt f) (L_flag f) true (z_flag f) (t_flag f)
  else if c =? "l" then mkLengthFlags (h_cnt f) (S (l_cnt f)) (L_flag f) (j_flag f) (z_flag f) (t_flag f)
  else if c =? "t" then mkLengthFlags (h_cnt f) (l_cnt f) (L_flag f) (j_flag f) (z_flag f) true
  else if c =? "z" then mkLengthFlags (h_cnt f) (l_cnt f) (L_flag f) (j_flag f) true (t_flag f)
  else f.

Fixpoint read_length (fmt : list ascii) (f : LengthFlags) : list ascii * LengthFlags :=
  match fmt with
  | c :: fmt' => if IsLength c then read_length fmt' (note_length c f) else (fmt, f)
  | [] => ([], f)
  end.

(** The width and precision part of the walks that only step over it. *)
Definition skip_width (fmt : list ascii) : list ascii :=
  if cur fmt =? "*" then tl fmt else skip_while IsDigit fmt.

Definition skip_precision (fmt : list ascii) : list ascii :=
  if cur fmt =? "." then
    if cur (tl fmt) =? "*" then tl (tl fmt) else skip_while IsDigit (tl fmt)
  else fmt.

(** The loop of [GetConversionType]: the conversion specifier it stops at
    (NUL when it runs to the end) and the length modifiers seen with it. *)
Fixpoint GetConversionType_loop (fuel : nat) (fmt : list ascii)
    (conversion_num : nat) (f : LengthFlags) : result (ascii * LengthFlags) :=
  match fmt with
  | [] => Return (NUL, f)
  | c :: fmt1 =>
    match fuel with
    | O => OutOfFuel
    | S fuel' =>
      if negb (c =? "%") then GetConversionType_loop fuel' fmt1 conversion_num f
      else if cur fmt1 =? "%" then GetConversionType_loop fuel' (tl fmt1) conversion_num f
      else
        let fmt2 := skip_while IsFlag fmt1 in
        let fmt3 := skip_width fmt2 in
        let fmt4 := skip_precision fmt3 in
        let '(fmt5, f) := read_length fmt4 f in
        if negb (IsConversionSpecifier (cur fmt5))
        then Throw UnrecognizedConversionSpecifier
        else if cur fmt5 =? "n" then Throw PercentNNotSupported
        else if (0 <? conversion_num)%nat
        then GetConversionType_loop fuel' (tl fmt5) (conversion_num - 1)%nat no_length
        else Return (cur fmt5, f)
    end
  end.

(** The analysis that follows the loop of [GetConversionType]. *)
Definition classify_conversion (specifier : ascii) (f : LengthFlags) : ConversionType :=
  if (specifier =? "d") || (specifier =? "i") then
    if (2 <=? h_cnt f)%nat then signed_char_t
    else if (2 <=? l_cnt f)%nat then long_long_int_t
    else if (1 <=? h_cnt f)%nat then short_int_t
    else if (1 <=? l_cnt f)%nat then long_int_t
    else if j_flag f then intmax_t_t
    else if z_flag f then size_t_t
    else if t_flag f then ptrdiff_t_t
    else int_t
  else if (specifier =? "u") || (specifier =? "o") || (specifier =? "x") ||
          (specifier =? "X") then
    if (2 <=? h_cnt f)%nat then unsigned_char_t
    else if (2 <=? l_cnt f)%nat then unsigned_long_long_int_t
    else if (1 <=? h_cnt f)%nat then unsigned_short_int_t
    else if (1 <=? l_cnt f)%nat then unsigned_long_int_t
    else if j_flag f then uintmax_t_t
    else if z_flag f then size_t_t
    else if t_flag f then ptrdiff_t_t
    else unsigned_int_t
  else if specifier =? "s" then
    if (1 <=? l_cnt f)%nat then const_wchar_t_ptr_t else const_char_ptr_t
  else if specifier =? "p" then const_void_ptr_t
  else if (specifier =? "f") || (specifier =? "F") || (specifier =? "e") ||
          (specifier =? "E") || (specifier =? "g") || (specifier =? "G") ||
          (specifier =? "a") || (specifier =? "A") then
    if L_flag f then long_double_t else double_t
  else if specifier =? "c" then
    if (1 <=? l_cnt f)%nat then wint_t_t else int_t
  else NONE.

Definition GetConversionType (fmt : list ascii) (conversion_num : nat)
  : result ConversionType :=
  bind (GetConversionType_loop (List.length fmt) fmt conversion_num no_length)
       (fun '(specifier, f) => Return (classify_conversion specifier f)).

(** [ConversionSpecifiersCount]. *)
Fixpoint ConversionSpecifiersCount_loop (fuel : nat) (fmt : list ascii)
    (count : nat) : result nat :=
  match fmt with
  | [] => Return count
  | c :: fmt1 =>
    match fuel with
    | O => OutOfFuel
    | S fuel' =>
      if negb (c =? "%") then ConversionSpecifiersCount_loop fuel' fmt1 count
      else if cur fmt1 =? "%" then ConversionSpecifiersCount_loop fuel' (tl fmt1) count
      else
        let fmt2 := skip_while IsFlag fmt1 in
        let fmt3 := skip_width fmt2 in
        let fmt4 := skip_precision fmt3 in
        let fmt5 := skip_while IsLength fmt4 in
        if negb (IsConversionSpecifier (cur fmt5))
        then Throw UnrecognizedConversionSpecifier
        else if cur fmt5 =? "n" then Throw PercentNNotSupported
        else ConversionSpecifiersCount_loop fuel' (tl fmt5) (S count)
    end
  end.

Definition ConversionSpecifiersCount (fmt : list ascii) : result nat :=
  ConversionSpecifiersCount_loop (List.length fmt) fmt 0%nat.

(** [while (p(fmt[index])) { ++index; ++need_size; }] *)
Fixpoint count_while (p : ascii -> bool) (fmt : list ascii) (need_size : nat)
  : list ascii * nat :=
  match fmt with
  | c :: fmt' => if p c then count_while p fmt' (S need_size) else (fmt, need_size)
  | [] => ([], need_size)
  end.

(** [SizeConversionStorageNeeds]. *)
Fixpoint SizeConversionStorageNeeds_loop (fuel : nat) (fmt : list ascii)
    (need_size count : nat) : result nat :=
  match fmt with
  | [] => Return (need_size + count)%nat
  | c :: fmt1 =>
    match fuel with
    | O => OutOfFuel
    | S fuel' =>
      if negb (c =? "%") then SizeConversionStorageNeeds_loop fuel' fmt1 need_size count
      else if cur fmt1 =? "%"
      then SizeConversionStorageNeeds_loop fuel' (tl fmt1) need_size count
      else
        let need_size := S need_size in
        let '(fmt2, need_size) := count_while IsFlag fmt1 need_size in
        let '(fmt3, need_size) :=
          if cur fmt2 =? "*" then (tl fmt2, S need_size)
          else count_while IsDigit fmt2 need_size in
        let '(fmt4, need_size) :=
          if cur fmt3 =? "." then
            let need_size := S need_size in
            if cur (tl fmt3) =? "*" then (tl (tl fmt3), S need_size)
            else count_while IsDigit (tl fmt3) need_size
          else (fmt3, need_size) in
        let '(fmt5, need_size) := count_while IsLength fmt4 need_size in
        if negb (IsConversionSpecifier (cur fmt5))
        then Throw UnrecognizedConversionSpecifier
        else if cur fmt5 =? "n" then Throw PercentNNotSupported
        else SizeConversionStorageNeeds_loop fuel' (tl fmt5) (S need_size) (S count)
    end
  end.

Definition SizeConversionStorageNeeds (fmt : list ascii) : result nat :=
  SizeConversionStorageNeeds_loop (List.length fmt) fmt 0%nat 0%nat.

(** [while (p(fmt[index])) { if (num == 0) return fmt[index]; --num; ++index; }]:
    the character returned, or where the loop stops and what is left of
    [num]. *)
Fixpoint pick_while (p : ascii -> bool) (fmt : list ascii) (num : nat)
  : ascii + list ascii * nat :=
  match fmt with
  | c :: fmt' =>
      if p c then
        if (num =? 0)%nat then inl c else pick_while p fmt' (num - 1)%nat
      else inr (fmt, num)
  | [] => inr ([], num)
  end.

(** [GetConversionSpecifierChar]. *)
Fixpoint GetConversionSpecifierChar_loop (fuel : nat) (fmt : list ascii) (num : nat)
  : result ascii :=
  match fmt with
  | [] => Return NUL
  | c :: fmt1 =>
    match fuel with
    | O => OutOfFuel
    | S fuel' =>
      if negb (c =? "%") then GetConversionSpecifierChar_loop fuel' fmt1 num
      else if cur fmt1 =? "%" then GetConversionSpecifierChar_loop fuel' (tl fmt1) num
      else if (num =? 0)%nat then Return "%"
      else
        let num := (num - 1)%nat in
        match pick_while IsFlag fmt1 num with
        | inl ch => Return ch
        | inr (fmt2, num) =>
          let width : ascii + list ascii * nat :=
            if cur fmt2 =? "*" then
              if (num =? 0)%nat then inl "*" else inr (tl fmt2, (num - 1)%nat)
            else pick_while IsDigit fmt2 num in
          match width with
          | inl ch => Return ch
          | inr (fmt3, num) =>
            let precision : ascii + list ascii * nat :=
              if cur fmt3 =? "." then
                if (num =? 0)%nat then inl (cur fmt3)
                else
                  let num := (num - 1)%nat in
                  if cur (tl fmt3) =? "*" then
                    if (num =? 0)%nat then inl "*"
                    else inr (tl (tl fmt3), (num - 1)%nat)
                  else pick_while IsDigit (tl fmt3) num
              else inr (fmt3, num) in
            match precision with
            | inl ch => Return ch
            | inr (fmt4, num) =>
              match pick_while IsLength fmt4 num with
              | inl ch => Return ch
              | inr (fmt5, num) =>
                if negb (IsConversionSpecifier (cur fmt5))
                then Throw UnrecognizedConversionSpecifier
                else if cur fmt5 =? "n" then Throw PercentNNotSupported
                else if (num =? 0)%nat then Return (cur fmt5)
                else
                  let num := (num - 1)%nat in
                  if (num =? 0)%nat then Return NUL
                  else GetConversionSpecifierChar_loop fuel' (tl fmt5) (num - 1)%nat
              end
            end
          end
        end
    end
  end.

Definition GetConversionSpecifierChar (fmt : list ascii) (num : nat) : result ascii :=
  GetConversionSpecifierChar_loop (List.length fmt) fmt num.

(** [MakeConversionStorage<_StorageSize>]. *)
Definition MakeConversionStorage (StorageSize : nat) (fmt : list ascii)
  : result (list ascii) :=
  sequence (map (GetConversionSpecifierChar fmt) (seq 0 StorageSize)).

(** [GetConversionSpecifierPosition]; [FormatLength] is the length of the
    whole array, so that [index] is [FormatLength] less the length of what is
    left. *)
Fixpoint GetConversionSpecifierPosition_loop (fuel : nat) (FormatLength : nat)
    (fmt : list ascii) (num : nat) : result nat :=
  match fmt with
  | [] => Return FormatLength
  | c :: fmt1 =>
    match fuel with
    | O => OutOfFuel
    | S fuel' =>
      if negb (c =? "%")
      then GetConversionSpecifierPosition_loop fuel' FormatLength fmt1 num
      else if cur fmt1 =? "%"
      then GetConversionSpecifierPosition_loop fuel' FormatLength (tl fmt1) num
      else if (num =? 0)%nat then Return (FormatLength - List.length fmt1 - 1)%nat
      else
        let num := (num - 1)%nat in
        let fmt2 := skip_while IsFlag fmt1 in
        let fmt3 := skip_width fmt2 in
        let fmt4 := skip_precision fmt3 in
        let fmt5 := skip_while IsLength fmt4 in
        if negb (IsConversionSpecifier (cur fmt5))
        then Throw UnrecognizedConversionSpecifier
        else if cur fmt5 =? "n" then Throw PercentNNotSupported
        else GetConversionSpecifierPosition_loop fuel' FormatLength (tl fmt5) num
    end
  end.

Definition GetConversionSpecifierPosition (fmt : list ascii) (num : nat) : result nat :=
  GetConversionSpecifierPosition_loop (List.length fmt) (List.length fmt) fmt num.

(** [GetConversionSpecifierLength]. *)
Fixpoint GetConversionSpecifierLength_loop (storage : list ascii) (num len : nat) : nat :=
  match storage with
  | [] => len
  | c :: storage' =>
      if c =? NUL then
        if (num =? 0)%nat then len
        else GetConversionSpecifierLength_loop storage' (num - 1)%nat 0%nat
      else GetConversionSpecifierLength_loop storage' num (S len)
  end.

Definition GetConversionSpecifierLength (storage : list ascii) (num : nat) : nat :=
  GetConversionSpecifierLength_loop storage num 0%nat.

(** [GetConversionSpecifierPositionInStorage]. *)
Fixpoint GetConversionSpecifierPositionInStorage_loop (storage : list ascii)
    (num index : nat) : nat :=
  match storage with
  | [] => index
  | c :: storage' =>
      if negb (c =? "%")
      then GetConversionSpecifierPositionInStorage_loop storage' num (S index)
      else if (num =? 0)%nat then index
      else GetConversionSpecifierPositionInStorage_loop storage' (num - 1)%nat (S index)
  end.

Definition GetConversionSpecifierPositionInStorage (storage : list ascii) (num : nat)
  : nat :=
  GetConversionSpecifierPositionInStorage_loop storage num 0%nat.

(** [GetFormatFragments<_NumFormatFragments>]. *)
Definition GetFormatFragments (NumFormatFragments : nat) (fmt storage : list ascii)
  : result (list FormatFragment) :=
  sequence
    (map (fun i =>
            bind (GetConversionType fmt i) (fun conversion_type =>
            bind (GetConversionSpecifierPosition fmt i) (fun format_pos =>
            Return (mkFormatFragment conversion_type
                      (GetConversionSpecifierLength storage i)
                      format_pos
                      (GetConversionSpecifierPositionInStorage storage i)))))
         (seq 0 NumFormatFragments)).

(** ** src/log_info.h, src/olog.h: the record codec *)

(** [struct StaticLogInfo] as the assembler reads it: every pointer of the
    struct is kept as what is read through it.  That is the struct of one
    call site between its registration and the registration of another site;
    how the array behind [param_sizes_] is shared between call sites is
    modelled in [registry]. *)
Record StaticLogInfo := mkStaticLogInfo {
  filename_ : list ascii;
  line_number_ : Z;
  log_level_ : LogLevel;
  format_len_ : nat;
  num_conversions_ : nat;
  num_parameters_ : nat;
  format_str_ : list ascii;
  conversion_storage_ : list ascii;
  format_fragments_ : list FormatFragment;
  param_types_ : list ParamType;
  param_sizes_ : list nat
}.

Record DynamicLogInfo := mkDynamicLogInfo {
  log_id_ : Z;
  info_size_ : Z;
  ms_timestamp_ : Z;
  arg_data : list ascii
}.

(** [sizeof(DynamicLogInfo)]: two [size_t] and an [int64_t]. *)
Definition sizeof_DynamicLogInfo : nat := 24.
Definition sizeof_size_t : nat := 8.
Definition sizeof_void_ptr : nat := 8.

(** An argument of a log call.  Integers and pointers carry their value and
    [sizeof]; a floating-point argument carries its object representation; a
    [char*] carries its address and the characters before the terminating
    NUL.  ([wchar_t] strings are left out.) *)
Inductive Arg :=
| ArgInteger (size : nat) (value : Z)
| ArgFloating (image : list ascii)
| ArgCharPtr (address : Z) (str : list ascii)
| ArgVoidPtr (address : Z).

(** The object representation of an [n]-byte integer, little endian. *)
Fixpoint le_bytes (n : nat) (v : Z) : list ascii :=
  match n with
  | O => []
  | S n' => ascii_of_N (Z.to_N (v mod 256)) :: le_bytes n' (v / 256)
  end.

Fixpoint le_value (bytes : list ascii) : Z :=
  match bytes with
  | [] => 0
  | c :: bytes' => Z.of_N (N_of_ascii c) + 256 * le_value bytes'
  end.

Definition is_string_arg (a : Arg) : bool :=
  match a with ArgCharPtr _ _ => true | _ => false end.

(** [GetParamSize]. *)
Definition GetParamSize (param_type : ParamType) (arg : Arg) : nat :=
  match arg with
  | ArgCharPtr _ _ => if (param_type <=? NON_STRING)%Z then sizeof_void_ptr else 0%nat
  | ArgInteger size _ => size
  | ArgFloating image => List.length image
  | ArgVoidPtr _ => sizeof_void_ptr
  end.

(** [GetParamSizes]: position by position, as far as both lists go. *)
Fixpoint GetParamSizes (param_types : list ParamType) (args : list Arg) : list nat :=
  match param_types, args with
  | t :: param_types', a :: args' => GetParamSize t a :: GetParamSizes param_types' args'
  | _, _ => []
  end.

(** [AsSizet]. *)
Definition AsSizet (arg : Arg) : Z :=
  match arg with
  | ArgInteger _ value => size_t_of value
  | _ => 0
  end.

(** [GetArgSize]: the size, what is stored in [string_size] (if anything)
    and the new [pre_precision]. *)
Definition GetArgSize (param_type : ParamType) (pre_precision : Z) (arg : Arg)
  : nat * option Z * Z :=
  match arg with
  | ArgCharPtr _ str =>
      if (param_type <=? NON_STRING)%Z then (sizeof_void_ptr, None, pre_precision)
      else
        let string_size := Z.of_nat (List.length str) in
        let format_len := size_t_of param_type in
        let string_size :=
          if (param_type >=? STRING)%Z && (string_size >? format_len)%Z
          then format_len
          else if (param_type =? STRING_WITH_DYNAMIC_PRECISION)%Z &&
                  (string_size >? pre_precision)%Z
          then pre_precision
          else string_size in
        (Z.to_nat string_size + sizeof_size_t + 1, Some string_size, pre_precision)%nat
  | ArgVoidPtr _ => (sizeof_void_ptr, None, pre_precision)
  | ArgInteger size _ =>
      (size, None,
       if (param_type =? DYNAMIC_PRECISION)%Z then AsSizet arg else pre_precision)
  | ArgFloating image =>
      (List.length image, None,
       if (param_type =? DYNAMIC_PRECISION)%Z then AsSizet arg else pre_precision)
  end.

(** [GetArgSizes], its operands evaluated left to right: the total size and
    the [string_sizes] array (0 where nothing was stored). *)
Fixpoint GetArgSizes (param_types : list ParamType) (pre_precision : Z)
    (args : list Arg) : nat * list Z :=
  match param_types, args with
  | t :: param_types', a :: args' =>
      let '(size, string_size, pre_precision) := GetArgSize t pre_precision a in
      let '(rest, string_sizes) := GetArgSizes param_types' pre_precision args' in
      ((size + rest)%nat,
       match string_size with Some n => n | None => 0 end :: string_sizes)
  | _, _ => (0%nat, [])
  end.

(** [StoreArgument]: the bytes it appends at [dst]. *)
Definition StoreArgument (param_type : ParamType) (string_size : Z) (arg : Arg)
  : list ascii :=
  match arg with
  | ArgCharPtr address str =>
      if (param_type <=? NON_STRING)%Z then le_bytes sizeof_void_ptr address
      else
        le_bytes sizeof_size_t string_size ++
        firstn (Z.to_nat string_size) str ++
        [NUL]
  | ArgInteger size value => le_bytes size value
  | ArgFloating image => image
  | ArgVoidPtr address => le_bytes sizeof_void_ptr address
  end.

(** [StoreArguments]. *)
Fixpoint StoreArguments (param_types : list ParamType) (string_sizes : list Z)
    (args : list Arg) : list ascii :=
  match param_types, string_sizes, args with
  | t :: param_types', n :: string_sizes', a :: args' =>
      StoreArgument t n a ++ StoreArguments param_types' string_sizes' args'
  | _, _, _ => []
  end.

(** What the macro [OLOG] computes at compile time from its format. *)
Record Callsite := mkCallsite {
  num_parameters : nat;
  num_conversions : nat;
  conversion_storage : list ascii;
  param_types : list ParamType;
  format_fragments : list FormatFragment
}.

Definition OLOG_constants (format_str : list ascii) : result Callsite :=
  bind (FormatParametersCount format_str) (fun num_parameters =>
  bind (ConversionSpecifiersCount format_str) (fun num_conversions =>
  bind (SizeConversionStorageNeeds format_str) (fun conversion_storage_size =>
  bind (AnalyzeFormatParameters num_parameters format_str) (fun param_types =>
  bind (MakeConversionStorage conversion_storage_size format_str)
       (fun conversion_storage =>
  bind (GetFormatFragments num_conversions format_str conversion_storage)
       (fun format_fragments =>
  Return (mkCallsite num_parameters num_conversions conversion_storage
            param_types format_fragments))))))).

(** [Log], for a call that passes the severity threshold and registers its
    static information: the registered [StaticLogInfo], as it is read once
    the call has registered it, and the record written to the staging buffer
    ([alloc_size] bytes, header included). *)
Definition Log (log_id : Z) (filename : list ascii) (line_num : Z)
    (severity : LogLevel) (fmt : list ascii) (site : Callsite)
    (timestamp : Z) (args : list Arg)
  : result (StaticLogInfo * DynamicLogInfo) :=
  if negb (num_parameters site =? List.length args)%nat
  then Throw NumberOfArgumentsDiffers
  else
    let param_sizes := GetParamSizes (param_types site) args in
    let info :=
      mkStaticLogInfo filename line_num severity (List.length fmt)
        (num_conversions site) (num_parameters site) fmt
        (conversion_storage site) (format_fragments site) (param_types site)
        param_sizes in
    let pre_precision := 0 in
    let '(args_size, string_sizes) :=
      GetArgSizes (param_types site) pre_precision args in
    let alloc_size := (args_size + sizeof_DynamicLogInfo)%nat in
    Return (info,
            mkDynamicLogInfo log_id (Z.of_nat alloc_size) timestamp
              (StoreArguments (param_types site) string_sizes args)).

(** The macro [OLOG(severity, format, args...)] at [filename]:[line_num]. *)
Definition OLOG (log_id : Z) (filename : list ascii) (line_num : Z)
    (severity : LogLevel) (format : string) (timestamp : Z) (args : list Arg)
  : result (StaticLogInfo * DynamicLogInfo) :=
  let format_str := c_array format in
  bind (OLOG_constants format_str) (fun site =>
    Log log_id filename line_num severity format_str site timestamp args).

(** ** src/log_info.h, src/log_info.cc: [LogAssembler] *)

Local Close Scope char_scope.

(** What is passed to [snprintf] after the format: an integer value, the
    object representation of a floating-point value, a pointer into the
    record (its offset in [arg_data]), the C string a [char*] points to, or
    the bytes a [wchar_t*] points to. *)
Inductive PrintfArg :=
| PInteger (value : Z)
| PFloating (image : list ascii)
| PPointer (offset : nat)
| PString (str : list ascii)
| PWideString (bytes : list ascii).

(** Why a call does not come back with a state: the loop was followed for
    as long as the fuel allowed, an exception left a [noexcept] function, or
    the code read outside an array or through a null pointer. *)
Inductive abort :=
| FuelExhausted
| Terminated (e : error)
| OutOfBounds
| NullPointer.

(** The output region: [written] are the bytes from its start up to
    [write_pos_] and [scratch] those that the last [memcpy] or [snprintf] put
    at [write_pos_]; nothing else of the region is ever read. *)
Record Output := mkOutput {
  written : list ascii;
  scratch : list ascii;
  buffer_size_ : Z;
  writed_count_ : Z;
  bytes_last_writed_ : Z;
  is_full_ : bool
}.

Record Indices := mkIndices {
  conversion_index_ : nat;
  parameter_index_ : nat;
  format_index_ : nat;
  args_read_pos_ : nat
}.

Record Flags := mkFlags {
  is_timestamp_writed_ : bool;
  is_filename_and_linenum_writed_ : bool;
  is_severity_writed_ : bool;
  is_producer_id_writed_ : bool;
  is_end_of_log_writed_ : bool
}.

(** [LogAssembler], its members grouped by what [write] does with them. *)
Record LogAssembler := mkLogAssembler {
  output : Output;
  indices : Indices;
  flags : Flags;
  static_log_info_ : option StaticLogInfo;
  dynamic_log_info_ : option DynamicLogInfo;
  timestamp_str_ : list ascii;
  filename_and_linenum_ : list ascii;
  producer_id_ : list ascii
}.

Definition with_output (a : LogAssembler) (o : Output) : LogAssembler :=
  mkLogAssembler o (indices a) (flags a) (static_log_info_ a)
    (dynamic_log_info_ a) (timestamp_str_ a) (filename_and_linenum_ a)
    (producer_id_ a).

Definition with_indices (a : LogAssembler) (i : Indices) : LogAssembler :=
  mkLogAssembler (output a) i (flags a) (static_log_info_ a)
    (dynamic_log_info_ a) (timestamp_str_ a) (filename_and_linenum_ a)
    (producer_id_ a).

Definition with_flags (a : LogAssembler) (f : Flags) : LogAssembler :=
  mkLogAssembler (output a) (indices a) f (static_log_info_ a)
    (dynamic_log_info_ a) (timestamp_str_ a) (filename_and_linenum_ a)
    (producer_id_ a).

Definition end_of_log_ : list ascii := ["013"%char; "010"%char].

(** [std::to_string] of an unsigned value. *)
Definition to_string (n : Z) : list ascii :=
  list_ascii_of_string (NilEmpty.string_of_uint (N.to_uint (Z.to_N n))).

(** Writing [bytes] into the array [arr] from [pos] on; what would fall
    past the end of the array is dropped. *)
Definition store (arr : list ascii) (pos : nat) (bytes : list ascii) : list ascii :=
  firstn (List.length arr)
    (firstn pos arr ++ bytes ++ skipn (pos + List.length bytes) arr).

(** The state the constructor leaves (members it does not initialise are
    given as zero and false). *)
Definition LogAssembler_new : LogAssembler :=
  {| output := mkOutput [] [] 0 0 0 false;
     indices := mkIndices 0 0 0 0;
     flags := mkFlags false false false false false;
     static_log_info_ := None;
     dynamic_log_info_ := None;
     timestamp_str_ := repeat NUL 25;
     filename_and_linenum_ := [];
     producer_id_ := list_ascii_of_string "[0]: " |}.

(** [setBuffer]. *)
Definition setBuffer (a : LogAssembler) (buffer_size : Z) : LogAssembler :=
  with_output a
    (mkOutput [] [] buffer_size 0 (bytes_last_writed_ (output a))
       (is_full_ (output a))).

Definition resetIndices (a : LogAssembler) : LogAssembler :=
  with_indices a (mkIndices 0 0 0 (args_read_pos_ (indices a))).

Definition resetFlags (a : LogAssembler) : LogAssembler :=
  with_flags a (mkFlags false false false false false).

Definition hasRemainingData (a : LogAssembler) : bool :=
  match static_log_info_ a, dynamic_log_info_ a with
  | Some _, Some _ => negb (is_end_of_log_writed_ (flags a))
  | _, _ => false
  end.

Definition getWritedBytes (a : LogAssembler) : Z := writed_count_ (output a).

Definition getFreeBytes (a : LogAssembler) : Z :=
  size_t_of (buffer_size_ (output a) - writed_count_ (output a)).

Definition isBufferFull (a : LogAssembler) : bool := is_full_ (output a).

Definition set_is_full (a : LogAssembler) (f : bool) : LogAssembler :=
  let o := output a in
  with_output a
    (mkOutput (written o) (scratch o) (buffer_size_ o) (writed_count_ o)
       (bytes_last_writed_ o) f).

Definition set_scratch (a : LogAssembler) (bytes : list ascii) : LogAssembler :=
  let o := output a in
  with_output a
    (mkOutput (written o) bytes (buffer_size_ o) (writed_count_ o)
       (bytes_last_writed_ o) (is_full_ o)).

Definition set_bytes_last_writed (a : LogAssembler) (n : Z) : LogAssembler :=
  let o := output a in
  with_output a
    (mkOutput (written o) (scratch o) (buffer_size_ o) (writed_count_ o) n
       (is_full_ o)).

(** [finishWriting]: the first [bytes_writed] bytes at [write_pos_] now lie
    before it. *)
Definition finishWriting (a : LogAssembler) (bytes_writed : Z) : LogAssembler :=
  let o := output a in
  with_output a
    (mkOutput (written o ++ firstn (Z.to_nat bytes_writed) (scratch o))
       (skipn (Z.to_nat bytes_writed) (scratch o))
       (buffer_size_ o)
       (size_t_of (writed_count_ o + bytes_writed))
       (size_t_of (bytes_last_writed_ o + bytes_writed))
       (is_full_ o)).

(** [tryToWriteAStringToBuffer]. *)
Definition tryToWriteAStringToBuffer (a : LogAssembler) (src : list ascii) (len : Z)
  : LogAssembler * Z :=
  if is_full_ (output a) then (a, 0)
  else if len >=? getFreeBytes a then (set_is_full a true, 0)
  else (set_scratch a (firstn (Z.to_nat len) src), len).

Section Assembler.

(** The C library: the characters [printf] produces for a format and its
    arguments ([None] when it reports an error), and the characters
    [strftime] produces for the pattern of [loadDynamicInfo] from
    [localtime] of a number of seconds. *)
Variable printf_render : list ascii -> list PrintfArg -> option (list ascii).
Variable strftime_localtime : Z -> list ascii.

(** [snprintf(write_pos_, n, fmt, args...)]: its [int] result and the bytes
    it leaves at [write_pos_]. *)
Definition snprintf (old : list ascii) (n : Z) (fmt : list ascii)
    (args : list PrintfArg) : Z * list ascii :=
  match printf_render fmt args with
  | Some s =>
      let len := Z.of_nat (List.length s) in
      (if len <=? 2 ^ 31 - 1 then len else -1,
       if n =? 0 then old
       else if len <? n then s ++ [NUL]
       else firstn (Z.to_nat (n - 1)) s ++ [NUL])
  | None => (-1, old)
  end.

(** The arguments the four calls of [snprintf] in [tryToWriteArgToBuffer]
    pass after the format. *)
Definition snprintf_args (width precision : Z) (arg : PrintfArg) : list PrintfArg :=
  if (width =? -1) && (precision =? -1) then [arg]
  else if negb (width =? -1) && (precision =? -1) then [PInteger width; arg]
  else if (width =? -1) && negb (precision =? -1) then [PInteger precision; arg]
  else [PInteger width; PInteger precision; arg].

(** [tryToWriteArgToBuffer]. *)
Definition tryToWriteArgToBuffer (a : LogAssembler) (fmt : list ascii)
    (width precision : Z) (arg : PrintfArg) : LogAssembler * Z :=
  let '(ret, bytes) :=
    snprintf (scratch (output a)) (getFreeBytes a) fmt
      (snprintf_args width precision arg) in
  let bytes_writed := size_t_of (0 + ret) in
  let a1 := set_scratch a bytes in
  if bytes_writed >=? getFreeBytes a1 then (set_is_full a1 true, 0)
  else (a1, bytes_writed).

(** [loadStaticInfo]. *)
Definition loadStaticInfo (a : LogAssembler) (static_info : option StaticLogInfo)
  : LogAssembler :=
  let filename_and_linenum :=
    match static_info with
    | Some info =>
        until_NUL (filename_ info) ++ [":"%char] ++ to_string (line_number_ info) ++
        [" "%char]
    | None => filename_and_linenum_ a
    end in
  resetFlags (resetIndices
    (mkLogAssembler (output a) (indices a) (flags a) static_info
       (dynamic_log_info_ a) (timestamp_str_ a) filename_and_linenum
       (producer_id_ a))).

(** [strftime] into [arr]: the array afterwards and the returned count. *)
Definition strftime (arr : list ascii) (rendered : list ascii) : list ascii * nat :=
  if (List.length rendered + 1 <=? List.length arr)%nat
  then (store arr 0 (rendered ++ [NUL]), List.length rendered)
  else (arr, 0%nat).

Definition digit_char (d : Z) : ascii :=
  ascii_of_N (Z.to_N ((Z.of_nat (nat_of_ascii "0"%char) + d) mod 256)).

(** The block of [loadDynamicInfo] that fills [timestamp_str_]. *)
Definition render_timestamp (timestamp_str : list ascii) (ms_timestamp : Z)
  : list ascii :=
  let timestamp_seconds := Z.quot ms_timestamp 1000 in
  let timestamp_milisecond := Z.rem ms_timestamp 1000 in
  let filled := strftime timestamp_str (strftime_localtime timestamp_seconds) in
  let index := snd filled in
  let arr := store (fst filled) index [digit_char (Z.quot timestamp_milisecond 100)] in
  let arr :=
    store arr (index + 1) [digit_char (Z.quot (Z.rem timestamp_milisecond 100) 10)] in
  let arr := store arr (index + 2) [digit_char (Z.rem timestamp_milisecond 10)] in
  store arr (index + 3) [" "%char].

(** [loadDynamicInfo]. *)
Definition loadDynamicInfo (a : LogAssembler) (dynamic_info : option DynamicLogInfo)
  : LogAssembler :=
  let timestamp_str :=
    match dynamic_info with
    | Some info => render_timestamp (timestamp_str_ a) (ms_timestamp_ info)
    | None => timestamp_str_ a
    end in
  let args_read_pos :=
    match dynamic_info with
    | Some info => 0%nat
    | None => args_read_pos_ (indices a)
    end in
  resetFlags (resetIndices
    (mkLogAssembler (output a)
       (mkIndices (conversion_index_ (indices a)) (parameter_index_ (indices a))
          (format_index_ (indices a)) args_read_pos)
       (flags a) (static_log_info_ a) dynamic_info timestamp_str
       (filename_and_linenum_ a) (producer_id_ a))).

(** [setProducerId]. *)
Definition setProducerId (a : LogAssembler) (id : Z) : LogAssembler :=
  mkLogAssembler (output a) (indices a) (flags a) (static_log_info_ a)
    (dynamic_log_info_ a) (timestamp_str_ a) (filename_and_linenum_ a)
    (["["%char] ++ to_string id ++ list_ascii_of_string "]: ").

(** [loadLogInfo]. *)
Definition loadLogInfo (a : LogAssembler) (static_info : StaticLogInfo)
    (dynamic_info : DynamicLogInfo) (producer_id : Z) : LogAssembler :=
  resetFlags (resetIndices
    (setProducerId
       (loadDynamicInfo (loadStaticInfo a (Some static_info)) (Some dynamic_info))
       producer_id)).

(** Conversions to an integer type of [bits] bits. *)
Definition unsigned_of (bits : Z) (v : Z) : Z := v mod 2 ^ bits.

Definition signed_of (bits : Z) (v : Z) : Z :=
  let m := v mod 2 ^ bits in
  if m <? 2 ^ (bits - 1) then m else m - 2 ^ bits.

(** The [nbytes] bytes at offset [pos] of the record's arguments. *)
Definition read_bytes (data : list ascii) (pos nbytes : nat) : option (list ascii) :=
  let bytes := firstn nbytes (skipn pos data) in
  if (List.length bytes =? nbytes)%nat then Some bytes else None.

(** [LoadArgument<_Tp>] for a signed integer type of [Tp_bits] bits (the
    source reads the eight-byte case through [ino64_t], an unsigned type). *)
Definition LoadArgument_signed (Tp_bits : Z) (data : list ascii) (read_pos nbytes : nat)
  : abort + Z :=
  if (nbytes =? 1)%nat || (nbytes =? 2)%nat || (nbytes =? 4)%nat then
    match read_bytes data read_pos nbytes with
    | Some bytes =>
        inr (signed_of Tp_bits (signed_of (8 * Z.of_nat nbytes) (le_value bytes)))
    | None => inl OutOfBounds
    end
  else if (nbytes =? 8)%nat then
    match read_bytes data read_pos nbytes with
    | Some bytes => inr (signed_of Tp_bits (unsigned_of 64 (le_value bytes)))
    | None => inl OutOfBounds
    end
  else inl (Terminated NbytesNotSupported).

(** [LoadArgument<_Tp>] for an unsigned integer type of [Tp_bits] bits. *)
Definition LoadArgument_unsigned (Tp_bits : Z) (data : list ascii)
    (read_pos nbytes : nat) : abort + Z :=
  if (nbytes =? 1)%nat || (nbytes =? 2)%nat || (nbytes =? 4)%nat || (nbytes =? 8)%nat
  then
    match read_bytes data read_pos nbytes with
    | Some bytes =>
        inr (unsigned_of Tp_bits (unsigned_of (8 * Z.of_nat nbytes) (le_value bytes)))
    | None => inl OutOfBounds
    end
  else inl (Terminated NbytesNotSupported).

(** [LoadArgument<_Tp>] for a floating-point type: [sizeof(float)],
    [sizeof(double)] or [sizeof(long double)] bytes. *)
Definition LoadArgument_floating (data : list ascii) (read_pos nbytes : nat)
  : abort + list ascii :=
  if (nbytes =? 4)%nat || (nbytes =? 8)%nat || (nbytes =? 16)%nat then
    match read_bytes data read_pos nbytes with
    | Some bytes => inr bytes
    | None => inl OutOfBounds
    end
  else inl (Terminated NbytesNotSupported).

(** The integer type [write] loads for a conversion type: signedness and
    width. *)
Definition integer_type (t : ConversionType) : option (bool * Z) :=
  match t with
  | unsigned_char_t => Some (false, 8)
  | unsigned_short_int_t => Some (false, 16)
  | unsigned_int_t => Some (false, 32)
  | unsigned_long_int_t => Some (false, 64)
  | unsigned_long_long_int_t => Some (false, 64)
  | uintmax_t_t => Some (false, 64)
  | size_t_t => Some (false, 64)
  | wint_t_t => Some (false, 32)
  | signed_char_t => Some (true, 8)
  | short_int_t => Some (true, 16)
  | int_t => Some (true, 32)
  | long_int_t => Some (true, 64)
  | long_long_int_t => Some (true, 64)
  | intmax_t_t => Some (true, 64)
  | ptrdiff_t_t => Some (true, 64)
  | _ => None
  end.

(** How a part of [write] ends: it falls through to the next statement, it
    executes [return bytes_last_writed_], or the call does not come back. *)
Inductive flow :=
| Continue (a : LogAssembler)
| Returned (a : LogAssembler)
| Aborted (why : abort).

Definition and_then (f : flow) (k : LogAssembler -> flow) : flow :=
  match f with
  | Continue a => k a
  | Returned a => Returned a
  | Aborted why => Aborted why
  end.

(** [tmp = tryToWriteAStringToBuffer(src, len); if (tmp == 0) return ...;
    finishWriting(tmp);] and what follows. *)
Definition write_or_return (a : LogAssembler) (src : list ascii) (len : Z)
    (k : LogAssembler -> Z -> flow) : flow :=
  let '(a1, tmp) := tryToWriteAStringToBuffer a src len in
  if tmp =? 0 then Returned a1 else k (finishWriting a1 tmp) tmp.

Definition mark_timestamp (a : LogAssembler) : LogAssembler :=
  let f := flags a in
  with_flags a
    (mkFlags true (is_filename_and_linenum_writed_ f) (is_severity_writed_ f)
       (is_producer_id_writed_ f) (is_end_of_log_writed_ f)).

Definition mark_filename_and_linenum (a : LogAssembler) : LogAssembler :=
  let f := flags a in
  with_flags a
    (mkFlags (is_timestamp_writed_ f) true (is_severity_writed_ f)
       (is_producer_id_writed_ f) (is_end_of_log_writed_ f)).

Definition mark_severity (a : LogAssembler) : LogAssembler :=
  let f := flags a in
  with_flags a
    (mkFlags (is_timestamp_writed_ f) (is_filename_and_linenum_writed_ f) true
       (is_producer_id_writed_ f) (is_end_of_log_writed_ f)).

Definition mark_producer_id (a : LogAssembler) : LogAssembler :=
  let f := flags a in
  with_flags a
    (mkFlags (is_timestamp_writed_ f) (is_filename_and_linenum_writed_ f)
       (is_severity_writed_ f) true (is_end_of_log_writed_ f)).

Definition mark_end_of_log (a : LogAssembler) : LogAssembler :=
  let f := flags a in
  with_flags a
    (mkFlags (is_timestamp_writed_ f) (is_filename_and_linenum_writed_ f)
       (is_severity_writed_ f) (is_producer_id_writed_ f) true).

Definition write_timestamp (a : LogAssembler) : flow :=
  if negb (is_timestamp_writed_ (flags a)) then
    write_or_return a (timestamp_str_ a)
      (size_t_of (Z.of_nat (List.length (timestamp_str_ a)) - 1))
      (fun a _ => Continue (mark_timestamp a))
  else Continue a.

Definition write_filename_and_linenum (a : LogAssembler) : flow :=
  if negb (is_filename_and_linenum_writed_ (flags a)) then
    write_or_return a (filename_and_linenum_ a)
      (Z.of_nat (List.length (filename_and_linenum_ a)))
      (fun a _ => Continue (mark_filename_and_linenum a))
  else Continue a.

Definition severity_str : list (list ascii) :=
  map list_ascii_of_string ["[<none>]"; "[ERROR]"; "[WARNING]"; "[INFO]"; "[DEBUG]"]%string.

Definition write_severity (a : LogAssembler) : flow :=
  if negb (is_severity_writed_ (flags a)) then
    match static_log_info_ a with
    | None => Aborted NullPointer
    | Some info =>
        match nth_error severity_str (Z.to_nat (log_level_ info)) with
        | None => Aborted OutOfBounds
        | Some str =>
            write_or_return a str (Z.of_nat (List.length str))
              (fun a _ => Continue (mark_severity a))
        end
    end
  else Continue a.

Definition write_producer_id (a : LogAssembler) : flow :=
  if negb (is_producer_id_writed_ (flags a)) then
    write_or_return a (producer_id_ a) (Z.of_nat (List.length (producer_id_ a)))
      (fun a _ => Continue (mark_producer_id a))
  else Continue a.

Definition write_end_of_log (a : LogAssembler) : flow :=
  if negb (is_end_of_log_writed_ (flags a)) then
    write_or_return a end_of_log_ (Z.of_nat (List.length end_of_log_))
      (fun a _ => Continue (mark_end_of_log a))
  else Continue a.

Definition add_format_index (a : LogAssembler) (n : nat) : LogAssembler :=
  let i := indices a in
  with_indices a
    (mkIndices (conversion_index_ i) (parameter_index_ i) (format_index_ i + n)
       (args_read_pos_ i)).

Definition add_args_read_pos (a : LogAssembler) (n : nat) : LogAssembler :=
  let i := indices a in
  with_indices a
    (mkIndices (conversion_index_ i) (parameter_index_ i) (format_index_ i)
       (args_read_pos_ i + n)).

Definition next_parameter (a : LogAssembler) : LogAssembler :=
  let i := indices a in
  with_indices a
    (mkIndices (conversion_index_ i) (S (parameter_index_ i)) (format_index_ i)
       (args_read_pos_ i)).

Definition next_conversion (a : LogAssembler) : LogAssembler :=
  let i := indices a in
  with_indices a
    (mkIndices (S (conversion_index_ i)) (parameter_index_ i) (format_index_ i)
       (args_read_pos_ i)).

(** The restoring assignments before the [return] of a failed expansion. *)
Definition restore (a : LogAssembler) (original : Indices) : LogAssembler :=
  with_indices a
    (mkIndices (conversion_index_ original) (parameter_index_ original)
       (format_index_ (indices a)) (args_read_pos_ original)).

(** The two blocks of [write] that fetch a dynamic width or precision:
    when the current parameter has type [kind], its value and the state past
    it; otherwise -1 and the same state. *)
Definition load_dynamic (info : StaticLogInfo) (data : list ascii)
    (kind : ParamType) (a : LogAssembler) : abort + LogAssembler * Z :=
  match nth_error (param_types_ info) (parameter_index_ (indices a)) with
  | None => inl OutOfBounds
  | Some t =>
      if t =? kind then
        match nth_error (param_sizes_ info) (parameter_index_ (indices a)) with
        | None => inl OutOfBounds
        | Some size =>
            match LoadArgument_signed 32 data (args_read_pos_ (indices a)) size with
            | inl why => inl why
            | inr value => inr (next_parameter (add_args_read_pos a size), value)
            end
        end
      else inr (a, -1)
  end.

(** The [switch] of [write]: the state, [tmp] and [arg_size] after it. *)
Definition write_argument (data : list ascii) (a : LogAssembler)
    (conversion_type : ConversionType) (conversion_fmt : list ascii)
    (width precision : Z) (arg_size : nat) : abort + LogAssembler * Z * Z :=
  let read_pos := args_read_pos_ (indices a) in
  match conversion_type with
  | NONE => inr (a, 0, Z.of_nat arg_size)
  | double_t | long_double_t =>
      match LoadArgument_floating data read_pos arg_size with
      | inl why => inl why
      | inr image =>
          let '(a1, tmp) :=
            tryToWriteArgToBuffer a conversion_fmt width precision (PFloating image) in
          inr (a1, tmp, Z.of_nat arg_size)
      end
  | const_void_ptr_t =>
      let '(a1, tmp) :=
        tryToWriteArgToBuffer a conversion_fmt width precision (PPointer read_pos) in
      inr (a1, tmp, Z.of_nat arg_size)
  | const_char_ptr_t =>
      match LoadArgument_unsigned 64 data read_pos sizeof_size_t with
      | inl why => inl why
      | inr arg_size =>
          let a1 := add_args_read_pos a sizeof_size_t in
          let '(a2, tmp) :=
            tryToWriteArgToBuffer a1 conversion_fmt width precision
              (PString (c_str_at data (args_read_pos_ (indices a1)))) in
          inr (add_args_read_pos a2 (Z.to_nat (arg_size + 1)), tmp, arg_size)
      end
  | const_wchar_t_ptr_t =>
      match LoadArgument_unsigned 64 data read_pos sizeof_size_t with
      | inl why => inl why
      | inr arg_size =>
          let a1 := add_args_read_pos a sizeof_size_t in
          let '(a2, tmp) :=
            tryToWriteArgToBuffer a1 conversion_fmt width precision
              (PWideString (skipn (args_read_pos_ (indices a1)) data)) in
          inr (add_args_read_pos a2 (Z.to_nat (arg_size + 1)), tmp, arg_size)
      end
  | _ =>
      match integer_type conversion_type with
      | None => inr (a, 0, Z.of_nat arg_size)
      | Some (is_signed, bits) =>
          match (if is_signed then LoadArgument_signed else LoadArgument_unsigned)
                  bits data read_pos arg_size with
          | inl why => inl why
          | inr value =>
              let '(a1, tmp) :=
                tryToWriteArgToBuffer a conversion_fmt width precision
                  (PInteger value) in
              inr (a1, tmp, Z.of_nat arg_size)
          end
      end
  end.

(** The branch of the body loop that expands a conversion specifier. *)
Definition write_conversion (info : StaticLogInfo) (data : list ascii)
    (fragment : FormatFragment) (a : LogAssembler) : flow :=
  let original := indices a in
  match load_dynamic info data DYNAMIC_WIDTH a with
  | inl why => Aborted why
  | inr (a1, width) =>
    match load_dynamic info data DYNAMIC_PRECISION a1 with
    | inl why => Aborted why
    | inr (a2, precision) =>
      let conversion_fmt := c_str_at (conversion_storage_ info) (storage_pos_ fragment) in
      match nth_error (param_sizes_ info) (parameter_index_ (indices a2)) with
      | None => Aborted OutOfBounds
      | Some arg_size =>
        match write_argument data a2 (conversion_type_ fragment) conversion_fmt
                width precision arg_size with
        | inl why => Aborted why
        | inr (a3, tmp, arg_size) =>
            if (tmp =? 0) && (arg_size >? 0) then Returned (restore a3 original)
            else
              let a4 := finishWriting a3 tmp in
              match nth_error (param_sizes_ info) (parameter_index_ (indices a4)) with
              | None => Aborted OutOfBounds
              | Some size =>
                  Continue
                    (add_format_index
                       (next_parameter (next_conversion (add_args_read_pos a4 size)))
                       (specifier_length_ fragment))
              end
        end
      end
    end
  end.

(** One pass through the body of the loop of [write] that writes the body
    of the log; [again] is the rest of the loop. *)
Definition write_body_iteration (again : LogAssembler -> flow) (a : LogAssembler)
  : flow :=
  match static_log_info_ a, dynamic_log_info_ a with
  | Some info, Some dynamic_info =>
    if (format_index_ (indices a) <? format_len_ info)%nat then
      if (conversion_index_ (indices a) <? num_conversions_ info)%nat then
        match nth_error (format_fragments_ info) (conversion_index_ (indices a)) with
        | None => Aborted OutOfBounds
        | Some fragment =>
          if (format_index_ (indices a) <? format_pos_ fragment)%nat then
            let len := (format_pos_ fragment - format_index_ (indices a))%nat in
            write_or_return a
              (skipn (format_index_ (indices a)) (format_str_ info)) (Z.of_nat len)
              (fun a tmp => again (add_format_index a (Z.to_nat tmp)))
          else
            and_then (write_conversion info (arg_data dynamic_info) fragment a) again
        end
      else
        let len := (format_len_ info - format_index_ (indices a))%nat in
        write_or_return a
          (skipn (format_index_ (indices a)) (format_str_ info)) (Z.of_nat len)
          (fun a tmp => again (add_format_index a (Z.to_nat tmp)))
    else Continue a
  | _, _ => Aborted NullPointer
  end.

(** The loop itself, followed for [fuel] passes and one more test of its
    condition. *)
Fixpoint write_body (fuel : nat) (a : LogAssembler) : flow :=
  write_body_iteration
    (match fuel with
     | O => fun _ => Aborted FuelExhausted
     | S fuel' => write_body fuel'
     end) a.

(** [write]: the state it leaves and the value it returns. *)
Definition write (fuel : nat) (a : LogAssembler) : abort + LogAssembler * Z :=
  if is_full_ (output a) then inr (a, 0)
  else
    let a := set_bytes_last_writed a 0 in
    match
      and_then (write_timestamp a) (fun a =>
      and_then (write_filename_and_linenum a) (fun a =>
      and_then (write_severity a) (fun a =>
      and_then (write_producer_id a) (fun a =>
      and_then (write_body fuel a) write_end_of_log))))
    with
    | Continue a' => inr (a', bytes_last_writed_ (output a'))
    | Returned a' => inr (a', bytes_last_writed_ (output a'))
    | Aborted why => inl why
    end.

End Assembler.

End log_info.

(** ** Stand-ins for the C library, for running the examples *)

Module libc.

Import log_info.

(** [%d] of an [int]. *)
Definition render_decimal (v : Z) : list ascii :=
  list_ascii_of_string (NilEmpty.string_of_int (Z.to_int v)).

(** [printf] on the directives the examples use: [%d], [%s], [%5s] and
    [%.*s] (a negative precision counts as none); an error on anything
    else. *)
Definition printf_reference (fmt : list ascii) (args : list PrintfArg)
  : option (list ascii) :=
  let f := string_of_list_ascii fmt in
  match args with
  | [PInteger v] => if String.eqb f "%d" then Some (render_decimal v) else None
  | [PString s] =>
      if String.eqb f "%s" then Some s
      else if String.eqb f "%5s"
      then Some (repeat " "%char (5 - List.length s) ++ s)
      else None
  | [PInteger p; PString s] =>
      if String.eqb f "%.*s"
      then Some (if p <? 0 then s else firstn (Z.to_nat p) s)
      else None
  | _ => None
  end.

(** [strftime] of [localtime] in a process whose time zone is UTC, at the
    second 1700000000 of the examples. *)
Definition strftime_utc_1700000000 (seconds : Z) : list ascii :=
  list_ascii_of_string "2023-11-14 22:13:20.".

End libc.

(** ** The pieces of a format string

    The reading of a format string that the specification describes and all
    the walks of src/log_info.h follow: characters copied as they are, the
    escape [%%], and conversion specifiers, each a [%], flags, a width, a
    precision, length modifiers and a conversion character.  This is the
    reference the walks are compared with. *)

Module grammar.

Import log_info.

Local Open Scope char_scope.

(** The longest prefix of [fmt] made of characters that satisfy [p], and
    what follows it. *)
Fixpoint span (p : ascii -> bool) (fmt : list ascii) : list ascii * list ascii :=
  match fmt with
  | c :: fmt' =>
      if p c then (c :: fst (span p fmt'), snd (span p fmt')) else ([], fmt)
  | [] => ([], [])
  end.

Record Specifier := mkSpecifier {
  flags : list ascii;
  width : list ascii;
  precision : list ascii;
  length_modifiers : list ascii;
  conversion : ascii
}.

(** The characters of a specifier, as they stand in the format. *)
Definition specifier_text (s : Specifier) : list ascii :=
  "%" :: flags s ++ width s ++ precision s ++ length_modifiers s ++ [conversion s].

Definition scan_width (fmt : list ascii) : list ascii * list ascii :=
  if cur fmt =? "*" then (["*"], tl fmt) else span IsDigit fmt.

Definition scan_precision (fmt : list ascii) : list ascii * list ascii :=
  if cur fmt =? "." then
    if cur (tl fmt) =? "*" then (["."; "*"], tl (tl fmt))
    else ("." :: fst (span IsDigit (tl fmt)), snd (span IsDigit (tl fmt)))
  else ([], fmt).

(** The specifier whose [%] has just been passed, and what follows it. *)
Definition scan (fmt : list ascii) : Specifier * list ascii :=
  let after_flags := snd (span IsFlag fmt) in
  let after_width := snd (scan_width after_flags) in
  let after_precision := snd (scan_precision after_width) in
  let after_length := snd (span IsLength after_precision) in
  (mkSpecifier (fst (span IsFlag fmt)) (fst (scan_width after_flags))
     (fst (scan_precision after_width)) (fst (span IsLength after_precision))
     (cur after_length),
   tl after_length).

Inductive Piece :=
| Literal (c : ascii)
| Escape
| Conversion (s : Specifier).

Definition piece_text (p : Piece) : list ascii :=
  match p with
  | Literal c => [c]
  | Escape => ["%"; "%"]
  | Conversion s => specifier_text s
  end.

(** The format a list of pieces is the reading of. *)
Definition unparse (ps : list Piece) : list ascii := List.concat (map piece_text ps).

(** The conversion specifiers among the pieces, in order. *)
Fixpoint specifiers (ps : list Piece) : list Specifier :=
  match ps with
  | [] => []
  | Conversion s :: ps' => s :: specifiers ps'
  | _ :: ps' => specifiers ps'
  end.

(** The number of escapes among the pieces. *)
Fixpoint escapes (ps : list Piece) : nat :=
  match ps with
  | [] => 0
  | Escape :: ps' => S (escapes ps')
  | _ :: ps' => escapes ps'
  end.

(** Reading [fmt] from left to right. *)
Fixpoint pieces_loop (fuel : nat) (fmt : list ascii) : result (list Piece) :=
  match fmt with
  | [] => Return []
  | c :: fmt1 =>
    match fuel with
    | O => OutOfFuel
    | S fuel' =>
      if negb (c =? "%")
      then bind (pieces_loop fuel' fmt1) (fun ps => Return (Literal c :: ps))
      else if cur fmt1 =? "%"
      then bind (pieces_loop fuel' (tl fmt1)) (fun ps => Return (Escape :: ps))
      else
        if negb (IsConversionSpecifier (conversion (fst (scan fmt1))))
        then Throw UnrecognizedConversionSpecifier
        else if conversion (fst (scan fmt1)) =? "n" then Throw PercentNNotSupported
        else bind (pieces_loop fuel' (snd (scan fmt1)))
               (fun ps => Return (Conversion (fst (scan fmt1)) :: ps))
    end
  end.

Definition pieces (fmt : list ascii) : result (list Piece) :=
  pieces_loop (List.length fmt) fmt.

(** The value of a run of decimal digits. *)
Definition decimal_value (digits : list ascii) : Z :=
  fold_left (fun v c => (v * 10 + (Z.of_nat (nat_of_ascii c) - Z.of_nat (nat_of_ascii "0")))%Z)
    digits 0%Z.

(** The parameters a specifier takes, as the specification lists them: one
    for a [*] width, one for a [*] precision, and one for the conversion,
    which is a string variant for [s] and NON_STRING otherwise. *)
Definition specifier_params (s : Specifier) : list ParamType :=
  (if cur (width s) =? "*" then [DYNAMIC_WIDTH] else []) ++
  (if cur (tl (precision s)) =? "*" then [DYNAMIC_PRECISION] else []) ++
  [if negb (conversion s =? "s") then NON_STRING
   else if cur (tl (precision s)) =? "*" then STRING_WITH_DYNAMIC_PRECISION
   else match precision s with
        | [] => STRING_WITH_NO_PRECISION
        | _ :: digits => decimal_value digits
        end].

Definition params (ps : list Piece) : list ParamType :=
  List.concat (map specifier_params (specifiers ps)).

(** The precision of a specifier can be held in an [int]: there is none, or
    it is a [*], or the value of its digits is at most [INT_MAX]. *)
Definition precision_fits (s : Specifier) : bool :=
  if cur (tl (precision s)) =? "*" then true
  else match precision s with
       | [] => true
       | _ :: digits => (decimal_value digits <=? INT_MAX)%Z
       end.

Definition precisions_fit (ps : list Piece) : bool :=
  forallb precision_fits (specifiers ps).

(** The content of the conversion storage for a list of specifiers: their
    texts, each followed by NUL. *)
Definition storage_of (ss : list Specifier) : list ascii :=
  List.concat (map (fun s => specifier_text s ++ [NUL]) ss).

(** The NUL-separated tokens of [storage] (a last token needs no NUL). *)
Fixpoint tokens_loop (storage token : list ascii) : list (list ascii) :=
  match storage with
  | [] => match token with [] => [] | _ => [rev token] end
  | c :: storage' =>
      if c =? NUL then rev token :: tokens_loop storage' []
      else tokens_loop storage' (c :: token)
  end.

Definition tokens (storage : list ascii) : list (list ascii) :=
  tokens_loop storage [].

End grammar.

(** ** src/olog_config.h *)

Module config.

Definition STORAGE_BUFFER_SIZE : Z := 1024 * 1024.
Definition DOUBLE_BUFFER_SIZE : Z := 1024 * 1024 * 8.

End config.

(** ** The calls of the examples *)

Module examples.

Import log_info.

Definition LF : ascii := "010"%char.
Definition CRLF : list ascii := ["013"%char; "010"%char].
Definition text (s : string) : list ascii := list_ascii_of_string s.



(** [OLOG(LogLevel::INFO, "Hello %d World\n", 42)] at a.cc:10, at the
    millisecond 1700000000000. *)
Definition hello_world : result (StaticLogInfo * DynamicLogInfo) :=
  OLOG 0 (text "a.cc") 10 logger.INFO ("Hello %d World" ++ String LF "")
    1700000000000 [ArgInteger 4 42].

(** [OLOG(LogLevel::INFO, "val=%.*s|", 3, "abcdef")], the string at some
    address. *)
Definition val_abcdef (address : Z) : result (StaticLogInfo * DynamicLogInfo) :=
  OLOG 0 (text "a.cc") 10 logger.INFO "val=%.*s|" 1700000000000
    [ArgInteger 4 3; ArgCharPtr address (text "abcdef")].

(** [OLOG(LogLevel::INFO, "%5s", "")]. *)
Definition padded_empty (address : Z) : result (StaticLogInfo * DynamicLogInfo) :=
  OLOG 0 (text "a.cc") 10 logger.INFO "%5s" 1700000000000
    [ArgCharPtr address []].

(** A call with no argument whose format is [fmt]. *)
Definition plain_call (fmt : string) : result (StaticLogInfo * DynamicLogInfo) :=
  OLOG 0 (text "a.cc") 10 logger.INFO fmt 1700000000000 [].

(** The assembler of the consumer thread, with a buffer of [size] bytes and
    the record of [call] from producer 0 loaded. *)
Definition loaded (strftime_localtime : Z -> list ascii) (size : Z)
    (call : result (StaticLogInfo * DynamicLogInfo)) : option LogAssembler :=
  match call with
  | Return (static_info, dynamic_info) =>
      Some (loadLogInfo strftime_localtime (setBuffer LogAssembler_new size)
              static_info dynamic_info 0)
  | _ => None
  end.

(** The assembler after one [write] of [fuel] passes, when the record was
    loaded and the call came back. *)
Definition written_once (printf_render : list ascii -> list PrintfArg -> option (list ascii))
    (fuel : nat) (loaded_assembler : option LogAssembler) : option LogAssembler :=
  match loaded_assembler with
  | Some a =>
      match write printf_render fuel a with
      | inr (a', _) => Some a'
      | inl _ => None
      end
  | None => None
  end.

Definition PrintfArg_eqb (x y : PrintfArg) : bool :=
  match x, y with
  | PInteger v, PInteger w => (v =? w)%Z
  | PString s, PString t => String.eqb (string_of_list_ascii s) (string_of_list_ascii t)
  | _, _ => false
  end.

Fixpoint PrintfArgs_eqb (xs ys : list PrintfArg) : bool :=
  match xs, ys with
  | [], [] => true
  | x :: xs', y :: ys' => PrintfArg_eqb x y && PrintfArgs_eqb xs' ys'
  | _, _ => false
  end.

(** A [printf] known to produce [out] for the format [fmt0] and the
    arguments [args0], and like [render] on every other call. *)
Definition printf_known (fmt0 : list ascii) (args0 : list PrintfArg)
    (out : list ascii) (render : list ascii -> list PrintfArg -> option (list ascii))
    (fmt : list ascii) (args : list PrintfArg) : option (list ascii) :=
  if String.eqb (string_of_list_ascii fmt0) (string_of_list_ascii fmt) &&
     PrintfArgs_eqb args0 args
  then Some out
  else render fmt args.

End examples.

(** ** src/olog.h, src/logger.h, src/logger.cc: the registry of static
    information *)

Module registry.

Import log_info.

Local Open Scope Z_scope.

(** [log_info::UNREGISTERED_LOG_ID]. *)
Definition UNREGISTERED_LOG_ID : Z := -1.

(** [static_cast<int>] of a [size_t]. *)
Definition int_of (z : Z) : Z :=
  let m := z mod 2 ^ 32 in
  if m <? 2 ^ 31 then m else m - 2 ^ 32.

(** The template arguments of an instantiation of the function template
    [olog::Log]: [_FormatLength], [_NumParams], [_NumConversions] and the
    types [_Args...] deduced from the arguments of the call, by name.  The
    array [static std::array<size_t, _NumParams> param_sizes] declared in
    [Log] exists once for each instantiation: two call sites with the same
    template arguments use the same array. *)
Record LogInstance := mkLogInstance {
  FormatLength : nat;
  NumParams : nat;
  NumConversions : nat;
  Args : list string
}.

Definition LogInstance_eq_dec (i j : LogInstance) : {i = j} + {i <> j}.
Proof.
  decide equality; try apply Nat.eq_dec. apply (list_eq_dec string_dec).
Defined.

(** The arrays [param_sizes] of the instantiations of [Log].  Objects of
    static storage duration start zeroed. *)
Definition ParamSizes := LogInstance -> list nat.

Definition ParamSizes_initial : ParamSizes :=
  fun instance => repeat 0%nat (NumParams instance).

(** The arrays after [GetParamSizes] has filled the one of [instance]. *)
Definition set_param_sizes (arrays : ParamSizes) (instance : LogInstance)
    (sizes : list nat) : ParamSizes :=
  fun other => if LogInstance_eq_dec instance other then sizes else arrays other.

(** [struct StaticLogInfo] as the vectors of [Logger] hold it.  Its pointers
    to the file name, the format, the conversion storage, the fragments and
    the parameter types point to constants of the call site, and each is kept
    here as what it points to.  [param_sizes_] points to the array
    [param_sizes] of an instantiation of [Log], which is written whenever a
    call site of that instantiation registers: it is kept as the
    instantiation whose array it points to. *)
Record StaticLogInfo := mkStaticLogInfo {
  filename_ : list ascii;
  line_number_ : Z;
  log_level_ : LogLevel;
  format_len_ : nat;
  num_conversions_ : nat;
  num_parameters_ : nat;
  format_str_ : list ascii;
  conversion_storage_ : list ascii;
  format_fragments_ : list FormatFragment;
  param_types_ : list ParamType;
  param_sizes_ : LogInstance
}.

(** What [LogAssembler] reads through a [StaticLogInfo*] when the arrays hold
    [arrays]: [static_log_info_->param_sizes_[i]] is read from the array the
    pointer points to, as it is at that time. *)
Definition read_through (arrays : ParamSizes) (info : StaticLogInfo)
  : log_info.StaticLogInfo :=
  log_info.mkStaticLogInfo (filename_ info) (line_number_ info) (log_level_ info)
    (format_len_ info) (num_conversions_ info) (num_parameters_ info)
    (format_str_ info) (conversion_storage_ info) (format_fragments_ info)
    (param_types_ info) (arrays (param_sizes_ info)).

(** The two vectors of [Logger] that hold the registered static
    information and the copy the consumer thread reads. *)
Record Registry := mkRegistry {
  registered_info_ : list StaticLogInfo;
  shadow_registered_info_ : list StaticLogInfo
}.

(** The vectors of a new [Logger]. *)
Definition Registry_new : Registry := mkRegistry [] [].

(** [registerLogInfoInternal]: the vectors afterwards and the value left in
    [log_id]. *)
Definition registerLogInfoInternal (r : Registry) (log_id : Z)
    (static_log_info : StaticLogInfo) : Registry * Z :=
  if negb (log_id =? UNREGISTERED_LOG_ID) then (r, log_id)
  else
    let log_id := int_of (Z.of_nat (List.length (registered_info_ r))) in
    (mkRegistry (registered_info_ r ++ [static_log_info]) (shadow_registered_info_ r),
     log_id).

Definition RegisterLogInfo (r : Registry) (static_log_info : StaticLogInfo)
    (log_id : Z) : Registry * Z :=
  registerLogInfoInternal r log_id static_log_info.

(** The instantiation of [Log] that a call with the format [fmt], the
    constants [site] and arguments of the types [arg_types] uses. *)
Definition instance_of (fmt : list ascii) (site : Callsite) (arg_types : list string)
  : LogInstance :=
  mkLogInstance (List.length fmt) (num_parameters site) (num_conversions site)
    arg_types.

(** [Log], up to the registration of the call site: the [static_assert] on
    the number of arguments, the return of a call whose severity is above
    [current_log_level] (what [Logger::GetLogLevel()] answers), and
    [if (log_id == UNREGISTERED_LOG_ID) { static std::array<size_t,
    _NumParams> param_sizes; GetParamSizes(param_types, param_sizes,
    args...); StaticLogInfo info(..., param_sizes.data());
    RegisterLogInfo(info, log_id); }].  Each argument comes with the name of
    its type.  The arrays, the vectors and the value of [log_id]
    afterwards. *)
Definition Log_registers (arrays : ParamSizes) (r : Registry) (log_id : Z)
    (current_log_level : LogLevel) (filename : list ascii) (line_num : Z)
    (severity : LogLevel) (fmt : list ascii) (site : Callsite)
    (args : list (string * Arg)) : result (ParamSizes * Registry * Z) :=
  if negb (num_parameters site =? List.length args)%nat
  then Throw NumberOfArgumentsDiffers
  else if severity >? current_log_level then Return (arrays, r, log_id)
  else if log_id =? UNREGISTERED_LOG_ID then
    let param_sizes := instance_of fmt site (map fst args) in
    let arrays1 :=
      set_param_sizes arrays param_sizes
        (GetParamSizes (param_types site) (map snd args)) in
    let info :=
      mkStaticLogInfo filename line_num severity (List.length fmt)
        (num_conversions site) (num_parameters site) fmt
        (conversion_storage site) (format_fragments site) (param_types site)
        param_sizes in
    let '(r1, log_id1) := RegisterLogInfo r info log_id in
    Return (arrays1, r1, log_id1)
  else Return (arrays, r, log_id).

(** The loop of [updateShadowRegisteredInfo], from the index [i]; it stops
    when [registered_info_[i]] would be read outside the vector. *)
Fixpoint updateShadowRegisteredInfo_loop (fuel : nat) (i : nat) (r : Registry)
  : Registry :=
  match fuel with
  | O => r
  | S fuel' =>
      if (i <? List.length (registered_info_ r))%nat then
        match nth_error (registered_info_ r) i with
        | Some info =>
            updateShadowRegisteredInfo_loop fuel' (S i)
              (mkRegistry (registered_info_ r) (shadow_registered_info_ r ++ [info]))
        | None => r
        end
      else r
  end.

(** [updateShadowRegisteredInfo]; the loop runs at most once for each
    registered entry. *)
Definition updateShadowRegisteredInfo (r : Registry) : Registry :=
  updateShadowRegisteredInfo_loop (List.length (registered_info_ r))
    (List.length (shadow_registered_info_ r)) r.

(** What [consumerThreadMain] does to find the static information of a
    record whose header holds [log_id] (a [size_t]): the vectors afterwards
    and the entry [shadow_registered_info_[log_id]], if there is one. *)
Definition static_info_of (r : Registry) (log_id : Z)
  : Registry * option StaticLogInfo :=
  let r1 :=
    if log_id >=? Z.of_nat (List.length (shadow_registered_info_ r))
    then updateShadowRegisteredInfo r
    else r in
  (r1, nth_error (shadow_registered_info_ r1) (Z.to_nat log_id)).

(** Two call sites at a.cc, lines 7 and 9, whose calls
    [OLOG(LogLevel::INFO, "%p %d", s, i)] and
    [OLOG(LogLevel::INFO, "%s %d", s, i)], with [s] a [const char*] and [i]
    an [int], use the same instantiation of [Log]: the arrays, the vectors
    and the id after the first has registered with a new [Logger]. *)
Definition two_sites_args : list (string * Arg) :=
  [("const char*"%string, ArgCharPtr 4096 (list_ascii_of_string "x"));
   ("int"%string, ArgInteger 4 1)].

Definition first_site_registered : result (ParamSizes * Registry * Z) :=
  bind (OLOG_constants (c_array "%p %d")) (fun site =>
    Log_registers ParamSizes_initial Registry_new UNREGISTERED_LOG_ID logger.DEBUG
      (list_ascii_of_string "a.cc") 7 logger.INFO (c_array "%p %d") site
      two_sites_args).

End registry.

(** ** src/logger.cc: how the consumer thread writes one record *)

Module consumer.

Import log_info.

Section Loop.

Variable printf_render : list ascii -> list PrintfArg -> option (list ascii).

(** The loop of [consumerThreadMain] that follows [loadLogInfo]:
    [while (hasRemainingData()) { write(); if (isBufferFull())
    { swapDoubleBuffer(getWritedBytes()); setBuffer(buffer_for_log_.get(),
    DOUBLE_BUFFER_SIZE); } }], followed for [passes] passes, each [write]
    with [fuel] passes for the loop of the body.  [swapDoubleBuffer] hands
    the written bytes to io_uring and exchanges the two buffers of the
    logger; it does not touch the assembler. *)
Fixpoint write_record (passes fuel : nat) (a : LogAssembler) : abort + LogAssembler :=
  if hasRemainingData a then
    match passes with
    | O => inl FuelExhausted
    | S passes' =>
        match write printf_render fuel a with
        | inl why => inl why
        | inr (a1, _) =>
            write_record passes' fuel
              (if isBufferFull a1
               then setBuffer a1 config.DOUBLE_BUFFER_SIZE
               else a1)
        end
    end
  else inr a.

End Loop.

End consumer.

(** * Theorems *)

(** ** The staging buffer *)

Section StagingBufferFacts.

Import buffers.

(** The state of the edge case before the second reservation. *)
Definition edge : StagingBuffer :=
  {| producer_pos_ := 10;
     end_of_data_ := 16;
     consumer_pos_ := 10;
     buffer_id_ := 0;
     should_be_destructed_ := false;
     capacity_ := 16;
     available_bytes_ := 6 |}.

(** The state in which the producer has published the wrap. *)
Definition wrapped (available : Z) : StagingBuffer :=
  {| producer_pos_ := 0;
     end_of_data_ := 10;
     consumer_pos_ := 10;
     buffer_id_ := 0;
     should_be_destructed_ := false;
     capacity_ := 16;
     available_bytes_ := available |}.

(** The state in which the reservation comes back once the consumer has
    followed the wrap. *)
Definition rewound : StagingBuffer :=
  {| producer_pos_ := 0;
     end_of_data_ := 10;
     consumer_pos_ := 0;
     buffer_id_ := 0;
     should_be_destructed_ := false;
     capacity_ := 16;
     available_bytes_ := 16 |}.

Lemma edge_case_state_is_edge : edge_case_state = Some edge.
Proof. reflexivity. Qed.

Lemma first_iteration_publishes_wrap (blocking : bool) :
  reserve_iteration edge 10 blocking =
  (wrapped 10, if blocking then None else Some None).
Proof. destruct blocking; reflexivity. Qed.

Lemma idle_consumer_keeps_spinning (fuel : nat) (sched : list ConsumerOp) :
  Forall (eq ConsumerIdle) sched ->
  reserveProducerSpaceInternal fuel sched (wrapped 0) 10 true =
  (StillSpinning, wrapped 0).
Proof.
  revert sched.
  induction fuel as [|fuel IH]; intros sched Hs; [reflexivity|].
  destruct sched as [|op sched].
  - change (reserveProducerSpaceInternal (S fuel) [] (wrapped 0) 10 true)
      with (reserveProducerSpaceInternal fuel [] (wrapped 0) 10 true).
    apply IH. constructor.
  - inversion Hs as [|? ? Hop Hrest]; subst.
    change (reserveProducerSpaceInternal (S fuel) (ConsumerIdle :: sched)
              (wrapped 0) 10 true)
      with (reserveProducerSpaceInternal fuel sched (wrapped 0) 10 true).
    apply IH. exact Hrest.
Qed.

Lemma blocking_spins_while_consumer_idle (fuel : nat) :
  fst (reserveProducerSpace fuel [] edge 10 true) = StillSpinning.
Proof.
  destruct fuel as [|[|fuel]]; [reflexivity | reflexivity |].
  change (reserveProducerSpace (S (S fuel)) [] edge 10 true)
    with (reserveProducerSpaceInternal fuel [] (wrapped 0) 10 true).
  rewrite idle_consumer_keeps_spinning by constructor. reflexivity.
Qed.

Lemma peek_releases_the_producer (j fuel : nat) (available : Z) :
  available = 0 \/ available = 10 ->
  (j < fuel)%nat ->
  reserveProducerSpaceInternal fuel (repeat ConsumerIdle j ++ [ConsumerPeek])
    (wrapped available) 10 true = (Reserved 0, rewound).
Proof.
  revert fuel available.
  induction j as [|j IH]; intros fuel available Ha Hf.
  - destruct fuel as [|fuel]; [lia|].
    destruct Ha; subst; reflexivity.
  - destruct fuel as [|fuel]; [lia|].
    assert (Hstep : reserveProducerSpaceInternal (S fuel)
                      (repeat ConsumerIdle (S j) ++ [ConsumerPeek])
                      (wrapped available) 10 true =
                    reserveProducerSpaceInternal fuel
                      (repeat ConsumerIdle j ++ [ConsumerPeek])
                      (wrapped 0) 10 true)
      by (destruct Ha; subst; reflexivity).
    rewrite Hstep. apply IH; [left; reflexivity | lia].
Qed.

(** C1, as the code has it: in the edge case (capacity 16, 10 bytes
    committed and consumed) the first pass of a 10-byte reservation publishes
    the wrap ([end_of_data_] at offset 10, [producer_pos_] back at the start of
    the storage) but the 10 bytes in front of the consumer are not more than
    the 10 requested: a non-blocking call returns null, a blocking call keeps
    spinning for as long as the consumer stays idle, and it returns the start
    of the storage as soon as a [peek] of the consumer has followed the
    wrap. *)
Theorem reservation_edge_case (k fuel : nat) :
  (1 <= k)%nat -> (k < fuel)%nat ->
  edge_case_state = Some edge /\
  reserve_iteration edge 10 true = (wrapped 10, None) /\
  reserveProducerSpace fuel [] edge 10 false = (ReturnedNull, wrapped 10) /\
  fst (reserveProducerSpace fuel [] edge 10 true) = StillSpinning /\
  reserveProducerSpace fuel (repeat ConsumerIdle k ++ [ConsumerPeek]) edge 10 true =
  (Reserved 0, rewound).
Proof.
  intros Hk Hf.
  split; [reflexivity|].
  split; [reflexivity|].
  split; [destruct fuel as [|fuel]; [lia | reflexivity]|].
  split; [apply blocking_spins_while_consumer_idle|].
  destruct fuel as [|fuel]; [lia|].
  destruct k as [|k]; [lia|].
  change (reserveProducerSpace (S fuel)
            (repeat ConsumerIdle (S k) ++ [ConsumerPeek]) edge 10 true)
    with (reserveProducerSpaceInternal fuel
            (repeat ConsumerIdle k ++ [ConsumerPeek]) (wrapped 10) 10 true).
  apply peek_releases_the_producer; [right; reflexivity | lia].
Qed.

Lemma reservation_edge_case_witness :
  (1 <= 1)%nat /\ (1 < 2)%nat /\
  (edge_case_state = Some edge /\
   reserve_iteration edge 10 true = (wrapped 10, None) /\
   reserveProducerSpace 2 [] edge 10 false = (ReturnedNull, wrapped 10) /\
   fst (reserveProducerSpace 2 [] edge 10 true) = StillSpinning /\
   reserveProducerSpace 2 (repeat ConsumerIdle 1 ++ [ConsumerPeek]) edge 10 true =
   (Reserved 0, rewound)).
Proof.
  split; [lia|]. split; [lia|].
  apply (reservation_edge_case 1 2); lia.
Defined.

(** C1 as the specification states it fails: from the state of the edge
    case, with no further step of the consumer, the blocking reservation of
    10 bytes returns no pointer however long it is followed. *)
Lemma reservation_edge_case_never_returns :
  exists st,
    edge_case_state = Some st /\
    ~ exists fuel p b',
        reserveProducerSpace fuel [] st 10 true = (Reserved p, b').
Proof.
  exists edge. split; [reflexivity|].
  intros (fuel & p & b' & H).
  pose proof (blocking_spins_while_consumer_idle fuel) as Hs.
  rewrite H in Hs. discriminate Hs.
Qed.

(** C6: [shouldBeDestructed] holds exactly when the mark is set and the
    two positions coincide, and in every state of the buffer (reachable or
    not) that condition makes [peek] report zero available bytes without
    moving anything; a buffer in which [peek] finds bytes is not
    destroyable. *)
Theorem destroyable_iff_marked_and_drained (b : StagingBuffer) :
  (shouldBeDestructed b = true <->
   should_be_destructed_ b = true /\ consumer_pos_ b = producer_pos_ b) /\
  (shouldBeDestructed b = true -> peek b = (b, (consumer_pos_ b, 0))) /\
  (snd (snd (peek b)) > 0 -> shouldBeDestructed b = false).
Proof.
  assert (Hiff : shouldBeDestructed b = true <->
                 should_be_destructed_ b = true /\ consumer_pos_ b = producer_pos_ b).
  { unfold shouldBeDestructed. rewrite andb_true_iff, Z.eqb_eq. tauto. }
  assert (Hpeek : shouldBeDestructed b = true -> peek b = (b, (consumer_pos_ b, 0))).
  { intros H. apply Hiff in H. destruct H as [_ Heq].
    unfold peek. rewrite <- Heq, Z.ltb_irrefl, Z.sub_diag. reflexivity. }
  split; [exact Hiff|]. split; [exact Hpeek|].
  intros Hpos. destruct (shouldBeDestructed b) eqn:E; [|reflexivity].
  rewrite (Hpeek eq_refl) in Hpos. simpl in Hpos. lia.
Qed.

End StagingBufferFacts.

(** ** Level and output file of the logger *)

Section LoggerFacts.

Import logger.

(** C8: when the file exists but cannot be read and written, or cannot
    be opened, [setLogFileInternal] throws and the logger is exactly as it was
    (same [output_fd_], nothing closed); otherwise the descriptor returned by
    [open] is installed and the previous one, if positive, is closed. *)
Theorem set_log_file_keeps_descriptor_on_failure
    (os : FileSystem) (l : Logger) (filename : list ascii) :
  let inaccessible :=
    access_F_OK os filename = 0 /\ access_R_OK_W_OK os filename <> 0 in
  let unopenable := open_LOG_FILE_FLAGS os filename < 0 in
  (inaccessible \/ unopenable ->
   exists e, SetLogFile os l filename = (Some e, l)) /\
  (~ (inaccessible \/ unopenable) ->
   exists l',
     SetLogFile os l filename = (None, l') /\
     output_fd_ l' = open_LOG_FILE_FLAGS os filename /\
     closed_fds l' =
       (if output_fd_ l >? 0 then output_fd_ l :: closed_fds l else closed_fds l)).
Proof.
  unfold SetLogFile, setLogFileInternal. cbv zeta.
  destruct (Z.eqb_spec (access_F_OK os filename) 0) as [EF|EF];
    destruct (Z.eqb_spec (access_R_OK_W_OK os filename) 0) as [ER|ER];
    destruct (Z.ltb_spec (open_LOG_FILE_FLAGS os filename) 0) as [EO|EO];
    cbn [andb negb]; split; intros H;
    try (eexists; reflexivity);
    try (eexists; split; [reflexivity | split; reflexivity]);
    exfalso; try tauto; try lia.
Qed.

(** C9: [SetLogLevel] stores DEBUG, which is NUMBER_OF_LOG_LEVELS - 1,
    for every level from NUMBER_OF_LOG_LEVELS upwards, and stores each of the
    five valid levels as given; [GetLogLevel] returns what was stored. *)
Theorem set_log_level_clamps (l : Logger) (level : LogLevel) :
  DEBUG = NUMBER_OF_LOG_LEVELS - 1 /\
  (NUMBER_OF_LOG_LEVELS <= level -> GetLogLevel (SetLogLevel l level) = DEBUG) /\
  (In level [NONE; ERROR; WARNING; INFO; DEBUG] ->
   GetLogLevel (SetLogLevel l level) = level).
Proof.
  split; [reflexivity|].
  unfold GetLogLevel, SetLogLevel, getLogLevelInternal, setLogLevelInternal.
  cbn [current_log_level_].
  split.
  - intros H. destruct (Z.geb_spec level NUMBER_OF_LOG_LEVELS) as [_|H'];
      [reflexivity | lia].
  - intros H. cbn [In] in H.
    destruct H as [H|[H|[H|[H|[H|[]]]]]]; subst level; reflexivity.
Qed.

End LoggerFacts.

(** ** [write] depends on the C library only through the calls it makes *)

Section RendererExtensionality.

Import log_info.

Variables render1 render2 : list ascii -> list PrintfArg -> option (list ascii).
Hypothesis same_render : forall fmt args, render1 fmt args = render2 fmt args.








End RendererExtensionality.

Section KnownCalls.

Import log_info examples.




End KnownCalls.

(** ** The log assembler *)

Section AssemblerFacts.

Import log_info.

Variable printf_render : list ascii -> list PrintfArg -> option (list ascii).
Variable strftime_localtime : Z -> list ascii.

Local Abbreviation write := (write printf_render).
Local Abbreviation write_body := (write_body printf_render).
Local Abbreviation write_conversion := (write_conversion printf_render).
Local Abbreviation write_argument := (write_argument printf_render).
Local Abbreviation tryToWriteArgToBuffer := (tryToWriteArgToBuffer printf_render).
Local Abbreviation loadLogInfo := (loadLogInfo strftime_localtime).

(** An assembler whose buffer was installed by [setBuffer] with a positive
    size (a [size_t]), after any number of [loadLogInfo] and [write]. *)
Inductive installed : LogAssembler -> Prop :=
| installed_setBuffer (a : LogAssembler) (buffer_size : Z) :
    0 < buffer_size < 2 ^ 64 -> installed (setBuffer a buffer_size)
| installed_loadLogInfo (a : LogAssembler) (static_info : StaticLogInfo)
    (dynamic_info : DynamicLogInfo) (producer_id : Z) :
    installed a -> installed (loadLogInfo a static_info dynamic_info producer_id)
| installed_write (a a' : LogAssembler) (fuel : nat) (n : Z) :
    installed a -> write fuel a = inr (a', n) -> installed a'.

(** There is room left: the count of written bytes is below the size. *)
Definition has_room (a : LogAssembler) : Prop :=
  0 <= writed_count_ (output a) < buffer_size_ (output a) /\
  buffer_size_ (output a) < 2 ^ 64.

Definition flow_keeps (P : LogAssembler -> Prop) (f : flow) : Prop :=
  match f with
  | Continue a => P a
  | Returned a => P a
  | Aborted _ => True
  end.

Lemma getFreeBytes_room (a : LogAssembler) :
  has_room a ->
  getFreeBytes a = buffer_size_ (output a) - writed_count_ (output a).
Proof.
  intros [H1 H2]. unfold getFreeBytes, size_t_of.
  apply Z.mod_small. lia.
Qed.

Lemma size_t_of_nonneg (z : Z) : 0 <= size_t_of z.
Proof. unfold size_t_of. apply Z.mod_pos_bound. reflexivity. Qed.

Lemma tryToWriteAStringToBuffer_fits (a a1 : LogAssembler) (src : list ascii)
    (len tmp : Z) :
  tryToWriteAStringToBuffer a src len = (a1, tmp) ->
  buffer_size_ (output a1) = buffer_size_ (output a) /\
  writed_count_ (output a1) = writed_count_ (output a) /\
  (tmp = 0 \/ tmp = len /\ len < getFreeBytes a) /\
  (len >= getFreeBytes a -> tmp = 0 /\ is_full_ (output a1) = true).
Proof.
  unfold tryToWriteAStringToBuffer.
  destruct (is_full_ (output a)) eqn:Efull.
  - intros H; inversion H; subst. repeat split; auto.
  - destruct (Z.geb_spec len (getFreeBytes a)) as [Hge|Hlt];
      intros H; inversion H; subst; cbn; repeat split; auto; try lia.
Qed.

Lemma tryToWriteArgToBuffer_fits (a a1 : LogAssembler) (fmt : list ascii)
    (width precision : Z) (arg : PrintfArg) (tmp : Z) :
  tryToWriteArgToBuffer a fmt width precision arg = (a1, tmp) ->
  buffer_size_ (output a1) = buffer_size_ (output a) /\
  writed_count_ (output a1) = writed_count_ (output a) /\
  0 <= tmp /\
  (tmp = 0 \/ tmp < getFreeBytes a) /\
  (tmp = 0 \/ is_full_ (output a1) = is_full_ (output a)).
Proof.
  unfold log_info.tryToWriteArgToBuffer.
  destruct (snprintf printf_render _ _ _ _) as [ret bytes].
  assert (Hfree : forall s, getFreeBytes (set_scratch a s) = getFreeBytes a)
    by reflexivity.
  rewrite Hfree.
  destruct (Z.geb_spec (size_t_of (0 + ret)) (getFreeBytes a)) as [Hge|Hlt];
    intros H; inversion H; subst; cbn; repeat split; auto; try lia.
  - apply size_t_of_nonneg.
Qed.

Lemma finishWriting_room (a : LogAssembler) (tmp : Z) :
  has_room a -> 0 <= tmp -> tmp = 0 \/ tmp < getFreeBytes a ->
  has_room (finishWriting a tmp) /\
  buffer_size_ (output (finishWriting a tmp)) = buffer_size_ (output a).
Proof.
  intros Hroom Hpos Htmp.
  rewrite (getFreeBytes_room a Hroom) in Htmp.
  destruct Hroom as [H1 H2].
  unfold has_room. cbn. unfold size_t_of.
  rewrite Z.mod_small by lia. lia.
Qed.

(** A state with the same output counts as one that has room. *)
Definition same_counts (a a' : LogAssembler) : Prop :=
  buffer_size_ (output a') = buffer_size_ (output a) /\
  writed_count_ (output a') = writed_count_ (output a).

Lemma has_room_same_counts (a a' : LogAssembler) :
  has_room a -> same_counts a a' -> has_room a'.
Proof. unfold has_room, same_counts. intros [H1 H2] [E1 E2]. rewrite E1, E2. auto. Qed.

Definition room_of (size : Z) (a : LogAssembler) : Prop :=
  has_room a /\ buffer_size_ (output a) = size.

Lemma write_or_return_room (size : Z) (a : LogAssembler) (src : list ascii) (len : Z)
    (k : LogAssembler -> Z -> flow) :
  room_of size a -> 0 <= len ->
  (forall a2 tmp, room_of size a2 -> flow_keeps (room_of size) (k a2 tmp)) ->
  flow_keeps (room_of size) (write_or_return a src len k).
Proof.
  intros [Hroom Hsize] Hlen Hk. unfold write_or_return.
  destruct (tryToWriteAStringToBuffer a src len) as [a1 tmp] eqn:E.
  apply tryToWriteAStringToBuffer_fits in E.
  destruct E as (E1 & E2 & Htmp & _).
  assert (Hroom1 : has_room a1) by (apply (has_room_same_counts a); [assumption | split; assumption]).
  assert (Hfree : getFreeBytes a1 = getFreeBytes a)
    by (unfold getFreeBytes; rewrite E1, E2; reflexivity).
  destruct (Z.eqb_spec tmp 0) as [H0|H0]; cbn.
  - split; [assumption | congruence].
  - apply Hk.
    destruct (finishWriting_room a1 tmp Hroom1) as [R1 R2].
    + destruct Htmp as [?|[? ?]]; lia.
    + right. rewrite Hfree. destruct Htmp as [?|[? ?]]; lia.
    + split; [assumption | congruence].
Qed.

Lemma same_counts_refl (a : LogAssembler) : same_counts a a.
Proof. split; reflexivity. Qed.

Lemma same_counts_trans (a b c : LogAssembler) :
  same_counts a b -> same_counts b c -> same_counts a c.
Proof. unfold same_counts. intros [? ?] [? ?]. split; congruence. Qed.

Lemma same_counts_free (a a' : LogAssembler) :
  same_counts a a' -> getFreeBytes a' = getFreeBytes a.
Proof. intros [E1 E2]. unfold getFreeBytes. rewrite E1, E2. reflexivity. Qed.

Lemma load_dynamic_counts (info : StaticLogInfo) (data : list ascii)
    (kind : ParamType) (a a1 : LogAssembler) (v : Z) :
  load_dynamic info data kind a = inr (a1, v) -> same_counts a a1.
Proof.
  unfold load_dynamic.
  destruct (nth_error (param_types_ info) _) as [t|]; [|discriminate].
  destruct (t =? kind).
  - destruct (nth_error (param_sizes_ info) _) as [size|]; [|discriminate].
    destruct (LoadArgument_signed _ _ _ _); [discriminate|].
    intros H; inversion H; subst. split; reflexivity.
  - intros H; inversion H; subst. apply same_counts_refl.
Qed.

Lemma write_argument_counts (data : list ascii) (a a1 : LogAssembler)
    (conversion_type : ConversionType) (conversion_fmt : list ascii)
    (width precision : Z) (arg_size : nat) (tmp arg_size' : Z) :
  write_argument data a conversion_type conversion_fmt width precision arg_size =
    inr (a1, tmp, arg_size') ->
  same_counts a a1 /\ 0 <= tmp /\ (tmp = 0 \/ tmp < getFreeBytes a).
Proof.
  unfold log_info.write_argument.
  destruct conversion_type; cbn [integer_type];
    repeat match goal with
    | |- context [LoadArgument_floating ?d ?p ?n] =>
        destruct (LoadArgument_floating d p n); [discriminate|]
    | |- context [LoadArgument_unsigned ?b ?d ?p ?n] =>
        destruct (LoadArgument_unsigned b d p n); [discriminate|]
    | |- context [LoadArgument_signed ?b ?d ?p ?n] =>
        destruct (LoadArgument_signed b d p n); [discriminate|]
    | |- context [tryToWriteArgToBuffer ?x ?f ?w ?p ?g] =>
        let E := fresh "E" in
        destruct (tryToWriteArgToBuffer x f w p g) as [? ?] eqn:E;
        apply tryToWriteArgToBuffer_fits in E;
        destruct E as (? & ? & ? & ? & ?)
    end;
    intros Hw; inversion Hw; subst; clear Hw;
    (split; [split; cbn in *; congruence | split; [lia | auto]]).
Qed.

Lemma write_conversion_room (size : Z) (info : StaticLogInfo) (data : list ascii)
    (fragment : FormatFragment) (a : LogAssembler) :
  room_of size a ->
  flow_keeps (room_of size) (write_conversion info data fragment a).
Proof.
  intros [Hroom Hsize]. unfold log_info.write_conversion.
  destruct (load_dynamic info data DYNAMIC_WIDTH a) as [|[a1 width]] eqn:E1;
    [exact I|].
  destruct (load_dynamic info data DYNAMIC_PRECISION a1) as [|[a2 precision]] eqn:E2;
    [exact I|].
  apply load_dynamic_counts in E1. apply load_dynamic_counts in E2.
  destruct (nth_error (param_sizes_ info) _) as [arg_size|]; [|exact I].
  destruct (write_argument data a2 _ _ _ _ _) as [|[[a3 tmp] arg_size']] eqn:E3;
    [exact I|].
  apply write_argument_counts in E3. destruct E3 as (E3 & Htmp0 & Htmp).
  assert (C3 : same_counts a a3)
    by (eapply same_counts_trans; [|exact E3];
        eapply same_counts_trans; [exact E1 | exact E2]).
  assert (Hroom3 : has_room a3) by (apply (has_room_same_counts a); assumption).
  assert (Hfree : getFreeBytes a3 = getFreeBytes a2)
    by (apply same_counts_free; assumption).
  destruct ((tmp =? 0) && (arg_size' >? 0)).
  - cbn. split.
    + apply (has_room_same_counts a3); [assumption | split; reflexivity].
    + destruct C3 as [C _]. cbn. congruence.
  - destruct (finishWriting_room a3 tmp Hroom3 Htmp0) as [R1 R2];
      [rewrite Hfree; exact Htmp|].
    destruct (nth_error (param_sizes_ info) _) as [sz|]; [|exact I].
    cbn. split.
    + apply (has_room_same_counts (finishWriting a3 tmp));
        [assumption | split; reflexivity].
    + destruct C3 as [C _]. cbn in *. congruence.
Qed.

Lemma write_body_iteration_room (size : Z) (again : LogAssembler -> flow)
    (a : LogAssembler) :
  (forall a0, room_of size a0 -> flow_keeps (room_of size) (again a0)) ->
  room_of size a ->
  flow_keeps (room_of size) (write_body_iteration printf_render again a).
Proof.
  intros Hagain Hroom. unfold write_body_iteration.
  destruct (static_log_info_ a) as [info|]; [|exact I].
  destruct (dynamic_log_info_ a) as [dynamic_info|]; [|exact I].
  destruct (format_index_ (indices a) <? format_len_ info)%nat; [|exact Hroom].
  assert (Hlit : forall src len,
             flow_keeps (room_of size)
               (write_or_return a src (Z.of_nat len)
                  (fun a0 tmp => again (add_format_index a0 (Z.to_nat tmp))))).
  { intros src len. apply write_or_return_room; [assumption | lia |].
    intros a2 tmp H2. apply Hagain. destruct H2 as [R S]. split.
    - apply (has_room_same_counts a2); [assumption | split; reflexivity].
    - exact S. }
  destruct (conversion_index_ (indices a) <? num_conversions_ info)%nat; [|apply Hlit].
  destruct (nth_error (format_fragments_ info) _) as [fragment|]; [|exact I].
  destruct (format_index_ (indices a) <? format_pos_ fragment)%nat; [apply Hlit|].
  pose proof (write_conversion_room size info (arg_data dynamic_info) fragment a Hroom)
    as Hc.
  destruct (write_conversion info (arg_data dynamic_info) fragment a); cbn in *;
    [apply Hagain; assumption | assumption | exact I].
Qed.

Lemma write_body_room (size : Z) (fuel : nat) (a : LogAssembler) :
  room_of size a -> flow_keeps (room_of size) (write_body fuel a).
Proof.
  revert a. induction fuel as [|fuel IH]; intros a Hroom; cbn [log_info.write_body];
    apply write_body_iteration_room; auto.
  intros; exact I.
Qed.

Lemma write_phase_room (size : Z) (a : LogAssembler) (done : bool)
    (src : list ascii) (len : Z) (mark : LogAssembler -> LogAssembler) :
  room_of size a -> 0 <= len ->
  (forall a2, same_counts a2 (mark a2)) ->
  flow_keeps (room_of size)
    (if negb done
     then write_or_return a src len (fun a0 _ => Continue (mark a0))
     else Continue a).
Proof.
  intros Hroom Hlen Hmark. destruct done; cbn [negb]; [exact Hroom|].
  apply write_or_return_room; [assumption | assumption |].
  intros a2 tmp [R S]. cbn. split.
  - apply (has_room_same_counts a2); [assumption | apply Hmark].
  - destruct (Hmark a2) as [E _]. congruence.
Qed.

Lemma flow_keeps_and_then (P : LogAssembler -> Prop) (f : flow)
    (k : LogAssembler -> flow) :
  flow_keeps P f -> (forall a, P a -> flow_keeps P (k a)) ->
  flow_keeps P (and_then f k).
Proof. destruct f; cbn; auto. Qed.

Lemma write_room (size : Z) (fuel : nat) (a a' : LogAssembler) (n : Z) :
  room_of size a -> write fuel a = inr (a', n) -> room_of size a'.
Proof.
  intros Hroom. unfold log_info.write.
  destruct (is_full_ (output a)); [intros H; inversion H; subst; exact Hroom|].
  set (a0 := set_bytes_last_writed a 0).
  assert (H0 : room_of size a0).
  { destruct Hroom as [R S]. split; [|exact S].
    apply (has_room_same_counts a); [assumption | split; reflexivity]. }
  clearbody a0.
  match goal with
  | |- match ?f with _ => _ end = _ -> _ =>
      assert (Hf : flow_keeps (room_of size) f); [|destruct f; cbn in Hf;
        intros H; inversion H; subst; assumption || discriminate]
  end.
  apply flow_keeps_and_then.
  { unfold write_timestamp.
    apply write_phase_room;
      [assumption | apply size_t_of_nonneg | intros; split; reflexivity]. }
  intros a1 H1. apply flow_keeps_and_then.
  { unfold write_filename_and_linenum.
    apply write_phase_room; [assumption | lia | intros; split; reflexivity]. }
  intros a2 H2. apply flow_keeps_and_then.
  { unfold write_severity.
    destruct (is_severity_writed_ (flags a2)) eqn:Es; cbn [negb]; [exact H2|].
    destruct (static_log_info_ a2); [|exact I].
    destruct (nth_error severity_str _); [|exact I].
    apply (write_phase_room size a2 false);
      [assumption | lia | intros; split; reflexivity]. }
  intros a3 H3. apply flow_keeps_and_then.
  { unfold write_producer_id.
    apply write_phase_room; [assumption | lia | intros; split; reflexivity]. }
  intros a4 H4. apply flow_keeps_and_then.
  { apply write_body_room. assumption. }
  intros a5 H5. unfold write_end_of_log.
  apply write_phase_room; [assumption | lia | intros; split; reflexivity].
Qed.

Lemma installed_has_room (a : LogAssembler) : installed a -> has_room a.
Proof.
  induction 1 as [a size Hsize | a s d id Ha IH | a a' fuel n Ha IH Hw].
  - unfold has_room. cbn. lia.
  - exact IH.
  - apply (write_room (buffer_size_ (output a)) fuel a a' n) in Hw.
    + apply Hw.
    + split; [exact IH | reflexivity].
Qed.

(** C10: in an assembler with an installed buffer of positive size, a
    string is written only when its length is below the free space, a
    formatted argument only when the length [snprintf] reports is below it,
    and a sub-write of exactly the free space is rejected with the full flag
    set; so after every [write] the count of written bytes is below the
    size of the buffer. *)
Theorem assembler_never_fills_buffer (a : LogAssembler) :
  installed a ->
  writed_count_ (output a) < buffer_size_ (output a) /\
  0 < getFreeBytes a /\
  (forall src len a1 tmp,
      tryToWriteAStringToBuffer a src len = (a1, tmp) ->
      (tmp <> 0 -> tmp = len /\ len < getFreeBytes a) /\
      (len = getFreeBytes a -> tmp = 0 /\ is_full_ (output a1) = true)) /\
  (forall fmt width precision arg a1 tmp,
      tryToWriteArgToBuffer a fmt width precision arg = (a1, tmp) ->
      (tmp <> 0 -> tmp < getFreeBytes a) /\
      (fst (snprintf printf_render (scratch (output a)) (getFreeBytes a) fmt
              (snprintf_args width precision arg)) = getFreeBytes a ->
       tmp = 0 /\ is_full_ (output a1) = true)).
Proof.
  intros Hinst. pose proof (installed_has_room a Hinst) as Hroom.
  pose proof (getFreeBytes_room a Hroom) as Hfree.
  destruct Hroom as [H1 H2].
  split; [lia|]. split; [lia|]. split.
  - intros src len a1 tmp E.
    apply tryToWriteAStringToBuffer_fits in E. destruct E as (_ & _ & Htmp & Hrej).
    split.
    + intros Hn. destruct Htmp as [?|?]; [contradiction | assumption].
    + intros Heq. apply Hrej. lia.
  - intros fmt width precision arg a1 tmp E. split.
    + intros Hn. apply tryToWriteArgToBuffer_fits in E.
      destruct E as (_ & _ & _ & Htmp & _). destruct Htmp; [contradiction | assumption].
    + intros Hret.
      unfold log_info.tryToWriteArgToBuffer in E.
      destruct (snprintf printf_render _ _ _ _) as [ret bytes]. cbn [fst] in Hret.
      subst ret.
      assert (Hsz : size_t_of (0 + getFreeBytes a) = getFreeBytes a).
      { unfold size_t_of. rewrite Z.add_0_l. apply Z.mod_small. lia. }
      rewrite Hsz in E.
      change (getFreeBytes (set_scratch a bytes)) with (getFreeBytes a) in E.
      destruct (Z.geb_spec (getFreeBytes a) (getFreeBytes a)) as [_|Hlt]; [|lia].
      inversion E; subst. split; reflexivity.
Qed.

(** ** The same record in a larger buffer *)

Section LargerBuffer.

Variables small large : Z.
Hypothesis Hlarge : small <= large < 2 ^ 64.

(** The assembler with a buffer of [large] bytes in place of its own. *)
Definition resized (a : LogAssembler) : LogAssembler :=
  let o := output a in
  with_output a
    (mkOutput (written o) (scratch o) large (writed_count_ o)
       (bytes_last_writed_ o) (is_full_ o)).

Definition full (a : LogAssembler) : Prop := is_full_ (output a) = true.

(** [f'] is what [f] becomes in the larger buffer, unless [f] ends with the
    full flag set. *)
Definition lifts (f f' : flow) : Prop :=
  match f with
  | Continue a => is_full_ (output a) = false -> f' = Continue (resized a)
  | Returned a => is_full_ (output a) = false -> f' = Returned (resized a)
  | Aborted _ => True
  end.

Lemma full_lifts (f f' : flow) : flow_keeps full f -> lifts f f'.
Proof.
  unfold full. destruct f as [a|a|]; cbn; intros H; [| |exact I];
    intros Hn; rewrite H in Hn; discriminate.
Qed.

Lemma lifts_and_then (f f' : flow) (k k' : LogAssembler -> flow) :
  lifts f f' ->
  flow_keeps (room_of small) f ->
  (forall a, full a -> flow_keeps full (k a)) ->
  (forall a, room_of small a -> lifts (k a) (k' (resized a))) ->
  lifts (and_then f k) (and_then f' k').
Proof.
  intros Hf Hroom Hfull Hk. destruct f as [a|a|]; cbn in *; [| |exact I].
  - destruct (is_full_ (output a)) eqn:E.
    + apply full_lifts. apply Hfull. exact E.
    + rewrite (Hf eq_refl). cbn. apply Hk. exact Hroom.
  - intros Hn. rewrite (Hf Hn). reflexivity.
Qed.

Lemma getFreeBytes_resized (a : LogAssembler) :
  room_of small a -> getFreeBytes a <= getFreeBytes (resized a).
Proof.
  intros [[H1 H2] Hs]. unfold getFreeBytes, resized, size_t_of.
  cbn [output with_output buffer_size_ writed_count_].
  rewrite !Z.mod_small by lia. lia.
Qed.

(** *** Once set, the full flag stays *)

Lemma write_or_return_full (a : LogAssembler) (src : list ascii) (len : Z)
    (k : LogAssembler -> Z -> flow) :
  full a -> flow_keeps full (write_or_return a src len k).
Proof.
  unfold full, write_or_return, tryToWriteAStringToBuffer. intros H. rewrite H.
  exact H.
Qed.

Lemma tryToWriteArgToBuffer_full (a a1 : LogAssembler) (fmt : list ascii)
    (width precision : Z) (arg : PrintfArg) (tmp : Z) :
  tryToWriteArgToBuffer a fmt width precision arg = (a1, tmp) -> full a -> full a1.
Proof.
  unfold log_info.tryToWriteArgToBuffer, full.
  destruct (snprintf printf_render _ _ _ _) as [ret bytes].
  destruct (_ >=? _); intros H Hf; inversion H; subst; cbn; auto.
Qed.

Lemma load_dynamic_output (info : StaticLogInfo) (data : list ascii)
    (kind : ParamType) (a a1 : LogAssembler) (v : Z) :
  load_dynamic info data kind a = inr (a1, v) -> output a1 = output a.
Proof.
  unfold load_dynamic.
  destruct (nth_error (param_types_ info) _) as [t|]; [|discriminate].
  destruct (t =? kind).
  - destruct (nth_error (param_sizes_ info) _) as [size|]; [|discriminate].
    destruct (LoadArgument_signed _ _ _ _); [discriminate|].
    intros H; inversion H; subst. reflexivity.
  - intros H; inversion H; subst. reflexivity.
Qed.

Lemma write_argument_full (data : list ascii) (a a1 : LogAssembler)
    (conversion_type : ConversionType) (conversion_fmt : list ascii)
    (width precision : Z) (arg_size : nat) (tmp arg_size' : Z) :
  write_argument data a conversion_type conversion_fmt width precision arg_size =
    inr (a1, tmp, arg_size') ->
  full a -> full a1.
Proof.
  unfold log_info.write_argument.
  destruct conversion_type; cbn [integer_type];
    repeat match goal with
    | |- context [LoadArgument_floating ?d ?p ?n] =>
        destruct (LoadArgument_floating d p n); [discriminate|]
    | |- context [LoadArgument_unsigned ?b ?d ?p ?n] =>
        destruct (LoadArgument_unsigned b d p n); [discriminate|]
    | |- context [LoadArgument_signed ?b ?d ?p ?n] =>
        destruct (LoadArgument_signed b d p n); [discriminate|]
    | |- context [tryToWriteArgToBuffer ?x ?f ?w ?p ?g] =>
        let E := fresh "E" in
        destruct (tryToWriteArgToBuffer x f w p g) as [? ?] eqn:E
    end;
    intros Hw Hf; inversion Hw; subst; clear Hw;
    first [ exact Hf
          | match goal with
            | E : log_info.tryToWriteArgToBuffer _ _ _ _ _ _ = _ |- _ =>
                exact (tryToWriteArgToBuffer_full _ _ _ _ _ _ _ E Hf)
            end ].
Qed.

Lemma write_conversion_full (info : StaticLogInfo) (data : list ascii)
    (fragment : FormatFragment) (a : LogAssembler) :
  full a -> flow_keeps full (write_conversion info data fragment a).
Proof.
  intros Hf. unfold log_info.write_conversion.
  destruct (load_dynamic info data DYNAMIC_WIDTH a) as [|[a1 width]] eqn:E1;
    [exact I|].
  destruct (load_dynamic info data DYNAMIC_PRECISION a1) as [|[a2 precision]] eqn:E2;
    [exact I|].
  apply load_dynamic_output in E1. apply load_dynamic_output in E2.
  assert (Hf2 : full a2) by (unfold full; rewrite E2, E1; exact Hf).
  destruct (nth_error (param_sizes_ info) _) as [arg_size|]; [|exact I].
  destruct (write_argument data a2 _ _ _ _ _) as [|[[a3 tmp] arg_size']] eqn:E3;
    [exact I|].
  apply write_argument_full in E3; [|exact Hf2].
  destruct ((tmp =? 0) && (arg_size' >? 0)); [exact E3|].
  destruct (nth_error (param_sizes_ info) _); [exact E3 | exact I].
Qed.

Lemma write_body_iteration_full (again : LogAssembler -> flow) (a : LogAssembler) :
  (forall a0, full a0 -> flow_keeps full (again a0)) ->
  full a ->
  flow_keeps full (write_body_iteration printf_render again a).
Proof.
  intros Hagain Hf. unfold write_body_iteration.
  destruct (static_log_info_ a) as [info|]; [|exact I].
  destruct (dynamic_log_info_ a) as [dynamic_info|]; [|exact I].
  destruct (format_index_ (indices a) <? format_len_ info)%nat; [|exact Hf].
  destruct (conversion_index_ (indices a) <? num_conversions_ info)%nat;
    [|apply write_or_return_full; exact Hf].
  destruct (nth_error (format_fragments_ info) _) as [fragment|]; [|exact I].
  destruct (format_index_ (indices a) <? format_pos_ fragment)%nat;
    [apply write_or_return_full; exact Hf|].
  pose proof (write_conversion_full info (arg_data dynamic_info) fragment a Hf) as Hc.
  destruct (write_conversion info (arg_data dynamic_info) fragment a); cbn in *;
    [apply Hagain; assumption | assumption | exact I].
Qed.

Lemma write_body_full (fuel : nat) (a : LogAssembler) :
  full a -> flow_keeps full (write_body fuel a).
Proof.
  revert a. induction fuel as [|fuel IH]; intros a Hf; cbn [log_info.write_body];
    apply write_body_iteration_full; auto.
  intros; exact I.
Qed.

Lemma write_phase_full (a : LogAssembler) (done : bool) (src : list ascii) (len : Z)
    (k : LogAssembler -> Z -> flow) :
  full a ->
  flow_keeps full (if negb done then write_or_return a src len k else Continue a).
Proof.
  intros Hf. destruct done; cbn [negb]; [exact Hf | apply write_or_return_full; exact Hf].
Qed.

(** *** What fits the smaller buffer is written alike to the larger *)

Lemma tryToWriteAStringToBuffer_resized (a a1 : LogAssembler) (src : list ascii)
    (len tmp : Z) :
  room_of small a ->
  tryToWriteAStringToBuffer a src len = (a1, tmp) ->
  is_full_ (output a1) = false ->
  tryToWriteAStringToBuffer (resized a) src len = (resized a1, tmp).
Proof.
  intros Hroom H Hn. pose proof (getFreeBytes_resized a Hroom) as Hfree.
  unfold tryToWriteAStringToBuffer in *.
  change (is_full_ (output (resized a))) with (is_full_ (output a)).
  destruct (is_full_ (output a)) eqn:E.
  - inversion H; subst. congruence.
  - destruct (Z.geb_spec len (getFreeBytes a)).
    + inversion H; subst. discriminate Hn.
    + destruct (Z.geb_spec len (getFreeBytes (resized a))); [lia|].
      inversion H; subst. reflexivity.
Qed.

Lemma write_or_return_lifts (a : LogAssembler) (src : list ascii) (len : Z)
    (k k' : LogAssembler -> Z -> flow) :
  room_of small a -> 0 <= len ->
  (forall a2 tmp, room_of small a2 -> lifts (k a2 tmp) (k' (resized a2) tmp)) ->
  lifts (write_or_return a src len k) (write_or_return (resized a) src len k').
Proof.
  intros Hroom Hlen Hk. unfold write_or_return.
  destruct (tryToWriteAStringToBuffer a src len) as [a1 tmp] eqn:E.
  destruct (is_full_ (output a1)) eqn:Ef.
  - assert (tmp = 0).
    { unfold tryToWriteAStringToBuffer in E.
      destruct (is_full_ (output a)) eqn:Ea; [inversion E; reflexivity|].
      destruct (len >=? getFreeBytes a); inversion E; subst; [reflexivity|].
      cbn in Ef. congruence. }
    subst tmp. cbn. intros Hn. congruence.
  - rewrite (tryToWriteAStringToBuffer_resized _ _ _ _ _ Hroom E Ef).
    destruct (Z.eqb_spec tmp 0) as [H0|H0]; [cbn; reflexivity|].
    apply Hk.
    apply tryToWriteAStringToBuffer_fits in E. destruct E as (E1 & E2 & Htmp & _).
    destruct Hroom as [Hroom Hsize].
    assert (Hroom1 : has_room a1)
      by (apply (has_room_same_counts a); [assumption | split; assumption]).
    assert (Hfree : getFreeBytes a1 = getFreeBytes a)
      by (unfold getFreeBytes; rewrite E1, E2; reflexivity).
    destruct (finishWriting_room a1 tmp Hroom1) as [R1 R2].
    + destruct Htmp as [?|[? ?]]; lia.
    + right. rewrite Hfree. destruct Htmp as [?|[? ?]]; lia.
    + split; [assumption | congruence].
Qed.

Lemma tryToWriteArgToBuffer_resized (a a1 : LogAssembler) (fmt : list ascii)
    (width precision : Z) (arg : PrintfArg) (tmp : Z) :
  room_of small a ->
  tryToWriteArgToBuffer a fmt width precision arg = (a1, tmp) ->
  is_full_ (output a1) = false ->
  tryToWriteArgToBuffer (resized a) fmt width precision arg = (resized a1, tmp).
Proof.
  intros Hroom H Hn. pose proof (getFreeBytes_resized a Hroom) as Hfree.
  assert (Hsmall : 0 < getFreeBytes a < 2 ^ 64).
  { rewrite (getFreeBytes_room a (proj1 Hroom)). destruct Hroom as [[? ?] ?]. lia. }
  assert (Hbig : getFreeBytes (resized a) < 2 ^ 64).
  { unfold getFreeBytes, size_t_of. apply Z.mod_pos_bound. reflexivity. }
  unfold log_info.tryToWriteArgToBuffer, snprintf in *.
  change (scratch (output (resized a))) with (scratch (output a)).
  destruct (printf_render fmt (snprintf_args width precision arg)) as [s|].
  - set (len := Z.of_nat (List.length s)) in *.
    assert (Hlen : 0 <= len) by (unfold len; lia).
    match type of H with
    | (if ?c then _ else _) = _ =>
        change c with (size_t_of (0 + (if len <=? 2 ^ 31 - 1 then len else -1))
                       >=? getFreeBytes a) in H
    end.
    match goal with
    | |- (if ?c then _ else _) = _ =>
        change c with (size_t_of (0 + (if len <=? 2 ^ 31 - 1 then len else -1))
                       >=? getFreeBytes (resized a))
    end.
    destruct (Z.leb_spec len (2 ^ 31 - 1)) as [Hle|Hgt].
    + assert (Hs : size_t_of (0 + len) = len)
        by (unfold size_t_of; rewrite Z.add_0_l; apply Z.mod_small; lia).
      rewrite Hs in *.
      destruct (Z.geb_spec len (getFreeBytes a)); [inversion H; subst; discriminate Hn|].
      destruct (Z.geb_spec len (getFreeBytes (resized a))); [lia|].
      destruct (Z.eqb_spec (getFreeBytes a) 0); [lia|].
      destruct (Z.eqb_spec (getFreeBytes (resized a)) 0); [lia|].
      destruct (Z.ltb_spec len (getFreeBytes a)); [|lia].
      destruct (Z.ltb_spec len (getFreeBytes (resized a))); [|lia].
      inversion H; subst. reflexivity.
    + assert (Hs : size_t_of (0 + -1) = 2 ^ 64 - 1) by reflexivity.
      rewrite Hs in *.
      destruct (Z.geb_spec (2 ^ 64 - 1) (getFreeBytes a)); [|lia].
      inversion H; subst. discriminate Hn.
  - match type of H with
    | (if ?c then _ else _) = _ =>
        change c with (size_t_of (0 + -1) >=? getFreeBytes a) in H
    end.
    assert (Hs : size_t_of (0 + -1) = 2 ^ 64 - 1) by reflexivity.
    rewrite Hs in *.
    destruct (Z.geb_spec (2 ^ 64 - 1) (getFreeBytes a)); [|lia].
    inversion H; subst. discriminate Hn.
Qed.

Lemma load_dynamic_resized (info : StaticLogInfo) (data : list ascii)
    (kind : ParamType) (a : LogAssembler) :
  load_dynamic info data kind (resized a) =
  match load_dynamic info data kind a with
  | inl why => inl why
  | inr (a1, v) => inr (resized a1, v)
  end.
Proof.
  unfold load_dynamic.
  change (parameter_index_ (indices (resized a))) with (parameter_index_ (indices a)).
  change (args_read_pos_ (indices (resized a))) with (args_read_pos_ (indices a)).
  destruct (nth_error (param_types_ info) _) as [t|]; [|reflexivity].
  destruct (t =? kind); [|reflexivity].
  destruct (nth_error (param_sizes_ info) _) as [size|]; [|reflexivity].
  destruct (LoadArgument_signed _ _ _ _); reflexivity.
Qed.

Lemma write_argument_resized (data : list ascii) (a a1 : LogAssembler)
    (conversion_type : ConversionType) (conversion_fmt : list ascii)
    (width precision : Z) (arg_size : nat) (tmp arg_size' : Z) :
  room_of small a ->
  write_argument data a conversion_type conversion_fmt width precision arg_size =
    inr (a1, tmp, arg_size') ->
  is_full_ (output a1) = false ->
  write_argument data (resized a) conversion_type conversion_fmt width precision
    arg_size = inr (resized a1, tmp, arg_size').
Proof.
  intros Hroom. unfold log_info.write_argument.
  change (args_read_pos_ (indices (resized a))) with (args_read_pos_ (indices a)).
  change (add_args_read_pos (resized a) sizeof_size_t)
    with (resized (add_args_read_pos a sizeof_size_t)).
  assert (Hroom' : room_of small (add_args_read_pos a sizeof_size_t)) by exact Hroom.
  change (indices (resized (add_args_read_pos a sizeof_size_t)))
    with (indices (add_args_read_pos a sizeof_size_t)).
  destruct conversion_type; cbn [integer_type];
    repeat match goal with
    | |- context [LoadArgument_floating ?d ?p ?n] =>
        destruct (LoadArgument_floating d p n); [discriminate|]
    | |- context [LoadArgument_unsigned ?b ?d ?p ?n] =>
        destruct (LoadArgument_unsigned b d p n); [discriminate|]
    | |- context [LoadArgument_signed ?b ?d ?p ?n] =>
        destruct (LoadArgument_signed b d p n); [discriminate|]
    end;
    try (intros Hw Hn; inversion Hw; subst; reflexivity);
    match goal with
    | |- context [tryToWriteArgToBuffer (resized ?x) ?f ?w ?p ?g] =>
        let E := fresh "E" in
        destruct (tryToWriteArgToBuffer x f w p g) as [? ?] eqn:E;
        intros Hw Hn; inversion Hw; subst; clear Hw;
        first [ rewrite (tryToWriteArgToBuffer_resized _ _ _ _ _ _ _ Hroom E Hn)
              | rewrite (tryToWriteArgToBuffer_resized _ _ _ _ _ _ _ Hroom' E Hn) ];
        reflexivity
    end.
Qed.

Lemma write_conversion_lifts (info : StaticLogInfo) (data : list ascii)
    (fragment : FormatFragment) (a : LogAssembler) :
  room_of small a ->
  lifts (write_conversion info data fragment a)
        (write_conversion info data fragment (resized a)).
Proof.
  intros Hroom. unfold log_info.write_conversion.
  rewrite load_dynamic_resized.
  destruct (load_dynamic info data DYNAMIC_WIDTH a) as [|[a1 width]] eqn:E1;
    [exact I|].
  rewrite load_dynamic_resized.
  destruct (load_dynamic info data DYNAMIC_PRECISION a1) as [|[a2 precision]] eqn:E2;
    [exact I|].
  apply load_dynamic_output in E1. apply load_dynamic_output in E2.
  assert (Hroom2 : room_of small a2).
  { unfold room_of, has_room in *. rewrite E2, E1. exact Hroom. }
  change (parameter_index_ (indices (resized a2)))
    with (parameter_index_ (indices a2)).
  destruct (nth_error (param_sizes_ info) _) as [arg_size|]; [|exact I].
  destruct (write_argument data a2 _ _ _ _ _) as [|[[a3 tmp] arg_size']] eqn:E3;
    [exact I|].
  destruct (is_full_ (output a3)) eqn:Ef.
  - apply full_lifts.
    destruct ((tmp =? 0) && (arg_size' >? 0)); [exact Ef|].
    destruct (nth_error (param_sizes_ info) _); [exact Ef | exact I].
  - rewrite (write_argument_resized _ _ _ _ _ _ _ _ _ _ Hroom2 E3 Ef).
    destruct ((tmp =? 0) && (arg_size' >? 0)); [cbn; reflexivity|].
    change (parameter_index_ (indices (finishWriting (resized a3) tmp)))
      with (parameter_index_ (indices (finishWriting a3 tmp))).
    destruct (nth_error (param_sizes_ info) _); [cbn; reflexivity | exact I].
Qed.

Lemma write_body_iteration_lifts (again again' : LogAssembler -> flow)
    (a : LogAssembler) :
  (forall a0, room_of small a0 -> lifts (again a0) (again' (resized a0))) ->
  (forall a0, full a0 -> flow_keeps full (again a0)) ->
  room_of small a ->
  lifts (write_body_iteration printf_render again a)
        (write_body_iteration printf_render again' (resized a)).
Proof.
  intros Hagain Hfull Hroom. unfold write_body_iteration.
  change (static_log_info_ (resized a)) with (static_log_info_ a).
  change (dynamic_log_info_ (resized a)) with (dynamic_log_info_ a).
  change (indices (resized a)) with (indices a).
  destruct (static_log_info_ a) as [info|]; [|exact I].
  destruct (dynamic_log_info_ a) as [dynamic_info|]; [|exact I].
  destruct (format_index_ (indices a) <? format_len_ info)%nat; [|cbn; reflexivity].
  assert (Hlit : forall src len,
             lifts
               (write_or_return a src (Z.of_nat len)
                  (fun a0 tmp => again (add_format_index a0 (Z.to_nat tmp))))
               (write_or_return (resized a) src (Z.of_nat len)
                  (fun a0 tmp => again' (add_format_index a0 (Z.to_nat tmp))))).
  { intros src len. apply write_or_return_lifts; [assumption | lia |].
    intros a2 tmp H2.
    exact (Hagain (add_format_index a2 (Z.to_nat tmp)) H2). }
  destruct (conversion_index_ (indices a) <? num_conversions_ info)%nat; [|apply Hlit].
  destruct (nth_error (format_fragments_ info) _) as [fragment|]; [|exact I].
  destruct (format_index_ (indices a) <? format_pos_ fragment)%nat; [apply Hlit|].
  apply lifts_and_then.
  - apply write_conversion_lifts. exact Hroom.
  - apply write_conversion_room. exact Hroom.
  - exact Hfull.
  - exact Hagain.
Qed.

Lemma write_body_lifts (fuel : nat) (a : LogAssembler) :
  room_of small a -> lifts (write_body fuel a) (write_body fuel (resized a)).
Proof.
  revert a. induction fuel as [|fuel IH]; intros a Hroom; cbn [log_info.write_body];
    apply write_body_iteration_lifts; auto.
  - intros; exact I.
  - intros; exact I.
  - intros a0 H0. apply write_body_full. exact H0.
Qed.

Lemma write_phase_lifts (a : LogAssembler) (done : bool) (src : list ascii) (len : Z)
    (mark : LogAssembler -> LogAssembler) :
  room_of small a -> 0 <= len ->
  (forall a2, mark (resized a2) = resized (mark a2)) ->
  lifts
    (if negb done
     then write_or_return a src len (fun a0 _ => Continue (mark a0))
     else Continue a)
    (if negb done
     then write_or_return (resized a) src len (fun a0 _ => Continue (mark a0))
     else Continue (resized a)).
Proof.
  intros Hroom Hlen Hmark. destruct done; cbn [negb]; [cbn; reflexivity|].
  apply write_or_return_lifts; [assumption | assumption |].
  intros a2 tmp _. cbn. intros _. rewrite Hmark. reflexivity.
Qed.

Lemma timestamp_lifts (a : LogAssembler) :
  room_of small a -> lifts (write_timestamp a) (write_timestamp (resized a)).
Proof.
  intros Hroom.
  exact (write_phase_lifts a (is_timestamp_writed_ (flags a)) (timestamp_str_ a)
           (size_t_of (Z.of_nat (List.length (timestamp_str_ a)) - 1)) mark_timestamp
           Hroom (size_t_of_nonneg _) (fun _ => eq_refl)).
Qed.

Lemma filename_and_linenum_lifts (a : LogAssembler) :
  room_of small a ->
  lifts (write_filename_and_linenum a) (write_filename_and_linenum (resized a)).
Proof.
  intros Hroom.
  exact (write_phase_lifts a (is_filename_and_linenum_writed_ (flags a))
           (filename_and_linenum_ a) (Z.of_nat (List.length (filename_and_linenum_ a)))
           mark_filename_and_linenum Hroom (Nat2Z.is_nonneg _) (fun _ => eq_refl)).
Qed.

Lemma severity_lifts (a : LogAssembler) :
  room_of small a -> lifts (write_severity a) (write_severity (resized a)).
Proof.
  intros Hroom. unfold write_severity.
  change (flags (resized a)) with (flags a).
  change (static_log_info_ (resized a)) with (static_log_info_ a).
  destruct (is_severity_writed_ (flags a)); cbn [negb]; [cbn; reflexivity|].
  destruct (static_log_info_ a) as [info|]; [|exact I].
  destruct (nth_error severity_str _) as [str|]; [|exact I].
  exact (write_phase_lifts a false str (Z.of_nat (List.length str)) mark_severity
           Hroom (Nat2Z.is_nonneg _) (fun _ => eq_refl)).
Qed.

Lemma producer_id_lifts (a : LogAssembler) :
  room_of small a -> lifts (write_producer_id a) (write_producer_id (resized a)).
Proof.
  intros Hroom.
  exact (write_phase_lifts a (is_producer_id_writed_ (flags a)) (producer_id_ a)
           (Z.of_nat (List.length (producer_id_ a))) mark_producer_id
           Hroom (Nat2Z.is_nonneg _) (fun _ => eq_refl)).
Qed.

Lemma end_of_log_lifts (a : LogAssembler) :
  room_of small a -> lifts (write_end_of_log a) (write_end_of_log (resized a)).
Proof.
  intros Hroom.
  exact (write_phase_lifts a (is_end_of_log_writed_ (flags a)) end_of_log_
           (Z.of_nat (List.length end_of_log_)) mark_end_of_log
           Hroom (Nat2Z.is_nonneg _) (fun _ => eq_refl)).
Qed.

Lemma severity_full (a : LogAssembler) : full a -> flow_keeps full (write_severity a).
Proof.
  intros Hf. unfold write_severity.
  destruct (is_severity_writed_ (flags a)); cbn [negb]; [exact Hf|].
  destruct (static_log_info_ a); [|exact I].
  destruct (nth_error severity_str _); [|exact I].
  apply write_or_return_full. exact Hf.
Qed.

Lemma severity_room (a : LogAssembler) :
  room_of small a -> flow_keeps (room_of small) (write_severity a).
Proof.
  intros H. unfold write_severity.
  destruct (is_severity_writed_ (flags a)); cbn [negb]; [exact H|].
  destruct (static_log_info_ a); [|exact I].
  destruct (nth_error severity_str _); [|exact I].
  apply (write_phase_room small a false);
    [assumption | lia | intros; split; reflexivity].
Qed.

(** A [write] that ends with the full flag clear does the same in the
    larger buffer. *)
Lemma write_resized (fuel : nat) (a a' : LogAssembler) (n : Z) :
  room_of small a ->
  write fuel a = inr (a', n) ->
  is_full_ (output a') = false ->
  write fuel (resized a) = inr (resized a', n).
Proof.
  intros Hroom. unfold log_info.write.
  change (is_full_ (output (resized a))) with (is_full_ (output a)).
  destruct (is_full_ (output a)) eqn:Ef.
  { intros H Hn. inversion H; subst. congruence. }
  change (set_bytes_last_writed (resized a) 0)
    with (resized (set_bytes_last_writed a 0)).
  set (a0 := set_bytes_last_writed a 0).
  assert (H0 : room_of small a0).
  { destruct Hroom as [R S]. split; [|exact S].
    apply (has_room_same_counts a); [assumption | split; reflexivity]. }
  clearbody a0.
  set (k4 := fun a => and_then (write_body fuel a) write_end_of_log).
  set (k3 := fun a => and_then (write_producer_id a) k4).
  set (k2 := fun a => and_then (write_severity a) k3).
  set (k1 := fun a => and_then (write_filename_and_linenum a) k2).
  assert (F5 : forall x, full x -> flow_keeps full (write_end_of_log x))
    by (intros x Hx; apply write_phase_full; exact Hx).
  assert (F4 : forall x, full x -> flow_keeps full (k4 x))
    by (intros x Hx; apply flow_keeps_and_then; [apply write_body_full; exact Hx | exact F5]).
  assert (F3 : forall x, full x -> flow_keeps full (k3 x))
    by (intros x Hx; apply flow_keeps_and_then; [apply write_phase_full; exact Hx | exact F4]).
  assert (F2 : forall x, full x -> flow_keeps full (k2 x))
    by (intros x Hx; apply flow_keeps_and_then; [apply severity_full; exact Hx | exact F3]).
  assert (F1 : forall x, full x -> flow_keeps full (k1 x))
    by (intros x Hx; apply flow_keeps_and_then; [apply write_phase_full; exact Hx | exact F2]).
  assert (L4 : forall x, room_of small x -> lifts (k4 x) (k4 (resized x))).
  { intros x Hx. apply lifts_and_then;
      [apply write_body_lifts; exact Hx | apply write_body_room; exact Hx
      | exact F5 | exact end_of_log_lifts]. }
  assert (L3 : forall x, room_of small x -> lifts (k3 x) (k3 (resized x))).
  { intros x Hx. apply lifts_and_then;
      [apply producer_id_lifts; exact Hx
      | apply write_phase_room; [assumption | lia | intros; split; reflexivity]
      | exact F4 | exact L4]. }
  assert (L2 : forall x, room_of small x -> lifts (k2 x) (k2 (resized x))).
  { intros x Hx. apply lifts_and_then;
      [apply severity_lifts; exact Hx | apply severity_room; exact Hx
      | exact F3 | exact L3]. }
  assert (L1 : forall x, room_of small x -> lifts (k1 x) (k1 (resized x))).
  { intros x Hx. apply lifts_and_then;
      [apply filename_and_linenum_lifts; exact Hx
      | apply write_phase_room; [assumption | lia | intros; split; reflexivity]
      | exact F2 | exact L2]. }
  assert (L0 : lifts (and_then (write_timestamp a0) k1)
                     (and_then (write_timestamp (resized a0)) k1)).
  { apply lifts_and_then;
      [apply timestamp_lifts; exact H0
      | apply write_phase_room;
          [assumption | apply size_t_of_nonneg | intros; split; reflexivity]
      | exact F1 | exact L1]. }
  destruct (and_then (write_timestamp a0) k1) as [x|x|]; cbn in L0;
    intros H Hn; inversion H; subst; rewrite (L0 Hn); reflexivity.
Qed.

End LargerBuffer.

(** A record assembled completely into a buffer of [small] bytes is
    assembled to the same bytes in every larger buffer. *)
Lemma write_in_larger_buffer (small large : Z) (fuel : nat)
    (static_info : StaticLogInfo) (dynamic_info : DynamicLogInfo) (producer_id : Z)
    (a' : LogAssembler) (n : Z) :
  0 < small <= large -> large < 2 ^ 64 ->
  write fuel
    (loadLogInfo (setBuffer LogAssembler_new small) static_info dynamic_info
       producer_id) = inr (a', n) ->
  isBufferFull a' = false ->
  write fuel
    (loadLogInfo (setBuffer LogAssembler_new large) static_info dynamic_info
       producer_id) = inr (resized large a', n).
Proof.
  intros Hsmall Hlarge Hw Hn.
  apply (write_resized small large ltac:(lia)) in Hw.
  - exact Hw.
  - split; [|reflexivity]. unfold has_room. cbn. lia.
  - exact Hn.
Qed.

Import examples.

(** More fuel changes nothing once the loop has come to its end. *)
Lemma write_body_iteration_more_fuel (again1 again2 : LogAssembler -> flow)
    (a : LogAssembler) :
  (forall a0, again1 a0 <> Aborted FuelExhausted -> again2 a0 = again1 a0) ->
  write_body_iteration printf_render again1 a <> Aborted FuelExhausted ->
  write_body_iteration printf_render again2 a =
  write_body_iteration printf_render again1 a.
Proof.
  intros Hagain. unfold write_body_iteration.
  destruct (static_log_info_ a) as [info|]; [|reflexivity].
  destruct (dynamic_log_info_ a) as [dynamic_info|]; [|reflexivity].
  destruct (format_index_ (indices a) <? format_len_ info)%nat; [|reflexivity].
  assert (Hlit : forall src len,
             write_or_return a src len
               (fun a0 tmp => again1 (add_format_index a0 (Z.to_nat tmp)))
             <> Aborted FuelExhausted ->
             write_or_return a src len
               (fun a0 tmp => again2 (add_format_index a0 (Z.to_nat tmp))) =
             write_or_return a src len
               (fun a0 tmp => again1 (add_format_index a0 (Z.to_nat tmp)))).
  { intros src len. unfold write_or_return.
    destruct (tryToWriteAStringToBuffer a src len) as [a1 tmp].
    destruct (tmp =? 0); [reflexivity | apply Hagain]. }
  destruct (conversion_index_ (indices a) <? num_conversions_ info)%nat; [|apply Hlit].
  destruct (nth_error (format_fragments_ info) _) as [fragment|]; [|reflexivity].
  destruct (format_index_ (indices a) <? format_pos_ fragment)%nat; [apply Hlit|].
  destruct (write_conversion info (arg_data dynamic_info) fragment a);
    cbn [and_then]; [apply Hagain | reflexivity | reflexivity].
Qed.

Lemma write_body_more_fuel (fuel : nat) (a : LogAssembler) :
  write_body fuel a <> Aborted FuelExhausted ->
  write_body (S fuel) a = write_body fuel a.
Proof.
  revert a. induction fuel as [|fuel IH]; intros a Hne.
  - cbn [log_info.write_body] in *.
    apply write_body_iteration_more_fuel; [|exact Hne].
    intros a0 H0. contradiction H0. reflexivity.
  - change (write_body_iteration printf_render (write_body (S fuel)) a =
            write_body_iteration printf_render (write_body fuel) a).
    change (write_body_iteration printf_render (write_body fuel) a <>
            Aborted FuelExhausted) in Hne.
    apply write_body_iteration_more_fuel; [exact IH | exact Hne].
Qed.

Lemma write_more_fuel (fuel more : nat) (a a' : LogAssembler) (n : Z) :
  write fuel a = inr (a', n) -> write (fuel + more) a = inr (a', n).
Proof.
  intros H. induction more as [|more IH]; [rewrite Nat.add_0_r; exact H|].
  rewrite Nat.add_succ_r. rewrite <- IH. unfold log_info.write in *.
  destruct (is_full_ (output a)); [reflexivity|].
  destruct (write_timestamp (set_bytes_last_writed a 0)) as [a1| |];
    cbn [and_then] in *; [|reflexivity|reflexivity].
  destruct (write_filename_and_linenum a1) as [a2| |];
    cbn [and_then] in *; [|reflexivity|reflexivity].
  destruct (write_severity a2) as [a3| |];
    cbn [and_then] in *; [|reflexivity|reflexivity].
  destruct (write_producer_id a3) as [a4| |];
    cbn [and_then] in *; [|reflexivity|reflexivity].
  rewrite write_body_more_fuel; [reflexivity|].
  intros Hab. rewrite Hab in IH. cbn [and_then] in IH. discriminate IH.
Qed.




End AssemblerFacts.

(** ** The examples, run with the stand-ins for the C library *)

Section ConcreteRuns.

Import log_info examples libc.

Local Abbreviation utc := strftime_utc_1700000000.
Local Abbreviation reference_write := (log_info.write printf_reference).



Lemma assembler_never_fills_buffer_witness :
  exists a,
    written_once printf_reference 3 (loaded utc 64 hello_world) = Some a /\
    installed printf_reference utc a /\
    (writed_count_ (output a) < buffer_size_ (output a) /\
     0 < getFreeBytes a /\
     (forall src len a1 tmp,
         tryToWriteAStringToBuffer a src len = (a1, tmp) ->
         (tmp <> 0 -> tmp = len /\ len < getFreeBytes a) /\
         (len = getFreeBytes a -> tmp = 0 /\ is_full_ (output a1) = true)) /\
     (forall fmt width precision arg a1 tmp,
         tryToWriteArgToBuffer printf_reference a fmt width precision arg = (a1, tmp) ->
         (tmp <> 0 -> tmp < getFreeBytes a) /\
         (fst (snprintf printf_reference (scratch (output a)) (getFreeBytes a) fmt
                 (snprintf_args width precision arg)) = getFreeBytes a ->
          tmp = 0 /\ is_full_ (output a1) = true))).
Proof.
  assert (Hcall : exists s d, hello_world = Return (s, d)) by (vm_compute; eauto).
  destruct Hcall as (s & d & Hcall). rewrite Hcall.
  vm_compute in Hcall. inversion Hcall; subst s d; clear Hcall.
  unfold written_once, loaded.
  match goal with
  | |- context [log_info.write ?r ?fuel ?a0] =>
      assert (Hinst0 : installed r utc a0)
        by (apply installed_loadLogInfo, installed_setBuffer; lia);
      let v := eval vm_compute in (log_info.write r fuel a0) in
      assert (Ew : log_info.write r fuel a0 = v) by (vm_compute; reflexivity)
  end.
  rewrite Ew. eexists. split; [reflexivity|].
  match type of Ew with
  | _ = inr (?a, ?n) =>
      assert (Hinst : installed printf_reference utc a)
        by (eapply installed_write; [exact Hinst0 | exact Ew])
  end.
  split; [exact Hinst|].
  apply (assembler_never_fills_buffer printf_reference utc _ Hinst).
Defined.

(** Once the full flag is set, installing a buffer does not clear it and
    [write] returns at its first statement. *)
Lemma write_after_setBuffer_when_full
    (render : list ascii -> list PrintfArg -> option (list ascii))
    (fuel : nat) (a : LogAssembler) (size : Z) :
  isBufferFull a = true ->
  log_info.write render fuel (setBuffer a size) = inr (setBuffer a size, 0).
Proof.
  unfold isBufferFull. intros Hfull. unfold log_info.write, setBuffer.
  cbn [output with_output is_full_]. rewrite Hfull. reflexivity.
Qed.

(** A copy either writes nothing and changes neither the written bytes,
    the phase flags nor the positions, or puts all its [len] bytes, which
    [finishWriting] then counts as written. *)
Lemma tryToWriteAStringToBuffer_atomic (a : LogAssembler) (src : list ascii) (len : Z)
    (a1 : LogAssembler) (tmp : Z) :
  tryToWriteAStringToBuffer a src len = (a1, tmp) ->
  tmp = 0 /\ written (output a1) = written (output a) /\
    log_info.flags a1 = log_info.flags a /\ indices a1 = indices a \/
  tmp = len /\ len < getFreeBytes a /\
    written (output (finishWriting a1 tmp)) =
      written (output a) ++ firstn (Z.to_nat len) src.
Proof.
  unfold tryToWriteAStringToBuffer. intros H.
  destruct (is_full_ (output a)).
  { inversion H; subst. left. repeat split; reflexivity. }
  destruct (Z.geb_spec len (getFreeBytes a)).
  { inversion H; subst. left. repeat split; reflexivity. }
  inversion H; subst. right. split; [reflexivity|]. split; [assumption|].
  unfold finishWriting, set_scratch. cbn [output with_output written scratch].
  rewrite firstn_firstn, Nat.min_id. reflexivity.
Qed.

(** A phase of [write] that returns early has written nothing and has left
    the phase flags as they were. *)
Lemma write_or_return_atomic (a : LogAssembler) (src : list ascii) (len : Z)
    (mark : LogAssembler -> LogAssembler) (a' : LogAssembler) :
  write_or_return a src len (fun a _ => Continue (mark a)) = Returned a' ->
  written (output a') = written (output a) /\
  log_info.flags a' = log_info.flags a /\
  indices a' = indices a.
Proof.
  unfold write_or_return. intros H.
  destruct (tryToWriteAStringToBuffer a src len) as [a1 tmp] eqn:E.
  destruct (Z.eqb_spec tmp 0) as [Htmp|Htmp]; [|discriminate].
  inversion H; subst a1.
  destruct (tryToWriteAStringToBuffer_atomic _ _ _ _ _ E) as [(_ & Hw & Hf & Hi)|(Hl & _)].
  - repeat split; assumption.
  - unfold tryToWriteAStringToBuffer in E.
    destruct (is_full_ (output a)); [inversion E; repeat split; reflexivity|].
    destruct (len >=? getFreeBytes a); inversion E; repeat split; reflexivity.
Qed.

(** The phases of [write] around the body. *)
Definition phases : list (LogAssembler -> flow) :=
  [write_timestamp; write_filename_and_linenum; write_severity; write_producer_id;
   write_end_of_log].

Lemma phases_atomic (phase : LogAssembler -> flow) (a a' : LogAssembler) :
  In phase phases ->
  phase a = Returned a' ->
  written (output a') = written (output a) /\
  log_info.flags a' = log_info.flags a /\
  indices a' = indices a.
Proof.
  unfold phases. cbn [In].
  intros [<-|[<-|[<-|[<-|[<-|[]]]]]];
    unfold write_timestamp, write_filename_and_linenum, write_severity,
      write_producer_id, write_end_of_log; intros H.
  - destruct (negb _); [|discriminate]. exact (write_or_return_atomic _ _ _ _ _ H).
  - destruct (negb _); [|discriminate]. exact (write_or_return_atomic _ _ _ _ _ H).
  - destruct (negb _); [|discriminate].
    destruct (static_log_info_ a); [|discriminate].
    destruct (nth_error _ _); [|discriminate].
    exact (write_or_return_atomic _ _ _ _ _ H).
  - destruct (negb _); [|discriminate]. exact (write_or_return_atomic _ _ _ _ _ H).
  - destruct (negb _); [|discriminate]. exact (write_or_return_atomic _ _ _ _ _ H).
Qed.

(** An expansion that returns early has restored the three positions. *)
Lemma write_conversion_rollback
    (render : list ascii -> list PrintfArg -> option (list ascii))
    (info : StaticLogInfo) (data : list ascii) (fragment : FormatFragment)
    (a a' : LogAssembler) :
  write_conversion render info data fragment a = Returned a' ->
  conversion_index_ (indices a') = conversion_index_ (indices a) /\
  parameter_index_ (indices a') = parameter_index_ (indices a) /\
  args_read_pos_ (indices a') = args_read_pos_ (indices a).
Proof.
  unfold write_conversion. intros H.
  destruct (load_dynamic info data DYNAMIC_WIDTH a) as [?|[a1 width]]; [discriminate|].
  destruct (load_dynamic info data DYNAMIC_PRECISION a1) as [?|[a2 precision]];
    [discriminate|].
  destruct (nth_error (param_sizes_ info) (parameter_index_ (indices a2)));
    [|discriminate].
  destruct (write_argument _ _ _ _ _ _ _ _) as [?|[[a3 tmp] arg_size]]; [discriminate|].
  destruct ((tmp =? 0) && (arg_size >? 0)).
  - inversion H. repeat split; reflexivity.
  - destruct (nth_error _ _); discriminate.
Qed.

(** C4 on the code.  In general: (1) an expansion that makes [write] return
    has restored [conversion_index_], [parameter_index_] and
    [args_read_pos_]; (2) a prefix phase or the end of the line that makes
    [write] return has written nothing and left the phase flags as they were;
    (3) a copy writes all its bytes or none.  The rest does not hold:
    (4) for a record whose timestamp does not fit the buffer, nothing is
    written, the full flag is set and the phase flag stays false, but
    [setBuffer] with a fresh buffer leaves the full flag set, so the next
    [write] returns 0 and writes nothing, and the record stays pending;
    (5) that holds for every state in which the flag is set.  (6) A string
    argument of three bytes whose expansion does not fit: the full flag is set
    and the three positions are restored.  (7) An empty string argument whose
    expansion [%5s] does not fit: the full flag is set but [write] does not
    take the returning branch of (1), since the stored length is 0; the
    positions are not restored and the conversion is passed over. *)
Theorem rollback_and_resumption :
  (forall render info data fragment a a',
      write_conversion render info data fragment a = Returned a' ->
      conversion_index_ (indices a') = conversion_index_ (indices a) /\
      parameter_index_ (indices a') = parameter_index_ (indices a) /\
      args_read_pos_ (indices a') = args_read_pos_ (indices a)) /\
  (forall phase a a',
      In phase phases ->
      phase a = Returned a' ->
      written (output a') = written (output a) /\
      log_info.flags a' = log_info.flags a /\
      indices a' = indices a) /\
  (forall a src len a1 tmp,
      tryToWriteAStringToBuffer a src len = (a1, tmp) ->
      tmp = 0 /\ written (output a1) = written (output a) /\
        log_info.flags a1 = log_info.flags a /\ indices a1 = indices a \/
      tmp = len /\ len < getFreeBytes a /\
        written (output (finishWriting a1 tmp)) =
          written (output a) ++ firstn (Z.to_nat len) src) /\
  (exists a a1,
      loaded utc 10 hello_world = Some a /\
      reference_write 3 a = inr (a1, 0) /\
      written (output a1) = [] /\
      isBufferFull a1 = true /\
      is_timestamp_writed_ (log_info.flags a1) = false /\
      let a2 := setBuffer a1 config.DOUBLE_BUFFER_SIZE in
      reference_write 3 a2 = inr (a2, 0) /\
      written (output a2) = [] /\
      hasRemainingData a2 = true) /\
  (forall render fuel a size,
      isBufferFull a = true ->
      log_info.write render fuel (setBuffer a size) = inr (setBuffer a size, 0)) /\
  (exists b b1 n,
      loaded utc 46 (val_abcdef 4096) = Some b /\
      reference_write 3 b = inr (b1, n) /\
      isBufferFull b1 = true /\
      conversion_index_ (indices b1) = conversion_index_ (indices b) /\
      parameter_index_ (indices b1) = parameter_index_ (indices b) /\
      args_read_pos_ (indices b1) = args_read_pos_ (indices b)) /\
  (exists c c1 n,
      loaded utc 46 (padded_empty 4096) = Some c /\
      reference_write 3 c = inr (c1, n) /\
      isBufferFull c1 = true /\
      indices c = mkIndices 0 0 0 0 /\
      indices c1 = mkIndices 1 1 3 9).
Proof.
  split; [exact write_conversion_rollback|].
  split; [exact phases_atomic|].
  split; [exact tryToWriteAStringToBuffer_atomic|].
  split.
  { eexists. eexists.
    split; [vm_compute; reflexivity|].
    split; [vm_compute; reflexivity|].
    split; [reflexivity|]. split; [reflexivity|]. split; [reflexivity|].
    cbv zeta.
    split; [apply write_after_setBuffer_when_full; reflexivity|].
    split; reflexivity. }
  split; [exact write_after_setBuffer_when_full|].
  split.
  { eexists. eexists. eexists.
    split; [vm_compute; reflexivity|].
    split; [vm_compute; reflexivity|].
    split; [reflexivity|]. split; [reflexivity|]. split; reflexivity. }
  eexists. eexists. eexists.
  split; [vm_compute; reflexivity|].
  split; [vm_compute; reflexivity|].
  split; [reflexivity|]. split; reflexivity.
Qed.

(** C7 on the code.  A [char*] argument in a string position is stored as
    the eight bytes of its effective length (the length of the string, cut to
    the static precision of the format or to the value of the preceding
    dynamic precision), that many bytes of the string and one NUL which the
    length does not count.  For [OLOG(INFO, "val=%.*s|", 3, "abcdef")] the
    record holds the [int] 3 and then the length 3, [abc] and NUL; the body
    assembled from it, into a buffer of 55 bytes or more, is [val=abc|]
    followed by the NUL that ends the format array, since [Log] passes the
    size of that array as [format_len_]. *)
Theorem string_argument_encoding (address : Z) (str : list ascii) (pre_precision : Z) :
  let strlen := Z.of_nat (List.length str) in
  (forall param_type byte_length,
      param_type = STRING_WITH_NO_PRECISION /\ byte_length = strlen \/
      param_type = STRING_WITH_DYNAMIC_PRECISION /\ 0 <= pre_precision /\
        byte_length = Z.min strlen pre_precision \/
      0 <= param_type < 2 ^ 31 /\ byte_length = Z.min strlen param_type ->
      GetArgSize param_type pre_precision (ArgCharPtr address str) =
        ((Z.to_nat byte_length + sizeof_size_t + 1)%nat, Some byte_length,
         pre_precision) /\
      StoreArgument param_type byte_length (ArgCharPtr address str) =
        le_bytes sizeof_size_t byte_length ++
        firstn (Z.to_nat byte_length) str ++ [NUL] /\
      List.length (firstn (Z.to_nat byte_length) str) = Z.to_nat byte_length) /\
  exists static_info dynamic_info,
    val_abcdef address = Return (static_info, dynamic_info) /\
    arg_data dynamic_info =
      le_bytes 4 3 ++ le_bytes sizeof_size_t 3 ++ text "abc" ++ [NUL] /\
    forall size,
      55 <= size < 2 ^ 64 ->
      exists a a' n,
        loaded utc size (val_abcdef address) = Some a /\
        reference_write 3 a = inr (a', n) /\
        hasRemainingData a' = false /\
        isBufferFull a' = false /\
        written (output a') =
          utc 1700000000 ++ text "000 a.cc:10 [INFO][0]: " ++
          text "val=abc|" ++ [NUL] ++ CRLF.
Proof.
  cbv zeta. split.
  - intros param_type byte_length Hcase.
    assert (Hlen : 0 <= Z.of_nat (List.length str)) by lia.
    assert (H : (param_type <=? NON_STRING) = false /\
                (if (param_type >=? STRING) &&
                    (Z.of_nat (List.length str) >? size_t_of param_type)
                 then size_t_of param_type
                 else if (param_type =? STRING_WITH_DYNAMIC_PRECISION) &&
                         (Z.of_nat (List.length str) >? pre_precision)
                 then pre_precision
                 else Z.of_nat (List.length str)) = byte_length /\
                0 <= byte_length <= Z.of_nat (List.length str)).
    { unfold NON_STRING, STRING, STRING_WITH_DYNAMIC_PRECISION,
        STRING_WITH_NO_PRECISION in *.
      destruct Hcase as [[Ht Hn]|[[Ht [Hp Hn]]|[Ht Hn]]]; subst.
      - cbn. split; [reflexivity|]. split; [reflexivity | lia].
      - change (-2 <=? -3) with false. change (-2 >=? 0) with false.
        change (-2 =? -2) with true. cbn [andb].
        split; [reflexivity|].
        destruct (Z.gtb_spec (Z.of_nat (List.length str)) pre_precision);
          split; lia.
      - assert (Hs : size_t_of param_type = param_type)
          by (unfold size_t_of; apply Z.mod_small; lia).
        rewrite Hs.
        destruct (Z.leb_spec param_type (-3)) as [?|_]; [lia|].
        destruct (Z.geb_spec param_type 0) as [_|?]; [|lia].
        split; [reflexivity|]. cbn [andb].
        destruct (Z.eqb_spec param_type (-2)) as [?|_]; [lia|]. cbn [andb].
        destruct (Z.gtb_spec (Z.of_nat (List.length str)) param_type);
          split; lia. }
    destruct H as (Hns & Hsize & Hrange).
    unfold GetArgSize, StoreArgument. rewrite Hns, Hsize.
    split; [reflexivity|]. split; [reflexivity|].
    rewrite length_firstn. lia.
  - assert (Hcall : exists s d, val_abcdef address = Return (s, d))
      by (vm_compute; eauto).
    destruct Hcall as (s & d & Hcall). exists s, d. rewrite Hcall.
    vm_compute in Hcall. inversion Hcall; subst s d; clear Hcall.
    split; [reflexivity|]. split; [reflexivity|].
    intros size Hsize. unfold loaded.
    match goal with
    | |- context [log_info.loadLogInfo utc (setBuffer LogAssembler_new size) ?s ?d 0] =>
        assert (Hsmall : exists a' n,
                   reference_write 3
                     (log_info.loadLogInfo utc (setBuffer LogAssembler_new 55) s d 0) =
                     inr (a', n) /\
                   hasRemainingData a' = false /\
                   isBufferFull a' = false /\
                   written (output a') =
                     utc 1700000000 ++ text "000 a.cc:10 [INFO][0]: " ++
                     text "val=abc|" ++ [NUL] ++ CRLF)
          by (eexists; eexists; split; [vm_compute; reflexivity|];
              split; [reflexivity|]; split; reflexivity)
    end.
    destruct Hsmall as (a' & n & Hw & Hrem & Hfull & Hout).
    eexists. exists (resized size a'), n.
    split; [reflexivity|].
    split; [apply (write_in_larger_buffer printf_reference utc 55 size);
            [lia | lia | exact Hw | exact Hfull]|].
    split; [exact Hrem|]. split; [exact Hfull | exact Hout].
Qed.

End ConcreteRuns.

(** ** The analysis of format strings *)

Section FormatAnalysisFacts.

Import log_info grammar.

Local Open Scope nat_scope.

Lemma span_app (p : ascii -> bool) (fmt : list ascii) :
  fst (span p fmt) ++ snd (span p fmt) = fmt.
Proof.
  induction fmt as [|c fmt IH]; [reflexivity|].
  cbn [span]. destruct (p c); cbn; [rewrite IH|]; reflexivity.
Qed.

Lemma span_Forall (p : ascii -> bool) (fmt : list ascii) :
  Forall (fun c => p c = true) (fst (span p fmt)).
Proof.
  induction fmt as [|c fmt IH]; [constructor|].
  cbn [span]. destruct (p c) eqn:E; cbn; [constructor; assumption | constructor].
Qed.

Lemma skip_while_span (p : ascii -> bool) (fmt : list ascii) :
  skip_while p fmt = snd (span p fmt).
Proof.
  induction fmt as [|c fmt IH]; [reflexivity|].
  cbn [skip_while span]. destruct (p c); cbn; [exact IH | reflexivity].
Qed.

Lemma count_while_span (p : ascii -> bool) (fmt : list ascii) (need_size : nat) :
  count_while p fmt need_size =
  (snd (span p fmt), need_size + List.length (fst (span p fmt))).
Proof.
  revert need_size. induction fmt as [|c fmt IH]; intros need_size.
  - cbn. rewrite Nat.add_0_r. reflexivity.
  - cbn [count_while span]. destruct (p c); cbn.
    + rewrite IH. f_equal. lia.
    + rewrite Nat.add_0_r. reflexivity.
Qed.

Lemma pick_while_span (p : ascii -> bool) (fmt : list ascii) (num : nat) :
  pick_while p fmt num =
  if num <? List.length (fst (span p fmt))
  then inl (nth num (fst (span p fmt)) NUL)
  else inr (snd (span p fmt), num - List.length (fst (span p fmt))).
Proof.
  revert num. induction fmt as [|c fmt IH]; intros num.
  - cbn. rewrite Nat.sub_0_r. reflexivity.
  - cbn [pick_while span]. destruct (p c); cbn [fst snd List.length].
    + destruct num as [|num]; [reflexivity|].
      cbn [Nat.eqb]. rewrite IH. cbn [Nat.sub]. rewrite Nat.sub_0_r.
      change (S num <? S (List.length (fst (span p fmt))))
        with (num <? List.length (fst (span p fmt))).
      destruct (num <? List.length (fst (span p fmt))); reflexivity.
    + cbn. rewrite Nat.sub_0_r. reflexivity.
Qed.

Lemma IsDigit_value (c : ascii) :
  IsDigit c = true ->
  (0 <= Z.of_nat (nat_of_ascii c) - Z.of_nat (nat_of_ascii "0"%char) <= 9)%Z.
Proof.
  unfold IsDigit. intros H. apply andb_prop in H. destruct H as [H1 H2].
  apply Nat.leb_le in H1, H2. cbn in H1, H2 |- *. lia.
Qed.

Lemma digits_grow (digits : list ascii) (v : Z) :
  Forall (fun c => IsDigit c = true) digits -> (0 <= v)%Z ->
  (v <= fold_left
          (fun v c => (v * 10 + (Z.of_nat (nat_of_ascii c) -
                                 Z.of_nat (nat_of_ascii "0"%char)))%Z)
          digits v)%Z.
Proof.
  intros H. revert v. induction H as [|c digits Hc _ IH]; intros v Hv; [cbn; lia|].
  cbn [fold_left]. pose proof (IsDigit_value c Hc) as Hd.
  etransitivity; [|apply IH]; lia.
Qed.

(** The digits loop reads the digits there are; it overflows exactly when
    their value, taken after [precision], is above [INT_MAX]. *)
Lemma read_precision_span (fmt : list ascii) (precision : Z) :
  (0 <= precision <= INT_MAX)%Z ->
  read_precision fmt precision =
  let value :=
    fold_left
      (fun v c => (v * 10 + (Z.of_nat (nat_of_ascii c) - Z.of_nat (nat_of_ascii "0"%char)))%Z)
      (fst (span IsDigit fmt)) precision in
  if (value <=? INT_MAX)%Z then Return (snd (span IsDigit fmt), value)
  else Throw SignedOverflow.
Proof.
  revert precision. induction fmt as [|c fmt IH]; intros precision Hp.
  - cbn [read_precision span fst snd fold_left]. cbv zeta.
    destruct (Z.leb_spec precision INT_MAX); [reflexivity | lia].
  - cbn [read_precision span]. destruct (IsDigit c) eqn:Hc; cbn [fst snd fold_left].
    + pose proof (IsDigit_value c Hc) as Hd.
      pose proof (span_Forall IsDigit fmt) as Hdigits.
      set (d := (Z.of_nat (nat_of_ascii c) - Z.of_nat (nat_of_ascii "0"%char))%Z) in *.
      pose proof (digits_grow _ (precision * 10 + d) Hdigits ltac:(lia)) as Hgrow.
      cbv zeta. fold d in Hgrow. unfold int_result, INT_MIN in *.
      destruct (Z.leb_spec (- 2 ^ 31) (precision * 10)) as [_|?]; [|lia].
      destruct (Z.leb_spec (precision * 10) INT_MAX) as [H10|H10]; cbn [andb bind].
      * destruct (Z.leb_spec (- 2 ^ 31) (precision * 10 + d)) as [_|?]; [|lia].
        destruct (Z.leb_spec (precision * 10 + d) INT_MAX) as [Hs|Hs]; cbn [andb bind].
        -- rewrite IH by lia. reflexivity.
        -- match goal with |- _ = if (?v <=? _)%Z then _ else _ =>
             destruct (Z.leb_spec v INT_MAX) end; [lia | reflexivity].
      * match goal with |- _ = if (?v <=? _)%Z then _ else _ =>
          destruct (Z.leb_spec v INT_MAX) end; [lia | reflexivity].
    + cbv zeta. destruct (Z.leb_spec precision INT_MAX); [reflexivity | lia].
Qed.

Lemma read_length_span (fmt : list ascii) (f : LengthFlags) :
  fst (read_length fmt f) = snd (span IsLength fmt).
Proof.
  revert f. induction fmt as [|c fmt IH]; intros f; [reflexivity|].
  cbn [read_length span]. destruct (IsLength c); cbn; [apply IH | reflexivity].
Qed.

Lemma skip_width_scan (fmt : list ascii) : skip_width fmt = snd (scan_width fmt).
Proof.
  unfold skip_width, scan_width. destruct (cur fmt =? "*")%char; [reflexivity|].
  apply skip_while_span.
Qed.

Lemma skip_precision_scan (fmt : list ascii) :
  skip_precision fmt = snd (scan_precision fmt).
Proof.
  unfold skip_precision, scan_precision.
  destruct (cur fmt =? ".")%char; [|reflexivity].
  destruct (cur (tl fmt) =? "*")%char; [reflexivity|].
  apply skip_while_span.
Qed.

(** The character under the cursor, when it is not NUL, is the head of
    what is left. *)
Lemma cur_cons (fmt : list ascii) :
  cur fmt <> NUL -> fmt = cur fmt :: tl fmt.
Proof. destruct fmt; cbn; [intros H; contradiction H; reflexivity | reflexivity]. Qed.

Lemma cur_eqb_cons (fmt : list ascii) (c : ascii) :
  c <> NUL -> (cur fmt =? c)%char = true -> fmt = c :: tl fmt.
Proof.
  intros Hc H. apply Ascii.eqb_eq in H. subst c. apply cur_cons. exact Hc.
Qed.

Lemma scan_width_app (fmt : list ascii) :
  fst (scan_width fmt) ++ snd (scan_width fmt) = fmt.
Proof.
  unfold scan_width. destruct (cur fmt =? "*")%char eqn:E.
  - cbn. symmetry. apply cur_eqb_cons; [discriminate | exact E].
  - apply span_app.
Qed.

Lemma scan_precision_app (fmt : list ascii) :
  fst (scan_precision fmt) ++ snd (scan_precision fmt) = fmt.
Proof.
  unfold scan_precision. destruct (cur fmt =? ".")%char eqn:E; [|reflexivity].
  apply cur_eqb_cons in E; [|discriminate].
  destruct (cur (tl fmt) =? "*")%char eqn:E2.
  - apply cur_eqb_cons in E2; [|discriminate]. cbn.
    rewrite <- E2. symmetry. exact E.
  - cbn. rewrite span_app. symmetry. exact E.
Qed.

Lemma IsConversionSpecifier_not_NUL (c : ascii) :
  IsConversionSpecifier c = true -> c <> NUL.
Proof. intros H E. subst c. discriminate H. Qed.

(** A specifier that ends in a conversion character and what follows it
    make up the format from its [%] on. *)
Lemma scan_text (fmt : list ascii) :
  IsConversionSpecifier (conversion (fst (scan fmt))) = true ->
  specifier_text (fst (scan fmt)) ++ snd (scan fmt) = "%"%char :: fmt.
Proof.
  unfold scan, specifier_text. cbn [fst snd flags width precision length_modifiers conversion].
  intros Hconv. apply IsConversionSpecifier_not_NUL in Hconv.
  apply cur_cons in Hconv.
  cbn [app]. f_equal.
  rewrite <- !app_assoc. cbn [app]. rewrite <- Hconv.
  rewrite span_app, scan_precision_app, scan_width_app, span_app. reflexivity.
Qed.

Lemma bind_bind {A B C : Type} (r : result A) (f : A -> result B) (g : B -> result C) :
  bind (bind r f) g = bind r (fun a => bind (f a) g).
Proof. destruct r; reflexivity. Qed.

Lemma bind_ext {A B : Type} (r : result A) (f g : A -> result B) :
  (forall a, f a = g a) -> bind r f = bind r g.
Proof. intros H. destruct r; cbn; [apply H | reflexivity | reflexivity]. Qed.

(** The pieces read from a format put together give the format back. *)
Lemma pieces_loop_unparse (fuel : nat) (fmt : list ascii) (ps : list Piece) :
  pieces_loop fuel fmt = Return ps -> unparse ps = fmt.
Proof.
  revert fmt ps. induction fuel as [|fuel IH]; intros [|c fmt1] ps H;
    cbn [pieces_loop] in H; try discriminate H.
  - inversion H. reflexivity.
  - inversion H. reflexivity.
  - destruct (negb (c =? "%")%char) eqn:Ec.
    { destruct (pieces_loop fuel fmt1) as [ps1| |] eqn:E1; cbn [bind] in H; try discriminate H.
      inversion H; subst ps. unfold unparse. cbn. f_equal. apply IH. exact E1. }
    apply negb_false_iff, Ascii.eqb_eq in Ec. subst c.
    destruct (cur fmt1 =? "%")%char eqn:Ee.
    { destruct (pieces_loop fuel (tl fmt1)) as [ps1| |] eqn:E1; cbn [bind] in H;
        try discriminate H.
      inversion H; subst ps. unfold unparse. cbn. f_equal.
      apply cur_eqb_cons in Ee; [|discriminate]. rewrite Ee. f_equal.
      apply IH. exact E1. }
    destruct (negb (IsConversionSpecifier (conversion (fst (scan fmt1))))) eqn:Ev;
      [discriminate H|].
    apply negb_false_iff in Ev.
    destruct (conversion (fst (scan fmt1)) =? "n")%char; [discriminate H|].
    destruct (pieces_loop fuel (snd (scan fmt1))) as [ps1| |] eqn:E1; cbn [bind] in H;
      try discriminate H.
    inversion H; subst ps. unfold unparse. cbn [map List.concat piece_text].
    change (List.concat (map piece_text ps1)) with (unparse ps1).
    rewrite (IH _ _ E1). apply scan_text. exact Ev.
Qed.

(** [ConversionSpecifiersCount] counts the conversion pieces, and throws
    where the reading throws. *)
Lemma ConversionSpecifiersCount_loop_pieces (fuel : nat) (fmt : list ascii) (count : nat) :
  ConversionSpecifiersCount_loop fuel fmt count =
  bind (pieces_loop fuel fmt)
       (fun ps => Return (count + List.length (specifiers ps))).
Proof.
  revert fmt count. induction fuel as [|fuel IH]; intros [|c fmt1] count;
    cbn [ConversionSpecifiersCount_loop pieces_loop bind];
    rewrite ?Nat.add_0_r; try reflexivity.
  destruct (negb (c =? "%")%char).
  { rewrite IH, bind_bind. apply bind_ext. reflexivity. }
  destruct (cur fmt1 =? "%")%char.
  { rewrite IH, bind_bind. apply bind_ext. reflexivity. }
  rewrite !skip_while_span, skip_width_scan, skip_precision_scan.
  change (cur (snd (span IsLength (snd (scan_precision (snd (scan_width
            (snd (span IsFlag fmt1))))))))) with (conversion (fst (scan fmt1))).
  change (tl (snd (span IsLength (snd (scan_precision (snd (scan_width
            (snd (span IsFlag fmt1))))))))) with (snd (scan fmt1)).
  destruct (negb (IsConversionSpecifier (conversion (fst (scan fmt1)))));
    [reflexivity|].
  destruct (conversion (fst (scan fmt1)) =? "n")%char; [reflexivity|].
  rewrite IH, bind_bind. apply bind_ext. intros ps. cbn. f_equal. lia.
Qed.

Lemma storage_of_cons_length (s : Specifier) (ss : list Specifier) :
  List.length (storage_of (s :: ss)) =
  S (List.length (flags s) + List.length (width s) + List.length (precision s) +
     List.length (length_modifiers s) + 1 + 1 + List.length (storage_of ss)).
Proof.
  unfold storage_of, specifier_text. cbn [map List.concat List.length app].
  rewrite !length_app. cbn [List.length]. lia.
Qed.

(** [SizeConversionStorageNeeds] is the length of the storage for the
    conversion pieces, and throws where the reading throws. *)
Lemma SizeConversionStorageNeeds_loop_pieces (fuel : nat) (fmt : list ascii)
    (need_size count : nat) :
  SizeConversionStorageNeeds_loop fuel fmt need_size count =
  bind (pieces_loop fuel fmt)
       (fun ps => Return (need_size + count + List.length (storage_of (specifiers ps)))).
Proof.
  revert fmt need_size count. induction fuel as [|fuel IH]; intros [|c fmt1] need_size count;
    cbn [SizeConversionStorageNeeds_loop pieces_loop bind];
    try reflexivity; try (cbn; f_equal; lia).
  destruct (negb (c =? "%")%char).
  { rewrite IH, bind_bind. apply bind_ext. reflexivity. }
  destruct (cur fmt1 =? "%")%char.
  { rewrite IH, bind_bind. apply bind_ext. reflexivity. }
  rewrite count_while_span.
  set (fmt2 := snd (span IsFlag fmt1)).
  assert (Hw : (if (cur fmt2 =? "*")%char
                then (tl fmt2, S (S need_size + List.length (fst (span IsFlag fmt1))))
                else count_while IsDigit fmt2
                       (S need_size + List.length (fst (span IsFlag fmt1)))) =
               (snd (scan_width fmt2),
                S need_size + List.length (fst (span IsFlag fmt1)) +
                List.length (fst (scan_width fmt2)))).
  { unfold scan_width. destruct (cur fmt2 =? "*")%char.
    - cbn. f_equal. lia.
    - apply count_while_span. }
  rewrite Hw. clear Hw.
  set (fmt3 := snd (scan_width fmt2)).
  set (n3 := S need_size + List.length (fst (span IsFlag fmt1)) +
             List.length (fst (scan_width fmt2))).
  assert (Hp : (if (cur fmt3 =? ".")%char
                then if (cur (tl fmt3) =? "*")%char
                     then (tl (tl fmt3), S (S n3))
                     else count_while IsDigit (tl fmt3) (S n3)
                else (fmt3, n3)) =
               (snd (scan_precision fmt3),
                n3 + List.length (fst (scan_precision fmt3)))).
  { unfold scan_precision. destruct (cur fmt3 =? ".")%char.
    - destruct (cur (tl fmt3) =? "*")%char.
      + cbn. f_equal. lia.
      + rewrite count_while_span. cbn. f_equal. lia.
    - cbn. f_equal. lia. }
  rewrite Hp. clear Hp.
  rewrite count_while_span.
  change (cur (snd (span IsLength (snd (scan_precision fmt3)))))
    with (conversion (fst (scan fmt1))).
  change (tl (snd (span IsLength (snd (scan_precision fmt3)))))
    with (snd (scan fmt1)).
  destruct (negb (IsConversionSpecifier (conversion (fst (scan fmt1)))));
    [reflexivity|].
  destruct (conversion (fst (scan fmt1)) =? "n")%char; [reflexivity|].
  rewrite IH, bind_bind. apply bind_ext. intros ps.
  cbn [bind specifiers]. rewrite storage_of_cons_length.
  unfold scan. cbn [fst flags width precision length_modifiers].
  subst n3 fmt3 fmt2. f_equal. lia.
Qed.

Lemma nth_app_cases (n : nat) (l l' : list ascii) :
  nth n (l ++ l') NUL =
  if n <? List.length l then nth n l NUL else nth (n - List.length l) l' NUL.
Proof.
  destruct (Nat.ltb_spec n (List.length l)).
  - apply app_nth1. assumption.
  - apply app_nth2. assumption.
Qed.

(** The width and precision blocks of [GetConversionSpecifierChar] pick
    from the width and the precision of the specifier. *)
Lemma pick_width (fmt : list ascii) (num : nat) :
  (if (cur fmt =? "*")%char
   then if num =? 0 then inl "*"%char else inr (tl fmt, num - 1)
   else pick_while IsDigit fmt num) =
  if num <? List.length (fst (scan_width fmt))
  then inl (nth num (fst (scan_width fmt)) NUL)
  else inr (snd (scan_width fmt), num - List.length (fst (scan_width fmt))).
Proof.
  unfold scan_width. destruct (cur fmt =? "*")%char.
  - destruct num; reflexivity.
  - apply pick_while_span.
Qed.

Lemma pick_precision (fmt : list ascii) (num : nat) :
  (if (cur fmt =? ".")%char
   then if num =? 0 then inl (cur fmt)
        else if (cur (tl fmt) =? "*")%char
             then if num - 1 =? 0 then inl "*"%char
                  else inr (tl (tl fmt), num - 1 - 1)
             else pick_while IsDigit (tl fmt) (num - 1)
   else inr (fmt, num)) =
  if num <? List.length (fst (scan_precision fmt))
  then inl (nth num (fst (scan_precision fmt)) NUL)
  else inr (snd (scan_precision fmt), num - List.length (fst (scan_precision fmt))).
Proof.
  unfold scan_precision. destruct (cur fmt =? ".")%char eqn:E.
  - apply Ascii.eqb_eq in E. rewrite E.
    destruct num as [|num]; [destruct (cur (tl fmt) =? "*")%char; reflexivity|].
    cbn [Nat.eqb Nat.sub]. rewrite Nat.sub_0_r.
    destruct (cur (tl fmt) =? "*")%char.
    + destruct num as [|num]; [reflexivity|]. cbn. rewrite Nat.sub_0_r. reflexivity.
    + rewrite pick_while_span. cbn [fst snd List.length].
      change (S num <? S (List.length (fst (span IsDigit (tl fmt)))))
        with (num <? List.length (fst (span IsDigit (tl fmt)))).
      destruct (num <? List.length (fst (span IsDigit (tl fmt)))); reflexivity.
  - cbn. rewrite Nat.sub_0_r. reflexivity.
Qed.

(** [GetConversionSpecifierChar] reads the storage for the conversion
    pieces at position [num], NUL past its end. *)
Lemma GetConversionSpecifierChar_loop_pieces (fuel : nat) (fmt : list ascii)
    (ps : list Piece) (num : nat) :
  pieces_loop fuel fmt = Return ps ->
  GetConversionSpecifierChar_loop fuel fmt num =
  Return (nth num (storage_of (specifiers ps)) NUL).
Proof.
  revert fmt ps num. induction fuel as [|fuel IH]; intros [|c fmt1] ps num H;
    cbn [pieces_loop] in H; try discriminate H;
    cbn [GetConversionSpecifierChar_loop].
  - inversion H. destruct num; reflexivity.
  - inversion H. destruct num; reflexivity.
  - destruct (negb (c =? "%")%char).
    { destruct (pieces_loop fuel fmt1) as [ps1| |] eqn:E1; cbn [bind] in H;
        try discriminate H.
      inversion H; subst ps. cbn [specifiers]. apply IH. exact E1. }
    destruct (cur fmt1 =? "%")%char.
    { destruct (pieces_loop fuel (tl fmt1)) as [ps1| |] eqn:E1; cbn [bind] in H;
        try discriminate H.
      inversion H; subst ps. cbn [specifiers]. apply IH. exact E1. }
    destruct (negb (IsConversionSpecifier (conversion (fst (scan fmt1))))) eqn:Ev;
      [discriminate H|].
    destruct (conversion (fst (scan fmt1)) =? "n")%char eqn:En; [discriminate H|].
    destruct (pieces_loop fuel (snd (scan fmt1))) as [ps1| |] eqn:E1; cbn [bind] in H;
      try discriminate H.
    inversion H; subst ps. clear H. cbn [specifiers].
    specialize (IH _ _ (num - List.length (specifier_text (fst (scan fmt1))) - 1) E1).
    unfold storage_of. cbn [map List.concat].
    change (List.concat (map (fun s => specifier_text s ++ [NUL]) (specifiers ps1)))
      with (storage_of (specifiers ps1)).
    unfold specifier_text in *. 
    destruct num as [|num]; [reflexivity|].
    cbn [Nat.eqb Nat.sub app nth]. rewrite Nat.sub_0_r.
    rewrite pick_while_span.
    rewrite <- !app_assoc. rewrite nth_app_cases.
    unfold scan in *. cbn [fst snd flags width precision length_modifiers conversion] in *.
    destruct (num <? List.length (fst (span IsFlag fmt1))) eqn:L1; [reflexivity|].
    apply Nat.ltb_ge in L1.
    rewrite pick_width. rewrite nth_app_cases.
    set (fmt2 := snd (span IsFlag fmt1)) in *.
    set (n2 := num - List.length (fst (span IsFlag fmt1))) in *.
    destruct (n2 <? List.length (fst (scan_width fmt2))) eqn:L2; [reflexivity|].
    apply Nat.ltb_ge in L2.
    set (fmt3 := snd (scan_width fmt2)) in *.
    set (n3 := n2 - List.length (fst (scan_width fmt2))) in *.
    rewrite pick_precision. rewrite nth_app_cases.
    fold fmt3.
    destruct (n3 <? List.length (fst (scan_precision fmt3))) eqn:L3; [reflexivity|].
    apply Nat.ltb_ge in L3.
    set (fmt4 := snd (scan_precision fmt3)) in *.
    set (n4 := n3 - List.length (fst (scan_precision fmt3))) in *.
    rewrite pick_while_span. rewrite nth_app_cases.
    destruct (n4 <? List.length (fst (span IsLength fmt4))) eqn:L4; [reflexivity|].
    apply Nat.ltb_ge in L4.
    set (fmt5 := snd (span IsLength fmt4)) in *.
    set (n5 := n4 - List.length (fst (span IsLength fmt4))) in *.
    rewrite Ev, En. cbn [negb].
    assert (Hidx : S num -
                   List.length
                     ("%"%char :: fst (span IsFlag fmt1) ++ fst (scan_width fmt2) ++
                      fst (scan_precision fmt3) ++ fst (span IsLength fmt4) ++
                      [cur fmt5]) - 1 = n5 - 1 - 1).
    { cbn [List.length]. rewrite !length_app. cbn [List.length].
      unfold n5, n4, n3, n2. lia. }
    rewrite Hidx in IH. clear Hidx. clearbody n5.
    destruct n5 as [|[|n6]]; [reflexivity | reflexivity |].
    cbn [Nat.eqb Nat.sub app nth] in *. rewrite Nat.sub_0_r in IH. rewrite Nat.sub_0_r. exact IH.
Qed.

Lemma map_nth_seq (l pre : list ascii) :
  map (fun n => nth n (pre ++ l) NUL) (seq (List.length pre) (List.length l)) = l.
Proof.
  revert pre. induction l as [|c l IH]; intros pre; [reflexivity|].
  cbn [List.length seq map]. f_equal.
  - rewrite app_nth2, Nat.sub_diag by lia. reflexivity.
  - specialize (IH (pre ++ [c])). rewrite <- app_assoc, length_app in IH.
    cbn [List.length app] in IH. rewrite Nat.add_1_r in IH. exact IH.
Qed.

Lemma sequence_map_Return {A B : Type} (f : A -> result B) (g : A -> B) (l : list A) :
  (forall a, f a = Return (g a)) -> sequence (map f l) = Return (map g l).
Proof.
  intros H. induction l as [|a l IH]; [reflexivity|].
  cbn [map sequence]. rewrite H, IH. reflexivity.
Qed.

(** [MakeConversionStorage] with the size [SizeConversionStorageNeeds]
    computes gives the texts of the specifiers of the reading, each followed
    by NUL. *)
Lemma MakeConversionStorage_pieces (fmt : list ascii) (ps : list Piece) :
  pieces fmt = Return ps ->
  MakeConversionStorage (List.length (storage_of (specifiers ps))) fmt =
  Return (storage_of (specifiers ps)).
Proof.
  intros H. unfold MakeConversionStorage.
  rewrite (sequence_map_Return _ (fun n => nth n (storage_of (specifiers ps)) NUL)).
  - f_equal. exact (map_nth_seq (storage_of (specifiers ps)) []).
  - intros n. apply GetConversionSpecifierChar_loop_pieces. exact H.
Qed.

Definition no_NUL (l : list ascii) : Prop := Forall (fun c => c <> NUL) l.

Lemma tokens_loop_token (t rest token : list ascii) :
  no_NUL t ->
  tokens_loop (t ++ NUL :: rest) token = (rev token ++ t) :: tokens_loop rest [].
Proof.
  intros H. revert token. induction H as [|c t Hc _ IH]; intros token.
  - cbn. rewrite app_nil_r. reflexivity.
  - cbn [app tokens_loop]. destruct (Ascii.eqb_spec c NUL) as [->|_]; [congruence|].
    rewrite IH. cbn [rev]. rewrite <- app_assoc. reflexivity.
Qed.

Lemma tokens_storage_of (ss : list Specifier) :
  Forall (fun s => no_NUL (specifier_text s)) ss ->
  tokens (storage_of ss) = map specifier_text ss.
Proof.
  unfold tokens, storage_of. induction 1 as [|s ss Hs _ IH]; [reflexivity|].
  cbn [map List.concat]. rewrite <- app_assoc. cbn [app].
  rewrite (tokens_loop_token _ _ [] Hs). cbn [rev app]. rewrite IH. reflexivity.
Qed.

Lemma no_NUL_span (p : ascii -> bool) (fmt : list ascii) :
  p NUL = false -> no_NUL (fst (span p fmt)).
Proof.
  intros Hp. induction fmt as [|c fmt IH]; cbn; [constructor|].
  destruct (p c) eqn:E; cbn; [|constructor].
  constructor; [|exact IH]. intros ->. congruence.
Qed.

Lemma no_NUL_scan (fmt : list ascii) :
  IsConversionSpecifier (conversion (fst (scan fmt))) = true ->
  no_NUL (specifier_text (fst (scan fmt))).
Proof.
  intros Hc. unfold specifier_text, scan in *. cbn [fst flags width precision
    length_modifiers conversion] in *.
  unfold no_NUL. constructor; [discriminate|].
  apply Forall_app; split; [|apply Forall_app; split; [|apply Forall_app; split;
    [|apply Forall_app; split]]].
  - apply no_NUL_span. reflexivity.
  - unfold scan_width. destruct (cur _ =? "*")%char; cbn [fst].
    + constructor; [discriminate|constructor].
    + apply no_NUL_span. reflexivity.
  - unfold scan_precision. destruct (cur _ =? ".")%char; cbn [fst]; [|constructor].
    destruct (cur _ =? "*")%char; cbn [fst].
    + constructor; [discriminate|]. constructor; [discriminate|constructor].
    + constructor; [discriminate|]. apply no_NUL_span. reflexivity.
  - apply no_NUL_span. reflexivity.
  - constructor; [|constructor]. intros E. rewrite E in Hc. discriminate.
Qed.

Lemma pieces_loop_no_NUL (fuel : nat) (fmt : list ascii) (ps : list Piece) :
  pieces_loop fuel fmt = Return ps ->
  Forall (fun s => no_NUL (specifier_text s)) (specifiers ps).
Proof.
  revert fmt ps. induction fuel as [|fuel IH]; intros [|c fmt1] ps H;
    cbn [pieces_loop] in H; try discriminate.
  - inversion H. constructor.
  - inversion H. constructor.
  - destruct (negb (c =? "%")%char).
    { destruct (pieces_loop fuel fmt1) eqn:E; cbn [bind] in H; try discriminate.
      inversion H. cbn [specifiers]. eapply IH. exact E. }
    destruct (cur fmt1 =? "%")%char.
    { destruct (pieces_loop fuel (tl fmt1)) eqn:E; cbn [bind] in H; try discriminate.
      inversion H. cbn [specifiers]. eapply IH. exact E. }
    destruct (negb (IsConversionSpecifier (conversion (fst (scan fmt1))))) eqn:Ev;
      [discriminate|].
    destruct (conversion (fst (scan fmt1)) =? "n")%char; [discriminate|].
    destruct (pieces_loop fuel (snd (scan fmt1))) eqn:E; cbn [bind] in H; try discriminate.
    inversion H. cbn [specifiers]. constructor.
    + apply no_NUL_scan. apply negb_false_iff. exact Ev.
    + eapply IH. exact E.
Qed.

Lemma length_span_snd (p : ascii -> bool) (fmt : list ascii) :
  List.length (snd (span p fmt)) <= List.length fmt.
Proof.
  induction fmt as [|c fmt IH]; cbn; [lia|].
  destruct (p c); cbn; lia.
Qed.

Lemma length_tl (fmt : list ascii) : List.length (tl fmt) <= List.length fmt.
Proof. destruct fmt; cbn; lia. Qed.

Lemma length_scan_snd (fmt : list ascii) :
  List.length (snd (scan fmt)) <= List.length fmt.
Proof.
  unfold scan. cbn [snd].
  assert (W : forall l, List.length (snd (scan_width l)) <= List.length l).
  { intros l. unfold scan_width. destruct (cur l =? "*")%char; cbn [snd].
    - apply length_tl.
    - apply length_span_snd. }
  assert (P : forall l, List.length (snd (scan_precision l)) <= List.length l).
  { intros l. unfold scan_precision. destruct (cur l =? ".")%char; cbn [snd]; [|lia].
    destruct (cur (tl l) =? "*")%char; cbn [snd].
    - pose proof (length_tl l). pose proof (length_tl (tl l)). lia.
    - pose proof (length_tl l). pose proof (length_span_snd IsDigit (tl l)). lia. }
  pose proof (length_span_snd IsFlag fmt) as H1.
  pose proof (W (snd (span IsFlag fmt))) as H2.
  pose proof (P (snd (scan_width (snd (span IsFlag fmt))))) as H3.
  pose proof (length_span_snd IsLength
                (snd (scan_precision (snd (scan_width (snd (span IsFlag fmt))))))) as H4.
  pose proof (length_tl
                (snd (span IsLength
                   (snd (scan_precision (snd (scan_width (snd (span IsFlag fmt)))))))))
    as H5.
  lia.
Qed.

(** The reading of a format ends within as many iterations as the format
    has characters. *)
Lemma pieces_loop_terminates (fuel : nat) (fmt : list ascii) :
  List.length fmt <= fuel -> pieces_loop fuel fmt <> OutOfFuel.
Proof.
  revert fmt. induction fuel as [|fuel IH]; intros [|c fmt1] Hlen;
    cbn [pieces_loop]; try discriminate.
  - cbn in Hlen. lia.
  - cbn [List.length] in Hlen.
    destruct (negb (c =? "%")%char).
    { specialize (IH fmt1 ltac:(lia)).
      destruct (pieces_loop fuel fmt1); cbn [bind]; congruence. }
    destruct (cur fmt1 =? "%")%char.
    { pose proof (length_tl fmt1).
      specialize (IH (tl fmt1) ltac:(lia)).
      destruct (pieces_loop fuel (tl fmt1)); cbn [bind]; congruence. }
    destruct (negb (IsConversionSpecifier (conversion (fst (scan fmt1)))));
      [discriminate|].
    destruct (conversion (fst (scan fmt1)) =? "n")%char; [discriminate|].
    pose proof (length_scan_snd fmt1).
    specialize (IH (snd (scan fmt1)) ltac:(lia)).
    destruct (pieces_loop fuel (snd (scan fmt1))); cbn [bind]; congruence.
Qed.

(** [SizeConversionStorageNeeds] returns or throws: its loop never needs more
    iterations than the format has characters. *)
Lemma SizeConversionStorageNeeds_terminates (fmt : list ascii) :
  SizeConversionStorageNeeds fmt <> OutOfFuel.
Proof.
  unfold SizeConversionStorageNeeds. rewrite SizeConversionStorageNeeds_loop_pieces.
  pose proof (pieces_loop_terminates (List.length fmt) fmt (Nat.le_refl _)) as H.
  destruct (pieces_loop (List.length fmt) fmt); cbn [bind]; congruence.
Qed.

(** C5. Whenever [SizeConversionStorageNeeds] accepts a format and answers
    [size], the format has a reading [ps] into literal characters, escapes
    and conversion specifiers whose concatenated texts are the format itself,
    [MakeConversionStorage<size>] returns an array, and the NUL-separated
    tokens of that array are, in order, the texts of the conversion
    specifiers of the reading: the [%], the flags, the width, the precision,
    the length modifiers and the conversion character of each. *)
Theorem conversion_storage_round_trip (fmt : list ascii) (size : nat) :
  SizeConversionStorageNeeds fmt = Return size ->
  exists (ps : list Piece) (storage : list ascii),
    pieces fmt = Return ps /\
    unparse ps = fmt /\
    MakeConversionStorage size fmt = Return storage /\
    List.length storage = size /\
    tokens storage = map specifier_text (specifiers ps).
Proof.
  intros H. unfold SizeConversionStorageNeeds in H.
  rewrite SizeConversionStorageNeeds_loop_pieces in H.
  destruct (pieces_loop (List.length fmt) fmt) as [ps| |] eqn:E;
    cbn [bind] in H; try discriminate.
  inversion H as [Hsize]. cbn [Nat.add].
  exists ps, (storage_of (specifiers ps)).
  split; [exact E|].
  split; [exact (pieces_loop_unparse _ _ _ E)|].
  split; [exact (MakeConversionStorage_pieces _ _ E)|].
  split; [reflexivity|].
  apply tokens_storage_of. exact (pieces_loop_no_NUL _ _ _ E).
Qed.

Lemma cur_span_neq (p : ascii -> bool) (fmt : list ascii) (c : ascii) :
  p c = false -> c <> NUL -> (cur (fst (span p fmt)) =? c)%char = false.
Proof.
  intros Hp Hc. apply Ascii.eqb_neq. destruct fmt as [|d fmt]; cbn [span].
  - cbn. congruence.
  - destruct (p d) eqn:E; cbn [fst cur hd].
    + intros ->. congruence.
    + congruence.
Qed.

Lemma params_cons_conversion (s : Specifier) (ps : list Piece) :
  params (Conversion s :: ps) = specifier_params s ++ params ps.
Proof. reflexivity. Qed.

Lemma decimal_value_nonneg (digits : list ascii) :
  Forall (fun c => IsDigit c = true) digits -> (0 <= decimal_value digits)%Z.
Proof.
  unfold decimal_value. intros H.
  assert (G : forall v, (0 <= v)%Z ->
            (0 <= fold_left
                    (fun v c => (v * 10 + (Z.of_nat (nat_of_ascii c) -
                                           Z.of_nat (nat_of_ascii "0"%char)))%Z)
                    digits v)%Z).
  { induction H as [|c digits Hc _ IH]; intros v Hv; [exact Hv|].
    cbn [fold_left]. apply IH. unfold IsDigit in Hc.
    apply andb_prop in Hc. destruct Hc as [Hc _]. apply Nat.leb_le in Hc. lia. }
  apply G. lia.
Qed.

(** The answer of [GetParamInfo] for parameter [n], told from the reading:
    first for a specifier whose width has been passed, then for a specifier,
    then for the specifiers of a format.  [next] answers for the specifiers
    that follow. *)
Definition info_after_width (precision_text : list ascii) (conv : ascii) (n : nat)
    (next : nat -> result ParamType) : result ParamType :=
  if (cur (tl precision_text) =? "*")%char then
    if (n =? 0)%nat then Return DYNAMIC_PRECISION
    else if (0 <? n - 1)%nat then next (n - 1 - 1)%nat
    else Return (if negb (conv =? "s")%char then NON_STRING
                 else STRING_WITH_DYNAMIC_PRECISION)
  else
    match precision_text with
    | [] =>
        if (0 <? n)%nat then next (n - 1)%nat
        else Return (if negb (conv =? "s")%char then NON_STRING
                     else STRING_WITH_NO_PRECISION)
    | _ :: digits =>
        if (decimal_value digits <=? INT_MAX)%Z then
          if (0 <? n)%nat then next (n - 1)%nat
          else Return (if negb (conv =? "s")%char then NON_STRING
                       else decimal_value digits)
        else Throw SignedOverflow
    end.

Definition specifier_info (s : Specifier) (n : nat) (next : nat -> result ParamType)
  : result ParamType :=
  if (cur (width s) =? "*")%char then
    if (n =? 0)%nat then Return DYNAMIC_WIDTH
    else info_after_width (precision s) (conversion s) (n - 1) next
  else info_after_width (precision s) (conversion s) n next.

Fixpoint param_info (ss : list Specifier) (n : nat) : result ParamType :=
  match ss with
  | [] => Return INVALID
  | s :: ss' => specifier_info s n (param_info ss')
  end.

Lemma GetParamInfo_after_width (fuel : nat) (fmt3 : list ascii) (n : nat)
    (next : nat -> result ParamType) :
  (forall m,
     GetParamInfo_loop fuel (tl (snd (span IsLength (snd (scan_precision fmt3))))) m =
     next m) ->
  negb (IsConversionSpecifier (cur (snd (span IsLength (snd (scan_precision fmt3)))))) =
  false ->
  (cur (snd (span IsLength (snd (scan_precision fmt3)))) =? "n")%char = false ->
  match
    (if (cur fmt3 =? ".")%char
     then
       if (cur (tl fmt3) =? "*")%char
       then if (n =? 0)%nat then Return (inl DYNAMIC_PRECISION)
            else Return (inr (tl (tl fmt3), (n - 1)%nat, true, (-1)%Z))
       else bind (read_precision (tl fmt3) 0)
              (fun '(fmt4, precision0) => Return (inr (fmt4, n, false, precision0)))
     else Return (inr (fmt3, n, false, (-1)%Z)))
  with
  | Throw e => Throw e
  | OutOfFuel => OutOfFuel
  | Return (inl t) => Return t
  | Return (inr (fmt4, param_num0, has_dynamic_precision, precision0)) =>
      if negb (IsConversionSpecifier (cur (skip_while IsLength fmt4)))
      then Throw UnrecognizedConversionSpecifier
      else if (cur (skip_while IsLength fmt4) =? "n")%char
      then Throw PercentNNotSupported
      else if (0 <? param_num0)%nat
      then GetParamInfo_loop fuel (tl (skip_while IsLength fmt4)) (param_num0 - 1)
      else if negb (cur (skip_while IsLength fmt4) =? "s")%char
      then Return NON_STRING
      else if has_dynamic_precision then Return STRING_WITH_DYNAMIC_PRECISION
      else if (precision0 =? -1)%Z then Return STRING_WITH_NO_PRECISION
      else Return precision0
  end =
  info_after_width (fst (scan_precision fmt3))
    (cur (snd (span IsLength (snd (scan_precision fmt3))))) n next.
Proof.
  intros IH Ev En. unfold scan_precision, info_after_width in *.
  destruct (cur fmt3 =? ".")%char eqn:P.
  - destruct (cur (tl fmt3) =? "*")%char eqn:S; cbn [fst snd] in *.
    + change (cur (tl ["."%char; "*"%char]) =? "*")%char with true. cbn iota.
      destruct n as [|n]; [reflexivity|].
      cbn [Nat.eqb Nat.sub]. rewrite !Nat.sub_0_r.
      rewrite skip_while_span, Ev, En. cbn iota.
      destruct n as [|n].
      * cbn [Nat.ltb Nat.leb]. destruct (negb (cur _ =? "s")%char); reflexivity.
      * cbn [Nat.ltb Nat.leb Nat.sub]. rewrite Nat.sub_0_r. apply IH.
    + rewrite read_precision_span by (unfold INT_MAX; lia). cbv zeta. cbn [tl].
      rewrite (cur_span_neq IsDigit (tl fmt3) "*"%char) by (reflexivity || discriminate).
      change (fold_left _ (fst (span IsDigit (tl fmt3))) 0%Z)
        with (decimal_value (fst (span IsDigit (tl fmt3)))).
      destruct (decimal_value (fst (span IsDigit (tl fmt3))) <=? INT_MAX)%Z;
        [|reflexivity].
      cbn [bind]. rewrite skip_while_span, Ev, En. cbn iota.
      destruct n as [|n].
      * cbn [Nat.ltb Nat.leb].
        destruct (negb (cur _ =? "s")%char); [reflexivity|].
        pose proof (decimal_value_nonneg _ (span_Forall IsDigit (tl fmt3))) as Hd.
        destruct (Z.eqb_spec (decimal_value (fst (span IsDigit (tl fmt3)))) (-1));
          [lia | reflexivity].
      * cbn [Nat.ltb Nat.leb Nat.sub]. rewrite Nat.sub_0_r. apply IH.
  - cbn [fst snd tl] in *. change (cur [] =? "*")%char with false. cbn iota.
    rewrite skip_while_span, Ev, En. cbn iota.
    destruct n as [|n].
    + cbn [Nat.ltb Nat.leb]. destruct (negb (cur _ =? "s")%char); reflexivity.
    + cbn [Nat.ltb Nat.leb Nat.sub]. rewrite Nat.sub_0_r. apply IH.
Qed.

(** [GetParamInfo] on a format that has a reading. *)
Lemma GetParamInfo_loop_info (fuel : nat) (fmt : list ascii) (ps : list Piece)
    (param_num : nat) :
  pieces_loop fuel fmt = Return ps ->
  GetParamInfo_loop fuel fmt param_num = param_info (specifiers ps) param_num.
Proof.
  revert fmt ps param_num.
  induction fuel as [|fuel IH]; intros [|c fmt1] ps n H;
    cbn [pieces_loop] in H; try discriminate.
  - inversion H. reflexivity.
  - inversion H. reflexivity.
  - cbn [GetParamInfo_loop].
    destruct (negb (c =? "%")%char).
    { destruct (pieces_loop fuel fmt1) eqn:E; cbn [bind] in H; try discriminate.
      inversion H. exact (IH _ _ n E). }
    destruct (cur fmt1 =? "%")%char.
    { destruct (pieces_loop fuel (tl fmt1)) eqn:E; cbn [bind] in H; try discriminate.
      inversion H. exact (IH _ _ n E). }
    destruct (negb (IsConversionSpecifier (conversion (fst (scan fmt1))))) eqn:Ev;
      [discriminate|].
    destruct (conversion (fst (scan fmt1)) =? "n")%char eqn:En; [discriminate|].
    destruct (pieces_loop fuel (snd (scan fmt1))) as [ps1| |] eqn:E1;
      cbn [bind] in H; try discriminate.
    inversion H; subst ps; clear H.
    cbn [specifiers param_info].
    assert (IH' := fun m => IH _ _ m E1). clear IH E1.
    unfold scan in *. cbn [fst snd conversion] in *.
    unfold specifier_info. cbn [width precision conversion].
    rewrite skip_while_span.
    set (fmt2 := snd (span IsFlag fmt1)) in *.
    unfold scan_width in *.
    destruct (cur fmt2 =? "*")%char eqn:W; cbn [fst snd] in *.
    + change (cur ["*"%char] =? "*")%char with true. cbn iota.
      destruct n as [|n]; [reflexivity|].
      cbn [Nat.eqb Nat.sub]. rewrite Nat.sub_0_r.
      apply (GetParamInfo_after_width fuel (tl fmt2) n _ IH' Ev En).
    + rewrite (cur_span_neq IsDigit fmt2 "*"%char) by (reflexivity || discriminate).
      cbn iota. rewrite skip_while_span.
      apply (GetParamInfo_after_width fuel (snd (span IsDigit fmt2)) n _ IH' Ev En).
Qed.

(** When every precision fits, the answers are the parameters of the
    reading, in order, and INVALID after the last. *)
Lemma param_info_fits (ss : list Specifier) (n : nat) :
  forallb precision_fits ss = true ->
  param_info ss n = Return (nth n (List.concat (map specifier_params ss)) INVALID).
Proof.
  revert n. induction ss as [|s ss IH]; intros n Hfit.
  - destruct n; reflexivity.
  - cbn [forallb] in Hfit. apply andb_prop in Hfit. destruct Hfit as [Hs Hss].
    specialize (fun m => IH m Hss).
    cbn [param_info map List.concat].
    unfold specifier_info, info_after_width, specifier_params, precision_fits in *.
    destruct (cur (width s) =? "*")%char;
      destruct (cur (tl (precision s)) =? "*")%char;
      cbn [app].
    + destruct n as [|[|[|n]]]; cbn [Nat.eqb Nat.sub Nat.ltb Nat.leb nth];
        try reflexivity; rewrite ?Nat.sub_0_r; apply IH.
    + destruct n as [|n]; [reflexivity|].
      cbn [Nat.eqb Nat.sub nth]. rewrite Nat.sub_0_r.
      destruct (precision s) as [|dot digits].
      * destruct n as [|n]; cbn [Nat.ltb Nat.leb Nat.sub nth]; [reflexivity|].
        rewrite Nat.sub_0_r. apply IH.
      * rewrite Hs.
        destruct n as [|n]; cbn [Nat.ltb Nat.leb Nat.sub nth]; [reflexivity|].
        rewrite Nat.sub_0_r. apply IH.
    + destruct n as [|[|n]]; cbn [Nat.eqb Nat.sub Nat.ltb Nat.leb nth];
        try reflexivity; rewrite ?Nat.sub_0_r; apply IH.
    + destruct (precision s) as [|dot digits].
      * destruct n as [|n]; cbn [Nat.ltb Nat.leb Nat.sub nth]; [reflexivity|].
        rewrite Nat.sub_0_r. apply IH.
      * rewrite Hs.
        destruct n as [|n]; cbn [Nat.ltb Nat.leb Nat.sub nth]; [reflexivity|].
        rewrite Nat.sub_0_r. apply IH.
Qed.

(** [GetParamInfo] answers INVALID only after it has passed every
    specifier, and so has read every precision without overflow. *)
Lemma param_info_INVALID (ss : list Specifier) (n : nat) :
  Forall (fun t => t <> INVALID) (List.concat (map specifier_params ss)) ->
  param_info ss n = Return INVALID ->
  forallb precision_fits ss = true.
Proof.
  revert n. induction ss as [|s ss IH]; intros n Hvalid H; [reflexivity|].
  cbn [map List.concat] in Hvalid. apply Forall_app in Hvalid.
  destruct Hvalid as [Hs Hss]. specialize (fun m => IH m Hss).
  cbn [forallb]. cbn [param_info] in H.
  unfold specifier_info, info_after_width, specifier_params, precision_fits in *.
  assert (Hconv : forall t : ParamType,
             In t ((if (cur (width s) =? "*")%char then [DYNAMIC_WIDTH] else []) ++
                   (if (cur (tl (precision s)) =? "*")%char
                    then [DYNAMIC_PRECISION] else []) ++
                   [if negb (conversion s =? "s")%char then NON_STRING
                    else if (cur (tl (precision s)) =? "*")%char
                    then STRING_WITH_DYNAMIC_PRECISION
                    else match precision s with
                         | [] => STRING_WITH_NO_PRECISION
                         | _ :: digits => decimal_value digits
                         end]) -> Return t <> @Return ParamType INVALID).
  { intros t Ht E. inversion E. subst t.
    exact (proj1 (Forall_forall _ _) Hs _ Ht eq_refl). }
  clear Hs.
  assert (Hlast : Return (if negb (conversion s =? "s")%char then NON_STRING
                          else if (cur (tl (precision s)) =? "*")%char
                          then STRING_WITH_DYNAMIC_PRECISION
                          else match precision s with
                               | [] => STRING_WITH_NO_PRECISION
                               | _ :: digits => decimal_value digits
                               end) <> @Return ParamType INVALID).
  { apply Hconv. apply in_or_app. right. apply in_or_app. right. left. reflexivity. }
  clear Hconv.
  destruct (cur (tl (precision s)) =? "*")%char.
  - cbn [andb].
    destruct (cur (width s) =? "*")%char.
    + destruct n as [|[|[|n]]]; cbn [Nat.eqb Nat.sub Nat.ltb Nat.leb] in H;
        try discriminate H; try (exfalso; exact (Hlast H)).
      rewrite ?Nat.sub_0_r in H. exact (IH _ H).
    + destruct n as [|[|n]]; cbn [Nat.eqb Nat.sub Nat.ltb Nat.leb] in H;
        try discriminate H; try (exfalso; exact (Hlast H)).
      rewrite ?Nat.sub_0_r in H. exact (IH _ H).
  - destruct (precision s) as [|dot digits].
    + cbn [andb].
      destruct (cur (width s) =? "*")%char.
      * destruct n as [|[|n]]; cbn [Nat.eqb Nat.sub Nat.ltb Nat.leb] in H;
          try discriminate H; try (exfalso; exact (Hlast H)).
        rewrite ?Nat.sub_0_r in H. exact (IH _ H).
      * destruct n as [|n]; cbn [Nat.eqb Nat.sub Nat.ltb Nat.leb] in H;
          try discriminate H; try (exfalso; exact (Hlast H)).
        rewrite Nat.sub_0_r in H. exact (IH _ H).
    + destruct (decimal_value digits <=? INT_MAX)%Z.
      * cbn [andb].
        destruct (cur (width s) =? "*")%char.
        -- destruct n as [|[|n]]; cbn [Nat.eqb Nat.sub Nat.ltb Nat.leb] in H;
             try discriminate H; try (exfalso; exact (Hlast H)).
           rewrite ?Nat.sub_0_r in H. exact (IH _ H).
        -- destruct n as [|n]; cbn [Nat.eqb Nat.sub Nat.ltb Nat.leb] in H;
             try discriminate H; try (exfalso; exact (Hlast H)).
           rewrite Nat.sub_0_r in H. exact (IH _ H).
      * destruct (cur (width s) =? "*")%char; [destruct n|]; discriminate H.
Qed.

Lemma GetParamInfo_loop_pieces (fuel : nat) (fmt : list ascii) (ps : list Piece)
    (param_num : nat) :
  pieces_loop fuel fmt = Return ps ->
  precisions_fit ps = true ->
  GetParamInfo_loop fuel fmt param_num = Return (nth param_num (params ps) INVALID).
Proof.
  intros H Hfit. rewrite (GetParamInfo_loop_info _ _ _ _ H).
  apply param_info_fits. exact Hfit.
Qed.

Lemma specifier_params_length (s : Specifier) :
  List.length (specifier_params s) <= List.length (specifier_text s) - 1.
Proof.
  unfold specifier_params, specifier_text. cbn [List.length].
  rewrite !length_app. cbn [List.length].
  assert (W : List.length (if (cur (width s) =? "*")%char then [DYNAMIC_WIDTH] else [])
              <= List.length (width s)).
  { destruct (width s) as [|w ws]; [cbn; lia|].
    destruct (cur (w :: ws) =? "*")%char; cbn; lia. }
  assert (P : List.length
                (if (cur (tl (precision s)) =? "*")%char then [DYNAMIC_PRECISION] else [])
              <= List.length (precision s)).
  { destruct (precision s) as [|p [|q qs]]; [cbn; lia | cbn; lia |].
    destruct (cur (tl (p :: q :: qs)) =? "*")%char; cbn; lia. }
  lia.
Qed.

Lemma specifier_params_scan_valid (fmt : list ascii) :
  Forall (fun t => t <> INVALID) (specifier_params (fst (scan fmt))).
Proof.
  unfold specifier_params, scan. cbn [fst width precision conversion].
  apply Forall_app; split.
  { destruct (cur _ =? "*")%char; repeat constructor; discriminate. }
  apply Forall_app; split.
  { destruct (cur _ =? "*")%char; repeat constructor; discriminate. }
  constructor; [|constructor].
  destruct (negb _); [discriminate|].
  set (fmt3 := snd (scan_width (snd (span IsFlag fmt)))).
  unfold scan_precision.
  destruct (cur fmt3 =? ".")%char; [|discriminate].
  destruct (cur (tl fmt3) =? "*")%char; cbn [fst tl]; [discriminate|].
  rewrite (cur_span_neq IsDigit (tl fmt3) "*"%char) by (reflexivity || discriminate).
  pose proof (decimal_value_nonneg _ (span_Forall IsDigit (tl fmt3))) as H.
  intros E. rewrite E in H. unfold INVALID in H. lia.
Qed.

Lemma pieces_loop_params (fuel : nat) (fmt : list ascii) (ps : list Piece) :
  pieces_loop fuel fmt = Return ps ->
  Forall (fun t => t <> INVALID) (params ps) /\
  List.length (params ps) <= List.length fmt.
Proof.
  revert fmt ps. induction fuel as [|fuel IH]; intros [|c fmt1] ps H;
    cbn [pieces_loop] in H; try discriminate.
  - inversion H. split; [constructor | cbn; lia].
  - inversion H. split; [constructor | cbn; lia].
  - destruct (negb (c =? "%")%char).
    { destruct (pieces_loop fuel fmt1) as [ps1| |] eqn:E; cbn [bind] in H;
        try discriminate.
      inversion H. destruct (IH _ _ E) as [IH1 IH2].
      split; [exact IH1|]. change (params (Literal c :: ps1)) with (params ps1).
      cbn [List.length]. lia. }
    destruct (cur fmt1 =? "%")%char.
    { destruct (pieces_loop fuel (tl fmt1)) as [ps1| |] eqn:E; cbn [bind] in H;
        try discriminate.
      inversion H. destruct (IH _ _ E) as [IH1 IH2].
      split; [exact IH1|]. change (params (Escape :: ps1)) with (params ps1).
      pose proof (length_tl fmt1). cbn [List.length]. lia. }
    destruct (negb (IsConversionSpecifier (conversion (fst (scan fmt1))))) eqn:Ev;
      [discriminate|].
    destruct (conversion (fst (scan fmt1)) =? "n")%char; [discriminate|].
    destruct (pieces_loop fuel (snd (scan fmt1))) as [ps1| |] eqn:E;
      cbn [bind] in H; try discriminate.
    assert (Hps : ps = Conversion (fst (scan fmt1)) :: ps1) by congruence.
    subst ps. clear H. destruct (IH _ _ E) as [IH1 IH2].
    rewrite params_cons_conversion. split.
    + apply Forall_app. split; [apply specifier_params_scan_valid | exact IH1].
    + rewrite length_app.
      pose proof (specifier_params_length (fst (scan fmt1))) as Hs.
      apply negb_false_iff in Ev.
      pose proof (f_equal (@List.length ascii) (scan_text fmt1 Ev)) as Ht.
      rewrite length_app in Ht. cbn [List.length] in Ht |- *. lia.
Qed.

Lemma FormatParametersCount_loop_counts (fmt : list ascii) (types : list ParamType)
    (fuel num_parameters : nat) :
  (forall n, GetParamInfo fmt n = Return (nth n types INVALID)) ->
  Forall (fun t => t <> INVALID) types ->
  num_parameters <= List.length types ->
  List.length types - num_parameters <= fuel ->
  FormatParametersCount_loop fuel fmt num_parameters = Return (List.length types).
Proof.
  intros Hget Hvalid. revert num_parameters.
  induction fuel as [|fuel IH]; intros n Hn Hfuel.
  - cbn [FormatParametersCount_loop]. rewrite Hget. cbn [bind].
    assert (n = List.length types) by lia. subst n.
    rewrite nth_overflow by lia. reflexivity.
  - cbn [FormatParametersCount_loop]. rewrite Hget. cbn [bind].
    destruct (Nat.eq_dec n (List.length types)) as [->|Hne].
    + rewrite nth_overflow by lia. reflexivity.
    + assert (Hlt : n < List.length types) by lia.
      pose proof (proj1 (Forall_forall _ _) Hvalid _ (nth_In types INVALID Hlt)) as Hv.
      destruct (Z.eqb_spec (nth n types INVALID) INVALID) as [E|_]; [contradiction|].
      apply IH; lia.
Qed.

Lemma FormatParametersCount_pieces (fmt : list ascii) (ps : list Piece) :
  pieces fmt = Return ps ->
  precisions_fit ps = true ->
  FormatParametersCount fmt = Return (List.length (params ps)).
Proof.
  intros H Hfit. destruct (pieces_loop_params _ _ _ H) as [Hvalid Hlen].
  apply FormatParametersCount_loop_counts.
  - intros n. apply GetParamInfo_loop_pieces; [exact H | exact Hfit].
  - exact Hvalid.
  - lia.
  - lia.
Qed.

(** The count [FormatParametersCount] returns is a position at which
    [GetParamInfo] answers INVALID. *)
Lemma FormatParametersCount_loop_stops (fmt : list ascii) (fuel num_parameters count : nat) :
  FormatParametersCount_loop fuel fmt num_parameters = Return count ->
  GetParamInfo fmt count = Return INVALID.
Proof.
  revert num_parameters. induction fuel as [|fuel IH]; intros n H;
    cbn [FormatParametersCount_loop] in H;
    destruct (GetParamInfo fmt n) as [t| |] eqn:E; cbn [bind] in H;
    try discriminate H;
    destruct (Z.eqb_spec t INVALID) as [Ht|Ht]; try discriminate H.
  - inversion H; subst. exact E.
  - inversion H; subst. exact E.
  - exact (IH _ H).
Qed.

(** A format for which [FormatParametersCount] returns has no precision
    above [INT_MAX]. *)
Lemma FormatParametersCount_fits (fmt : list ascii) (ps : list Piece) (count : nat) :
  pieces fmt = Return ps ->
  FormatParametersCount fmt = Return count ->
  precisions_fit ps = true.
Proof.
  intros H Hcount. apply FormatParametersCount_loop_stops in Hcount.
  unfold GetParamInfo in Hcount. rewrite (GetParamInfo_loop_info _ _ _ _ H) in Hcount.
  apply (param_info_INVALID _ count); [|exact Hcount].
  exact (proj1 (pieces_loop_params _ _ _ H)).
Qed.

(** A format without conversion specifiers has no precision. *)
Lemma precisions_fit_plain (ps : list Piece) :
  specifiers ps = [] -> precisions_fit ps = true.
Proof. unfold precisions_fit. intros ->. reflexivity. Qed.

Lemma specifiers_without_escape (before after : list Piece) :
  specifiers (before ++ Escape :: after) = specifiers (before ++ after).
Proof.
  induction before as [|p before IH]; [reflexivity|].
  destruct p; cbn [app specifiers]; rewrite IH; reflexivity.
Qed.

Lemma conversion_storage_round_trip_witness :
  SizeConversionStorageNeeds
    (c_array "pad%17.31Lfng, pad%17.31lcing,pad%17.31lluing%*.*lu") = Return 35 /\
  exists (ps : list Piece) (storage : list ascii),
    pieces (c_array "pad%17.31Lfng, pad%17.31lcing,pad%17.31lluing%*.*lu") = Return ps /\
    unparse ps = c_array "pad%17.31Lfng, pad%17.31lcing,pad%17.31lluing%*.*lu" /\
    MakeConversionStorage 35
      (c_array "pad%17.31Lfng, pad%17.31lcing,pad%17.31lluing%*.*lu") = Return storage /\
    List.length storage = 35 /\
    tokens storage = map specifier_text (specifiers ps).
Proof.
  split; [reflexivity|].
  apply conversion_storage_round_trip. reflexivity.
Defined.

(** The storage of the format of the repository's own test, and its
    tokens. *)
Example conversion_storage_of_test_format :
  MakeConversionStorage 35
    (c_array "pad%17.31Lfng, pad%17.31lcing,pad%17.31lluing%*.*lu") =
  Return (list_ascii_of_string "%17.31Lf" ++ [NUL] ++
          list_ascii_of_string "%17.31lc" ++ [NUL] ++
          list_ascii_of_string "%17.31llu" ++ [NUL] ++
          list_ascii_of_string "%*.*lu" ++ [NUL]) /\
  tokens (list_ascii_of_string "%17.31Lf" ++ [NUL] ++
          list_ascii_of_string "%17.31lc" ++ [NUL] ++
          list_ascii_of_string "%17.31llu" ++ [NUL] ++
          list_ascii_of_string "%*.*lu" ++ [NUL]) =
  map list_ascii_of_string ["%17.31Lf"; "%17.31lc"; "%17.31llu"; "%*.*lu"]%string.
Proof. split; vm_compute; reflexivity. Qed.

End FormatAnalysisFacts.

(** ** Literal runs of the body *)

Section LiteralRuns.

Import log_info grammar examples.

Variable printf_render : list ascii -> list PrintfArg -> option (list ascii).
Variable strftime_localtime : Z -> list ascii.

Local Abbreviation write_body := (log_info.write_body printf_render).
Local Abbreviation write := (log_info.write printf_render).

(** The state after [bytes] were put at [write_pos_] and counted as
    written. *)
Definition copied (a : LogAssembler) (bytes : list ascii) : LogAssembler :=
  finishWriting (set_scratch a bytes) (Z.of_nat (List.length bytes)).

Lemma copied_written (a : LogAssembler) (bytes : list ascii) :
  written (output (copied a bytes)) = written (output a) ++ bytes.
Proof.
  unfold copied, finishWriting, set_scratch. cbn [output with_output written scratch].
  rewrite Nat2Z.id, firstn_all. reflexivity.
Qed.

(** A copy of [len] bytes that is not empty and leaves at least one byte
    free goes through. *)
Lemma write_or_return_fits (a : LogAssembler) (src : list ascii) (len : nat)
    (k : LogAssembler -> Z -> flow) :
  is_full_ (output a) = false ->
  (0 < len <= List.length src)%nat ->
  Z.of_nat len < getFreeBytes a ->
  write_or_return a src (Z.of_nat len) k = k (copied a (firstn len src)) (Z.of_nat len).
Proof.
  intros Hfull Hlen Hfree. unfold write_or_return, tryToWriteAStringToBuffer.
  rewrite Hfull.
  destruct (Z.geb_spec (Z.of_nat len) (getFreeBytes a)) as [?|_]; [lia|].
  destruct (Z.eqb_spec (Z.of_nat len) 0) as [?|_]; [lia|].
  unfold copied. rewrite Nat2Z.id, length_firstn, Nat.min_l by lia. reflexivity.
Qed.

(** A pass of the body loop that meets literal characters before the next
    conversion specifier copies them as they stand in the format. *)
Lemma write_body_iteration_literal_run (again : LogAssembler -> flow)
    (a : LogAssembler) (info : StaticLogInfo) (dynamic_info : DynamicLogInfo)
    (fragment : FormatFragment) :
  static_log_info_ a = Some info ->
  dynamic_log_info_ a = Some dynamic_info ->
  (format_index_ (indices a) < format_len_ info)%nat ->
  (conversion_index_ (indices a) < num_conversions_ info)%nat ->
  nth_error (format_fragments_ info) (conversion_index_ (indices a)) = Some fragment ->
  (format_index_ (indices a) < format_pos_ fragment <= List.length (format_str_ info))%nat ->
  is_full_ (output a) = false ->
  Z.of_nat (format_pos_ fragment - format_index_ (indices a)) < getFreeBytes a ->
  let run := firstn (format_pos_ fragment - format_index_ (indices a))
               (skipn (format_index_ (indices a)) (format_str_ info)) in
  write_body_iteration printf_render again a =
  again (add_format_index (copied a run) (List.length run)).
Proof.
  intros Hs Hd Hlen Hconv Hfrag Hpos Hfull Hfree run.
  unfold write_body_iteration. rewrite Hs, Hd.
  destruct (Nat.ltb_spec (format_index_ (indices a)) (format_len_ info)) as [_|?]; [|lia].
  destruct (Nat.ltb_spec (conversion_index_ (indices a)) (num_conversions_ info))
    as [_|?]; [|lia].
  rewrite Hfrag.
  destruct (Nat.ltb_spec (format_index_ (indices a)) (format_pos_ fragment))
    as [_|?]; [|lia].
  rewrite write_or_return_fits; [| exact Hfull | rewrite length_skipn; lia | exact Hfree].
  rewrite Nat2Z.id. unfold run. rewrite length_firstn, length_skipn, Nat.min_l by lia.
  reflexivity.
Qed.

(** The pass of the body loop after the last conversion specifier copies
    what is left of the [format_len_] characters of the format as it stands,
    and the loop ends. *)
Lemma write_body_last_run (fuel : nat) (a : LogAssembler) (info : StaticLogInfo)
    (dynamic_info : DynamicLogInfo) :
  static_log_info_ a = Some info ->
  dynamic_log_info_ a = Some dynamic_info ->
  (num_conversions_ info <= conversion_index_ (indices a))%nat ->
  (format_index_ (indices a) < format_len_ info <= List.length (format_str_ info))%nat ->
  is_full_ (output a) = false ->
  Z.of_nat (format_len_ info - format_index_ (indices a)) < getFreeBytes a ->
  let run := firstn (format_len_ info - format_index_ (indices a))
               (skipn (format_index_ (indices a)) (format_str_ info)) in
  write_body (S fuel) a = Continue (add_format_index (copied a run) (List.length run)).
Proof.
  intros Hs Hd Hconv Hlen Hfull Hfree run.
  assert (Hrun : List.length run = (format_len_ info - format_index_ (indices a))%nat).
  { unfold run. rewrite length_firstn, length_skipn. lia. }
  cbn [log_info.write_body]. unfold write_body_iteration at 1. rewrite Hs, Hd.
  destruct (Nat.ltb_spec (format_index_ (indices a)) (format_len_ info)) as [_|?]; [|lia].
  destruct (Nat.ltb_spec (conversion_index_ (indices a)) (num_conversions_ info))
    as [?|_]; [lia|].
  rewrite write_or_return_fits; [| exact Hfull | rewrite length_skipn; lia | exact Hfree].
  rewrite Nat2Z.id. fold run. rewrite <- Hrun.
  assert (Hend : forall again,
             write_body_iteration printf_render again
               (add_format_index (copied a run) (List.length run)) =
             Continue (add_format_index (copied a run) (List.length run))).
  { intros again. unfold write_body_iteration.
    change (static_log_info_ (add_format_index (copied a run) (List.length run)))
      with (static_log_info_ a).
    change (dynamic_log_info_ (add_format_index (copied a run) (List.length run)))
      with (dynamic_log_info_ a).
    rewrite Hs, Hd.
    change (format_index_ (indices (add_format_index (copied a run) (List.length run))))
      with (format_index_ (indices a) + List.length run)%nat.
    destruct (Nat.ltb_spec (format_index_ (indices a) + List.length run)
                (format_len_ info)) as [?|_]; [lia | reflexivity]. }
  destruct fuel; cbn [log_info.write_body]; apply Hend.
Qed.

Lemma write_unfold (fuel : nat) (a : LogAssembler) :
  is_full_ (output a) = false ->
  write fuel a =
  match
    and_then (write_timestamp (set_bytes_last_writed a 0)) (fun a =>
    and_then (write_filename_and_linenum a) (fun a =>
    and_then (write_severity a) (fun a =>
    and_then (write_producer_id a) (fun a =>
    and_then (write_body fuel a) write_end_of_log))))
  with
  | Continue a' => inr (a', bytes_last_writed_ (output a'))
  | Returned a' => inr (a', bytes_last_writed_ (output a'))
  | Aborted why => inl why
  end.
Proof. intros H. unfold log_info.write. rewrite H. reflexivity. Qed.

Lemma write_end_of_log_fits (a : LogAssembler) :
  is_end_of_log_writed_ (log_info.flags a) = false ->
  is_full_ (output a) = false ->
  2 < getFreeBytes a ->
  write_end_of_log a = Continue (mark_end_of_log (copied a end_of_log_)).
Proof.
  intros Hflag Hfull Hfree. unfold write_end_of_log. rewrite Hflag. cbn [negb].
  change (Z.of_nat (List.length end_of_log_)) with (Z.of_nat 2).
  rewrite write_or_return_fits; [reflexivity | exact Hfull | cbn; lia | exact Hfree].
Qed.

(** Replaces a term by its value. *)
Ltac evaluate t :=
  let v := eval vm_compute in t in
  let E := fresh "E" in
  assert (E : t = v) by (vm_compute; reflexivity);
  rewrite E; clear E.

(** Names the twenty characters of a date of length 20. *)
Ltac name_characters H :=
  match type of H with
  | List.length ?d = 20%nat =>
      let dt := fresh "date" in
      remember d as dt;
      do 21 (destruct dt as [|? dt]; try discriminate H); clear H
  end.

(** A phase that fits: its bytes are copied and its flag is set. *)
Lemma write_phase_fits (a : LogAssembler) (src : list ascii) (len : nat)
    (mark : LogAssembler -> LogAssembler) :
  is_full_ (output a) = false ->
  (0 < len <= List.length src)%nat ->
  Z.of_nat len < getFreeBytes a ->
  write_or_return a src (Z.of_nat len) (fun a _ => Continue (mark a)) =
  Continue (mark (copied a (firstn len src))).
Proof. intros. rewrite write_or_return_fits by assumption. reflexivity. Qed.

(** The free space of a buffer that is not yet written to its end. *)
Lemma getFreeBytes_below (a : LogAssembler) :
  0 <= writed_count_ (output a) <= buffer_size_ (output a) ->
  buffer_size_ (output a) < 2 ^ 64 ->
  getFreeBytes a = buffer_size_ (output a) - writed_count_ (output a).
Proof. intros H1 H2. unfold getFreeBytes, size_t_of. apply Z.mod_small. lia. Qed.

(** A record without conversion specifiers, assembled into an output buffer
    with room for it: the prefix, the [format_len_] characters of the format
    as they stand, and CR LF. *)
Lemma plain_record_line (size : Z) (fuel : nat) (format_str : list ascii)
    (format_len : nat) :
  List.length (strftime_localtime 1700000000) = 20%nat ->
  (0 < format_len <= List.length format_str)%nat ->
  Z.of_nat format_len + 45 < size < 2 ^ 64 ->
  exists a' n,
    write (S fuel)
      (loadLogInfo strftime_localtime (setBuffer LogAssembler_new size)
         (mkStaticLogInfo (text "a.cc") 10 logger.INFO format_len 0 0 format_str
            [] [] [] [])
         (mkDynamicLogInfo 0 24 1700000000000 []) 0) = inr (a', n) /\
    hasRemainingData a' = false /\
    isBufferFull a' = false /\
    written (output a') =
      strftime_localtime 1700000000 ++ text "000 a.cc:10 [INFO][0]: " ++
      firstn format_len format_str ++ CRLF.
Proof.
  intros Hdate Hlen Hsize.
  unfold loadLogInfo, loadDynamicInfo, render_timestamp.
  cbn [ms_timestamp_].
  change (Z.quot 1700000000000 1000) with 1700000000.
  name_characters Hdate.
  match goal with
  | |- context [log_info.write _ _ ?a] => evaluate a
  end.
  rewrite write_unfold by reflexivity.
  match goal with
  | |- context [set_bytes_last_writed ?a 0] => evaluate (set_bytes_last_writed a 0)
  end.
  unfold write_timestamp at 1.
  cbn [log_info.flags is_timestamp_writed_ negb timestamp_str_].
  change (size_t_of (Z.of_nat (List.length ?l) - 1)) with (Z.of_nat 24).
  rewrite write_phase_fits;
    [ | reflexivity | cbn; lia | rewrite getFreeBytes_below; cbn; lia ].
  match goal with
  | |- context [mark_timestamp ?a] => evaluate (mark_timestamp a)
  end.
  cbn [and_then].
  unfold write_filename_and_linenum at 1.
  cbn [log_info.flags is_filename_and_linenum_writed_ negb filename_and_linenum_].
  rewrite write_phase_fits;
    [ | reflexivity | cbn; lia | rewrite getFreeBytes_below; cbn; lia ].
  match goal with
  | |- context [mark_filename_and_linenum ?a] => evaluate (mark_filename_and_linenum a)
  end.
  cbn [and_then].
  unfold write_severity at 1.
  cbn [log_info.flags is_severity_writed_ negb static_log_info_ log_level_].
  change (nth_error severity_str (Z.to_nat 3)) with (Some (text "[INFO]")).
  cbv iota.
  rewrite write_phase_fits;
    [ | reflexivity | cbn; lia | rewrite getFreeBytes_below; cbn; lia ].
  match goal with
  | |- context [mark_severity ?a] => evaluate (mark_severity a)
  end.
  cbn [and_then].
  unfold write_producer_id at 1.
  cbn [log_info.flags is_producer_id_writed_ negb producer_id_].
  rewrite write_phase_fits;
    [ | reflexivity | cbn; lia | rewrite getFreeBytes_below; cbn; lia ].
  match goal with
  | |- context [mark_producer_id ?a] => evaluate (mark_producer_id a)
  end.
  cbn [and_then].
  erewrite write_body_last_run;
    [ | reflexivity | reflexivity | cbn; lia | cbn; lia | reflexivity | ].
  2:{ rewrite getFreeBytes_below; cbn; lia. }
  cbn [and_then format_len_ format_index_ indices format_str_ skipn].
  rewrite Nat.sub_0_r.
  assert (Hrun : List.length (firstn format_len format_str) = format_len)
    by (rewrite length_firstn; lia).
  rewrite write_end_of_log_fits; [ | reflexivity | reflexivity | ].
  2:{ unfold getFreeBytes, copied, finishWriting, set_scratch, add_format_index.
      cbn [output with_output with_indices buffer_size_ writed_count_].
      rewrite Hrun. unfold size_t_of.
      rewrite (Z.mod_small (43 + Z.of_nat format_len)) by lia.
      rewrite Z.mod_small by lia. lia. }
  eexists. eexists. split; [reflexivity|].
  split; [reflexivity|]. split; [reflexivity|].
  unfold mark_end_of_log. cbn [output with_flags].
  rewrite copied_written.
  unfold add_format_index. cbn [output with_indices].
  rewrite copied_written. cbn [output written].
  rewrite <- app_assoc. reflexivity.
Qed.

Lemma unparse_app (before after : list Piece) :
  unparse (before ++ after) = unparse before ++ unparse after.
Proof. unfold unparse. rewrite map_app, concat_app. reflexivity. Qed.

Lemma ConversionSpecifiersCount_pieces (fmt : list ascii) (ps : list Piece) :
  pieces fmt = Return ps ->
  ConversionSpecifiersCount fmt = Return (List.length (specifiers ps)).
Proof.
  intros H. unfold ConversionSpecifiersCount.
  rewrite ConversionSpecifiersCount_loop_pieces. unfold pieces in H. rewrite H.
  reflexivity.
Qed.

(** What the macro registers and stores for a call without arguments whose
    format has no conversion specifier. *)
Lemma plain_call_record (format : string) (ps : list Piece) :
  pieces (c_array format) = Return ps ->
  specifiers ps = [] ->
  plain_call format =
  Return (mkStaticLogInfo (text "a.cc") 10 logger.INFO (List.length (c_array format))
            0 0 (c_array format) [] [] [] [],
          mkDynamicLogInfo 0 24 1700000000000 []).
Proof.
  intros H Hnone. unfold plain_call, OLOG, OLOG_constants.
  rewrite (FormatParametersCount_pieces _ _ H (precisions_fit_plain _ Hnone)).
  rewrite (ConversionSpecifiersCount_pieces _ _ H).
  unfold SizeConversionStorageNeeds. rewrite SizeConversionStorageNeeds_loop_pieces.
  unfold pieces in H. rewrite H. cbn [bind]. unfold params. rewrite Hnone. reflexivity.
Qed.

(** C3, on the code.  For a format whose reading has an escape between the
    pieces [before] and [after] (and no precision above [INT_MAX], which the
    macro refuses), the escape stands for the two characters [%%] of the
    format and takes no argument: the count of conversion specifiers, the
    count of parameters and the type at every parameter position are those of
    the reading without the escape.  The assembled line does not have the one
    [%] of the claim: the body loop copies a literal run as it stands in the
    format, and for a format without conversion specifiers, in a buffer with
    room for the line, the prefix is followed by the text before the escape
    and by both [%] characters. *)
Theorem escape_takes_no_argument_and_keeps_both_percents (format : string)
    (before after : list Piece) (size : Z) (more_fuel : nat) :
  pieces (c_array format) = Return (before ++ Escape :: after) ->
  precisions_fit (before ++ after) = true ->
  c_array format = unparse before ++ text "%%" ++ unparse after /\
  ConversionSpecifiersCount (c_array format) =
    Return (List.length (specifiers (before ++ after))) /\
  FormatParametersCount (c_array format) =
    Return (List.length (params (before ++ after))) /\
  (forall n,
      GetParamInfo (c_array format) n = Return (nth n (params (before ++ after)) INVALID)) /\
  (specifiers (before ++ after) = [] ->
   List.length (strftime_localtime 1700000000) = 20%nat ->
   Z.of_nat (List.length (c_array format)) + 45 < size < 2 ^ 64 ->
   exists a a' n rest,
     loaded strftime_localtime size (plain_call format) = Some a /\
     write (1 + more_fuel) a = inr (a', n) /\
     hasRemainingData a' = false /\
     isBufferFull a' = false /\
     written (output a') =
       strftime_localtime 1700000000 ++ text "000 a.cc:10 [INFO][0]: " ++
       unparse before ++ text "%%" ++ rest).
Proof.
  intros H Hfit.
  assert (Hun : unparse (before ++ Escape :: after) = c_array format)
    by exact (pieces_loop_unparse _ _ _ H).
  assert (Hspec : specifiers (before ++ Escape :: after) = specifiers (before ++ after))
    by apply specifiers_without_escape.
  assert (Hpar : params (before ++ Escape :: after) = params (before ++ after))
    by (unfold params; rewrite Hspec; reflexivity).
  assert (Hfit' : precisions_fit (before ++ Escape :: after) = true)
    by (unfold precisions_fit in *; rewrite Hspec; exact Hfit).
  split; [rewrite <- Hun, unparse_app; reflexivity|].
  split; [rewrite <- Hspec; exact (ConversionSpecifiersCount_pieces _ _ H)|].
  split; [rewrite <- Hpar; exact (FormatParametersCount_pieces _ _ H Hfit')|].
  split; [intros n; rewrite <- Hpar; exact (GetParamInfo_loop_pieces _ _ _ n H Hfit')|].
  intros Hnone Hdate Hsize.
  rewrite <- Hspec in Hnone.
  rewrite (plain_call_record _ _ H Hnone). unfold loaded.
  destruct (plain_record_line size more_fuel (c_array format)
              (List.length (c_array format)))
    as (a' & n & Hw & Hrem & Hfull & Hout).
  - exact Hdate.
  - unfold c_array. rewrite length_app. cbn [List.length]. lia.
  - exact Hsize.
  - eexists. exists a', n, (unparse after ++ CRLF).
    split; [reflexivity|]. split; [exact Hw|].
    split; [exact Hrem|]. split; [exact Hfull|].
    rewrite Hout, firstn_all, <- Hun, unparse_app.
    cbn [unparse map List.concat piece_text app].
    rewrite <- !app_assoc. reflexivity.
Qed.

End LiteralRuns.

Section EscapeRuns.

Import log_info grammar examples libc.

Lemma escape_takes_no_argument_and_keeps_both_percents_witness :
  pieces (c_array "100%%") =
    Return ([Literal "1"; Literal "0"; Literal "0"] ++ Escape :: [Literal NUL]) /\
  precisions_fit ([Literal "1"; Literal "0"; Literal "0"] ++ [Literal NUL]) = true /\
  ConversionSpecifiersCount (c_array "100%%") = Return 0%nat /\
  FormatParametersCount (c_array "100%%") = Return 0%nat /\
  GetParamInfo (c_array "100%%") 0 = Return INVALID /\
  exists a a' n rest,
    loaded strftime_utc_1700000000 config.DOUBLE_BUFFER_SIZE (plain_call "100%%") =
      Some a /\
    log_info.write printf_reference 1 a = inr (a', n) /\
    hasRemainingData a' = false /\
    written (output a') =
      strftime_utc_1700000000 1700000000 ++ text "000 a.cc:10 [INFO][0]: " ++
      text "100%%" ++ rest.
Proof.
  assert (Hp : pieces (c_array "100%%") =
               Return ([Literal "1"; Literal "0"; Literal "0"]%char ++
                       Escape :: [Literal NUL])) by reflexivity.
  assert (Hf : precisions_fit ([Literal "1"; Literal "0"; Literal "0"]%char ++
                               [Literal NUL]) = true) by reflexivity.
  split; [exact Hp|]. split; [exact Hf|].
  destruct (escape_takes_no_argument_and_keeps_both_percents printf_reference
              strftime_utc_1700000000 "100%%"
              [Literal "1"; Literal "0"; Literal "0"]%char [Literal NUL]
              config.DOUBLE_BUFFER_SIZE 0 Hp Hf)
    as (_ & Hc & Hn & Hg & Hline).
  split; [exact Hc|]. split; [exact Hn|]. split; [exact (Hg 0%nat)|].
  destruct (Hline eq_refl eq_refl (conj eq_refl eq_refl))
    as (a & a' & n & rest & Ha & Hw & Hrem & _ & Hout).
  exists a, a', n, rest.
  split; [exact Ha|]. split; [exact Hw|]. split; [exact Hrem|]. exact Hout.
Defined.

(** The line assembled for [OLOG(INFO, "100%%")] with the stand-ins for the
    C library: it holds two [%] characters. *)
Example line_of_escaped_percent :
  exists a a' n,
    loaded strftime_utc_1700000000 config.DOUBLE_BUFFER_SIZE (plain_call "100%%") =
      Some a /\
    log_info.write printf_reference 1 a = inr (a', n) /\
    hasRemainingData a' = false /\
    written (output a') =
      strftime_utc_1700000000 1700000000 ++ text "000 a.cc:10 [INFO][0]: " ++
      text "100%%" ++ [NUL] ++ CRLF /\
    count_occ ascii_dec (written (output a')) "%"%char = 2%nat.
Proof.
  eexists. eexists. eexists.
  split; [vm_compute; reflexivity|].
  split; [vm_compute; reflexivity|].
  split; [reflexivity|]. split; vm_compute; reflexivity.
Qed.

End EscapeRuns.

(** * Further properties of the code *)

(** ** Format analysis: conversion types, positions and fragments *)

Section FormatFragmentsFacts.

Import log_info grammar.

Local Open Scope nat_scope.

(** The length modifiers of a specifier, as [GetConversionType] counts
    them. *)
Definition length_flags (modifiers : list ascii) : LengthFlags :=
  fold_left (fun f c => note_length c f) modifiers no_length.

(** The specifier the loop of [GetConversionType] stops at when it looks for
    number [k] among [ss], entered with the flags [f]: NUL once the format is
    used up. *)
Fixpoint conversion_at (ss : list Specifier) (k : nat) (f : LengthFlags)
  : ascii * LengthFlags :=
  match ss with
  | [] => (NUL, f)
  | s :: ss' =>
      match k with
      | O => (conversion s, fold_left (fun f c => note_length c f) (length_modifiers s) f)
      | S k' => conversion_at ss' k' no_length
      end
  end.

Lemma read_length_flags (fmt : list ascii) (f : LengthFlags) :
  read_length fmt f =
  (snd (span IsLength fmt),
   fold_left (fun f c => note_length c f) (fst (span IsLength fmt)) f).
Proof.
  revert f. induction fmt as [|c fmt IH]; intros f; [reflexivity|].
  cbn [read_length span]. destruct (IsLength c); cbn [fst snd fold_left];
    [apply IH | reflexivity].
Qed.

Lemma GetConversionType_loop_pieces (fuel : nat) (fmt : list ascii) (ps : list Piece)
    (k : nat) (f : LengthFlags) :
  pieces_loop fuel fmt = Return ps ->
  GetConversionType_loop fuel fmt k f = Return (conversion_at (specifiers ps) k f).
Proof.
  revert fmt ps k f.
  induction fuel as [|fuel IH]; intros [|c fmt1] ps k f H;
    cbn [pieces_loop] in H; try discriminate.
  - inversion H. reflexivity.
  - inversion H. reflexivity.
  - cbn [GetConversionType_loop].
    destruct (negb (c =? "%")%char).
    { destruct (pieces_loop fuel fmt1) eqn:E; cbn [bind] in H; try discriminate.
      inversion H. exact (IH _ _ k f E). }
    destruct (cur fmt1 =? "%")%char.
    { destruct (pieces_loop fuel (tl fmt1)) eqn:E; cbn [bind] in H; try discriminate.
      inversion H. exact (IH _ _ k f E). }
    destruct (negb (IsConversionSpecifier (conversion (fst (scan fmt1))))) eqn:Ev;
      [discriminate|].
    destruct (conversion (fst (scan fmt1)) =? "n")%char eqn:En; [discriminate|].
    destruct (pieces_loop fuel (snd (scan fmt1))) as [ps1| |] eqn:E1;
      cbn [bind] in H; try discriminate.
    assert (Hps : ps = Conversion (fst (scan fmt1)) :: ps1) by congruence.
    subst ps. clear H.
    rewrite skip_while_span, skip_width_scan, skip_precision_scan, read_length_flags.
    change (cur (snd (span IsLength (snd (scan_precision (snd (scan_width
              (snd (span IsFlag fmt1))))))))) with (conversion (fst (scan fmt1))).
    change (tl (snd (span IsLength (snd (scan_precision (snd (scan_width
              (snd (span IsFlag fmt1))))))))) with (snd (scan fmt1)).
    rewrite Ev, En. cbn [specifiers].
    destruct k as [|k]; cbn [Nat.ltb Nat.leb Nat.sub conversion_at].
    + reflexivity.
    + rewrite Nat.sub_0_r. exact (IH _ _ k no_length E1).
Qed.

Lemma conversion_at_nth (ss : list Specifier) (k : nat) (s : Specifier) :
  nth_error ss k = Some s ->
  conversion_at ss k no_length = (conversion s, length_flags (length_modifiers s)).
Proof.
  revert k. induction ss as [|s0 ss IH]; intros [|k] H; cbn in H; try discriminate.
  - inversion H. reflexivity.
  - cbn [conversion_at]. apply IH. exact H.
Qed.

Lemma conversion_at_beyond (ss : list Specifier) (k : nat) :
  List.length ss <= k -> conversion_at ss k no_length = (NUL, no_length).
Proof.
  revert k. induction ss as [|s0 ss IH]; intros k H; [reflexivity|].
  destruct k as [|k]; cbn in H; [lia|]. cbn [conversion_at]. apply IH. lia.
Qed.

(** X1. [GetConversionType] gives, for the [k]-th conversion specifier of a
    format, the type that its own conversion character and its own length
    modifiers select; the modifiers of the specifiers before it play no part.
    Past the last specifier it gives NONE.  (The counters of [h] and [l] are
    [unsigned short]; the format is taken short enough for them not to
    wrap.) *)
Theorem conversion_type_of_reading (fmt : list ascii) (ps : list Piece) :
  pieces fmt = Return ps ->
  (Z.of_nat (List.length fmt) < 65536)%Z ->
  (forall k s,
      nth_error (specifiers ps) k = Some s ->
      GetConversionType fmt k =
      Return (classify_conversion (conversion s) (length_flags (length_modifiers s)))) /\
  (forall k,
      List.length (specifiers ps) <= k -> GetConversionType fmt k = Return NONE).
Proof.
  intros H _. split.
  - intros k s Hk. unfold GetConversionType.
    rewrite (GetConversionType_loop_pieces _ _ _ k no_length H).
    rewrite (conversion_at_nth _ _ _ Hk). reflexivity.
  - intros k Hk. unfold GetConversionType.
    rewrite (GetConversionType_loop_pieces _ _ _ k no_length H).
    rewrite (conversion_at_beyond _ _ Hk). reflexivity.
Qed.

Lemma conversion_type_of_reading_witness :
  pieces (c_array "%-5hhd and %.3Lf") =
    Return [Conversion (mkSpecifier ["-"%char] ["5"%char] [] ["h"%char; "h"%char] "d"%char);
            Literal " "%char; Literal "a"%char; Literal "n"%char; Literal "d"%char;
            Literal " "%char;
            Conversion (mkSpecifier [] [] ["."%char; "3"%char] ["L"%char] "f"%char);
            Literal NUL] /\
  (Z.of_nat (List.length (c_array "%-5hhd and %.3Lf")) < 65536)%Z /\
  GetConversionType (c_array "%-5hhd and %.3Lf") 0 = Return signed_char_t /\
  GetConversionType (c_array "%-5hhd and %.3Lf") 1 = Return long_double_t /\
  GetConversionType (c_array "%-5hhd and %.3Lf") 2 = Return NONE.
Proof.
  assert (Hp : pieces (c_array "%-5hhd and %.3Lf") =
    Return [Conversion (mkSpecifier ["-"%char] ["5"%char] [] ["h"%char; "h"%char] "d"%char);
            Literal " "%char; Literal "a"%char; Literal "n"%char; Literal "d"%char;
            Literal " "%char;
            Conversion (mkSpecifier [] [] ["."%char; "3"%char] ["L"%char] "f"%char);
            Literal NUL]) by reflexivity.
  assert (Hl : (Z.of_nat (List.length (c_array "%-5hhd and %.3Lf")) < 65536)%Z)
    by reflexivity.
  destruct (conversion_type_of_reading _ _ Hp Hl) as [Hin Hout].
  split; [exact Hp|]. split; [exact Hl|].
  split; [exact (Hin 0 _ eq_refl)|].
  split; [exact (Hin 1 _ eq_refl)|].
  apply Hout. cbn. lia.
Defined.

(** X2. Among the conversion characters the analysis accepts, [%] (written
    with flags, a width, a precision or length modifiers between the two
    signs) is the only one that is given no argument type. *)
Theorem only_percent_has_no_type (c : ascii) (f : LengthFlags) :
  IsConversionSpecifier c = true ->
  (c =? "n")%char = false ->
  (classify_conversion c f = NONE <-> c = "%"%char).
Proof.
  unfold IsConversionSpecifier. intros Hc Hn.
  repeat (apply orb_prop in Hc; destruct Hc as [Hc|Hc]);
    apply Ascii.eqb_eq in Hc; subst c; try discriminate Hn;
    unfold classify_conversion; cbn [Ascii.eqb Bool.eqb orb andb];
    repeat match goal with
           | |- context [if ?b then _ else _] => destruct b
           end;
    split; intros H; try discriminate H; reflexivity.
Qed.

Lemma only_percent_has_no_type_witness :
  IsConversionSpecifier "s" = true /\ ("s" =? "n")%char = false /\
  (classify_conversion "s" no_length = NONE <-> "s"%char = "%"%char).
Proof.
  split; [reflexivity|]. split; [reflexivity|].
  apply only_percent_has_no_type; reflexivity.
Defined.

(** Where the [k]-th conversion specifier starts among the characters of
    the pieces. *)
Fixpoint specifier_offset (ps : list Piece) (k : nat) : option nat :=
  match ps with
  | [] => None
  | Conversion s :: ps' =>
      match k with
      | O => Some 0
      | S k' => option_map (Nat.add (List.length (specifier_text s)))
                  (specifier_offset ps' k')
      end
  | p :: ps' => option_map (Nat.add (List.length (piece_text p))) (specifier_offset ps' k)
  end.

Lemma GetConversionSpecifierPosition_loop_pieces (fuel FormatLength : nat)
    (fmt : list ascii) (ps : list Piece) (k : nat) :
  pieces_loop fuel fmt = Return ps ->
  List.length fmt <= FormatLength ->
  GetConversionSpecifierPosition_loop fuel FormatLength fmt k =
  Return (match specifier_offset ps k with
          | Some offset => FormatLength - List.length fmt + offset
          | None => FormatLength
          end).
Proof.
  revert fmt ps k.
  induction fuel as [|fuel IH]; intros [|c fmt1] ps k H Hlen;
    cbn [pieces_loop] in H; try discriminate.
  - inversion H. reflexivity.
  - inversion H. reflexivity.
  - cbn [GetConversionSpecifierPosition_loop]. cbn [List.length] in Hlen.
    destruct (negb (c =? "%")%char).
    { destruct (pieces_loop fuel fmt1) as [ps1| |] eqn:E; cbn [bind] in H;
        try discriminate.
      inversion H. rewrite (IH _ _ k E) by lia.
      cbn [specifier_offset piece_text List.length].
      destruct (specifier_offset ps1 k); cbn [option_map]; [|reflexivity].
      f_equal. lia. }
    destruct (cur fmt1 =? "%")%char eqn:Ep.
    { destruct (pieces_loop fuel (tl fmt1)) as [ps1| |] eqn:E; cbn [bind] in H;
        try discriminate.
      inversion H.
      pose proof (length_tl fmt1).
      rewrite (IH _ _ k E) by lia.
      cbn [specifier_offset piece_text List.length].
      destruct (specifier_offset ps1 k); cbn [option_map]; [|reflexivity].
      apply (cur_eqb_cons fmt1 "%"%char) in Ep; [|discriminate].
      assert (Hl : List.length fmt1 = S (List.length (tl fmt1)))
        by (rewrite Ep at 1; reflexivity).
      f_equal. lia. }
    destruct (negb (IsConversionSpecifier (conversion (fst (scan fmt1))))) eqn:Ev;
      [discriminate|].
    destruct (conversion (fst (scan fmt1)) =? "n")%char eqn:En; [discriminate|].
    destruct (pieces_loop fuel (snd (scan fmt1))) as [ps1| |] eqn:E1;
      cbn [bind] in H; try discriminate.
    assert (Hps : ps = Conversion (fst (scan fmt1)) :: ps1) by congruence.
    subst ps. clear H.
    destruct k as [|k]; cbn [Nat.eqb specifier_offset List.length].
    { f_equal. lia. }
    rewrite !skip_while_span, skip_width_scan, skip_precision_scan.
    change (cur (snd (span IsLength (snd (scan_precision (snd (scan_width
              (snd (span IsFlag fmt1))))))))) with (conversion (fst (scan fmt1))).
    change (tl (snd (span IsLength (snd (scan_precision (snd (scan_width
              (snd (span IsFlag fmt1))))))))) with (snd (scan fmt1)).
    rewrite Ev, En. cbn [Nat.sub]. rewrite Nat.sub_0_r.
    pose proof (length_scan_snd fmt1) as Hs.
    rewrite (IH _ _ k E1) by lia.
    destruct (specifier_offset ps1 k); cbn [option_map]; [|reflexivity].
    apply negb_false_iff in Ev.
    pose proof (f_equal (@List.length ascii) (scan_text fmt1 Ev)) as Ht.
    rewrite length_app in Ht. cbn [List.length] in Ht.
    f_equal. lia.
Qed.

Lemma specifier_offset_split (ps : list Piece) (k : nat) (s : Specifier) :
  nth_error (specifiers ps) k = Some s ->
  exists before after,
    ps = before ++ Conversion s :: after /\
    List.length (specifiers before) = k /\
    specifier_offset ps k = Some (List.length (unparse before)).
Proof.
  revert k. induction ps as [|p ps IH]; intros k H; [destruct k; discriminate H|].
  destruct p as [c| |s0].
  - cbn [specifiers] in H. destruct (IH k H) as (before & after & E & Hk & Ho).
    exists (Literal c :: before), after. subst ps.
    split; [reflexivity|]. split; [exact Hk|].
    cbn [specifier_offset]. rewrite Ho. reflexivity.
  - cbn [specifiers] in H. destruct (IH k H) as (before & after & E & Hk & Ho).
    exists (Escape :: before), after. subst ps.
    split; [reflexivity|]. split; [exact Hk|].
    cbn [specifier_offset]. rewrite Ho. reflexivity.
  - cbn [specifiers] in H. destruct k as [|k].
    + inversion H. subst s0. exists [], ps. repeat split; reflexivity.
    + cbn [nth_error] in H. destruct (IH k H) as (before & after & E & Hk & Ho).
      exists (Conversion s0 :: before), after. subst ps.
      split; [reflexivity|]. split; [cbn [specifiers List.length]; lia|].
      cbn [specifier_offset]. rewrite Ho. cbn [option_map]. f_equal.
      unfold unparse. cbn [map List.concat piece_text]. rewrite length_app. reflexivity.
Qed.

Lemma specifier_offset_beyond (ps : list Piece) (k : nat) :
  List.length (specifiers ps) <= k -> specifier_offset ps k = None.
Proof.
  revert k. induction ps as [|p ps IH]; intros k H; [reflexivity|].
  destruct p as [c| |s0]; cbn [specifiers specifier_offset] in *.
  - rewrite (IH k H). reflexivity.
  - rewrite (IH k H). reflexivity.
  - destruct k as [|k]; cbn [List.length] in H; [lia|].
    rewrite (IH k) by lia. reflexivity.
Qed.

(** X3. [GetConversionSpecifierPosition] gives the index in the format of
    the [%] that opens the [k]-th conversion specifier: the number of
    characters of the pieces before it, escapes counting for two.  Past the
    last specifier it gives the length of the format array. *)
Theorem specifier_position_of_reading (fmt : list ascii) (ps : list Piece) :
  pieces fmt = Return ps ->
  (forall k s,
      nth_error (specifiers ps) k = Some s ->
      exists before after,
        ps = before ++ Conversion s :: after /\
        List.length (specifiers before) = k /\
        fmt = unparse before ++ specifier_text s ++ unparse after /\
        GetConversionSpecifierPosition fmt k = Return (List.length (unparse before))) /\
  (forall k,
      List.length (specifiers ps) <= k ->
      GetConversionSpecifierPosition fmt k = Return (List.length fmt)).
Proof.
  intros H. split.
  - intros k s Hk.
    destruct (specifier_offset_split _ _ _ Hk) as (before & after & E & Hb & Ho).
    exists before, after. split; [exact E|]. split; [exact Hb|]. split.
    + rewrite <- (pieces_loop_unparse _ _ _ H). rewrite E, unparse_app.
      reflexivity.
    + unfold GetConversionSpecifierPosition.
      rewrite (GetConversionSpecifierPosition_loop_pieces _ _ _ _ k H (Nat.le_refl _)).
      rewrite Ho. f_equal. lia.
  - intros k Hk. unfold GetConversionSpecifierPosition.
    rewrite (GetConversionSpecifierPosition_loop_pieces _ _ _ _ k H (Nat.le_refl _)).
    rewrite (specifier_offset_beyond _ _ Hk). reflexivity.
Qed.

Lemma specifier_position_of_reading_witness :
  pieces (c_array "a%%b%dc%s") =
    Return [Literal "a"%char; Escape; Literal "b"%char;
            Conversion (mkSpecifier [] [] [] [] "d"%char); Literal "c"%char;
            Conversion (mkSpecifier [] [] [] [] "s"%char); Literal NUL] /\
  GetConversionSpecifierPosition (c_array "a%%b%dc%s") 0 = Return 4 /\
  GetConversionSpecifierPosition (c_array "a%%b%dc%s") 1 = Return 7 /\
  GetConversionSpecifierPosition (c_array "a%%b%dc%s") 2 = Return 10.
Proof.
  assert (Hp : pieces (c_array "a%%b%dc%s") =
    Return [Literal "a"%char; Escape; Literal "b"%char;
            Conversion (mkSpecifier [] [] [] [] "d"%char); Literal "c"%char;
            Conversion (mkSpecifier [] [] [] [] "s"%char); Literal NUL])
    by reflexivity.
  destruct (specifier_position_of_reading _ _ Hp) as [_ Hout].
  split; [exact Hp|]. split; [reflexivity|]. split; [reflexivity|].
  apply (Hout 2). cbn. lia.
Defined.

(** *** The storage of the specifiers *)

Definition no_percent (l : list ascii) : Prop := Forall (fun c => c <> "%"%char) l.

Lemma GetConversionSpecifierLength_loop_token (t rest : list ascii) (num len : nat) :
  no_NUL t ->
  GetConversionSpecifierLength_loop (t ++ NUL :: rest) num len =
  if num =? 0 then len + List.length t
  else GetConversionSpecifierLength_loop rest (num - 1) 0.
Proof.
  intros H. revert len. induction H as [|c t Hc _ IH]; intros len.
  - cbn [app GetConversionSpecifierLength_loop List.length].
    change (NUL =? NUL)%char with true. cbn iota. rewrite Nat.add_0_r. reflexivity.
  - cbn [app GetConversionSpecifierLength_loop List.length].
    destruct (Ascii.eqb_spec c NUL) as [->|_]; [congruence|].
    rewrite IH. destruct (num =? 0); [lia | reflexivity].
Qed.

Lemma GetConversionSpecifierLength_storage (ss : list Specifier) (k : nat) :
  Forall (fun s => no_NUL (specifier_text s)) ss ->
  GetConversionSpecifierLength_loop (storage_of ss) k 0 =
  match nth_error ss k with
  | Some s => List.length (specifier_text s)
  | None => 0
  end.
Proof.
  intros H. revert k. induction H as [|s ss Hs _ IH]; intros k.
  - destruct k; reflexivity.
  - unfold storage_of. cbn [map List.concat]. rewrite <- app_assoc. cbn [app].
    rewrite (GetConversionSpecifierLength_loop_token _ _ _ _ Hs).
    destruct k as [|k]; cbn [Nat.eqb nth_error Nat.sub]; [reflexivity|].
    rewrite Nat.sub_0_r. apply IH.
Qed.

(** The storage made for a format holds the texts of its specifiers, each
    followed by NUL. *)
Lemma made_storage (fmt : list ascii) (ps : list Piece) (size : nat)
    (storage : list ascii) :
  pieces fmt = Return ps ->
  SizeConversionStorageNeeds fmt = Return size ->
  MakeConversionStorage size fmt = Return storage ->
  storage = storage_of (specifiers ps).
Proof.
  intros H Hsize Hst. unfold SizeConversionStorageNeeds in Hsize.
  rewrite SizeConversionStorageNeeds_loop_pieces in Hsize.
  unfold pieces in H. rewrite H in Hsize. cbn [bind Nat.add] in Hsize.
  inversion Hsize; subst size; clear Hsize.
  rewrite (MakeConversionStorage_pieces _ _ H) in Hst. congruence.
Qed.

(** X4. In the storage [MakeConversionStorage] builds,
    [GetConversionSpecifierLength] gives for the [k]-th specifier the number
    of characters of its text, the [%] included and the NUL left out; past
    the last specifier it gives 0. *)
Theorem specifier_length_in_storage (fmt : list ascii) (ps : list Piece)
    (size : nat) (storage : list ascii) :
  pieces fmt = Return ps ->
  SizeConversionStorageNeeds fmt = Return size ->
  MakeConversionStorage size fmt = Return storage ->
  (forall k s,
      nth_error (specifiers ps) k = Some s ->
      GetConversionSpecifierLength storage k = List.length (specifier_text s)) /\
  (forall k,
      List.length (specifiers ps) <= k -> GetConversionSpecifierLength storage k = 0).
Proof.
  intros H Hsize Hst. rewrite (made_storage _ _ _ _ H Hsize Hst).
  pose proof (pieces_loop_no_NUL _ _ _ H) as Hn.
  unfold GetConversionSpecifierLength. split.
  - intros k s Hk. rewrite (GetConversionSpecifierLength_storage _ k Hn), Hk. reflexivity.
  - intros k Hk. rewrite (GetConversionSpecifierLength_storage _ k Hn).
    apply nth_error_None in Hk. rewrite Hk. reflexivity.
Qed.

Lemma specifier_length_in_storage_witness :
  pieces (c_array "a%%b%-5dc%.*s") =
    Return [Literal "a"%char; Escape; Literal "b"%char;
            Conversion (mkSpecifier ["-"%char] ["5"%char] [] [] "d"%char);
            Literal "c"%char;
            Conversion (mkSpecifier [] [] ["."%char; "*"%char] [] "s"%char);
            Literal NUL] /\
  SizeConversionStorageNeeds (c_array "a%%b%-5dc%.*s") = Return 10 /\
  MakeConversionStorage 10 (c_array "a%%b%-5dc%.*s") =
    Return (list_ascii_of_string "%-5d" ++ [NUL] ++ list_ascii_of_string "%.*s" ++ [NUL]) /\
  GetConversionSpecifierLength
    (list_ascii_of_string "%-5d" ++ [NUL] ++ list_ascii_of_string "%.*s" ++ [NUL]) 1 = 4.
Proof.
  assert (Hp : pieces (c_array "a%%b%-5dc%.*s") =
    Return [Literal "a"%char; Escape; Literal "b"%char;
            Conversion (mkSpecifier ["-"%char] ["5"%char] [] [] "d"%char);
            Literal "c"%char;
            Conversion (mkSpecifier [] [] ["."%char; "*"%char] [] "s"%char);
            Literal NUL]) by reflexivity.
  assert (Hs : MakeConversionStorage 10 (c_array "a%%b%-5dc%.*s") =
    Return (list_ascii_of_string "%-5d" ++ [NUL] ++ list_ascii_of_string "%.*s" ++ [NUL]))
    by reflexivity.
  split; [exact Hp|]. split; [reflexivity|]. split; [exact Hs|].
  exact (proj1 (specifier_length_in_storage _ _ 10 _ Hp eq_refl Hs) 1 _ eq_refl).
Defined.

Lemma span_avoids (p : ascii -> bool) (c0 : ascii) (fmt : list ascii) :
  p c0 = false -> Forall (fun c => c <> c0) (fst (span p fmt)).
Proof.
  intros Hp. induction fmt as [|c fmt IH]; cbn; [constructor|].
  destruct (p c) eqn:E; cbn; [|constructor].
  constructor; [|exact IH]. intros ->. congruence.
Qed.

Lemma no_percent_scan (fmt : list ascii) :
  conversion (fst (scan fmt)) <> "%"%char ->
  no_percent (tl (specifier_text (fst (scan fmt)))).
Proof.
  intros Hc. unfold specifier_text, scan in *. cbn [fst flags width precision
    length_modifiers conversion tl] in *.
  unfold no_percent.
  apply Forall_app; split; [|apply Forall_app; split; [|apply Forall_app; split;
    [|apply Forall_app; split]]].
  - apply span_avoids. reflexivity.
  - unfold scan_width. destruct (cur _ =? "*")%char; cbn [fst].
    + constructor; [discriminate|constructor].
    + apply span_avoids. reflexivity.
  - unfold scan_precision. destruct (cur _ =? ".")%char; cbn [fst]; [|constructor].
    destruct (cur _ =? "*")%char; cbn [fst].
    + constructor; [discriminate|]. constructor; [discriminate|constructor].
    + constructor; [discriminate|]. apply span_avoids. reflexivity.
  - apply span_avoids. reflexivity.
  - constructor; [exact Hc | constructor].
Qed.

Lemma pieces_loop_no_percent (fuel : nat) (fmt : list ascii) (ps : list Piece) :
  pieces_loop fuel fmt = Return ps ->
  Forall (fun s => hd NUL (specifier_text s) = "%"%char /\
                   (conversion s <> "%"%char -> no_percent (tl (specifier_text s))))
         (specifiers ps).
Proof.
  revert fmt ps. induction fuel as [|fuel IH]; intros [|c fmt1] ps H;
    cbn [pieces_loop] in H; try discriminate.
  - inversion H. constructor.
  - inversion H. constructor.
  - destruct (negb (c =? "%")%char).
    { destruct (pieces_loop fuel fmt1) eqn:E; cbn [bind] in H; try discriminate.
      inversion H. cbn [specifiers]. eapply IH. exact E. }
    destruct (cur fmt1 =? "%")%char.
    { destruct (pieces_loop fuel (tl fmt1)) eqn:E; cbn [bind] in H; try discriminate.
      inversion H. cbn [specifiers]. eapply IH. exact E. }
    destruct (negb (IsConversionSpecifier (conversion (fst (scan fmt1))))) eqn:Ev;
      [discriminate|].
    destruct (conversion (fst (scan fmt1)) =? "n")%char; [discriminate|].
    destruct (pieces_loop fuel (snd (scan fmt1))) as [ps1| |] eqn:E;
      cbn [bind] in H; try discriminate.
    assert (Hps : ps = Conversion (fst (scan fmt1)) :: ps1) by congruence.
    subst ps. cbn [specifiers]. constructor.
    + split; [reflexivity | apply no_percent_scan].
    + eapply IH. exact E.
Qed.

Lemma PositionInStorage_loop_skip (skipped rest : list ascii) (num index : nat) :
  no_percent skipped ->
  GetConversionSpecifierPositionInStorage_loop (skipped ++ rest) num index =
  GetConversionSpecifierPositionInStorage_loop rest num (index + List.length skipped).
Proof.
  intros H. revert index. induction H as [|c l Hc _ IH]; intros index.
  - cbn. rewrite Nat.add_0_r. reflexivity.
  - cbn [app GetConversionSpecifierPositionInStorage_loop List.length].
    destruct (Ascii.eqb_spec c "%"%char) as [->|_]; [congruence|]. cbn [negb].
    rewrite IH. f_equal. lia.
Qed.

Lemma storage_of_app (ss ss' : list Specifier) :
  storage_of (ss ++ ss') = storage_of ss ++ storage_of ss'.
Proof. unfold storage_of. rewrite map_app, concat_app. reflexivity. Qed.

Lemma PositionInStorage_storage (ss : list Specifier) (k index : nat) :
  Forall (fun s => hd NUL (specifier_text s) = "%"%char) ss ->
  Forall (fun s => no_percent (tl (specifier_text s))) (firstn k ss) ->
  GetConversionSpecifierPositionInStorage_loop (storage_of ss) k index =
  index + List.length (storage_of (firstn k ss)).
Proof.
  intros Hhd. revert k index. induction Hhd as [|s ss Hs _ IH]; intros k index Hplain.
  - destruct k; cbn; lia.
  - unfold storage_of at 1. cbn [map List.concat].
    change (List.concat (map (fun s => specifier_text s ++ [NUL]) ss))
      with (storage_of ss).
    unfold specifier_text in *. cbn [hd tl app] in *.
    cbn [GetConversionSpecifierPositionInStorage_loop].
    change ("%" =? "%")%char with true. cbn [negb].
    destruct k as [|k]; cbn [Nat.eqb firstn]; [cbn; lia|].
    inversion Hplain as [|? ? Hp Hrest]; subst.
    cbn [tl] in Hp. cbn [Nat.sub]. rewrite Nat.sub_0_r.
    rewrite <- app_assoc.
    rewrite PositionInStorage_loop_skip by exact Hp.
    cbn [app GetConversionSpecifierPositionInStorage_loop].
    change (negb (NUL =? "%")%char) with true. cbn iota.
    rewrite (IH k _ Hrest).
    unfold storage_of at 2. cbn [map List.concat].
    change (List.concat (map (fun s => specifier_text s ++ [NUL]) (firstn k ss)))
      with (storage_of (firstn k ss)).
    unfold specifier_text. cbn [app List.length]. rewrite !length_app.
    cbn [List.length]. lia.
Qed.

Lemma until_NUL_token (t rest : list ascii) :
  no_NUL t -> until_NUL (t ++ NUL :: rest) = t.
Proof.
  induction 1 as [|c t Hc _ IH]; [reflexivity|].
  cbn [app until_NUL]. destruct (Ascii.eqb_spec c NUL) as [->|_]; [congruence|].
  rewrite IH. reflexivity.
Qed.

Lemma c_str_at_storage (ss : list Specifier) (k : nat) (s : Specifier) :
  Forall (fun s => no_NUL (specifier_text s)) ss ->
  nth_error ss k = Some s ->
  c_str_at (storage_of ss) (List.length (storage_of (firstn k ss))) = specifier_text s.
Proof.
  intros Hn Hk. unfold c_str_at.
  replace (storage_of ss) with (storage_of (firstn k ss) ++ storage_of (skipn k ss))
    by (rewrite <- storage_of_app, firstn_skipn; reflexivity).
  rewrite skipn_app, skipn_all, Nat.sub_diag. cbn [app skipn].
  destruct (skipn k ss) as [|s0 rest] eqn:E.
  - apply (f_equal (@List.length Specifier)) in E. rewrite length_skipn in E.
    cbn in E. assert (k < List.length ss) by (apply nth_error_Some; congruence). lia.
  - assert (s0 = s).
    { pose proof (nth_error_skipn k ss 0) as Hx. rewrite E, Nat.add_0_r in Hx.
      cbn in Hx. congruence. }
    subst s0. unfold storage_of. cbn [map List.concat]. rewrite <- app_assoc.
    cbn [app]. apply until_NUL_token.
    exact (proj1 (Forall_forall _ _) Hn s (nth_error_In _ _ Hk)).
Qed.

(** X5. In the storage made for a format, the C string that starts at the
    position [GetConversionSpecifierPositionInStorage] gives for the [k]-th
    specifier is the text of that specifier, as long as none of the
    specifiers before it has [%] as its conversion character (the function
    counts the [%] characters of the storage). *)
Theorem specifier_position_in_storage (fmt : list ascii) (ps : list Piece)
    (size : nat) (storage : list ascii) (k : nat) (s : Specifier) :
  pieces fmt = Return ps ->
  SizeConversionStorageNeeds fmt = Return size ->
  MakeConversionStorage size fmt = Return storage ->
  nth_error (specifiers ps) k = Some s ->
  Forall (fun s' => conversion s' <> "%"%char) (firstn k (specifiers ps)) ->
  c_str_at storage (GetConversionSpecifierPositionInStorage storage k) =
  specifier_text s.
Proof.
  intros H Hsize Hst Hk Hplain. rewrite (made_storage _ _ _ _ H Hsize Hst).
  pose proof (pieces_loop_no_NUL _ _ _ H) as Hn.
  pose proof (pieces_loop_no_percent _ _ _ H) as Hp.
  unfold GetConversionSpecifierPositionInStorage.
  rewrite PositionInStorage_storage.
  - apply c_str_at_storage; assumption.
  - eapply Forall_impl; [|exact Hp]. intros s' [Hhd _]. exact Hhd.
  - apply Forall_forall. intros s' Hin.
    assert (Hin' : In s' (specifiers ps)).
    { rewrite <- (firstn_skipn k (specifiers ps)). apply in_or_app. left. exact Hin. }
    apply (proj1 (Forall_forall _ _) Hp s' Hin').
    exact (proj1 (Forall_forall _ _) Hplain s' Hin).
Qed.

Lemma specifier_position_in_storage_witness :
  pieces (c_array "a%%b%-5dc%.*s") =
    Return [Literal "a"%char; Escape; Literal "b"%char;
            Conversion (mkSpecifier ["-"%char] ["5"%char] [] [] "d"%char);
            Literal "c"%char;
            Conversion (mkSpecifier [] [] ["."%char; "*"%char] [] "s"%char);
            Literal NUL] /\
  SizeConversionStorageNeeds (c_array "a%%b%-5dc%.*s") = Return 10 /\
  MakeConversionStorage 10 (c_array "a%%b%-5dc%.*s") =
    Return (list_ascii_of_string "%-5d" ++ [NUL] ++ list_ascii_of_string "%.*s" ++ [NUL]) /\
  c_str_at
    (list_ascii_of_string "%-5d" ++ [NUL] ++ list_ascii_of_string "%.*s" ++ [NUL])
    (GetConversionSpecifierPositionInStorage
       (list_ascii_of_string "%-5d" ++ [NUL] ++ list_ascii_of_string "%.*s" ++ [NUL]) 1) =
  list_ascii_of_string "%.*s".
Proof.
  assert (Hp : pieces (c_array "a%%b%-5dc%.*s") =
    Return [Literal "a"%char; Escape; Literal "b"%char;
            Conversion (mkSpecifier ["-"%char] ["5"%char] [] [] "d"%char);
            Literal "c"%char;
            Conversion (mkSpecifier [] [] ["."%char; "*"%char] [] "s"%char);
            Literal NUL]) by reflexivity.
  assert (Hs : MakeConversionStorage 10 (c_array "a%%b%-5dc%.*s") =
    Return (list_ascii_of_string "%-5d" ++ [NUL] ++ list_ascii_of_string "%.*s" ++ [NUL]))
    by reflexivity.
  split; [exact Hp|]. split; [reflexivity|]. split; [exact Hs|].
  apply (specifier_position_in_storage _ _ 10 _ 1 _ Hp eq_refl Hs eq_refl).
  constructor; [discriminate | constructor].
Defined.

(** With [%] as the conversion character of an earlier specifier the
    position is that of this character: for ["%5%%d"] the second fragment is
    given the string [%] in place of [%d]. *)
Example position_in_storage_after_percent_conversion :
  MakeConversionStorage 7 (c_array "%5%%d") =
    Return (list_ascii_of_string "%5%" ++ [NUL] ++ list_ascii_of_string "%d" ++ [NUL]) /\
  c_str_at
    (list_ascii_of_string "%5%" ++ [NUL] ++ list_ascii_of_string "%d" ++ [NUL])
    (GetConversionSpecifierPositionInStorage
       (list_ascii_of_string "%5%" ++ [NUL] ++ list_ascii_of_string "%d" ++ [NUL]) 1) =
  list_ascii_of_string "%".
Proof. split; reflexivity. Qed.

(** *** The fragments *)

Lemma sequence_map_Return_In {A B : Type} (f : A -> result B) (g : A -> B)
    (l : list A) :
  (forall a, In a l -> f a = Return (g a)) -> sequence (map f l) = Return (map g l).
Proof.
  induction l as [|a l IH]; intros H; [reflexivity|].
  cbn [map sequence]. rewrite (H a (or_introl eq_refl)), IH; [reflexivity|].
  intros b Hb. apply H. right. exact Hb.
Qed.

Lemma nth_error_map_seq {B : Type} (g : nat -> B) (n k : nat) :
  k < n -> nth_error (map g (seq 0 n)) k = Some (g k).
Proof.
  intros H. rewrite nth_error_map.
  rewrite (nth_error_nth' (seq 0 n) 0) by (rewrite length_seq; exact H).
  rewrite seq_nth by exact H. reflexivity.
Qed.

Lemma cut_out (before text after : list ascii) :
  firstn (List.length text) (skipn (List.length before) (before ++ text ++ after)) = text.
Proof.
  rewrite skipn_app, skipn_all, Nat.sub_diag. cbn [app skipn].
  rewrite firstn_app, firstn_all, Nat.sub_diag. cbn [firstn]. apply app_nil_r.
Qed.

(** The fragment [GetFormatFragments] computes for the conversion number
    [k]. *)
Definition fragment_of (fmt storage : list ascii) (ps : list Piece) (k : nat)
  : FormatFragment :=
  mkFormatFragment
    (classify_conversion (fst (conversion_at (specifiers ps) k no_length))
       (snd (conversion_at (specifiers ps) k no_length)))
    (GetConversionSpecifierLength storage k)
    (match specifier_offset ps k with
     | Some offset => offset
     | None => List.length fmt
     end)
    (GetConversionSpecifierPositionInStorage storage k).

Lemma GetFormatFragments_pieces (fmt storage : list ascii) (ps : list Piece) (n : nat) :
  pieces fmt = Return ps ->
  GetFormatFragments n fmt storage = Return (map (fragment_of fmt storage ps) (seq 0 n)).
Proof.
  intros H. unfold GetFormatFragments. apply sequence_map_Return_In.
  intros k _. unfold GetConversionType, GetConversionSpecifierPosition.
  rewrite (GetConversionType_loop_pieces _ _ _ k no_length H).
  rewrite (GetConversionSpecifierPosition_loop_pieces _ _ _ _ k H (Nat.le_refl _)).
  cbn [bind]. unfold fragment_of.
  destruct (conversion_at (specifiers ps) k no_length) as [c f]. cbn [bind fst snd].
  f_equal. f_equal.
  destruct (specifier_offset ps k); lia.
Qed.

(** X6. The fragments [GetFormatFragments] computes for a format point at
    its conversion specifiers: fragment [k] carries the type of the [k]-th
    specifier and the length of its text, its format position is where that
    text stands in the format, and (no specifier having [%] as its conversion
    character) its storage position is where the same text, closed by NUL,
    stands in the conversion storage. *)
Theorem format_fragments_of_reading (fmt : list ascii) (ps : list Piece)
    (n size : nat) (storage : list ascii) :
  pieces fmt = Return ps ->
  (Z.of_nat (List.length fmt) < 65536)%Z ->
  ConversionSpecifiersCount fmt = Return n ->
  SizeConversionStorageNeeds fmt = Return size ->
  MakeConversionStorage size fmt = Return storage ->
  Forall (fun s => conversion s <> "%"%char) (specifiers ps) ->
  exists fragments,
    GetFormatFragments n fmt storage = Return fragments /\
    List.length fragments = List.length (specifiers ps) /\
    forall k s,
      nth_error (specifiers ps) k = Some s ->
      exists fragment,
        nth_error fragments k = Some fragment /\
        conversion_type_ fragment =
          classify_conversion (conversion s) (length_flags (length_modifiers s)) /\
        specifier_length_ fragment = List.length (specifier_text s) /\
        firstn (specifier_length_ fragment) (skipn (format_pos_ fragment) fmt) =
          specifier_text s /\
        c_str_at storage (storage_pos_ fragment) = specifier_text s.
Proof.
  intros H _ Hn Hsize Hst Hplain.
  unfold ConversionSpecifiersCount in Hn.
  rewrite ConversionSpecifiersCount_loop_pieces in Hn.
  pose proof H as H'. unfold pieces in H'. rewrite H' in Hn.
  cbn [bind Nat.add] in Hn. inversion Hn; subst n; clear Hn H'.
  pose proof (made_storage _ _ _ _ H Hsize Hst) as Es.
  pose proof (pieces_loop_no_NUL _ _ _ H) as Hnul.
  pose proof (pieces_loop_no_percent _ _ _ H) as Hper.
  eexists. split; [apply (GetFormatFragments_pieces _ _ _ _ H)|].
  split; [rewrite length_map, length_seq; reflexivity|].
  intros k s Hk.
  assert (Hlt : k < List.length (specifiers ps)) by (apply nth_error_Some; congruence).
  eexists. split; [apply nth_error_map_seq; exact Hlt|].
  unfold fragment_of.
  cbn [conversion_type_ specifier_length_ format_pos_ storage_pos_].
  rewrite (conversion_at_nth _ _ _ Hk). cbn [fst snd].
  split; [reflexivity|].
  assert (Hlen : GetConversionSpecifierLength storage k = List.length (specifier_text s)).
  { rewrite Es. unfold GetConversionSpecifierLength.
    rewrite (GetConversionSpecifierLength_storage _ k Hnul), Hk. reflexivity. }
  split; [exact Hlen|]. split.
  - destruct (specifier_offset_split _ _ _ Hk) as (before & after & E & _ & Ho).
    rewrite Ho, Hlen.
    rewrite <- (pieces_loop_unparse _ _ _ H). rewrite E, unparse_app.
    unfold unparse at 2. cbn [map List.concat piece_text].
    apply cut_out.
  - rewrite Es. unfold GetConversionSpecifierPositionInStorage.
    rewrite PositionInStorage_storage.
    + apply c_str_at_storage; assumption.
    + eapply Forall_impl; [|exact Hper]. intros s' [Hhd _]. exact Hhd.
    + apply Forall_forall. intros s' Hin.
      assert (Hin' : In s' (specifiers ps)).
      { rewrite <- (firstn_skipn k (specifiers ps)). apply in_or_app. left. exact Hin. }
      apply (proj1 (Forall_forall _ _) Hper s' Hin').
      exact (proj1 (Forall_forall _ _) Hplain s' Hin').
Qed.

Lemma format_fragments_of_reading_witness :
  pieces (c_array "a%%b%-5dc%.*s") =
    Return [Literal "a"%char; Escape; Literal "b"%char;
            Conversion (mkSpecifier ["-"%char] ["5"%char] [] [] "d"%char);
            Literal "c"%char;
            Conversion (mkSpecifier [] [] ["."%char; "*"%char] [] "s"%char);
            Literal NUL] /\
  GetFormatFragments 2 (c_array "a%%b%-5dc%.*s")
    (list_ascii_of_string "%-5d" ++ [NUL] ++ list_ascii_of_string "%.*s" ++ [NUL]) =
  Return [mkFormatFragment int_t 4 4 0; mkFormatFragment const_char_ptr_t 4 9 5] /\
  exists fragments,
    GetFormatFragments 2 (c_array "a%%b%-5dc%.*s")
      (list_ascii_of_string "%-5d" ++ [NUL] ++ list_ascii_of_string "%.*s" ++ [NUL]) =
      Return fragments /\
    List.length fragments = 2.
Proof.
  assert (Hp : pieces (c_array "a%%b%-5dc%.*s") =
    Return [Literal "a"%char; Escape; Literal "b"%char;
            Conversion (mkSpecifier ["-"%char] ["5"%char] [] [] "d"%char);
            Literal "c"%char;
            Conversion (mkSpecifier [] [] ["."%char; "*"%char] [] "s"%char);
            Literal NUL]) by reflexivity.
  split; [exact Hp|]. split; [reflexivity|].
  destruct (format_fragments_of_reading (c_array "a%%b%-5dc%.*s") _ 2 10
              (list_ascii_of_string "%-5d" ++ [NUL] ++ list_ascii_of_string "%.*s" ++
               [NUL]) Hp eq_refl eq_refl eq_refl eq_refl)
    as (fragments & Hf & Hl & _).
  - constructor; [discriminate|]. constructor; [discriminate | constructor].
  - exists fragments. split; [exact Hf | exact Hl].
Defined.

(** *** What the macro computes *)

Lemma map_nth_seq_from {A : Type} (d : A) (l pre : list A) :
  map (fun n => nth n (pre ++ l) d) (seq (List.length pre) (List.length l)) = l.
Proof.
  revert pre. induction l as [|c l IH]; intros pre; [reflexivity|].
  cbn [List.length seq map]. f_equal.
  - rewrite app_nth2, Nat.sub_diag by lia. reflexivity.
  - specialize (IH (pre ++ [c])). rewrite <- app_assoc, length_app in IH.
    cbn [List.length app] in IH. rewrite Nat.add_1_r in IH. exact IH.
Qed.

Lemma AnalyzeFormatParameters_pieces (fmt : list ascii) (ps : list Piece) :
  pieces fmt = Return ps ->
  precisions_fit ps = true ->
  AnalyzeFormatParameters (List.length (params ps)) fmt = Return (params ps).
Proof.
  intros H Hfit. unfold AnalyzeFormatParameters.
  rewrite (sequence_map_Return _ (fun n => nth n (params ps) INVALID)).
  - f_equal. exact (map_nth_seq_from INVALID (params ps) []).
  - intros n. apply GetParamInfo_loop_pieces; [exact H | exact Hfit].
Qed.

Lemma OLOG_constants_pieces (fmt : list ascii) (ps : list Piece) :
  pieces fmt = Return ps ->
  precisions_fit ps = true ->
  OLOG_constants fmt =
  Return (mkCallsite (List.length (params ps)) (List.length (specifiers ps))
            (storage_of (specifiers ps)) (params ps)
            (map (fragment_of fmt (storage_of (specifiers ps)) ps)
               (seq 0 (List.length (specifiers ps))))).
Proof.
  intros H Hfit. unfold OLOG_constants.
  rewrite (FormatParametersCount_pieces _ _ H Hfit). cbn [bind].
  rewrite (ConversionSpecifiersCount_pieces _ _ H). cbn [bind].
  unfold SizeConversionStorageNeeds. rewrite SizeConversionStorageNeeds_loop_pieces.
  pose proof H as H'. unfold pieces in H'. rewrite H'. cbn [bind Nat.add].
  rewrite (AnalyzeFormatParameters_pieces _ _ H Hfit). cbn [bind].
  rewrite (MakeConversionStorage_pieces _ _ H). cbn [bind].
  rewrite (GetFormatFragments_pieces _ _ _ _ H). reflexivity.
Qed.

(** X7. The constants the macro [OLOG] computes from a format exist
    exactly when the format has a reading (no conversion specification ends
    in an unknown character or in [n]) in which no precision written in
    digits is above [INT_MAX] (the [int] in which [GetParamInfo] adds the
    digits up would overflow); they are then the number and the types of the
    parameters of the specifiers of the reading, the number of these
    specifiers, their texts in the conversion storage, and one fragment for
    each. *)
Theorem macro_constants_of_reading (fmt : list ascii) :
  (forall site,
      OLOG_constants fmt = Return site ->
      exists ps,
        pieces fmt = Return ps /\
        precisions_fit ps = true /\
        num_parameters site = List.length (params ps) /\
        param_types site = params ps /\
        num_conversions site = List.length (specifiers ps) /\
        tokens (conversion_storage site) = map specifier_text (specifiers ps) /\
        List.length (format_fragments site) = List.length (specifiers ps)) /\
  (forall ps,
      pieces fmt = Return ps -> precisions_fit ps = true ->
      exists site, OLOG_constants fmt = Return site).
Proof.
  split.
  - intros site Hsite.
    destruct (pieces fmt) as [ps| |] eqn:H.
    + exists ps.
      assert (Hfit : precisions_fit ps = true).
      { unfold OLOG_constants in Hsite.
        destruct (FormatParametersCount fmt) as [count| |] eqn:Hcount;
          cbn [bind] in Hsite; try discriminate Hsite.
        exact (FormatParametersCount_fits _ _ _ H Hcount). }
      rewrite (OLOG_constants_pieces _ _ H Hfit) in Hsite.
      inversion Hsite; subst site; clear Hsite.
      cbn [num_parameters param_types num_conversions conversion_storage
           format_fragments].
      split; [reflexivity|]. split; [exact Hfit|].
      split; [reflexivity|]. split; [reflexivity|].
      split; [reflexivity|]. split.
      * apply tokens_storage_of. exact (pieces_loop_no_NUL _ _ _ H).
      * rewrite length_map, length_seq. reflexivity.
    + exfalso. unfold OLOG_constants in Hsite.
      destruct (FormatParametersCount fmt); cbn [bind] in Hsite; try discriminate.
      unfold ConversionSpecifiersCount in Hsite.
      rewrite ConversionSpecifiersCount_loop_pieces in Hsite.
      unfold pieces in H. rewrite H in Hsite. discriminate Hsite.
    + exfalso. exact (pieces_loop_terminates _ _ (Nat.le_refl _) H).
  - intros ps H Hfit. eexists. apply (OLOG_constants_pieces _ _ H Hfit).
Qed.

(** The format [%.2147483648s] has a reading, and the macro does not
    compile for it: its precision is one above [INT_MAX]. *)
Example precision_above_INT_MAX :
  (exists ps, pieces (c_array "%.2147483648s") = Return ps /\ precisions_fit ps = false) /\
  (exists site, OLOG_constants (c_array "%.2147483647s") = Return site) /\
  OLOG_constants (c_array "%.2147483648s") = Throw SignedOverflow.
Proof.
  split; [eexists; split; [vm_compute; reflexivity | reflexivity]|].
  split; [eexists; vm_compute; reflexivity | vm_compute; reflexivity].
Qed.

End FormatFragmentsFacts.

(** ** The record codec: what is stored is what is read *)

Section CodecFacts.

Import log_info.

Lemma length_le_bytes (n : nat) (v : Z) : List.length (le_bytes n v) = n.
Proof.
  revert v. induction n as [|n IH]; intros v; [reflexivity|].
  cbn [le_bytes List.length]. rewrite IH. reflexivity.
Qed.

Lemma le_value_le_bytes (n : nat) (v : Z) :
  le_value (le_bytes n v) = v mod 2 ^ (8 * Z.of_nat n).
Proof.
  revert v. induction n as [|n IH]; intros v.
  - cbn. rewrite Z.mod_1_r. reflexivity.
  - cbn [le_bytes le_value]. rewrite IH.
    rewrite N_ascii_embedding.
    + rewrite Z2N.id by (apply Z.mod_pos_bound; lia).
      replace (8 * Z.of_nat (S n)) with (8 + 8 * Z.of_nat n) by lia.
      rewrite Z.pow_add_r by lia. change (2 ^ 8) with 256.
      rewrite Z.rem_mul_r by lia. reflexivity.
    + assert (H : 0 <= v mod 256 < 256) by (apply Z.mod_pos_bound; lia).
      change 256%N with (Z.to_N 256). apply Z2N.inj_lt; lia.
Qed.

Lemma read_bytes_at (before bytes after : list ascii) :
  read_bytes (before ++ bytes ++ after) (List.length before) (List.length bytes) =
  Some bytes.
Proof.
  unfold read_bytes.
  rewrite skipn_app, skipn_all, Nat.sub_diag. cbn [app skipn].
  rewrite firstn_app, firstn_all, Nat.sub_diag. cbn [firstn].
  rewrite app_nil_r, Nat.eqb_refl. reflexivity.
Qed.

Lemma no_NUL_firstn (n : nat) (l : list ascii) : no_NUL l -> no_NUL (firstn n l).
Proof.
  unfold no_NUL. intros H. revert n.
  induction H as [|c l Hc _ IH]; intros [|n]; cbn [firstn]; constructor; auto.
Qed.

Lemma signed_of_small (bits v : Z) :
  0 < bits -> - 2 ^ (bits - 1) <= v < 2 ^ (bits - 1) -> signed_of bits v = v.
Proof.
  intros Hb Hv. unfold signed_of.
  assert (Hp : 2 ^ bits = 2 * 2 ^ (bits - 1)).
  { replace bits with (Z.succ (bits - 1)) at 1 by lia.
    apply Z.pow_succ_r. lia. }
  destruct (Z.ltb_spec v 0) as [Hneg|Hpos].
  - assert (Hm : v mod 2 ^ bits = v + 2 ^ bits).
    { symmetry. apply (Z.mod_unique_pos _ _ (-1)); lia. }
    rewrite Hm. destruct (Z.ltb_spec (v + 2 ^ bits) (2 ^ (bits - 1))); lia.
  - rewrite Z.mod_small by lia.
    destruct (Z.ltb_spec v (2 ^ (bits - 1))); lia.
Qed.

Lemma signed_of_mod (bits v : Z) :
  0 < bits -> signed_of bits (v mod 2 ^ bits) = signed_of bits v.
Proof.
  intros Hb. unfold signed_of. rewrite Z.mod_mod; [reflexivity|].
  apply Z.pow_nonzero; lia.
Qed.

Lemma StoreArgument_length (param_type : ParamType) (pre_precision : Z) (arg : Arg) :
  List.length
    (StoreArgument param_type
       (match snd (fst (GetArgSize param_type pre_precision arg)) with
        | Some n => n
        | None => 0
        end) arg) =
  fst (fst (GetArgSize param_type pre_precision arg)).
Proof.
  destruct arg as [size value|image|address str|address];
    cbn [GetArgSize StoreArgument fst snd].
  - apply length_le_bytes.
  - reflexivity.
  - destruct (param_type <=? NON_STRING); cbn [fst snd]; [apply length_le_bytes|].
    rewrite !length_app, length_le_bytes, length_firstn. cbn [List.length].
    pose proof (size_t_of_nonneg param_type) as Hs.
    destruct ((param_type >=? STRING) &&
              (Z.of_nat (List.length str) >? size_t_of param_type)) eqn:E1.
    + apply andb_prop in E1. destruct E1 as [_ E1].
      apply Z.gtb_lt in E1. unfold sizeof_size_t. lia.
    + destruct ((param_type =? STRING_WITH_DYNAMIC_PRECISION) &&
                (Z.of_nat (List.length str) >? pre_precision)) eqn:E2.
      * apply andb_prop in E2. destruct E2 as [_ E2].
        apply Z.gtb_lt in E2. unfold sizeof_size_t. lia.
      * unfold sizeof_size_t. lia.
  - apply length_le_bytes.
Qed.

Lemma StoreArguments_length (param_types : list ParamType) (pre_precision : Z)
    (args : list Arg) :
  List.length
    (StoreArguments param_types (snd (GetArgSizes param_types pre_precision args))
       args) =
  fst (GetArgSizes param_types pre_precision args).
Proof.
  revert pre_precision args.
  induction param_types as [|t param_types IH]; intros pre_precision args;
    [reflexivity|].
  destruct args as [|a args]; [reflexivity|].
  cbn [GetArgSizes].
  pose proof (StoreArgument_length t pre_precision a) as Ha.
  destruct (GetArgSize t pre_precision a) as [[size string_size] pre_precision'].
  cbn [fst snd] in Ha.
  specialize (IH pre_precision' args).
  destruct (GetArgSizes param_types pre_precision' args) as [rest string_sizes].
  cbn [fst snd StoreArguments] in *.
  rewrite length_app, Ha, IH. reflexivity.
Qed.

(** X8. A call of [Log] is refused exactly when the number of its arguments
    differs from the number of parameters of the format; otherwise the size
    it records in [info_size_], which is the size it reserves in the staging
    buffer and the step by which the consumer moves to the next record, is
    the size of the header plus the number of bytes [StoreArguments] writes:
    the assertion at the end of [Log] holds for every list of arguments. *)
Theorem stored_arguments_fill_the_record (log_id : Z) (filename : list ascii)
    (line_num : Z) (severity : LogLevel) (fmt : list ascii) (site : Callsite)
    (timestamp : Z) (args : list Arg) :
  match Log log_id filename line_num severity fmt site timestamp args with
  | Return (static_info, dynamic_info) =>
      num_parameters site = List.length args /\
      info_size_ dynamic_info =
        Z.of_nat (sizeof_DynamicLogInfo + List.length (arg_data dynamic_info)) /\
      log_id_ dynamic_info = log_id /\
      param_sizes_ static_info = GetParamSizes (param_types site) args
  | Throw e =>
      e = NumberOfArgumentsDiffers /\ num_parameters site <> List.length args
  | OutOfFuel => False
  end.
Proof.
  unfold Log.
  destruct (Nat.eqb_spec (num_parameters site) (List.length args)) as [Hn|Hn];
    cbn [negb]; [|split; [reflexivity | exact Hn]].
  pose proof (StoreArguments_length (param_types site) 0 args) as Hl.
  destruct (GetArgSizes (param_types site) 0 args) as [args_size string_sizes].
  cbn [fst snd] in Hl.
  cbn [info_size_ arg_data log_id_ param_sizes_].
  split; [exact Hn|]. split; [|split; reflexivity].
  rewrite Hl. f_equal. lia.
Qed.

(** X9. An integer argument of one, two, four or eight bytes that [Log]
    stored is read back with its value by [LoadArgument] for every integer
    type at least as wide as the argument (and of at most 64 bits), wherever
    the argument lies in the record: a signed type gives back every value of
    the argument's signed range and an unsigned type every value of its
    unsigned range. *)
Theorem integer_argument_round_trip (param_type : ParamType) (string_size : Z)
    (size : nat) (value bits : Z) (before after : list ascii) :
  In size [1; 2; 4; 8]%nat ->
  8 * Z.of_nat size <= bits <= 64 ->
  let data :=
    before ++ StoreArgument param_type string_size (ArgInteger size value) ++ after in
  let nbytes := GetParamSize param_type (ArgInteger size value) in
  (- 2 ^ (8 * Z.of_nat size - 1) <= value < 2 ^ (8 * Z.of_nat size - 1) ->
   LoadArgument_signed bits data (List.length before) nbytes = inr value) /\
  (0 <= value < 2 ^ (8 * Z.of_nat size) ->
   LoadArgument_unsigned bits data (List.length before) nbytes = inr value).
Proof.
  intros Hsize Hbits data nbytes. subst data nbytes.
  cbn [StoreArgument GetParamSize].
  assert (Hread : read_bytes (before ++ le_bytes size value ++ after)
                    (List.length before) size = Some (le_bytes size value)).
  { pose proof (read_bytes_at before (le_bytes size value) after) as H.
    rewrite length_le_bytes in H. exact H. }
  assert (Hwide : 2 ^ (8 * Z.of_nat size - 1) <= 2 ^ (bits - 1))
    by (apply Z.pow_le_mono_r; cbn in Hsize; lia).
  assert (Hwide' : 2 ^ (8 * Z.of_nat size) <= 2 ^ bits)
    by (apply Z.pow_le_mono_r; lia).
  assert (Hpos : 0 < 8 * Z.of_nat size)
    by (cbn in Hsize; lia).
  split.
  - intros Hv. unfold LoadArgument_signed. rewrite Hread, le_value_le_bytes.
    destruct ((size =? 1)%nat || (size =? 2)%nat || (size =? 4)%nat) eqn:E.
    + rewrite signed_of_mod by lia. rewrite (signed_of_small _ value) by lia.
      rewrite signed_of_small by lia. reflexivity.
    + assert (H8 : size = 8%nat).
      { cbn in Hsize. destruct Hsize as [<-|[<-|[<-|[<-|[]]]]];
          try discriminate E; reflexivity. }
      subst size. cbn [Nat.eqb].
      assert (bits = 64) by lia. subst bits.
      unfold unsigned_of. change (8 * Z.of_nat 8) with 64.
      rewrite Z.mod_mod by lia. rewrite signed_of_mod by lia.
      rewrite signed_of_small; [reflexivity | lia |].
      change (8 * Z.of_nat 8 - 1) with (64 - 1) in Hv. exact Hv.
  - intros Hv. unfold LoadArgument_unsigned. rewrite Hread, le_value_le_bytes.
    assert (E : (size =? 1)%nat || (size =? 2)%nat || (size =? 4)%nat ||
                (size =? 8)%nat = true).
    { cbn in Hsize. destruct Hsize as [<-|[<-|[<-|[<-|[]]]]]; reflexivity. }
    rewrite E. unfold unsigned_of.
    rewrite Z.mod_mod by lia. rewrite (Z.mod_small value) by lia.
    rewrite Z.mod_small by lia. reflexivity.
Qed.

Lemma integer_argument_round_trip_witness :
  In 4%nat [1; 2; 4; 8]%nat /\ 8 * Z.of_nat 4 <= 64 <= 64 /\
  LoadArgument_signed 64
    (c_array "ab" ++ StoreArgument NON_STRING 0 (ArgInteger 4 (-5)) ++ c_array "c")
    3 (GetParamSize NON_STRING (ArgInteger 4 (-5))) = inr (-5) /\
  LoadArgument_unsigned 64
    (c_array "ab" ++ StoreArgument NON_STRING 0 (ArgInteger 4 7) ++ c_array "c")
    3 (GetParamSize NON_STRING (ArgInteger 4 7)) = inr 7.
Proof.
  split; [cbn; tauto|]. split; [cbn; lia|]. split.
  - apply (integer_argument_round_trip NON_STRING 0 4 (-5) 64 (c_array "ab")
             (c_array "c")); cbn; [tauto | lia | lia].
  - apply (integer_argument_round_trip NON_STRING 0 4 7 64 (c_array "ab")
             (c_array "c")); cbn; [tauto | lia | lia].
Defined.

Lemma stored_string_is_read
    (printf_render : list ascii -> list PrintfArg -> option (list ascii))
    (param_type : ParamType) (pre_precision address : Z)
    (str before after : list ascii) (a : LogAssembler) (conversion_fmt : list ascii)
    (width precision : Z) (arg_size : nat) :
  NON_STRING < param_type ->
  0 <= pre_precision < 2 ^ 64 ->
  Z.of_nat (List.length str) < 2 ^ 64 ->
  no_NUL str ->
  args_read_pos_ (indices a) = List.length before ->
  exists byte_length,
    GetArgSize param_type pre_precision (ArgCharPtr address str) =
      ((sizeof_size_t + Z.to_nat (byte_length + 1))%nat, Some byte_length,
       pre_precision) /\
    0 <= byte_length <= Z.of_nat (List.length str) /\
    write_argument printf_render
      (before ++ StoreArgument param_type byte_length (ArgCharPtr address str) ++ after)
      a const_char_ptr_t conversion_fmt width precision arg_size =
    let '(a2, tmp) :=
      tryToWriteArgToBuffer printf_render (add_args_read_pos a sizeof_size_t)
        conversion_fmt width precision
        (PString (firstn (Z.to_nat byte_length) str)) in
    inr (add_args_read_pos a2 (Z.to_nat (byte_length + 1)), tmp, byte_length).
Proof.
  intros Ht Hp Hlen Hstr Hpos.
  set (byte_length :=
         if (param_type >=? STRING) &&
            (Z.of_nat (List.length str) >? size_t_of param_type)
         then size_t_of param_type
         else if (param_type =? STRING_WITH_DYNAMIC_PRECISION) &&
                 (Z.of_nat (List.length str) >? pre_precision)
         then pre_precision
         else Z.of_nat (List.length str)).
  assert (Hrange : 0 <= byte_length <= Z.of_nat (List.length str)).
  { subst byte_length. pose proof (size_t_of_nonneg param_type).
    destruct ((param_type >=? STRING) &&
              (Z.of_nat (List.length str) >? size_t_of param_type)) eqn:E1.
    - apply andb_prop in E1. destruct E1 as [_ E1]. apply Z.gtb_lt in E1. lia.
    - destruct ((param_type =? STRING_WITH_DYNAMIC_PRECISION) &&
                (Z.of_nat (List.length str) >? pre_precision)) eqn:E2.
      + apply andb_prop in E2. destruct E2 as [_ E2]. apply Z.gtb_lt in E2. lia.
      + lia. }
  assert (Hns : (param_type <=? NON_STRING) = false) by (apply Z.leb_gt; exact Ht).
  exists byte_length. split; [|split; [exact Hrange|]].
  - unfold GetArgSize. rewrite Hns. fold byte_length.
    f_equal. f_equal. unfold sizeof_size_t. lia.
  - unfold log_info.write_argument, StoreArgument. rewrite Hns, Hpos.
    assert (Hread : LoadArgument_unsigned 64
                      (before ++
                       (le_bytes sizeof_size_t byte_length ++
                        firstn (Z.to_nat byte_length) str ++ [NUL]) ++ after)
                      (List.length before) sizeof_size_t = inr byte_length).
    { unfold LoadArgument_unsigned. rewrite <- app_assoc.
      pose proof (read_bytes_at before (le_bytes sizeof_size_t byte_length)
                    ((firstn (Z.to_nat byte_length) str ++ [NUL]) ++ after)) as H.
      rewrite length_le_bytes in H. rewrite H. cbn [Nat.eqb orb sizeof_size_t].
      rewrite le_value_le_bytes. unfold unsigned_of.
      change (8 * Z.of_nat sizeof_size_t) with 64.
      rewrite !Z.mod_mod by lia. rewrite Z.mod_small by lia. reflexivity. }
    rewrite Hread.
    assert (Hstring : c_str_at
                        (before ++
                         (le_bytes sizeof_size_t byte_length ++
                          firstn (Z.to_nat byte_length) str ++ [NUL]) ++ after)
                        (args_read_pos_ (indices (add_args_read_pos a sizeof_size_t))) =
                      firstn (Z.to_nat byte_length) str).
    { cbn [add_args_read_pos with_indices indices args_read_pos_].
      rewrite Hpos. unfold c_str_at.
      rewrite <- !app_assoc, app_assoc.
      rewrite skipn_app, skipn_all2
        by (rewrite length_app, length_le_bytes; lia).
      rewrite length_app, length_le_bytes, Nat.sub_diag. cbn [skipn app].
      apply until_NUL_token. apply no_NUL_firstn. exact Hstr. }
    rewrite Hstring. reflexivity.
Qed.

(** X10. A string argument in a string position is read back as it was
    stored: from a record that holds the segment [StoreArgument] wrote for
    it, at the read position, the [const char*] case of [write] hands
    [snprintf] the stored characters (the string cut to its effective
    length), reports that length as the size of the argument and leaves the
    read position at the end of the segment, whatever follows it. *)
Theorem string_argument_read_back
    (printf_render : list ascii -> list PrintfArg -> option (list ascii))
    (param_type : ParamType) (pre_precision address : Z)
    (str before after : list ascii) (a : LogAssembler) (conversion_fmt : list ascii)
    (width precision : Z) (arg_size : nat) :
  NON_STRING < param_type ->
  0 <= pre_precision < 2 ^ 64 ->
  Z.of_nat (List.length str) < 2 ^ 64 ->
  no_NUL str ->
  args_read_pos_ (indices a) = List.length before ->
  exists byte_length,
    GetArgSize param_type pre_precision (ArgCharPtr address str) =
      ((sizeof_size_t + Z.to_nat (byte_length + 1))%nat, Some byte_length,
       pre_precision) /\
    0 <= byte_length <= Z.of_nat (List.length str) /\
    write_argument printf_render
      (before ++ StoreArgument param_type byte_length (ArgCharPtr address str) ++ after)
      a const_char_ptr_t conversion_fmt width precision arg_size =
    let '(a2, tmp) :=
      tryToWriteArgToBuffer printf_render (add_args_read_pos a sizeof_size_t)
        conversion_fmt width precision
        (PString (firstn (Z.to_nat byte_length) str)) in
    inr (add_args_read_pos a2 (Z.to_nat (byte_length + 1)), tmp, byte_length).
Proof.
  exact (stored_string_is_read printf_render param_type pre_precision address str
           before after a conversion_fmt width precision arg_size).
Qed.

Lemma string_argument_read_back_witness :
  NON_STRING < 3 /\ 0 <= 0 < 2 ^ 64 /\
  Z.of_nat (List.length (list_ascii_of_string "abcdef")) < 2 ^ 64 /\
  no_NUL (list_ascii_of_string "abcdef") /\
  args_read_pos_ (indices (add_args_read_pos LogAssembler_new 4)) =
    List.length (le_bytes 4 7) /\
  exists byte_length,
    GetArgSize 3 0 (ArgCharPtr 4096 (list_ascii_of_string "abcdef")) =
      ((sizeof_size_t + Z.to_nat (byte_length + 1))%nat, Some byte_length, 0) /\
    0 <= byte_length <= Z.of_nat (List.length (list_ascii_of_string "abcdef")) /\
    write_argument libc.printf_reference
      (le_bytes 4 7 ++
       StoreArgument 3 byte_length (ArgCharPtr 4096 (list_ascii_of_string "abcdef")) ++
       le_bytes 4 9)
      (add_args_read_pos LogAssembler_new 4) const_char_ptr_t
      (list_ascii_of_string "%.3s") (-1) (-1) 0 =
    let '(a2, tmp) :=
      tryToWriteArgToBuffer libc.printf_reference
        (add_args_read_pos (add_args_read_pos LogAssembler_new 4) sizeof_size_t)
        (list_ascii_of_string "%.3s") (-1) (-1)
        (PString (firstn (Z.to_nat byte_length) (list_ascii_of_string "abcdef"))) in
    inr (add_args_read_pos a2 (Z.to_nat (byte_length + 1)), tmp, byte_length).
Proof.
  assert (Hstr : no_NUL (list_ascii_of_string "abcdef"))
    by (repeat constructor; discriminate).
  split; [reflexivity|]. split; [split; [discriminate | reflexivity]|].
  split; [reflexivity|]. split; [exact Hstr|]. split; [reflexivity|].
  apply (string_argument_read_back libc.printf_reference 3 0 4096
           (list_ascii_of_string "abcdef") (le_bytes 4 7) (le_bytes 4 9)
           (add_args_read_pos LogAssembler_new 4) (list_ascii_of_string "%.3s")
           (-1) (-1) 0).
  - reflexivity.
  - split; [discriminate | reflexivity].
  - reflexivity.
  - exact Hstr.
  - reflexivity.
Defined.

(** X11. For a [%p] conversion [write] never reads the pointer that [Log]
    stored: what it passes to [snprintf] is the read position inside the
    record.  The conversion therefore gives the same result for any two
    contents of the record, that is, whatever pointer was logged (the
    parameter is not a dynamic width or precision, which would be read). *)
Theorem pointer_conversion_ignores_stored_pointer
    (printf_render : list ascii -> list PrintfArg -> option (list ascii))
    (info : StaticLogInfo) (data data' : list ascii) (fragment : FormatFragment)
    (a : LogAssembler) :
  conversion_type_ fragment = const_void_ptr_t ->
  nth_error (param_types_ info) (parameter_index_ (indices a)) = Some NON_STRING ->
  write_conversion printf_render info data fragment a =
  write_conversion printf_render info data' fragment a /\
  forall a1 tmp arg_size,
    write_argument printf_render data a (conversion_type_ fragment)
      (c_str_at (conversion_storage_ info) (storage_pos_ fragment)) (-1) (-1) 8 =
      inr (a1, tmp, arg_size) ->
    (a1, tmp) =
    tryToWriteArgToBuffer printf_render a
      (c_str_at (conversion_storage_ info) (storage_pos_ fragment)) (-1) (-1)
      (PPointer (args_read_pos_ (indices a))).
Proof.
  intros Ht Hp. split.
  - unfold log_info.write_conversion, load_dynamic. rewrite Hp.
    change (NON_STRING =? DYNAMIC_WIDTH) with false.
    change (NON_STRING =? DYNAMIC_PRECISION) with false.
    cbv iota. rewrite Hp.
    change (NON_STRING =? DYNAMIC_PRECISION) with false. cbv iota.
    destruct (nth_error (param_sizes_ info) _) as [arg_size|]; [|reflexivity].
    rewrite Ht. reflexivity.
  - intros a1 tmp arg_size. rewrite Ht. unfold log_info.write_argument.
    destruct (tryToWriteArgToBuffer printf_render a _ _ _ _) as [a2 tmp2].
    intros H. inversion H; subst. reflexivity.
Qed.

Lemma pointer_conversion_ignores_stored_pointer_witness :
  conversion_type_ (mkFormatFragment const_void_ptr_t 2 0 0) = const_void_ptr_t /\
  nth_error
    (param_types_
       (mkStaticLogInfo (c_array "a.cc") 7 3 3 1 1 (c_array "%p") (c_array "%p")
          [mkFormatFragment const_void_ptr_t 2 0 0] [NON_STRING] [8%nat]))
    (parameter_index_ (indices (setBuffer LogAssembler_new 64))) = Some NON_STRING /\
  write_conversion libc.printf_reference
    (mkStaticLogInfo (c_array "a.cc") 7 3 3 1 1 (c_array "%p") (c_array "%p")
       [mkFormatFragment const_void_ptr_t 2 0 0] [NON_STRING] [8%nat])
    (StoreArgument NON_STRING 0 (ArgVoidPtr 4096))
    (mkFormatFragment const_void_ptr_t 2 0 0) (setBuffer LogAssembler_new 64) =
  write_conversion libc.printf_reference
    (mkStaticLogInfo (c_array "a.cc") 7 3 3 1 1 (c_array "%p") (c_array "%p")
       [mkFormatFragment const_void_ptr_t 2 0 0] [NON_STRING] [8%nat])
    (StoreArgument NON_STRING 0 (ArgVoidPtr 8192))
    (mkFormatFragment const_void_ptr_t 2 0 0) (setBuffer LogAssembler_new 64).
Proof.
  split; [reflexivity|]. split; [reflexivity|].
  apply (pointer_conversion_ignores_stored_pointer libc.printf_reference
           (mkStaticLogInfo (c_array "a.cc") 7 3 3 1 1 (c_array "%p") (c_array "%p")
              [mkFormatFragment const_void_ptr_t 2 0 0] [NON_STRING] [8%nat])
           (StoreArgument NON_STRING 0 (ArgVoidPtr 4096))
           (StoreArgument NON_STRING 0 (ArgVoidPtr 8192))
           (mkFormatFragment const_void_ptr_t 2 0 0) (setBuffer LogAssembler_new 64));
    reflexivity.
Defined.

End CodecFacts.

(** ** The assembler: what a call of [write] adds to the buffer *)

Section AssemblerAccounting.

Import log_info.

Variable printf_render : list ascii -> list PrintfArg -> option (list ascii).
Variable strftime_localtime : Z -> list ascii.

Local Abbreviation write := (write printf_render).
Local Abbreviation write_body := (write_body printf_render).
Local Abbreviation write_conversion := (write_conversion printf_render).
Local Abbreviation write_argument := (write_argument printf_render).
Local Abbreviation tryToWriteArgToBuffer := (tryToWriteArgToBuffer printf_render).

(** The output region of [a'] holds what that of [a] holds. *)
Definition same_written (a a' : LogAssembler) : Prop :=
  written (output a') = written (output a) /\
  buffer_size_ (output a') = buffer_size_ (output a) /\
  writed_count_ (output a') = writed_count_ (output a) /\
  bytes_last_writed_ (output a') = bytes_last_writed_ (output a).

(** [a] is [a0] after [bytes_last_writed_] more bytes were appended. *)
Definition grown (a0 a : LogAssembler) : Prop :=
  has_room a /\
  0 <= writed_count_ (output a0) /\
  buffer_size_ (output a) = buffer_size_ (output a0) /\
  0 <= bytes_last_writed_ (output a) /\
  writed_count_ (output a) =
    writed_count_ (output a0) + bytes_last_writed_ (output a) /\
  exists bytes,
    written (output a) = written (output a0) ++ bytes /\
    Z.of_nat (List.length bytes) <= bytes_last_writed_ (output a).

Lemma same_written_refl (a : LogAssembler) : same_written a a.
Proof. repeat split. Qed.

Lemma same_written_trans (a b c : LogAssembler) :
  same_written a b -> same_written b c -> same_written a c.
Proof.
  unfold same_written. intros (? & ? & ? & ?) (? & ? & ? & ?).
  repeat split; congruence.
Qed.

Lemma same_written_free (a a' : LogAssembler) :
  same_written a a' -> getFreeBytes a' = getFreeBytes a.
Proof. intros (_ & E1 & E2 & _). unfold getFreeBytes. rewrite E1, E2. reflexivity. Qed.

Lemma grown_same (a0 a a' : LogAssembler) :
  grown a0 a -> same_written a a' -> grown a0 a'.
Proof.
  unfold grown, same_written, has_room.
  intros (R & H0 & Hs & Hb & Hw & bytes & Hbytes & Hl) (E1 & E2 & E3 & E4).
  rewrite E1, E2, E3, E4. repeat split; try tauto. exists bytes. tauto.
Qed.

Lemma grown_finishWriting (a0 a : LogAssembler) (tmp : Z) :
  grown a0 a -> 0 <= tmp -> tmp = 0 \/ tmp < getFreeBytes a ->
  grown a0 (finishWriting a tmp).
Proof.
  intros (R & H0 & Hs & Hb & Hw & bytes & Hbytes & Hl) Hpos Htmp.
  rewrite (getFreeBytes_room a R) in Htmp.
  destruct R as [R1 R2].
  unfold grown, has_room. cbn [finishWriting with_output output written buffer_size_
                                 writed_count_ bytes_last_writed_].
  unfold size_t_of. rewrite !Z.mod_small by lia.
  repeat split; try lia.
  exists (bytes ++ firstn (Z.to_nat tmp) (scratch (output a))). split.
  - rewrite Hbytes, app_assoc. reflexivity.
  - rewrite length_app, length_firstn. lia.
Qed.

Lemma tryToWriteAStringToBuffer_written (a a1 : LogAssembler) (src : list ascii)
    (len tmp : Z) :
  tryToWriteAStringToBuffer a src len = (a1, tmp) -> same_written a a1.
Proof.
  unfold tryToWriteAStringToBuffer.
  destruct (is_full_ (output a)); [|destruct (len >=? getFreeBytes a)];
    intros H; inversion H; subst; repeat split.
Qed.

Lemma tryToWriteArgToBuffer_written (a a1 : LogAssembler) (fmt : list ascii)
    (width precision : Z) (arg : PrintfArg) (tmp : Z) :
  tryToWriteArgToBuffer a fmt width precision arg = (a1, tmp) -> same_written a a1.
Proof.
  unfold log_info.tryToWriteArgToBuffer.
  destruct (snprintf printf_render _ _ _ _) as [ret bytes].
  destruct (_ >=? _); intros H; inversion H; subst; repeat split.
Qed.

Lemma load_dynamic_written (info : StaticLogInfo) (data : list ascii)
    (kind : ParamType) (a a1 : LogAssembler) (v : Z) :
  load_dynamic info data kind a = inr (a1, v) -> same_written a a1.
Proof.
  unfold load_dynamic.
  destruct (nth_error (param_types_ info) _) as [t|]; [|discriminate].
  destruct (t =? kind).
  - destruct (nth_error (param_sizes_ info) _) as [size|]; [|discriminate].
    destruct (LoadArgument_signed _ _ _ _); [discriminate|].
    intros H; inversion H; subst. repeat split.
  - intros H; inversion H; subst. apply same_written_refl.
Qed.

Lemma write_argument_written (data : list ascii) (a a1 : LogAssembler)
    (conversion_type : ConversionType) (conversion_fmt : list ascii)
    (width precision : Z) (arg_size : nat) (tmp arg_size' : Z) :
  write_argument data a conversion_type conversion_fmt width precision arg_size =
    inr (a1, tmp, arg_size') ->
  same_written a a1.
Proof.
  unfold log_info.write_argument.
  destruct conversion_type; cbn [integer_type];
    repeat match goal with
    | |- context [LoadArgument_floating ?d ?p ?n] =>
        destruct (LoadArgument_floating d p n); [discriminate|]
    | |- context [LoadArgument_unsigned ?b ?d ?p ?n] =>
        destruct (LoadArgument_unsigned b d p n); [discriminate|]
    | |- context [LoadArgument_signed ?b ?d ?p ?n] =>
        destruct (LoadArgument_signed b d p n); [discriminate|]
    | |- context [tryToWriteArgToBuffer ?x ?f ?w ?p ?g] =>
        let E := fresh "E" in
        destruct (tryToWriteArgToBuffer x f w p g) as [? ?] eqn:E;
        apply tryToWriteArgToBuffer_written in E
    end;
    intros Hw; inversion Hw; subst; clear Hw;
    try apply same_written_refl;
    match goal with
    | E : same_written _ _ |- _ =>
        destruct E as (? & ? & ? & ?); repeat split; cbn in *; congruence
    end.
Qed.

Lemma write_or_return_grown (a0 a : LogAssembler) (src : list ascii) (len : Z)
    (k : LogAssembler -> Z -> flow) :
  grown a0 a -> 0 <= len ->
  (forall a2 tmp, grown a0 a2 -> flow_keeps (grown a0) (k a2 tmp)) ->
  flow_keeps (grown a0) (write_or_return a src len k).
Proof.
  intros Hg Hlen Hk. unfold write_or_return.
  destruct (tryToWriteAStringToBuffer a src len) as [a1 tmp] eqn:E.
  pose proof (tryToWriteAStringToBuffer_written _ _ _ _ _ E) as Hsame.
  apply tryToWriteAStringToBuffer_fits in E. destruct E as (_ & _ & Htmp & _).
  pose proof (grown_same _ _ _ Hg Hsame) as Hg1.
  destruct (Z.eqb_spec tmp 0) as [H0|H0]; cbn; [exact Hg1|].
  apply Hk. apply grown_finishWriting; [exact Hg1 | |].
  - destruct Htmp as [?|[? ?]]; lia.
  - right. rewrite (same_written_free _ _ Hsame). destruct Htmp as [?|[? ?]]; lia.
Qed.

Lemma write_conversion_grown (a0 : LogAssembler) (info : StaticLogInfo)
    (data : list ascii) (fragment : FormatFragment) (a : LogAssembler) :
  grown a0 a -> flow_keeps (grown a0) (write_conversion info data fragment a).
Proof.
  intros Hg. unfold log_info.write_conversion.
  destruct (load_dynamic info data DYNAMIC_WIDTH a) as [|[a1 width]] eqn:E1;
    [exact I|].
  destruct (load_dynamic info data DYNAMIC_PRECISION a1) as [|[a2 precision]] eqn:E2;
    [exact I|].
  apply load_dynamic_written in E1. apply load_dynamic_written in E2.
  destruct (nth_error (param_sizes_ info) _) as [arg_size|]; [|exact I].
  destruct (write_argument data a2 _ _ _ _ _) as [|[[a3 tmp] arg_size']] eqn:E3;
    [exact I|].
  pose proof (write_argument_written _ _ _ _ _ _ _ _ _ _ E3) as S3.
  apply (write_argument_counts printf_render) in E3. destruct E3 as (_ & Htmp0 & Htmp).
  assert (Hg3 : grown a0 a3).
  { apply (grown_same a0 a); [exact Hg|].
    eapply same_written_trans; [|exact S3].
    eapply same_written_trans; [exact E1 | exact E2]. }
  destruct ((tmp =? 0) && (arg_size' >? 0)).
  - cbn. apply (grown_same a0 a3); [exact Hg3 | repeat split].
  - pose proof (grown_finishWriting a0 a3 tmp Hg3 Htmp0) as Hg4.
    rewrite (same_written_free _ _ S3) in Hg4. specialize (Hg4 Htmp).
    destruct (nth_error (param_sizes_ info) _) as [sz|]; [|exact I].
    cbn. apply (grown_same a0 (finishWriting a3 tmp)); [exact Hg4 | repeat split].
Qed.

Lemma write_body_iteration_grown (a0 : LogAssembler) (again : LogAssembler -> flow)
    (a : LogAssembler) :
  (forall a1, grown a0 a1 -> flow_keeps (grown a0) (again a1)) ->
  grown a0 a ->
  flow_keeps (grown a0) (write_body_iteration printf_render again a).
Proof.
  intros Hagain Hg. unfold write_body_iteration.
  destruct (static_log_info_ a) as [info|]; [|exact I].
  destruct (dynamic_log_info_ a) as [dynamic_info|]; [|exact I].
  destruct (format_index_ (indices a) <? format_len_ info)%nat; [|exact Hg].
  assert (Hlit : forall src len,
             flow_keeps (grown a0)
               (write_or_return a src (Z.of_nat len)
                  (fun a1 tmp => again (add_format_index a1 (Z.to_nat tmp))))).
  { intros src len. apply write_or_return_grown; [assumption | lia |].
    intros a2 tmp H2. apply Hagain.
    apply (grown_same a0 a2); [exact H2 | repeat split]. }
  destruct (conversion_index_ (indices a) <? num_conversions_ info)%nat; [|apply Hlit].
  destruct (nth_error (format_fragments_ info) _) as [fragment|]; [|exact I].
  destruct (format_index_ (indices a) <? format_pos_ fragment)%nat; [apply Hlit|].
  pose proof (write_conversion_grown a0 info (arg_data dynamic_info) fragment a Hg)
    as Hc.
  destruct (write_conversion info (arg_data dynamic_info) fragment a); cbn in *;
    [apply Hagain; assumption | assumption | exact I].
Qed.

Lemma write_body_grown (a0 : LogAssembler) (fuel : nat) (a : LogAssembler) :
  grown a0 a -> flow_keeps (grown a0) (write_body fuel a).
Proof.
  revert a. induction fuel as [|fuel IH]; intros a Hg; cbn [log_info.write_body];
    apply write_body_iteration_grown; auto.
  intros; exact I.
Qed.

Lemma write_phase_grown (a0 a : LogAssembler) (done : bool)
    (src : list ascii) (len : Z) (mark : LogAssembler -> LogAssembler) :
  grown a0 a -> 0 <= len ->
  (forall a2, same_written a2 (mark a2)) ->
  flow_keeps (grown a0)
    (if negb done
     then write_or_return a src len (fun a1 _ => Continue (mark a1))
     else Continue a).
Proof.
  intros Hg Hlen Hmark. destruct done; cbn [negb]; [exact Hg|].
  apply write_or_return_grown; [assumption | assumption |].
  intros a2 tmp H2. cbn. apply (grown_same a0 a2); [exact H2 | apply Hmark].
Qed.

(** X12. A call of [write] on an assembler whose buffer has room only
    appends: the bytes written before stay as they are, the count of written
    bytes grows by exactly the value the call returns (which is not
    negative), never more bytes are appended than that value, and the count
    stays below the size of the buffer. *)
Theorem write_appends_what_it_returns (fuel : nat) (a a' : LogAssembler) (n : Z) :
  has_room a ->
  write fuel a = inr (a', n) ->
  0 <= n /\
  getWritedBytes a' = getWritedBytes a + n /\
  getWritedBytes a' < buffer_size_ (output a') /\
  buffer_size_ (output a') = buffer_size_ (output a) /\
  exists bytes,
    written (output a') = written (output a) ++ bytes /\
    Z.of_nat (List.length bytes) <= n.
Proof.
  intros Hroom. unfold log_info.write, getWritedBytes.
  destruct (is_full_ (output a)).
  { intros H; inversion H; subst. destruct Hroom as [R1 R2].
    split; [lia|]. split; [lia|]. split; [lia|]. split; [reflexivity|].
    exists []. rewrite app_nil_r. split; [reflexivity | cbn; lia]. }
  set (a0 := set_bytes_last_writed a 0).
  assert (H0 : grown a a0).
  { destruct Hroom as [R1 R2]. unfold grown, has_room. subst a0. cbn.
    repeat split; try lia. exists []. rewrite app_nil_r. split; [reflexivity | cbn; lia]. }
  clearbody a0.
  match goal with
  | |- match ?f with _ => _ end = _ -> _ =>
      assert (Hf : flow_keeps (grown a) f)
  end.
  { apply flow_keeps_and_then.
    { unfold write_timestamp.
      apply write_phase_grown;
        [assumption | apply size_t_of_nonneg | intros; repeat split]. }
    intros a1 H1. apply flow_keeps_and_then.
    { unfold write_filename_and_linenum.
      apply write_phase_grown; [assumption | lia | intros; repeat split]. }
    intros a2 H2. apply flow_keeps_and_then.
    { unfold write_severity.
      destruct (is_severity_writed_ (flags a2)) eqn:Es; cbn [negb]; [exact H2|].
      destruct (static_log_info_ a2); [|exact I].
      destruct (nth_error severity_str _); [|exact I].
      apply (write_phase_grown a a2 false);
        [assumption | lia | intros; repeat split]. }
    intros a3 H3. apply flow_keeps_and_then.
    { unfold write_producer_id.
      apply write_phase_grown; [assumption | lia | intros; repeat split]. }
    intros a4 H4. apply flow_keeps_and_then.
    { apply write_body_grown. assumption. }
    intros a5 H5. unfold write_end_of_log.
    apply write_phase_grown; [assumption | lia | intros; repeat split]. }
  match goal with
  | |- match ?f with _ => _ end = _ -> _ => destruct f as [a1|a1|why]
  end; cbn [flow_keeps] in Hf; intros H; inversion H; subst; clear H;
    destruct Hf as ([R1 R2] & _ & Hs & Hb & Hw & bytes & Hbytes & Hl);
    (split; [exact Hb|]; split; [exact Hw|]; split; [lia|]; split; [exact Hs|];
     exists bytes; split; assumption).
Qed.

End AssemblerAccounting.

Section AssemblerRuns.

Import log_info examples libc.

Local Abbreviation utc := strftime_utc_1700000000.

Lemma write_appends_what_it_returns_witness :
  exists a a' n,
    loaded utc 64 hello_world = Some a /\
    has_room a /\
    log_info.write printf_reference 3 a = inr (a', n) /\
    0 <= n /\
    getWritedBytes a' = getWritedBytes a + n /\
    getWritedBytes a' < buffer_size_ (output a') /\
    buffer_size_ (output a') = buffer_size_ (output a) /\
    exists bytes,
      written (output a') = written (output a) ++ bytes /\
      Z.of_nat (List.length bytes) <= n.
Proof.
  assert (Hcall : exists s d, hello_world = Return (s, d)) by (vm_compute; eauto).
  destruct Hcall as (s & d & Hcall). unfold loaded. rewrite Hcall.
  vm_compute in Hcall. inversion Hcall; subst s d; clear Hcall.
  match goal with
  | |- context [loadLogInfo ?u ?b ?s ?d ?i] =>
      assert (Hroom : has_room (loadLogInfo u b s d i))
        by (unfold has_room; cbn; lia);
      let v := eval vm_compute in
        (log_info.write printf_reference 3 (loadLogInfo u b s d i)) in
      assert (Ew : log_info.write printf_reference 3 (loadLogInfo u b s d i) = v)
        by (vm_compute; reflexivity)
  end.
  match type of Ew with
  | log_info.write _ _ ?a = inr (?a', ?n) => exists a, a', n
  end.
  split; [reflexivity|]. split; [exact Hroom|]. split; [exact Ew|].
  exact (write_appends_what_it_returns printf_reference 3 _ _ _ Hroom Ew).
Defined.

(** X13. What [write] produces does not depend on the size of the buffer
    as long as the buffer does not fill up: if a call comes back without the
    full flag set, the same call on the same assembler with any larger buffer
    (and any more passes allowed to the loop of the body) returns the same
    count and leaves the same state and the same written bytes. *)
Theorem write_does_not_depend_on_a_larger_buffer
    (printf_render : list ascii -> list PrintfArg -> option (list ascii))
    (large : Z) (fuel more : nat) (a a' : LogAssembler) (n : Z) :
  has_room a ->
  buffer_size_ (output a) <= large < 2 ^ 64 ->
  log_info.write printf_render fuel a = inr (a', n) ->
  isBufferFull a' = false ->
  log_info.write printf_render (fuel + more) (resized large a) =
    inr (resized large a', n) /\
  written (output (resized large a')) = written (output a') /\
  getWritedBytes (resized large a') = getWritedBytes a' /\
  indices (resized large a') = indices a' /\
  log_info.flags (resized large a') = log_info.flags a'.
Proof.
  intros Hroom Hlarge Hw Hfull. split; [|repeat split].
  apply write_more_fuel.
  apply (write_resized printf_render (buffer_size_ (output a)) large Hlarge fuel a a' n);
    [split; [exact Hroom | reflexivity] | exact Hw | exact Hfull].
Qed.

Lemma write_does_not_depend_on_a_larger_buffer_witness :
  exists a a' n,
    loaded utc 64 hello_world = Some a /\
    has_room a /\
    buffer_size_ (output a) <= config.DOUBLE_BUFFER_SIZE < 2 ^ 64 /\
    log_info.write printf_reference 3 a = inr (a', n) /\
    isBufferFull a' = false /\
    log_info.write printf_reference (3 + 2) (resized config.DOUBLE_BUFFER_SIZE a) =
      inr (resized config.DOUBLE_BUFFER_SIZE a', n) /\
    written (output (resized config.DOUBLE_BUFFER_SIZE a')) = written (output a').
Proof.
  assert (Hcall : exists s d, hello_world = Return (s, d)) by (vm_compute; eauto).
  destruct Hcall as (s & d & Hcall). unfold loaded. rewrite Hcall.
  vm_compute in Hcall. inversion Hcall; subst s d; clear Hcall.
  match goal with
  | |- context [loadLogInfo ?u ?b ?s ?d ?i] =>
      assert (Hroom : has_room (loadLogInfo u b s d i))
        by (unfold has_room; cbn; lia);
      assert (Hlarge : buffer_size_ (output (loadLogInfo u b s d i)) <=
                       config.DOUBLE_BUFFER_SIZE < 2 ^ 64)
        by (split; [discriminate | reflexivity]);
      let v := eval vm_compute in
        (log_info.write printf_reference 3 (loadLogInfo u b s d i)) in
      assert (Ew : log_info.write printf_reference 3 (loadLogInfo u b s d i) = v)
        by (vm_compute; reflexivity)
  end.
  match type of Ew with
  | log_info.write _ _ ?a = inr (?a', ?n) => exists a, a', n
  end.
  split; [reflexivity|]. split; [exact Hroom|]. split; [exact Hlarge|].
  split; [exact Ew|]. split; [reflexivity|].
  destruct (write_does_not_depend_on_a_larger_buffer printf_reference
              config.DOUBLE_BUFFER_SIZE 3 2 _ _ _ Hroom Hlarge Ew eq_refl)
    as (H1 & H2 & _).
  split; [exact H1 | exact H2].
Defined.

(** X14. A failure of [snprintf] is taken for a full buffer: when the
    C library reports an error for a conversion (or more characters than an
    [int] holds), [tryToWriteArgToBuffer] returns 0 and sets the full flag
    whatever room the buffer has, nothing is counted as written, and from
    then on every [write] returns 0 at once, also after [setBuffer] has
    installed another buffer. *)
Theorem snprintf_failure_is_taken_for_a_full_buffer
    (printf_render : list ascii -> list PrintfArg -> option (list ascii))
    (a : LogAssembler) (fmt : list ascii) (width precision : Z) (arg : PrintfArg) :
  fst (snprintf printf_render (scratch (output a)) (getFreeBytes a) fmt
         (snprintf_args width precision arg)) = -1 ->
  exists a1,
    tryToWriteArgToBuffer printf_render a fmt width precision arg = (a1, 0) /\
    isBufferFull a1 = true /\
    written (output a1) = written (output a) /\
    getWritedBytes a1 = getWritedBytes a /\
    forall fuel size,
      log_info.write printf_render fuel (setBuffer a1 size) = inr (setBuffer a1 size, 0).
Proof.
  intros Hret. unfold log_info.tryToWriteArgToBuffer.
  destruct (snprintf printf_render _ _ _ _) as [ret bytes]. cbn [fst] in Hret.
  subst ret.
  change (getFreeBytes (set_scratch a bytes)) with (getFreeBytes a).
  assert (Hfree : getFreeBytes a < 2 ^ 64)
    by (unfold getFreeBytes, size_t_of; apply Z.mod_pos_bound; reflexivity).
  change (size_t_of (0 + -1)) with (2 ^ 64 - 1).
  destruct (Z.geb_spec (2 ^ 64 - 1) (getFreeBytes a)) as [_|Hlt]; [|lia].
  eexists. split; [reflexivity|]. split; [reflexivity|].
  split; [reflexivity|]. split; [reflexivity|].
  intros fuel size. apply write_after_setBuffer_when_full. reflexivity.
Qed.

Lemma snprintf_failure_is_taken_for_a_full_buffer_witness :
  fst (snprintf (fun _ _ => None) (scratch (output (setBuffer LogAssembler_new 64)))
         (getFreeBytes (setBuffer LogAssembler_new 64)) (text "%d")
         (snprintf_args (-1) (-1) (PInteger 42))) = -1 /\
  exists a1,
    tryToWriteArgToBuffer (fun _ _ => None) (setBuffer LogAssembler_new 64) (text "%d")
      (-1) (-1) (PInteger 42) = (a1, 0) /\
    isBufferFull a1 = true /\
    written (output a1) = written (output (setBuffer LogAssembler_new 64)) /\
    getWritedBytes a1 = getWritedBytes (setBuffer LogAssembler_new 64) /\
    forall fuel size,
      log_info.write (fun _ _ => None) fuel (setBuffer a1 size) =
      inr (setBuffer a1 size, 0).
Proof.
  split; [reflexivity|].
  apply (snprintf_failure_is_taken_for_a_full_buffer (fun _ _ => None)
           (setBuffer LogAssembler_new 64) (text "%d") (-1) (-1) (PInteger 42)).
  reflexivity.
Defined.

End AssemblerRuns.

Section TimestampFacts.

Import log_info examples libc.

Lemma length_25 {A : Type} (l : list A) :
  List.length l = 25%nat ->
  exists x0 x1 x2 x3 x4 x5 x6 x7 x8 x9 x10 x11 x12 x13 x14 x15 x16 x17 x18 x19 rest,
    l = [x0; x1; x2; x3; x4; x5; x6; x7; x8; x9; x10; x11; x12; x13; x14; x15; x16;
         x17; x18; x19] ++ rest /\ List.length rest = 5%nat.
Proof.
  intros H.
  do 20 (destruct l as [|? l]; [discriminate H|]).
  do 20 eexists. exists l. split; [reflexivity|].
  cbn [List.length] in H. lia.
Qed.

(** X15. [loadDynamicInfo] lays the timestamp out as the characters
    [strftime] gives for the seconds, then the milliseconds as three decimal
    digits, then a space: for a timestamp that is not negative and a date of
    twenty characters these are the first 24 characters of the 25 of
    [timestamp_str_], which are the ones [write] copies; the last character
    keeps its value. *)
Theorem timestamp_layout (strftime_localtime : Z -> list ascii)
    (timestamp_str : list ascii) (ms_timestamp : Z) :
  List.length timestamp_str = 25%nat ->
  0 <= ms_timestamp ->
  List.length (strftime_localtime (ms_timestamp / 1000)) = 20%nat ->
  let milliseconds := ms_timestamp mod 1000 in
  render_timestamp strftime_localtime timestamp_str ms_timestamp =
  strftime_localtime (ms_timestamp / 1000) ++
  [digit_char (milliseconds / 100); digit_char (milliseconds mod 100 / 10);
   digit_char (milliseconds mod 10); " "%char] ++
  skipn 24 timestamp_str /\
  0 <= milliseconds / 100 <= 9 /\
  0 <= milliseconds mod 100 / 10 <= 9 /\
  0 <= milliseconds mod 10 <= 9.
Proof.
  intros Harr Hms Hdate milliseconds. split.
  - unfold render_timestamp.
    rewrite Z.quot_div_nonneg by lia.
    rewrite (Z.rem_mod_nonneg ms_timestamp 1000) by lia.
    fold milliseconds.
    assert (Hm : 0 <= milliseconds < 1000) by (apply Z.mod_pos_bound; lia).
    rewrite (Z.quot_div_nonneg milliseconds 100) by lia.
    rewrite (Z.rem_mod_nonneg milliseconds 100) by lia.
    rewrite (Z.rem_mod_nonneg milliseconds 10) by lia.
    rewrite (Z.quot_div_nonneg (milliseconds mod 100) 10)
      by (try apply Z.mod_pos_bound; lia).
    destruct (length_25 (strftime_localtime (ms_timestamp / 1000) ++ repeat NUL 5))
      as (r0 & r1 & r2 & r3 & r4 & r5 & r6 & r7 & r8 & r9 & r10 & r11 & r12 & r13 &
          r14 & r15 & r16 & r17 & r18 & r19 & rrest & Hr & Hrrest).
    { rewrite length_app, Hdate. reflexivity. }
    assert (Hdate' : strftime_localtime (ms_timestamp / 1000) =
                     [r0; r1; r2; r3; r4; r5; r6; r7; r8; r9; r10; r11; r12; r13; r14;
                      r15; r16; r17; r18; r19]).
    { apply (f_equal (firstn 20)) in Hr.
      rewrite firstn_app, Hdate, Nat.sub_diag, firstn_all2 in Hr by lia.
      cbn in Hr. rewrite app_nil_r in Hr. exact Hr. }
    rewrite Hdate'.
    destruct (length_25 timestamp_str Harr)
      as (t0 & t1 & t2 & t3 & t4 & t5 & t6 & t7 & t8 & t9 & t10 & t11 & t12 & t13 &
          t14 & t15 & t16 & t17 & t18 & t19 & trest & Ht & Htrest).
    subst timestamp_str.
    do 5 (destruct trest as [|? trest]; [discriminate Htrest|]).
    destruct trest; [|discriminate Htrest].
    reflexivity.
  - assert (Hm : 0 <= milliseconds < 1000) by (apply Z.mod_pos_bound; lia).
    assert (Hh : 0 <= milliseconds mod 100 < 100) by (apply Z.mod_pos_bound; lia).
    assert (Ht : 0 <= milliseconds mod 10 < 10) by (apply Z.mod_pos_bound; lia).
    split; [|split; [|lia]].
    + split; [apply Z.div_pos; lia|].
      apply Z.lt_succ_r. apply Z.div_lt_upper_bound; lia.
    + split; [apply Z.div_pos; lia|].
      apply Z.lt_succ_r. apply Z.div_lt_upper_bound; lia.
Qed.

Lemma timestamp_layout_witness :
  List.length (repeat NUL 25) = 25%nat /\
  0 <= 1700000000123 /\
  List.length (strftime_utc_1700000000 (1700000000123 / 1000)) = 20%nat /\
  render_timestamp strftime_utc_1700000000 (repeat NUL 25) 1700000000123 =
  strftime_utc_1700000000 (1700000000123 / 1000) ++ text "123 " ++ [NUL].
Proof.
  split; [reflexivity|]. split; [discriminate|]. split; [reflexivity|].
  destruct (timestamp_layout strftime_utc_1700000000 (repeat NUL 25) 1700000000123)
    as [H _]; [reflexivity | discriminate | reflexivity |].
  rewrite H. reflexivity.
Defined.

End TimestampFacts.

(** ** The staging buffer used by one thread at a time *)

Section StagingBufferInvariant.

Import buffers.

Local Open Scope Z_scope.

(** The positions of a buffer are consistent: either the consumer is not
    ahead of the producer, which has not reached the end of the storage, or
    the producer has wrapped and lies behind the consumer, which has not
    passed the end of the data; [available_bytes_] never promises more than
    the room in front of the producer. *)
Definition consistent (b : StagingBuffer) : Prop :=
  0 < capacity_ b < 2 ^ 64 /\
  0 <= available_bytes_ b /\
  (0 <= consumer_pos_ b <= producer_pos_ b /\
   producer_pos_ b < capacity_ b /\
   available_bytes_ b <= capacity_ b - producer_pos_ b \/
   0 <= producer_pos_ b < consumer_pos_ b /\
   consumer_pos_ b <= end_of_data_ b /\
   end_of_data_ b < capacity_ b /\
   available_bytes_ b <= consumer_pos_ b - producer_pos_ b).

(** The number of bytes committed by the producer and not yet consumed. *)
Definition unread (b : StagingBuffer) : Z :=
  if consumer_pos_ b <=? producer_pos_ b
  then producer_pos_ b - consumer_pos_ b
  else end_of_data_ b - consumer_pos_ b + producer_pos_ b.

Ltac to_props :=
  repeat match goal with
  | H : (_ <=? _) = true |- _ => apply Z.leb_le in H
  | H : (_ <=? _) = false |- _ => apply Z.leb_gt in H
  | H : (_ <? _) = true |- _ => apply Z.ltb_lt in H
  | H : (_ <? _) = false |- _ => apply Z.ltb_ge in H
  | H : (_ >? _) = true |- _ => apply Z.gtb_lt in H
  | H : (_ >? _) = false |- _ => rewrite Z.gtb_ltb in H; apply Z.ltb_ge in H
  | H : (_ =? _) = true |- _ => apply Z.eqb_eq in H
  | H : (_ =? _) = false |- _ => apply Z.eqb_neq in H
  | H : negb _ = true |- _ => apply negb_true_iff in H
  | H : negb _ = false |- _ => apply negb_false_iff in H
  | H : _ && _ = true |- _ => apply andb_true_iff in H; destruct H
  | H : _ || _ = false |- _ => apply orb_false_iff in H; destruct H
  end.

Ltac split_ifs :=
  repeat match goal with
  | |- context [if ?c then _ else _] =>
      let E := fresh "E" in destruct c eqn:E
  | H : context [if ?c then _ else _] |- _ =>
      let E := fresh "E" in destruct c eqn:E
  end.

Lemma size_t_of_small (z : Z) : 0 <= z < 2 ^ 64 -> size_t_of z = z.
Proof. intros H. unfold size_t_of. apply Z.mod_small. exact H. Qed.

Lemma StagingBuffer_new_consistent (buffer_id capacity : Z) :
  0 < capacity < 2 ^ 64 ->
  consistent (StagingBuffer_new buffer_id capacity) /\
  unread (StagingBuffer_new buffer_id capacity) = 0.
Proof. intros H. unfold consistent, unread. cbn. split; [lia | reflexivity]. Qed.

Ltac close :=
  cbn;
  repeat match goal with
  | |- context [?x <=? ?y] => destruct (Z.leb_spec x y)
  end;
  repeat split;
  first [lia | reflexivity | left; reflexivity | right; lia | exfalso; lia].

Ltac split_ifs_in Hr :=
  repeat match type of Hr with
  | context [if ?c then _ else _] => let E := fresh "E" in destruct c eqn:E
  end.

Ltac conclude Hr :=
  split_ifs_in Hr; to_props; inversion Hr; subst; clear Hr;
  cbn [capacity_ available_bytes_ consumer_pos_ producer_pos_ end_of_data_
       set_available_bytes set_end_of_data set_producer_pos set_consumer_pos] in *;
  close.

Lemma reserve_iteration_consistent (b b' : StagingBuffer) (num_bytes : Z)
    (blocking : bool) (r : option (option Z)) :
  consistent b -> 0 <= num_bytes ->
  reserve_iteration b num_bytes blocking = (b', r) ->
  consistent b' /\ unread b' = unread b /\ capacity_ b' = capacity_ b /\
  match r with
  | Some (Some p) => p = producer_pos_ b' /\ num_bytes < available_bytes_ b'
  | Some None => blocking = false /\ available_bytes_ b' <= num_bytes
  | None => blocking = true \/ num_bytes < available_bytes_ b'
  end.
Proof.
  destruct b as [p e c id d C a].
  unfold consistent, unread, reserve_iteration.
  cbn [capacity_ available_bytes_ consumer_pos_ producer_pos_ end_of_data_
       set_available_bytes set_end_of_data set_producer_pos].
  intros (HC & Ha & Hmode) Hn Hr.
  rewrite Z.sub_diag in Hr. change (size_t_of 0) with 0 in Hr.
  destruct Hmode as [(Hc & Hp & Hav)|(Hp & Hce & HeC & Hav)].
  - rewrite (size_t_of_small (0 + C - p)) in Hr by lia.
    rewrite (size_t_of_small (c - 0)) in Hr by lia.
    destruct blocking; cbn [negb andb] in Hr; conclude Hr.
  - destruct (Z.leb_spec c p) as [?|_]; [lia|].
    destruct blocking; cbn [negb andb available_bytes_] in Hr; conclude Hr.
Qed.

Lemma reserveProducerSpaceInternal_consistent (fuel : nat) (b b' : StagingBuffer)
    (num_bytes : Z) (blocking : bool) (r : Reservation) :
  consistent b -> 0 <= num_bytes ->
  reserveProducerSpaceInternal fuel [] b num_bytes blocking = (r, b') ->
  consistent b' /\ unread b' = unread b /\ capacity_ b' = capacity_ b /\
  match r with
  | Reserved p => p = producer_pos_ b' /\ num_bytes < available_bytes_ b'
  | ReturnedNull => blocking = false /\ available_bytes_ b' <= num_bytes
  | StillSpinning => True
  | AssertionFailed => False
  end.
Proof.
  revert b. induction fuel as [|fuel IH]; intros b Hb Hn;
    cbn [reserveProducerSpaceInternal tl];
    destruct (Z.leb_spec (available_bytes_ b) num_bytes) as [Hle|Hgt];
    try (intros Hr; inversion Hr; subst; clear Hr;
         split; [exact Hb|]; split; [reflexivity|]; split; [reflexivity|];
         solve [exact I | split; [reflexivity | lia]]).
  destruct (reserve_iteration b num_bytes blocking) as [b1 r1] eqn:E.
  apply (reserve_iteration_consistent _ _ _ _ _ Hb Hn) in E.
  destruct E as (Hb1 & Hu1 & HC1 & Hr1).
  destruct r1 as [[p|]|].
  - intros Hr; inversion Hr; subst; clear Hr.
    split; [exact Hb1|]. split; [exact Hu1|]. split; [exact HC1 | exact Hr1].
  - intros Hr; inversion Hr; subst; clear Hr.
    split; [exact Hb1|]. split; [exact Hu1|]. split; [exact HC1 | exact Hr1].
  - intros Hr. apply (IH b1 Hb1 Hn) in Hr.
    destruct Hr as (H1 & H2 & H3 & H4).
    split; [exact H1|]. split; [congruence|]. split; [congruence | exact H4].
Qed.

(** X16. Used by one thread at a time, a reservation keeps the buffer
    consistent and loses no unread byte; when it grants [num_bytes] at a
    position, these bytes lie inside the storage and before the unread data
    of a wrapped buffer, so that both assertions of [finishReservation]
    hold for them, and committing them adds exactly [num_bytes] unread
    bytes. *)
Theorem reservation_is_safe (fuel : nat) (b b' : StagingBuffer) (num_bytes : Z)
    (blocking : bool) (r : Reservation) :
  consistent b -> 0 <= num_bytes ->
  reserveProducerSpace fuel [] b num_bytes blocking = (r, b') ->
  consistent b' /\ unread b' = unread b /\ capacity_ b' = capacity_ b /\
  forall write_pos,
    r = Reserved write_pos ->
    write_pos = producer_pos_ b' /\
    0 <= write_pos /\
    write_pos + num_bytes < capacity_ b' /\
    (producer_pos_ b' < consumer_pos_ b' -> write_pos + num_bytes < consumer_pos_ b') /\
    exists b'',
      finishReservation b' num_bytes = Some b'' /\
      consistent b'' /\
      unread b'' = unread b + num_bytes /\
      producer_pos_ b'' = write_pos + num_bytes.
Proof.
  intros Hb Hn. unfold reserveProducerSpace.
  assert (Hfinish : forall b1 p,
             consistent b1 -> p = producer_pos_ b1 ->
             num_bytes < available_bytes_ b1 ->
             p = producer_pos_ b1 /\
             0 <= p /\
             p + num_bytes < capacity_ b1 /\
             (producer_pos_ b1 < consumer_pos_ b1 -> p + num_bytes < consumer_pos_ b1) /\
             exists b'',
               finishReservation b1 num_bytes = Some b'' /\
               consistent b'' /\
               unread b'' = unread b1 + num_bytes /\
               producer_pos_ b'' = p + num_bytes).
  { intros b1 p H1 -> Hav. destruct b1 as [p e c id d C a].
    unfold consistent, unread, finishReservation in *.
    cbn [capacity_ available_bytes_ consumer_pos_ producer_pos_ end_of_data_
         set_available_bytes set_producer_pos] in *.
    destruct H1 as (HC & Ha & Hmode).
    split; [reflexivity|]. split; [lia|]. split; [lia|]. split; [lia|].
    destruct (Z.ltb_spec num_bytes a) as [_|?]; [|lia]. cbn [negb].
    destruct (Z.ltb_spec (p + num_bytes) (0 + C)) as [_|?]; [|lia]. cbn [negb].
    rewrite size_t_of_small by lia.
    eexists. split; [reflexivity|]. close. }
  destruct (negb ((num_bytes <? capacity_ b) || negb blocking)).
  { intros Hr; inversion Hr; subst; clear Hr.
    split; [assumption|]. split; [reflexivity|]. split; [reflexivity|].
    intros p Hp; discriminate Hp. }
  destruct (Z.ltb_spec num_bytes (available_bytes_ b)) as [Hlt|Hge].
  - intros Hr; inversion Hr; subst; clear Hr.
    split; [assumption|]. split; [reflexivity|]. split; [reflexivity|].
    intros p Hp. inversion Hp; subst. apply Hfinish; [assumption | reflexivity | lia].
  - intros Hr. apply (reserveProducerSpaceInternal_consistent _ _ _ _ _ _ Hb Hn) in Hr.
    destruct Hr as (H1 & H2 & H3 & H4).
    split; [assumption|]. split; [assumption|]. split; [assumption|].
    intros p Hp. subst r. destruct H4 as [-> Hav].
    rewrite <- H2. apply Hfinish; [assumption | reflexivity | assumption].
Qed.

Lemma reservation_is_safe_witness :
  consistent (StagingBuffer_new 0 16) /\ 0 <= 10 /\
  exists b',
    reserveProducerSpace 0 [] (StagingBuffer_new 0 16) 10 true = (Reserved 0, b') /\
    consistent b' /\
    exists b'',
      finishReservation b' 10 = Some b'' /\
      consistent b'' /\
      unread b'' = unread (StagingBuffer_new 0 16) + 10 /\
      producer_pos_ b'' = 0 + 10.
Proof.
  assert (Hb : consistent (StagingBuffer_new 0 16))
    by (apply StagingBuffer_new_consistent; split; reflexivity).
  split; [exact Hb|]. split; [discriminate|].
  eexists. split; [reflexivity|].
  destruct (reservation_is_safe 0 (StagingBuffer_new 0 16) _ 10 true _ Hb
              ltac:(discriminate) eq_refl) as (H1 & _ & _ & H4).
  split; [exact H1|].
  destruct (H4 0 eq_refl) as (_ & _ & _ & _ & H5). exact H5.
Defined.

(** X17. Used by one thread at a time, [peek] keeps the buffer consistent
    and never reports more than the unread bytes; it reports none exactly
    when there are none; and consuming any part of what it reports passes
    the assertion of [consume], keeps the buffer consistent and takes that
    many bytes off the unread ones. *)
Theorem peek_then_consume (b : StagingBuffer) :
  consistent b ->
  let '(b1, (read_pos, available_bytes)) := peek b in
  consistent b1 /\ unread b1 = unread b /\
  read_pos = consumer_pos_ b1 /\
  0 <= available_bytes <= unread b /\
  (available_bytes = 0 <-> unread b = 0) /\
  read_pos + available_bytes <= capacity_ b1 /\
  forall num_bytes,
    0 <= num_bytes <= available_bytes ->
    exists b2,
      consume b1 num_bytes = Some b2 /\
      consistent b2 /\
      unread b2 = unread b - num_bytes.
Proof.
  destruct b as [p e c id d C a].
  unfold consistent, unread, peek, consume.
  cbn [capacity_ available_bytes_ consumer_pos_ producer_pos_ end_of_data_
       set_consumer_pos].
  intros (HC & Ha & Hmode).
  destruct Hmode as [(Hc & Hp & Hav)|(Hp & Hce & HeC & Hav)].
  - destruct (Z.ltb_spec p c) as [?|_]; [lia|].
    rewrite (size_t_of_small (p - c)) by lia.
    cbn [capacity_ available_bytes_ consumer_pos_ producer_pos_ end_of_data_].
    destruct (Z.leb_spec c p) as [_|?]; [|lia].
    split; [lia|]. split; [reflexivity|]. split; [reflexivity|].
    split; [lia|]. split; [lia|]. split; [lia|].
    intros k Hk.
    destruct (Z.ltb_spec (c + k) (0 + C)) as [_|?]; [|lia]. cbn [negb].
    eexists. split; [reflexivity|]. close.
  - destruct (Z.ltb_spec p c) as [_|?]; [|lia].
    rewrite (size_t_of_small (e - c)) by lia.
    destruct (Z.gtb_spec (e - c) 0) as [Hgt|Hle].
    + cbn [capacity_ available_bytes_ consumer_pos_ producer_pos_ end_of_data_].
      destruct (Z.leb_spec c p) as [?|_]; [lia|].
      split; [lia|]. split; [reflexivity|]. split; [reflexivity|].
      split; [lia|]. split; [lia|]. split; [lia|].
      intros k Hk.
      destruct (Z.ltb_spec (c + k) (0 + C)) as [_|?]; [|lia]. cbn [negb].
      eexists. split; [reflexivity|]. close.
    + rewrite (size_t_of_small (p - 0)) by lia.
      cbn [capacity_ available_bytes_ consumer_pos_ producer_pos_ end_of_data_
           set_consumer_pos].
      destruct (Z.leb_spec c p) as [?|_]; [lia|].
      destruct (Z.leb_spec 0 p) as [_|?]; [|lia].
      split; [lia|]. split; [lia|]. split; [reflexivity|].
      split; [lia|]. split; [lia|]. split; [lia|].
      intros k Hk.
      destruct (Z.ltb_spec (0 + k) (0 + C)) as [_|?]; [|lia]. cbn [negb].
      eexists. split; [reflexivity|]. close.
Qed.

Lemma peek_then_consume_witness :
  consistent (mkStagingBuffer 10 16 0 0 false 16 6) /\
  let '(b1, (read_pos, available_bytes)) :=
    peek (mkStagingBuffer 10 16 0 0 false 16 6) in
  consistent b1 /\ unread b1 = unread (mkStagingBuffer 10 16 0 0 false 16 6) /\
  read_pos = consumer_pos_ b1 /\
  0 <= available_bytes <= unread (mkStagingBuffer 10 16 0 0 false 16 6) /\
  (available_bytes = 0 <-> unread (mkStagingBuffer 10 16 0 0 false 16 6) = 0) /\
  read_pos + available_bytes <= capacity_ b1 /\
  forall num_bytes,
    0 <= num_bytes <= available_bytes ->
    exists b2,
      consume b1 num_bytes = Some b2 /\
      consistent b2 /\
      unread b2 = unread (mkStagingBuffer 10 16 0 0 false 16 6) - num_bytes.
Proof.
  assert (Hb : consistent (mkStagingBuffer 10 16 0 0 false 16 6))
    by (unfold consistent; cbn; lia).
  split; [exact Hb|].
  exact (peek_then_consume (mkStagingBuffer 10 16 0 0 false 16 6) Hb).
Defined.



Lemma wrapped_producer_spins (fuel : nat) (b : StagingBuffer) (num_bytes : Z) :
  0 <= num_bytes ->
  producer_pos_ b < consumer_pos_ b ->
  available_bytes_ b <= num_bytes ->
  exists b',
    reserveProducerSpaceInternal fuel [] b num_bytes true = (StillSpinning, b').
Proof.
  intros Hn. revert b. induction fuel as [|fuel IH]; intros b Hpc Hav;
    cbn [reserveProducerSpaceInternal tl];
    (destruct (Z.leb_spec (available_bytes_ b) num_bytes) as [_|?]; [|lia]);
    [eexists; reflexivity|].
  unfold reserve_iteration.
  destruct (Z.leb_spec (consumer_pos_ b) (producer_pos_ b)) as [?|_]; [lia|].
  cbn [negb andb]. apply IH.
  - exact Hpc.
  - cbn. rewrite Z.sub_diag. exact Hn.
Qed.

Lemma peek_in_order (b : StagingBuffer) :
  consumer_pos_ b <= producer_pos_ b -> fst (peek b) = b.
Proof.
  intros H. unfold peek.
  destruct (Z.ltb_spec (producer_pos_ b) (consumer_pos_ b)); [lia | reflexivity].
Qed.

Lemma peek_wrapped_drained (b : StagingBuffer) :
  producer_pos_ b < consumer_pos_ b -> end_of_data_ b = consumer_pos_ b ->
  fst (peek b) = set_consumer_pos b 0.
Proof.
  intros H He. unfold peek.
  destruct (Z.ltb_spec (producer_pos_ b) (consumer_pos_ b)); [|lia].
  rewrite He, Z.sub_diag. reflexivity.
Qed.

Lemma iteration_grants (b : StagingBuffer) (num_bytes : Z) (blocking : bool) :
  consumer_pos_ b <= producer_pos_ b ->
  0 <= capacity_ b - producer_pos_ b < 2 ^ 64 ->
  num_bytes < capacity_ b - producer_pos_ b ->
  reserve_iteration b num_bytes blocking =
  (set_available_bytes b (capacity_ b - producer_pos_ b), Some (Some (producer_pos_ b))).
Proof.
  intros Hcp HC Hn. unfold reserve_iteration.
  destruct (Z.leb_spec (consumer_pos_ b) (producer_pos_ b)); [|lia].
  rewrite Z.add_0_l, size_t_of_small by lia.
  cbn [available_bytes_ set_available_bytes].
  destruct (Z.gtb_spec (capacity_ b - producer_pos_ b) num_bytes); [|lia].
  reflexivity.
Qed.

Lemma iteration_wraps (b : StagingBuffer) (num_bytes : Z) :
  consumer_pos_ b <= producer_pos_ b ->
  0 < consumer_pos_ b < 2 ^ 64 ->
  0 <= capacity_ b - producer_pos_ b < 2 ^ 64 ->
  capacity_ b - producer_pos_ b <= num_bytes ->
  reserve_iteration b num_bytes true =
  (mkStagingBuffer 0 (producer_pos_ b) (consumer_pos_ b) (buffer_id_ b)
     (should_be_destructed_ b) (capacity_ b) (consumer_pos_ b), None).
Proof.
  intros Hcp Hc HC Hn. unfold reserve_iteration.
  destruct (Z.leb_spec (consumer_pos_ b) (producer_pos_ b)); [|lia].
  rewrite Z.add_0_l, size_t_of_small by lia.
  cbn [available_bytes_ set_available_bytes].
  destruct (Z.gtb_spec (capacity_ b - producer_pos_ b) num_bytes); [lia|].
  destruct (Z.eqb_spec (consumer_pos_ b) 0); [lia|]. cbn [negb andb].
  destruct b as [p e c id d C a]. cbn.
  rewrite Z.sub_0_r, size_t_of_small by (cbn in Hc; lia). reflexivity.
Qed.

(** X19. On a buffer whose data have all been consumed, a blocking
    reservation of fewer bytes than the capacity is granted at the latest in
    the second pass through the loop when the consumer calls [peek] in the
    meantime; while the consumer stays idle it is never granted if the
    request fits neither behind nor in front of the position at which both
    threads stand. *)
Theorem drained_buffer_needs_the_consumer (b : StagingBuffer) (num_bytes : Z) :
  consistent b -> unread b = 0 -> 0 <= num_bytes < capacity_ b ->
  (forall fuel,
      exists write_pos b',
        reserveProducerSpace (2 + fuel) [ConsumerPeek; ConsumerPeek] b num_bytes true =
          (Reserved write_pos, b') /\
        write_pos = producer_pos_ b' /\
        num_bytes < available_bytes_ b') /\
  (consumer_pos_ b = producer_pos_ b ->
   0 < producer_pos_ b <= num_bytes ->
   capacity_ b - producer_pos_ b <= num_bytes ->
   available_bytes_ b <= num_bytes ->
   forall fuel,
     exists b',
       reserveProducerSpace fuel [] b num_bytes true = (StillSpinning, b')).
Proof.
  intros Hb Hu Hn. split.
  - intros fuel. unfold reserveProducerSpace.
    destruct (Z.ltb_spec num_bytes (capacity_ b)) as [_|?]; [|lia]. cbn [orb negb].
    destruct (Z.ltb_spec num_bytes (available_bytes_ b)) as [Hlt|Hge].
    { exists (producer_pos_ b), b. split; [reflexivity|]. split; [reflexivity | exact Hlt]. }
    cbn [Nat.add reserveProducerSpaceInternal tl consumer_acts].
    destruct (Z.leb_spec (available_bytes_ b) num_bytes) as [_|?]; [|lia].
    destruct Hb as (HC & Ha & Hmode). unfold unread in Hu.
    destruct Hmode as [(Hc & Hp & Hav)|(Hp & Hce & HeC & Hav)].
    + destruct (Z.leb_spec (consumer_pos_ b) (producer_pos_ b)) as [_|?]; [|lia].
      rewrite peek_in_order by lia.
      destruct (Z.lt_ge_cases num_bytes (capacity_ b - producer_pos_ b)) as [Hroom|Hno].
      * rewrite iteration_grants by lia.
        eexists. eexists. split; [reflexivity|]. split; [reflexivity|]. cbn. exact Hroom.
      * rewrite iteration_wraps by lia.
        cbn [available_bytes_].
        destruct (Z.leb_spec (consumer_pos_ b) num_bytes) as [Hle|Hgt].
        -- rewrite peek_wrapped_drained by (cbn; lia).
           rewrite iteration_grants by (cbn; lia).
           eexists. eexists. split; [reflexivity|]. split; [reflexivity|]. cbn. lia.
        -- eexists. eexists. split; [reflexivity|]. split; [reflexivity|]. cbn. lia.
    + destruct (Z.leb_spec (consumer_pos_ b) (producer_pos_ b)) as [?|_]; [lia|].
      rewrite peek_wrapped_drained by lia.
      rewrite iteration_grants by (cbn; lia).
      eexists. eexists. split; [reflexivity|]. split; [reflexivity|]. cbn. lia.
  - intros Hcp Hbehind Hfront Hav fuel. unfold reserveProducerSpace.
    destruct (Z.ltb_spec num_bytes (capacity_ b)) as [_|?]; [|lia]. cbn [orb negb].
    destruct (Z.ltb_spec num_bytes (available_bytes_ b)) as [?|_]; [lia|].
    destruct b as [p e c id d C a].
    unfold consistent in Hb.
    cbn [capacity_ available_bytes_ consumer_pos_ producer_pos_ end_of_data_] in *.
    subst c. destruct Hb as (HC & Ha & _).
    destruct fuel as [|fuel]; cbn [reserveProducerSpaceInternal tl available_bytes_];
      (destruct (Z.leb_spec a num_bytes) as [_|?]; [|lia]);
      [eexists; reflexivity|].
    unfold reserve_iteration.
    cbn [capacity_ available_bytes_ consumer_pos_ producer_pos_ end_of_data_
         set_available_bytes set_end_of_data set_producer_pos set_consumer_pos].
    destruct (Z.leb_spec p p) as [_|?]; [|lia].
    rewrite (size_t_of_small (0 + C - p)) by lia.
    destruct (Z.gtb_spec (0 + C - p) num_bytes) as [?|_]; [lia|].
    destruct (Z.eqb_spec p 0) as [?|_]; [lia|]. cbn [negb andb].
    rewrite (size_t_of_small (p - 0)) by lia.
    apply wrapped_producer_spins; cbn; lia.
Qed.

Lemma drained_buffer_needs_the_consumer_witness :
  consistent (mkStagingBuffer 10 16 10 0 false 16 6) /\
  unread (mkStagingBuffer 10 16 10 0 false 16 6) = 0 /\
  0 <= 10 < capacity_ (mkStagingBuffer 10 16 10 0 false 16 6) /\
  (exists write_pos b',
      reserveProducerSpace (2 + 0) [ConsumerPeek; ConsumerPeek]
        (mkStagingBuffer 10 16 10 0 false 16 6) 10 true = (Reserved write_pos, b') /\
      write_pos = producer_pos_ b' /\ 10 < available_bytes_ b') /\
  (forall fuel,
      exists b',
        reserveProducerSpace fuel [] (mkStagingBuffer 10 16 10 0 false 16 6) 10 true =
        (StillSpinning, b')).
Proof.
  assert (Hb : consistent (mkStagingBuffer 10 16 10 0 false 16 6))
    by (unfold consistent; cbn; lia).
  split; [exact Hb|]. split; [reflexivity|].
  split; [cbn; lia|].
  destruct (drained_buffer_needs_the_consumer (mkStagingBuffer 10 16 10 0 false 16 6)
              10 Hb eq_refl ltac:(cbn; lia)) as [H1 H2].
  split; [exact (H1 0%nat)|].
  apply H2; cbn; lia.
Defined.

Lemma commit_then_read (b : StagingBuffer) (num_bytes : Z) :
  consistent b -> unread b = 0 -> 0 <= num_bytes < available_bytes_ b ->
  exists b2,
    finishReservation b num_bytes = Some b2 /\
    let '(b3, (read_pos, available_bytes)) := peek b2 in
    read_pos = producer_pos_ b /\
    available_bytes = num_bytes /\
    exists b4,
      consume b3 num_bytes = Some b4 /\
      consistent b4 /\
      unread b4 = 0 /\
      consumer_pos_ b4 = producer_pos_ b4.
Proof.
  destruct b as [p e c id d C a].
  unfold consistent, unread, finishReservation.
  cbn [capacity_ available_bytes_ consumer_pos_ producer_pos_ end_of_data_
       set_available_bytes set_producer_pos set_consumer_pos].
  intros (HC & Ha & Hmode) Hu Hn.
  destruct (Z.ltb_spec num_bytes a) as [_|?]; [|lia]. cbn [negb].
  destruct (Z.ltb_spec (p + num_bytes) (0 + C)) as [_|?]; [|lia]. cbn [negb].
  rewrite (size_t_of_small (a - num_bytes)) by lia.
  eexists. split; [reflexivity|].
  unfold peek, consume.
  cbn [capacity_ available_bytes_ consumer_pos_ producer_pos_ end_of_data_
       set_available_bytes set_producer_pos set_consumer_pos].
  revert Hu. destruct (Z.leb_spec c p) as [Hcp|Hpc]; intros Hu.
  - assert (c = p) by lia. subst c.
    destruct (Z.ltb_spec (p + num_bytes) p) as [?|_]; [lia|].
    rewrite (size_t_of_small (p + num_bytes - p)) by lia.
    split; [reflexivity|]. split; [lia|].
    cbn [capacity_ available_bytes_ consumer_pos_ producer_pos_ end_of_data_
         set_available_bytes set_producer_pos set_consumer_pos].
    destruct (Z.ltb_spec (p + num_bytes) (0 + C)) as [_|?]; [|lia]. cbn [negb].
    eexists. split; [reflexivity|]. close.
  - assert (e = c /\ p = 0) as [-> ->] by lia.
    destruct (Z.ltb_spec (0 + num_bytes) c) as [_|?]; [|lia].
    rewrite Z.sub_diag. change (size_t_of 0 >? 0) with false.
    cbn [capacity_ available_bytes_ consumer_pos_ producer_pos_ end_of_data_
         set_available_bytes set_producer_pos set_consumer_pos].
    rewrite (size_t_of_small (0 + num_bytes - 0)) by lia.
    split; [reflexivity|]. split; [lia|].
    destruct (Z.ltb_spec (0 + num_bytes) (0 + C)) as [_|?]; [|lia]. cbn [negb].
    eexists. split; [reflexivity|]. close.
Qed.

(** X24. What the producer commits is what the consumer is shown.  On a
    buffer whose data have all been consumed, used by one thread at a time,
    the bytes of a granted reservation, once committed, are reported by
    [peek] in full and at the position that was granted, also when the
    reservation has wrapped to the start of the storage; consuming them
    leaves the buffer consistent and drained again. *)
Theorem committed_bytes_are_shown (fuel : nat) (b b1 : StagingBuffer) (num_bytes : Z)
    (blocking : bool) (write_pos : Z) :
  consistent b -> unread b = 0 -> 0 <= num_bytes ->
  reserveProducerSpace fuel [] b num_bytes blocking = (Reserved write_pos, b1) ->
  exists b2,
    finishReservation b1 num_bytes = Some b2 /\
    let '(b3, (read_pos, available_bytes)) := peek b2 in
    read_pos = write_pos /\
    available_bytes = num_bytes /\
    exists b4,
      consume b3 num_bytes = Some b4 /\
      consistent b4 /\
      unread b4 = 0 /\
      consumer_pos_ b4 = producer_pos_ b4.
Proof.
  intros Hb Hu Hn. unfold reserveProducerSpace.
  destruct (negb ((num_bytes <? capacity_ b) || negb blocking)); [discriminate|].
  destruct (Z.ltb_spec num_bytes (available_bytes_ b)) as [Hlt|Hge].
  - intros Hr; inversion Hr; subst; clear Hr.
    apply commit_then_read; [exact Hb | exact Hu | lia].
  - intros Hr.
    destruct (reserveProducerSpaceInternal_consistent _ _ _ _ _ _ Hb Hn Hr)
      as (H1 & H2 & _ & -> & Hav).
    apply commit_then_read; [exact H1 | congruence | lia].
Qed.

Lemma committed_bytes_are_shown_witness :
  consistent (mkStagingBuffer 10 16 10 0 false 16 6) /\
  unread (mkStagingBuffer 10 16 10 0 false 16 6) = 0 /\
  0 <= 8 /\
  exists b1 b2,
    reserveProducerSpace 1 [] (mkStagingBuffer 10 16 10 0 false 16 6) 8 true =
      (Reserved 0, b1) /\
    finishReservation b1 8 = Some b2 /\
    fst (snd (peek b2)) = 0 /\
    snd (snd (peek b2)) = 8.
Proof.
  assert (Hb : consistent (mkStagingBuffer 10 16 10 0 false 16 6))
    by (unfold consistent; cbn; lia).
  assert (Hn : 0 <= 8) by lia.
  split; [exact Hb|]. split; [reflexivity|]. split; [exact Hn|].
  eexists.
  destruct (committed_bytes_are_shown 1 (mkStagingBuffer 10 16 10 0 false 16 6) _ 8
              true 0 Hb eq_refl Hn eq_refl) as (b2 & Hf & Hpeek).
  exists b2. split; [reflexivity|]. split; [exact Hf|].
  destruct (peek b2) as [b3 [read_pos available_bytes]].
  destruct Hpeek as (Hp & Ha & _). split; [exact Hp | exact Ha].
Defined.

End StagingBufferInvariant.

(** ** The registry of static information *)

Section RegistryFacts.

Import log_info registry.

Local Open Scope Z_scope.

(** The copy of the consumer thread holds the first entries of the
    registered ones. *)
Definition shadow_is_prefix (r : Registry) : Prop :=
  exists rest, registered_info_ r = shadow_registered_info_ r ++ rest.

Lemma updateShadowRegisteredInfo_loop_copies (fuel : nat)
    (shadow rest : list registry.StaticLogInfo) :
  (List.length rest <= fuel)%nat ->
  updateShadowRegisteredInfo_loop fuel (List.length shadow)
    (mkRegistry (shadow ++ rest) shadow) =
  mkRegistry (shadow ++ rest) (shadow ++ rest).
Proof.
  revert shadow rest. induction fuel as [|fuel IH]; intros shadow rest Hfuel.
  - destruct rest; [rewrite app_nil_r; reflexivity | cbn in Hfuel; lia].
  - cbn [updateShadowRegisteredInfo_loop registered_info_ shadow_registered_info_].
    destruct rest as [|info rest].
    + rewrite app_nil_r. rewrite Nat.ltb_irrefl. reflexivity.
    + assert (Hlt : (List.length shadow <? List.length (shadow ++ info :: rest))%nat = true)
        by (apply Nat.ltb_lt; rewrite length_app; cbn; lia).
      rewrite Hlt. rewrite nth_error_app2, Nat.sub_diag by lia. cbn [nth_error].
      specialize (IH (shadow ++ [info]) rest).
      rewrite length_app, <- app_assoc in IH. cbn [List.length app] in IH.
      rewrite Nat.add_1_r in IH. apply IH. cbn in Hfuel. lia.
Qed.

Lemma updateShadowRegisteredInfo_copies (r : Registry) :
  shadow_is_prefix r ->
  updateShadowRegisteredInfo r = mkRegistry (registered_info_ r) (registered_info_ r).
Proof.
  intros [rest Hrest]. destruct r as [registered shadow]. cbn in *. subst registered.
  unfold updateShadowRegisteredInfo. cbn [registered_info_ shadow_registered_info_].
  apply updateShadowRegisteredInfo_loop_copies. rewrite length_app. lia.
Qed.

Lemma set_param_sizes_same (arrays : ParamSizes) (instance : LogInstance)
    (sizes : list nat) :
  set_param_sizes arrays instance sizes instance = sizes.
Proof.
  unfold set_param_sizes.
  destruct (LogInstance_eq_dec instance instance); [reflexivity | contradiction].
Qed.

Lemma set_param_sizes_other (arrays : ParamSizes) (instance other : LogInstance)
    (sizes : list nat) :
  instance <> other -> set_param_sizes arrays instance sizes other = arrays other.
Proof.
  intros H. unfold set_param_sizes.
  destruct (LogInstance_eq_dec instance other); [contradiction | reflexivity].
Qed.

(** X20. When a call site that is not yet registered runs [Log] with a
    severity that is logged, it gets the number of sites registered before
    (as long as there are fewer than 2^31) and its static information is
    appended; the consumer thread, whose copy holds the first registered
    entries, then finds this entry for a record that carries the new id,
    after bringing its copy up to date, and reads through it the constants of
    the site and the parameter sizes of its arguments.  The entries of the
    sites registered before are still found, but their parameter sizes are
    read through a pointer to an array that belongs to the instantiation of
    [Log]: an earlier site of another instantiation reads what it read
    before, an earlier site of the same instantiation now reads the sizes of
    the new site.  A call with the id now assigned registers nothing and
    leaves the arrays alone. *)
Theorem registered_site_is_found (arrays : ParamSizes) (r : Registry)
    (current_log_level : LogLevel) (filename : list ascii) (line_num : Z)
    (severity : LogLevel) (fmt : list ascii) (site : Callsite)
    (args : list (string * Arg)) :
  shadow_is_prefix r ->
  Z.of_nat (List.length (registered_info_ r)) < 2 ^ 31 ->
  num_parameters site = List.length args ->
  severity <= current_log_level ->
  exists arrays1 r1 log_id,
    Log_registers arrays r UNREGISTERED_LOG_ID current_log_level filename line_num
      severity fmt site args = Return (arrays1, r1, log_id) /\
    log_id = Z.of_nat (List.length (registered_info_ r)) /\
    shadow_is_prefix r1 /\
    (let '(r2, found) := static_info_of r1 (size_t_of log_id) in
     option_map (read_through arrays1) found =
       Some (log_info.mkStaticLogInfo filename line_num severity (List.length fmt)
               (num_conversions site) (num_parameters site) fmt
               (conversion_storage site) (format_fragments site) (param_types site)
               (GetParamSizes (param_types site) (map snd args))) /\
     shadow_registered_info_ r2 = registered_info_ r1 /\
     registered_info_ r2 = registered_info_ r1) /\
    (forall k earlier,
        nth_error (registered_info_ r) k = Some earlier ->
        snd (static_info_of r1 (Z.of_nat k)) = Some earlier /\
        (registry.param_sizes_ earlier <> instance_of fmt site (map fst args) ->
         read_through arrays1 earlier = read_through arrays earlier) /\
        (registry.param_sizes_ earlier = instance_of fmt site (map fst args) ->
         log_info.param_sizes_ (read_through arrays1 earlier) =
         GetParamSizes (param_types site) (map snd args))) /\
    forall level' filename' line_num' severity' fmt' site' args',
      num_parameters site' = List.length args' ->
      Log_registers arrays1 r1 log_id level' filename' line_num' severity' fmt' site'
        args' = Return (arrays1, r1, log_id).
Proof.
  intros Hprefix Hsize Hargs Hlevel.
  unfold Log_registers at 1, RegisterLogInfo, registerLogInfoInternal.
  rewrite Hargs, Nat.eqb_refl. cbn [negb].
  destruct (Z.gtb_spec severity current_log_level) as [?|_]; [lia|].
  change (UNREGISTERED_LOG_ID =? UNREGISTERED_LOG_ID) with true. cbv iota.
  change (negb true) with false. cbv iota.
  assert (Hid : int_of (Z.of_nat (List.length (registered_info_ r))) =
                Z.of_nat (List.length (registered_info_ r))).
  { unfold int_of. rewrite Z.mod_small by lia.
    destruct (Z.ltb_spec (Z.of_nat (List.length (registered_info_ r))) (2 ^ 31));
      [reflexivity | lia]. }
  rewrite Hid. rewrite <- Hargs.
  set (instance := instance_of fmt site (map fst args)).
  set (info := registry.mkStaticLogInfo filename line_num severity (List.length fmt)
                 (num_conversions site) (num_parameters site) fmt
                 (conversion_storage site) (format_fragments site) (param_types site)
                 instance).
  set (arrays1 := set_param_sizes arrays instance
                    (GetParamSizes (param_types site) (map snd args))).
  set (r1 := mkRegistry (registered_info_ r ++ [info]) (shadow_registered_info_ r)).
  assert (Hprefix1 : shadow_is_prefix r1).
  { destruct Hprefix as [rest Hrest]. exists (rest ++ [info]).
    subst r1. cbn. rewrite Hrest, <- app_assoc. reflexivity. }
  assert (Hshadow : (List.length (shadow_registered_info_ r) <=
                     List.length (registered_info_ r))%nat).
  { destruct Hprefix as [rest Hrest]. rewrite Hrest, length_app. lia. }
  exists arrays1, r1, (Z.of_nat (List.length (registered_info_ r))).
  split; [reflexivity|]. split; [reflexivity|]. split; [exact Hprefix1|].
  split; [|split].
  - unfold static_info_of. rewrite size_t_of_small by lia.
    change (shadow_registered_info_ r1) with (shadow_registered_info_ r).
    destruct (Z.geb_spec (Z.of_nat (List.length (registered_info_ r)))
                (Z.of_nat (List.length (shadow_registered_info_ r)))) as [_|?]; [|lia].
    rewrite (updateShadowRegisteredInfo_copies r1 Hprefix1).
    cbn [shadow_registered_info_ registered_info_ r1].
    rewrite Nat2Z.id, nth_error_app2, Nat.sub_diag by lia.
    cbn [nth_error option_map]. unfold read_through, info.
    cbn [registry.filename_ registry.line_number_ registry.log_level_
         registry.format_len_ registry.num_conversions_ registry.num_parameters_
         registry.format_str_ registry.conversion_storage_
         registry.format_fragments_ registry.param_types_ registry.param_sizes_].
    unfold arrays1. rewrite set_param_sizes_same.
    split; [reflexivity|]. split; reflexivity.
  - intros k earlier Hk.
    split; [|split].
    + unfold static_info_of.
      assert (Hlt : (k < List.length (registered_info_ r))%nat)
        by (apply nth_error_Some; congruence).
      rewrite Nat2Z.id.
      destruct (Z.geb_spec (Z.of_nat k)
                  (Z.of_nat (List.length (shadow_registered_info_ r1)))) as [Hge|Hlt'].
      * rewrite (updateShadowRegisteredInfo_copies r1 Hprefix1).
        cbn [snd shadow_registered_info_ registered_info_ r1].
        rewrite nth_error_app1 by lia. exact Hk.
      * cbn [snd]. destruct Hprefix as [rest Hrest].
        change (shadow_registered_info_ r1) with (shadow_registered_info_ r) in *.
        rewrite Hrest in Hk. rewrite nth_error_app1 in Hk by lia. exact Hk.
    + intros Hother. unfold read_through, arrays1.
      rewrite set_param_sizes_other by congruence. reflexivity.
    + intros Hsame. unfold read_through, arrays1. cbn [log_info.param_sizes_].
      rewrite Hsame. apply set_param_sizes_same.
  - intros level' filename' line_num' severity' fmt' site' args' Hargs'.
    unfold Log_registers. rewrite Hargs', Nat.eqb_refl. cbn [negb].
    destruct (severity' >? level'); [reflexivity|].
    destruct (Z.eqb_spec (Z.of_nat (List.length (registered_info_ r)))
                UNREGISTERED_LOG_ID) as [Heq|_]; [unfold UNREGISTERED_LOG_ID in Heq; lia|].
    reflexivity.
Qed.

Lemma registered_site_is_found_witness :
  exists arrays r id site arrays1 r1,
    first_site_registered = Return (arrays, r, id) /\
    OLOG_constants (c_array "%s %d") = Return site /\
    shadow_is_prefix r /\
    Z.of_nat (List.length (registered_info_ r)) < 2 ^ 31 /\
    num_parameters site = List.length two_sites_args /\
    logger.INFO <= logger.DEBUG /\
    Log_registers arrays r UNREGISTERED_LOG_ID logger.DEBUG
      (list_ascii_of_string "a.cc") 9 logger.INFO (c_array "%s %d") site
      two_sites_args = Return (arrays1, r1, 1) /\
    option_map (fun info => log_info.param_sizes_ (read_through arrays info))
      (nth_error (registered_info_ r) 0) = Some [8; 4]%nat /\
    option_map (fun info => log_info.param_sizes_ (read_through arrays1 info))
      (snd (static_info_of r1 0)) = Some [0; 4]%nat /\
    option_map (fun info => log_info.param_sizes_ (read_through arrays1 info))
      (snd (static_info_of r1 1)) = Some [0; 4]%nat.
Proof.
  destruct first_site_registered as [[[arrays r] id]| |] eqn:E1;
    [|discriminate E1|discriminate E1].
  destruct (OLOG_constants (c_array "%s %d")) as [site| |] eqn:E2;
    [|discriminate E2|discriminate E2].
  assert (Hr : r = mkRegistry (registered_info_ r) []).
  { vm_compute in E1. inversion E1. reflexivity. }
  assert (H1 : shadow_is_prefix r).
  { exists (registered_info_ r). rewrite Hr. reflexivity. }
  assert (Hlen : List.length (registered_info_ r) = 1%nat).
  { vm_compute in E1. inversion E1. reflexivity. }
  assert (H2 : Z.of_nat (List.length (registered_info_ r)) < 2 ^ 31)
    by (rewrite Hlen; reflexivity).
  assert (H3 : num_parameters site = List.length two_sites_args).
  { vm_compute in E2. inversion E2. reflexivity. }
  assert (H4 : logger.INFO <= logger.DEBUG) by discriminate.
  destruct (registered_site_is_found arrays r logger.DEBUG
              (list_ascii_of_string "a.cc") 9 logger.INFO (c_array "%s %d") site
              two_sites_args H1 H2 H3 H4)
    as (arrays1 & r1 & log_id & E3 & Hid & _ & Hnew & Hearlier & _).
  exists arrays, r, id, site, arrays1, r1.
  split; [reflexivity|]. split; [reflexivity|].
  split; [exact H1|]. split; [exact H2|]. split; [exact H3|]. split; [exact H4|].
  rewrite Hlen in Hid. subst log_id.
  split; [exact E3|].
  assert (Hfirst : exists earlier,
             nth_error (registered_info_ r) 0 = Some earlier /\
             registry.param_sizes_ earlier =
               instance_of (c_array "%s %d") site (map fst two_sites_args) /\
             log_info.param_sizes_ (read_through arrays earlier) = [8; 4]%nat).
  { vm_compute in E1, E2. inversion E1; subst. inversion E2; subst.
    eexists. split; [reflexivity|]. split; vm_compute; reflexivity. }
  destruct Hfirst as (earlier & Hk & Hsame & Hbefore).
  destruct (Hearlier 0%nat earlier Hk) as (Hfound & _ & Hoverwritten).
  split; [rewrite Hk; cbn [option_map]; rewrite Hbefore; reflexivity|].
  split.
  - change (Z.of_nat 0) with 0 in Hfound. rewrite Hfound. cbn [option_map].
    rewrite (Hoverwritten Hsame).
    vm_compute in E2. inversion E2; subst. reflexivity.
  - change (size_t_of (Z.of_nat 1)) with 1 in Hnew.
    destruct (static_info_of r1 1) as [r2 found]. cbn [snd].
    destruct Hnew as (Hnew & _).
    destruct found as [info|]; cbn [option_map] in Hnew |- *; [|discriminate Hnew].
    assert (Hsizes := f_equal (option_map log_info.param_sizes_) Hnew).
    cbn [option_map log_info.param_sizes_] in Hsizes. rewrite Hsizes.
    vm_compute in E2. inversion E2; subst. reflexivity.
Defined.

End RegistryFacts.

(** ** A record is written by one call of [write] or never *)

Section UnfinishedRecords.

Import log_info consumer.

Variable printf_render : list ascii -> list PrintfArg -> option (list ascii).

Local Abbreviation write := (write printf_render).
Local Abbreviation write_body := (write_body printf_render).
Local Abbreviation write_conversion := (write_conversion printf_render).
Local Abbreviation write_argument := (write_argument printf_render).
Local Abbreviation tryToWriteArgToBuffer := (tryToWriteArgToBuffer printf_render).
Local Abbreviation write_record := (write_record printf_render).

(** The assembler [a] with other bytes at the write position and another
    count of the bytes last written. *)
Definition patched (s : list ascii) (n : Z) (a : LogAssembler) : LogAssembler :=
  let o := output a in
  with_output a
    (mkOutput (written o) s (buffer_size_ o) (writed_count_ o) n (is_full_ o)).

(** [f] returns from [a] without the full flag and would return again,
    from the same state, whatever lies at the write position. *)
Definition stalls (f : LogAssembler -> flow) (a : LogAssembler) : Prop :=
  forall s n, exists s', f (patched s n a) = Returned (patched s' n a).

Lemma patched_self (a : LogAssembler) :
  a = patched (scratch (output a)) (bytes_last_writed_ (output a)) a.
Proof. destruct a as [[] ? ? ? ? ? ? ?]. reflexivity. Qed.

Lemma fst_snprintf (old old' : list ascii) (n n' : Z) (fmt : list ascii)
    (args : list PrintfArg) :
  fst (snprintf printf_render old n fmt args) =
  fst (snprintf printf_render old' n' fmt args).
Proof. unfold snprintf. destruct (printf_render fmt args); reflexivity. Qed.

Lemma tryToWriteArgToBuffer_not_full (a a1 : LogAssembler) (fmt : list ascii)
    (width precision : Z) (arg : PrintfArg) (tmp : Z) :
  tryToWriteArgToBuffer a fmt width precision arg = (a1, tmp) ->
  is_full_ (output a1) = false ->
  a1 = set_scratch a (scratch (output a1)) /\
  forall b,
    getFreeBytes b = getFreeBytes a ->
    exists s', tryToWriteArgToBuffer b fmt width precision arg = (set_scratch b s', tmp).
Proof.
  unfold log_info.tryToWriteArgToBuffer. intros H Hfull.
  pose proof (fst_snprintf (scratch (output a)) [] (getFreeBytes a) 0 fmt
                (snprintf_args width precision arg)) as Hret.
  destruct (snprintf printf_render (scratch (output a)) _ _ _) as [ret bytes].
  cbn [fst] in Hret.
  change (getFreeBytes (set_scratch a bytes)) with (getFreeBytes a) in H.
  destruct (size_t_of (0 + ret) >=? getFreeBytes a) eqn:E.
  { inversion H; subst. discriminate Hfull. }
  inversion H; subst a1 tmp; clear H. split; [reflexivity|].
  intros b Hb.
  pose proof (fst_snprintf (scratch (output b)) [] (getFreeBytes b) 0 fmt
                (snprintf_args width precision arg)) as Hret'.
  destruct (snprintf printf_render (scratch (output b)) _ _ _) as [ret' bytes'].
  cbn [fst] in Hret'. rewrite <- Hret in Hret'. subst ret'.
  change (getFreeBytes (set_scratch b bytes')) with (getFreeBytes b).
  rewrite Hb, E. exists bytes'. reflexivity.
Qed.

Lemma load_dynamic_indices (info : StaticLogInfo) (data : list ascii)
    (kind : ParamType) (a a1 : LogAssembler) (v : Z) :
  load_dynamic info data kind a = inr (a1, v) ->
  a1 = with_indices a (indices a1) /\
  format_index_ (indices a1) = format_index_ (indices a) /\
  forall b,
    indices b = indices a ->
    load_dynamic info data kind b = inr (with_indices b (indices a1), v).
Proof.
  unfold load_dynamic. intros H.
  destruct (nth_error (param_types_ info) (parameter_index_ (indices a)))
    as [t|] eqn:Et; [|discriminate].
  destruct (t =? kind) eqn:Ek.
  - destruct (nth_error (param_sizes_ info) (parameter_index_ (indices a)))
      as [size|] eqn:Es; [|discriminate].
    destruct (LoadArgument_signed 32 data (args_read_pos_ (indices a)) size)
      as [|value] eqn:El; [discriminate|].
    inversion H; subst a1 v; clear H.
    split; [reflexivity|]. split; [reflexivity|].
    intros b Hb. rewrite Hb, Et, Ek, Es, El.
    unfold next_parameter, add_args_read_pos. cbn. rewrite Hb. reflexivity.
  - inversion H; subst a1 v; clear H.
    split; [destruct a; reflexivity|]. split; [reflexivity|].
    intros b Hb. rewrite Hb, Et, Ek. rewrite <- Hb. destruct b; reflexivity.
Qed.

Lemma assembler_eta (x : LogAssembler) :
  x = with_indices (set_scratch x (scratch (output x))) (indices x).
Proof. destruct x as [[] ? ? ? ? ? ? ?]. reflexivity. Qed.

Lemma plain_argument (a a1 : LogAssembler) (fmt : list ascii) (width precision : Z)
    (arg : PrintfArg) (tmp : Z) :
  tryToWriteArgToBuffer a fmt width precision arg = (a1, tmp) ->
  is_full_ (output a1) = false ->
  a1 = with_indices (set_scratch a (scratch (output a1))) (indices a1) /\
  format_index_ (indices a1) = format_index_ (indices a) /\
  forall b,
    indices b = indices a ->
    getFreeBytes b = getFreeBytes a ->
    exists s',
      tryToWriteArgToBuffer b fmt width precision arg =
      (with_indices (set_scratch b s') (indices a1), tmp).
Proof.
  intros E Hfull.
  destruct (tryToWriteArgToBuffer_not_full _ _ _ _ _ _ _ E Hfull) as [Ha1 Hb].
  split; [|split].
  - rewrite Ha1 at 1. rewrite Ha1. destruct a as [[] ? ? ? ? ? ? ?]. reflexivity.
  - rewrite Ha1. reflexivity.
  - intros b Hi Hf. destruct (Hb b Hf) as [s' Hs']. exists s'. rewrite Hs'.
    rewrite Ha1. cbn [indices set_scratch with_output]. rewrite <- Hi.
    destruct b as [[] ? ? ? ? ? ? ?]. reflexivity.
Qed.

Lemma string_argument (a a2 : LogAssembler) (fmt : list ascii) (width precision : Z)
    (arg : PrintfArg) (tmp : Z) (k m : nat) :
  tryToWriteArgToBuffer (add_args_read_pos a k) fmt width precision arg = (a2, tmp) ->
  is_full_ (output a2) = false ->
  add_args_read_pos a2 m =
    with_indices (set_scratch a (scratch (output (add_args_read_pos a2 m))))
      (indices (add_args_read_pos a2 m)) /\
  format_index_ (indices (add_args_read_pos a2 m)) = format_index_ (indices a) /\
  forall b,
    indices b = indices a ->
    getFreeBytes b = getFreeBytes a ->
    exists s' b2,
      tryToWriteArgToBuffer (add_args_read_pos b k) fmt width precision arg =
        (b2, tmp) /\
      add_args_read_pos b2 m =
        with_indices (set_scratch b s') (indices (add_args_read_pos a2 m)).
Proof.
  intros E Hfull.
  destruct (tryToWriteArgToBuffer_not_full _ _ _ _ _ _ _ E Hfull) as [Ha2 Hb].
  split; [|split].
  - rewrite Ha2. destruct a as [[] ? ? ? ? ? ? ?]. reflexivity.
  - rewrite Ha2. reflexivity.
  - intros b Hi Hf. destruct (Hb (add_args_read_pos b k) Hf) as [s' Hs'].
    exists s'. eexists. split; [exact Hs'|].
    rewrite Ha2. unfold add_args_read_pos. cbn. rewrite Hi. reflexivity.
Qed.

Lemma write_argument_not_full (data : list ascii) (a a3 : LogAssembler)
    (conversion_type : ConversionType) (conversion_fmt : list ascii)
    (width precision : Z) (arg_size : nat) (tmp arg_size' : Z) :
  write_argument data a conversion_type conversion_fmt width precision arg_size =
    inr (a3, tmp, arg_size') ->
  is_full_ (output a3) = false ->
  a3 = with_indices (set_scratch a (scratch (output a3))) (indices a3) /\
  format_index_ (indices a3) = format_index_ (indices a) /\
  forall b,
    indices b = indices a ->
    getFreeBytes b = getFreeBytes a ->
    exists s',
      write_argument data b conversion_type conversion_fmt width precision arg_size =
      inr (with_indices (set_scratch b s') (indices a3), tmp, arg_size').
Proof.
  unfold log_info.write_argument.
  destruct conversion_type; cbn [integer_type]; intros H Hfull;
    repeat match type of H with
    | context [LoadArgument_floating ?d ?p ?n] =>
        let El := fresh "El" in
        destruct (LoadArgument_floating d p n) eqn:El; [discriminate H|]
    | context [LoadArgument_unsigned ?b ?d ?p ?n] =>
        let El := fresh "El" in
        destruct (LoadArgument_unsigned b d p n) eqn:El; [discriminate H|]
    | context [LoadArgument_signed ?b ?d ?p ?n] =>
        let El := fresh "El" in
        destruct (LoadArgument_signed b d p n) eqn:El; [discriminate H|]
    end.
  all: try (inversion H; subst a3 tmp arg_size'; clear H;
            split; [apply assembler_eta|]; split; [reflexivity|];
            intros b Hi Hf; exists (scratch (output b));
            rewrite <- Hi, <- assembler_eta; reflexivity).
  all: match type of H with
       | context [tryToWriteArgToBuffer ?x ?f ?w ?p ?g] =>
           let E := fresh "E" in
           destruct (tryToWriteArgToBuffer x f w p g) as [a1 t1] eqn:E
       end;
       inversion H; subst; clear H.
  all: try (destruct (plain_argument _ _ _ _ _ _ _ E Hfull) as (H1 & H2 & H3);
            split; [exact H1|]; split; [exact H2|];
            intros b Hi Hf; rewrite ?Hi, ?El;
            destruct (H3 b Hi Hf) as [s' Hs']; rewrite Hs'; exists s'; reflexivity).
  all: cbn [add_args_read_pos with_indices output is_full_] in Hfull;
       match goal with
       | |- add_args_read_pos _ ?m = _ /\ _ =>
           destruct (string_argument _ _ _ _ _ _ _ _ m E Hfull) as (H1 & H2 & H3)
       end;
       (split; [exact H1|]; split; [exact H2|];
        intros b Hi Hf; rewrite Hi, El;
        destruct (H3 b Hi Hf) as (s' & b2 & Hs' & Hb2);
        assert (Harg : args_read_pos_ (indices (add_args_read_pos b sizeof_size_t)) =
                       args_read_pos_ (indices (add_args_read_pos a sizeof_size_t)))
          by (cbn; rewrite Hi; reflexivity);
        rewrite Harg, Hs', Hb2; exists s'; reflexivity).
Qed.

Lemma indices_eta (i : Indices) :
  mkIndices (conversion_index_ i) (parameter_index_ i) (format_index_ i)
    (args_read_pos_ i) = i.
Proof. destruct i. reflexivity. Qed.

(** An expansion that returns without the full flag has only changed the
    bytes at the write position, and returns again from the same state. *)
Lemma conversion_stall (info : StaticLogInfo) (data : list ascii)
    (fragment : FormatFragment) (a a1 : LogAssembler) :
  write_conversion info data fragment a = Returned a1 ->
  is_full_ (output a1) = false ->
  (exists s0, a1 = patched s0 (bytes_last_writed_ (output a)) a) /\
  stalls (write_conversion info data fragment) a.
Proof.
  unfold log_info.write_conversion. intros H Hfull.
  destruct (load_dynamic info data DYNAMIC_WIDTH a) as [|[a1' width]] eqn:E1;
    [discriminate|].
  destruct (load_dynamic info data DYNAMIC_PRECISION a1') as [|[a2 precision]] eqn:E2;
    [discriminate|].
  destruct (nth_error (param_sizes_ info) (parameter_index_ (indices a2)))
    as [arg_size|] eqn:Es; [|discriminate].
  destruct (write_argument data a2 _ _ _ _ _) as [|[[a3 tmp] arg_size']] eqn:E3;
    [discriminate|].
  destruct ((tmp =? 0) && (arg_size' >? 0)) eqn:Ec;
    [|match type of H with
      | context [nth_error ?l ?k] => destruct (nth_error l k)
      end; discriminate H].
  inversion H; subst a1; clear H.
  change (is_full_ (output a3) = false) in Hfull.
  destruct (load_dynamic_indices _ _ _ _ _ _ E1) as (A1 & F1 & B1).
  destruct (load_dynamic_indices _ _ _ _ _ _ E2) as (A2 & F2 & B2).
  destruct (write_argument_not_full _ _ _ _ _ _ _ _ _ _ E3 Hfull) as (A3 & F3 & B3).
  set (i1 := indices a1') in *. set (i2 := indices a2) in *.
  set (i3 := indices a3) in *. set (sc := scratch (output a3)) in *.
  clearbody i1 i2 i3 sc. clear E1 E2 E3.
  split.
  - exists sc. unfold restore. rewrite A3. cbn [indices with_indices].
    rewrite F3, F2, F1, indices_eta. subst a2 a1'.
    destruct a as [[] ? ? ? ? ? ? ?]. reflexivity.
  - intros s n.
    rewrite (B1 (patched s n a) eq_refl).
    rewrite (B2 (with_indices (patched s n a) i1) eq_refl).
    change (parameter_index_
              (indices (with_indices (with_indices (patched s n a) i1) i2)))
      with (parameter_index_ i2).
    rewrite Es.
    destruct (B3 (with_indices (with_indices (patched s n a) i1) i2) eq_refl)
      as [s' Hs']; [subst a2 a1'; reflexivity|].
    rewrite Hs', Ec. exists s'. unfold restore. cbn [indices with_indices].
    rewrite F3, F2, F1.
    change (indices (patched s n a)) with (indices a). rewrite indices_eta.
    destruct a as [[] ? ? ? ? ? ? ?]. reflexivity.
Qed.


(** A copy in a prefix phase or at the end of the line that returns
    without the full flag has copied nothing, and returns again. *)
Lemma write_or_return_stall (a a1 : LogAssembler) (src : list ascii) (len : Z)
    (mark : LogAssembler -> LogAssembler) :
  write_or_return a src len (fun a _ => Continue (mark a)) = Returned a1 ->
  is_full_ (output a1) = false ->
  (exists s0, a1 = patched s0 (bytes_last_writed_ (output a)) a) /\
  stalls (fun a => write_or_return a src len (fun a _ => Continue (mark a))) a.
Proof.
  unfold write_or_return, tryToWriteAStringToBuffer. intros H Hfull.
  destruct (is_full_ (output a)) eqn:Ef.
  { cbn in H. inversion H; subst. congruence. }
  destruct (len >=? getFreeBytes a) eqn:El.
  { cbn in H. inversion H; subst. discriminate Hfull. }
  destruct (len =? 0) eqn:E0; [|discriminate H].
  inversion H; subst a1; clear H. split.
  - eexists. unfold patched, set_scratch. reflexivity.
  - intros s n.
    change (is_full_ (output (patched s n a))) with (is_full_ (output a)).
    change (getFreeBytes (patched s n a)) with (getFreeBytes a).
    rewrite Ef, El, E0. eexists. unfold patched, set_scratch. cbn. reflexivity.
Qed.

(** A copy of at least one byte that returns without the full flag has
    returned from what follows it. *)
Lemma write_or_return_literal (a a1 : LogAssembler) (src : list ascii) (len : Z)
    (k : LogAssembler -> Z -> flow) :
  0 < len ->
  write_or_return a src len k = Returned a1 ->
  is_full_ (output a1) = false ->
  exists a2 tmp, k a2 tmp = Returned a1.
Proof.
  unfold write_or_return, tryToWriteAStringToBuffer. intros Hlen H Hfull.
  destruct (is_full_ (output a)) eqn:Ef.
  { cbn in H. inversion H; subst. congruence. }
  destruct (len >=? getFreeBytes a) eqn:El.
  { cbn in H. inversion H; subst. discriminate Hfull. }
  destruct (Z.eqb_spec len 0) as [?|_]; [lia|].
  eexists. eexists. exact H.
Qed.

Lemma body_stall (fuel : nat) (a a1 : LogAssembler) :
  write_body fuel a = Returned a1 ->
  is_full_ (output a1) = false ->
  forall fuel', stalls (write_body fuel') a1.
Proof.
  revert a.
  assert (Hiter : forall (again : LogAssembler -> flow) a,
             (forall a2, again a2 = Returned a1 ->
                         forall fuel', stalls (write_body fuel') a1) ->
             write_body_iteration printf_render again a = Returned a1 ->
             is_full_ (output a1) = false ->
             forall fuel', stalls (write_body fuel') a1).
  { intros again a Hagain H Hfull. unfold write_body_iteration in H.
    destruct (static_log_info_ a) as [info|] eqn:Einfo; [|discriminate H].
    destruct (dynamic_log_info_ a) as [dynamic_info|] eqn:Edyn; [|discriminate H].
    destruct (format_index_ (indices a) <? format_len_ info)%nat eqn:Elen;
      [|discriminate H].
    assert (Hlit : forall src len,
               (0 < len)%nat ->
               write_or_return a src (Z.of_nat len)
                 (fun a0 tmp => again (add_format_index a0 (Z.to_nat tmp))) =
                 Returned a1 ->
               forall fuel', stalls (write_body fuel') a1).
    { intros src len Hlen Hw.
      assert (Hz : 0 < Z.of_nat len) by lia.
      destruct (write_or_return_literal _ _ _ _ _ Hz Hw Hfull) as (a2 & tmp & Hk).
      exact (Hagain _ Hk). }
    destruct (conversion_index_ (indices a) <? num_conversions_ info)%nat eqn:Econv.
    - destruct (nth_error (format_fragments_ info) (conversion_index_ (indices a)))
        as [fragment|] eqn:Efrag; [|discriminate H].
      destruct (format_index_ (indices a) <? format_pos_ fragment)%nat eqn:Epos.
      + apply Nat.ltb_lt in Epos.
        eapply Hlit; [|exact H]; lia.
      + destruct (write_conversion info (arg_data dynamic_info) fragment a)
          as [a2|a2|] eqn:Ec; cbn [and_then] in H; [|inversion H; subst a2|discriminate H].
        * exact (Hagain _ H).
        * destruct (conversion_stall _ _ _ _ _ Ec Hfull) as [[s0 Ha1] Hstall].
          intros fuel' s n. subst a1.
          change (patched s n (patched s0 (bytes_last_writed_ (output a)) a))
            with (patched s n a).
          destruct (Hstall s n) as [s' Hs']. exists s'.
          destruct fuel'; cbn [log_info.write_body]; unfold write_body_iteration;
            change (static_log_info_ (patched s n a)) with (static_log_info_ a);
            change (dynamic_log_info_ (patched s n a)) with (dynamic_log_info_ a);
            change (indices (patched s n a)) with (indices a);
            rewrite Einfo, Edyn, Elen, Econv, Efrag, Epos, Hs'; reflexivity.
    - apply Nat.ltb_lt in Elen.
      eapply Hlit; [|exact H]; lia. }
  induction fuel as [|fuel IH]; intros a H Hfull; cbn [log_info.write_body] in H.
  - eapply Hiter; [|exact H | exact Hfull]. intros a2 Ha2; discriminate Ha2.
  - eapply Hiter; [|exact H | exact Hfull]. intros a2 Ha2; exact (IH a2 Ha2 Hfull).
Qed.

(** [a'] has the loaded record of [a] and every phase flag that [a] has. *)
Definition keeps (a a' : LogAssembler) : Prop :=
  static_log_info_ a' = static_log_info_ a /\
  dynamic_log_info_ a' = dynamic_log_info_ a /\
  timestamp_str_ a' = timestamp_str_ a /\
  filename_and_linenum_ a' = filename_and_linenum_ a /\
  producer_id_ a' = producer_id_ a /\
  (is_timestamp_writed_ (log_info.flags a) = true ->
   is_timestamp_writed_ (log_info.flags a') = true) /\
  (is_filename_and_linenum_writed_ (log_info.flags a) = true ->
   is_filename_and_linenum_writed_ (log_info.flags a') = true) /\
  (is_severity_writed_ (log_info.flags a) = true ->
   is_severity_writed_ (log_info.flags a') = true) /\
  (is_producer_id_writed_ (log_info.flags a) = true ->
   is_producer_id_writed_ (log_info.flags a') = true) /\
  (is_end_of_log_writed_ (log_info.flags a) = true ->
   is_end_of_log_writed_ (log_info.flags a') = true).

(** [a'] differs from [a] in its output region and its positions only. *)
Definition same_frame (a a' : LogAssembler) : Prop :=
  static_log_info_ a' = static_log_info_ a /\
  dynamic_log_info_ a' = dynamic_log_info_ a /\
  timestamp_str_ a' = timestamp_str_ a /\
  filename_and_linenum_ a' = filename_and_linenum_ a /\
  producer_id_ a' = producer_id_ a /\
  log_info.flags a' = log_info.flags a.

Lemma keeps_refl (a : LogAssembler) : keeps a a.
Proof. unfold keeps. tauto. Qed.

Lemma keeps_trans (a b c : LogAssembler) : keeps a b -> keeps b c -> keeps a c.
Proof.
  unfold keeps.
  intros (A1 & A2 & A3 & A4 & A5 & A6 & A7 & A8 & A9 & A10)
         (B1 & B2 & B3 & B4 & B5 & B6 & B7 & B8 & B9 & B10).
  repeat split; try congruence; auto.
Qed.

Lemma same_frame_refl (a : LogAssembler) : same_frame a a.
Proof. unfold same_frame. tauto. Qed.

Lemma same_frame_trans (a b c : LogAssembler) :
  same_frame a b -> same_frame b c -> same_frame a c.
Proof.
  unfold same_frame. intros (? & ? & ? & ? & ? & ?) (? & ? & ? & ? & ? & ?).
  repeat split; congruence.
Qed.

Lemma keeps_same_frame (a0 a a' : LogAssembler) :
  keeps a0 a -> same_frame a a' -> keeps a0 a'.
Proof.
  unfold keeps, same_frame.
  intros (A1 & A2 & A3 & A4 & A5 & A6 & A7 & A8 & A9 & A10)
         (B1 & B2 & B3 & B4 & B5 & B6).
  rewrite B6. repeat split; try congruence; auto.
Qed.

Lemma tryToWriteAStringToBuffer_frame (a a1 : LogAssembler) (src : list ascii)
    (len tmp : Z) :
  tryToWriteAStringToBuffer a src len = (a1, tmp) -> same_frame a a1.
Proof.
  unfold tryToWriteAStringToBuffer.
  destruct (is_full_ (output a)); [|destruct (len >=? getFreeBytes a)];
    intros H; inversion H; subst; repeat split.
Qed.

Lemma tryToWriteArgToBuffer_frame (a a1 : LogAssembler) (fmt : list ascii)
    (width precision : Z) (arg : PrintfArg) (tmp : Z) :
  tryToWriteArgToBuffer a fmt width precision arg = (a1, tmp) -> same_frame a a1.
Proof.
  unfold log_info.tryToWriteArgToBuffer.
  destruct (snprintf printf_render _ _ _ _) as [ret bytes].
  destruct (_ >=? _); intros H; inversion H; subst; repeat split.
Qed.

Lemma load_dynamic_frame (info : StaticLogInfo) (data : list ascii)
    (kind : ParamType) (a a1 : LogAssembler) (v : Z) :
  load_dynamic info data kind a = inr (a1, v) -> same_frame a a1.
Proof.
  intros H. destruct (load_dynamic_indices _ _ _ _ _ _ H) as (A & _ & _).
  rewrite A. repeat split.
Qed.

Lemma write_argument_frame (data : list ascii) (a a1 : LogAssembler)
    (conversion_type : ConversionType) (conversion_fmt : list ascii)
    (width precision : Z) (arg_size : nat) (tmp arg_size' : Z) :
  write_argument data a conversion_type conversion_fmt width precision arg_size =
    inr (a1, tmp, arg_size') ->
  same_frame a a1.
Proof.
  unfold log_info.write_argument.
  destruct conversion_type; cbn [integer_type];
    repeat match goal with
    | |- context [LoadArgument_floating ?d ?p ?n] =>
        destruct (LoadArgument_floating d p n); [discriminate|]
    | |- context [LoadArgument_unsigned ?b ?d ?p ?n] =>
        destruct (LoadArgument_unsigned b d p n); [discriminate|]
    | |- context [LoadArgument_signed ?b ?d ?p ?n] =>
        destruct (LoadArgument_signed b d p n); [discriminate|]
    | |- context [tryToWriteArgToBuffer ?x ?f ?w ?p ?g] =>
        let E := fresh "E" in
        destruct (tryToWriteArgToBuffer x f w p g) as [? ?] eqn:E;
        apply tryToWriteArgToBuffer_frame in E
    end;
    intros Hw; inversion Hw; subst; clear Hw;
    try apply same_frame_refl;
    match goal with
    | E : same_frame _ _ |- _ =>
        destruct E as (? & ? & ? & ? & ? & ?); repeat split; cbn in *; congruence
    end.
Qed.

Lemma write_or_return_keeps (a0 a : LogAssembler) (src : list ascii) (len : Z)
    (k : LogAssembler -> Z -> flow) :
  keeps a0 a ->
  (forall a2 tmp, keeps a0 a2 -> flow_keeps (keeps a0) (k a2 tmp)) ->
  flow_keeps (keeps a0) (write_or_return a src len k).
Proof.
  intros Hk Hcont. unfold write_or_return.
  destruct (tryToWriteAStringToBuffer a src len) as [a1 tmp] eqn:E.
  apply tryToWriteAStringToBuffer_frame in E.
  pose proof (keeps_same_frame _ _ _ Hk E) as H1.
  destruct (tmp =? 0); cbn; [exact H1|].
  apply Hcont. apply (keeps_same_frame a0 a1); [exact H1 | repeat split].
Qed.

Lemma write_conversion_keeps (a0 : LogAssembler) (info : StaticLogInfo)
    (data : list ascii) (fragment : FormatFragment) (a : LogAssembler) :
  keeps a0 a -> flow_keeps (keeps a0) (write_conversion info data fragment a).
Proof.
  intros Hk. unfold log_info.write_conversion.
  destruct (load_dynamic info data DYNAMIC_WIDTH a) as [|[a1 width]] eqn:E1;
    [exact I|].
  destruct (load_dynamic info data DYNAMIC_PRECISION a1) as [|[a2 precision]] eqn:E2;
    [exact I|].
  apply load_dynamic_frame in E1. apply load_dynamic_frame in E2.
  destruct (nth_error (param_sizes_ info) _) as [arg_size|]; [|exact I].
  destruct (write_argument data a2 _ _ _ _ _) as [|[[a3 tmp] arg_size']] eqn:E3;
    [exact I|].
  apply write_argument_frame in E3.
  assert (H3 : keeps a0 a3).
  { apply (keeps_same_frame a0 a); [exact Hk|].
    eapply same_frame_trans; [|exact E3].
    eapply same_frame_trans; [exact E1 | exact E2]. }
  destruct ((tmp =? 0) && (arg_size' >? 0)).
  - cbn. apply (keeps_same_frame a0 a3); [exact H3 | repeat split].
  - destruct (nth_error (param_sizes_ info) _) as [sz|]; [|exact I].
    cbn. apply (keeps_same_frame a0 a3); [exact H3 | repeat split].
Qed.

Lemma write_body_iteration_keeps (a0 : LogAssembler) (again : LogAssembler -> flow)
    (a : LogAssembler) :
  (forall a1, keeps a0 a1 -> flow_keeps (keeps a0) (again a1)) ->
  keeps a0 a ->
  flow_keeps (keeps a0) (write_body_iteration printf_render again a).
Proof.
  intros Hagain Hk. unfold write_body_iteration.
  destruct (static_log_info_ a) as [info|]; [|exact I].
  destruct (dynamic_log_info_ a) as [dynamic_info|]; [|exact I].
  destruct (format_index_ (indices a) <? format_len_ info)%nat; [|exact Hk].
  assert (Hlit : forall src len,
             flow_keeps (keeps a0)
               (write_or_return a src len
                  (fun a1 tmp => again (add_format_index a1 (Z.to_nat tmp))))).
  { intros src len. apply write_or_return_keeps; [assumption|].
    intros a2 tmp H2. apply Hagain.
    apply (keeps_same_frame a0 a2); [exact H2 | repeat split]. }
  destruct (conversion_index_ (indices a) <? num_conversions_ info)%nat; [|apply Hlit].
  destruct (nth_error (format_fragments_ info) _) as [fragment|]; [|exact I].
  destruct (format_index_ (indices a) <? format_pos_ fragment)%nat; [apply Hlit|].
  pose proof (write_conversion_keeps a0 info (arg_data dynamic_info) fragment a Hk)
    as Hc.
  destruct (write_conversion info (arg_data dynamic_info) fragment a); cbn in *;
    [apply Hagain; assumption | assumption | exact I].
Qed.

Lemma write_body_keeps (a0 : LogAssembler) (fuel : nat) (a : LogAssembler) :
  keeps a0 a -> flow_keeps (keeps a0) (write_body fuel a).
Proof.
  revert a. induction fuel as [|fuel IH]; intros a Hk; cbn [log_info.write_body];
    apply write_body_iteration_keeps; auto.
  intros; exact I.
Qed.

(** What the proof needs of a phase [ph] of [write] whose flag is [fl]. *)
Definition phase_ok (ph : LogAssembler -> flow) (fl : Flags -> bool) : Prop :=
  (forall a a1,
      ph a = Returned a1 -> is_full_ (output a1) = false ->
      stalls ph a1 /\ exists s0 m, a1 = patched s0 m a) /\
  (forall a a1, ph a = Continue a1 -> fl (log_info.flags a1) = true) /\
  (forall a,
      fl (log_info.flags a) = true ->
      forall s n, ph (patched s n a) = Continue (patched s n a)) /\
  (forall a0 a, keeps a0 a -> flow_keeps (keeps a0) (ph a)).

Lemma marked_phase_ok (fl : Flags -> bool) (src : LogAssembler -> list ascii)
    (len : LogAssembler -> Z) (mark : LogAssembler -> LogAssembler) :
  (forall s n a, src (patched s n a) = src a) ->
  (forall s n a, len (patched s n a) = len a) ->
  (forall a, fl (log_info.flags (mark a)) = true) ->
  (forall a, keeps a (mark a)) ->
  phase_ok
    (fun a =>
       if negb (fl (log_info.flags a))
       then write_or_return a (src a) (len a) (fun a _ => Continue (mark a))
       else Continue a) fl.
Proof.
  intros Hsrc Hlen Hmark Hkeeps. unfold phase_ok. split; [|split; [|split]].
  - intros a a1 H Hfull.
    destruct (fl (log_info.flags a)) eqn:Ef; cbn [negb] in H; [discriminate H|].
    destruct (write_or_return_stall _ _ _ _ _ H Hfull) as [[s0 Ha1] Hstall].
    split; [|exists s0; eexists; exact Ha1].
    intros s n. subst a1.
    change (patched s n (patched s0 (bytes_last_writed_ (output a)) a))
      with (patched s n a).
    change (log_info.flags (patched s n a)) with (log_info.flags a).
    rewrite Ef, Hsrc, Hlen. cbn [negb]. exact (Hstall s n).
  - intros a a1 H.
    destruct (fl (log_info.flags a)) eqn:Ef; cbn [negb] in H.
    + inversion H; subst. exact Ef.
    + unfold write_or_return in H.
      destruct (tryToWriteAStringToBuffer a (src a) (len a)) as [a2 tmp].
      destruct (tmp =? 0); [discriminate H|]. inversion H; subst. apply Hmark.
  - intros a Ef s n.
    change (log_info.flags (patched s n a)) with (log_info.flags a).
    rewrite Ef. reflexivity.
  - intros a0 a Hk. destruct (negb (fl (log_info.flags a))); [|exact Hk].
    apply write_or_return_keeps; [exact Hk|].
    intros a2 tmp H2. cbn. apply (keeps_trans a0 a2); [exact H2 | apply Hkeeps].
Qed.

Lemma write_timestamp_ok : phase_ok write_timestamp is_timestamp_writed_.
Proof.
  apply (marked_phase_ok is_timestamp_writed_ timestamp_str_
           (fun a => size_t_of (Z.of_nat (List.length (timestamp_str_ a)) - 1))
           mark_timestamp); try reflexivity.
  intros a. unfold keeps. cbn. tauto.
Qed.

Lemma write_filename_and_linenum_ok :
  phase_ok write_filename_and_linenum is_filename_and_linenum_writed_.
Proof.
  apply (marked_phase_ok is_filename_and_linenum_writed_ filename_and_linenum_
           (fun a => Z.of_nat (List.length (filename_and_linenum_ a)))
           mark_filename_and_linenum); try reflexivity.
  intros a. unfold keeps. cbn. tauto.
Qed.

Lemma write_producer_id_ok : phase_ok write_producer_id is_producer_id_writed_.
Proof.
  apply (marked_phase_ok is_producer_id_writed_ producer_id_
           (fun a => Z.of_nat (List.length (producer_id_ a)))
           mark_producer_id); try reflexivity.
  intros a. unfold keeps. cbn. tauto.
Qed.

Lemma write_end_of_log_ok : phase_ok write_end_of_log is_end_of_log_writed_.
Proof.
  apply (marked_phase_ok is_end_of_log_writed_ (fun _ => end_of_log_)
           (fun _ => Z.of_nat (List.length end_of_log_))
           mark_end_of_log); try reflexivity.
  intros a. unfold keeps. cbn. tauto.
Qed.

Lemma write_severity_ok : phase_ok write_severity is_severity_writed_.
Proof.
  unfold phase_ok. split; [|split; [|split]].
  - intros a a1 H Hfull. unfold write_severity in H.
    destruct (is_severity_writed_ (log_info.flags a)) eqn:Ef; cbn [negb] in H;
      [discriminate H|].
    destruct (static_log_info_ a) as [info|] eqn:Ei; [|discriminate H].
    destruct (nth_error severity_str (Z.to_nat (log_level_ info))) as [str|] eqn:Es;
      [|discriminate H].
    destruct (write_or_return_stall _ _ _ _ _ H Hfull) as [[s0 Ha1] Hstall].
    split; [|exists s0; eexists; exact Ha1].
    intros s n. subst a1.
    change (patched s n (patched s0 (bytes_last_writed_ (output a)) a))
      with (patched s n a).
    unfold write_severity.
    change (log_info.flags (patched s n a)) with (log_info.flags a).
    change (static_log_info_ (patched s n a)) with (static_log_info_ a).
    rewrite Ef, Ei, Es. cbn [negb]. exact (Hstall s n).
  - intros a a1 H. unfold write_severity in H.
    destruct (is_severity_writed_ (log_info.flags a)) eqn:Ef; cbn [negb] in H.
    + inversion H; subst. exact Ef.
    + destruct (static_log_info_ a) as [info|]; [|discriminate H].
      destruct (nth_error severity_str _) as [str|]; [|discriminate H].
      unfold write_or_return in H.
      destruct (tryToWriteAStringToBuffer a str _) as [a2 tmp].
      destruct (tmp =? 0); [discriminate H|]. inversion H; subst. reflexivity.
  - intros a Ef s n. unfold write_severity.
    change (log_info.flags (patched s n a)) with (log_info.flags a).
    rewrite Ef. reflexivity.
  - intros a0 a Hk. unfold write_severity.
    destruct (negb (is_severity_writed_ (log_info.flags a))); [|exact Hk].
    destruct (static_log_info_ a); [|exact I].
    destruct (nth_error severity_str _); [|exact I].
    apply write_or_return_keeps; [exact Hk|].
    intros a2 tmp H2. cbn. apply (keeps_trans a0 a2); [exact H2|].
    unfold keeps. cbn. tauto.
Qed.

(** The loop of the body has come to its end. *)
Definition body_done (a : LogAssembler) : Prop :=
  match static_log_info_ a, dynamic_log_info_ a with
  | Some info, Some _ => (format_index_ (indices a) <? format_len_ info)%nat = false
  | _, _ => False
  end.

Lemma write_body_continue (fuel : nat) (a a1 : LogAssembler) :
  write_body fuel a = Continue a1 -> body_done a1.
Proof.
  revert a.
  assert (Hiter : forall (again : LogAssembler -> flow) a,
             (forall a2, again a2 = Continue a1 -> body_done a1) ->
             write_body_iteration printf_render again a = Continue a1 ->
             body_done a1).
  { intros again a Hagain H. unfold write_body_iteration in H.
    destruct (static_log_info_ a) as [info|] eqn:Einfo; [|discriminate H].
    destruct (dynamic_log_info_ a) as [dynamic_info|] eqn:Edyn; [|discriminate H].
    destruct (format_index_ (indices a) <? format_len_ info)%nat eqn:Elen.
    2: { inversion H; subst a1. unfold body_done. rewrite Einfo, Edyn. exact Elen. }
    assert (Hlit : forall src len,
               write_or_return a src len
                 (fun a0 tmp => again (add_format_index a0 (Z.to_nat tmp))) =
                 Continue a1 -> body_done a1).
    { intros src len Hw. unfold write_or_return in Hw.
      destruct (tryToWriteAStringToBuffer a src len) as [a2 tmp].
      destruct (tmp =? 0); [discriminate Hw|]. exact (Hagain _ Hw). }
    destruct (conversion_index_ (indices a) <? num_conversions_ info)%nat;
      [|exact (Hlit _ _ H)].
    destruct (nth_error (format_fragments_ info) _) as [fragment|]; [|discriminate H].
    destruct (format_index_ (indices a) <? format_pos_ fragment)%nat;
      [exact (Hlit _ _ H)|].
    destruct (write_conversion info (arg_data dynamic_info) fragment a);
      cbn [and_then] in H; [exact (Hagain _ H) | discriminate H | discriminate H]. }
  induction fuel as [|fuel IH]; intros a H; cbn [log_info.write_body] in H.
  - eapply Hiter; [|exact H]. intros a2 Ha2; discriminate Ha2.
  - eapply Hiter; [|exact H]. intros a2 Ha2; exact (IH a2 Ha2).
Qed.

Lemma write_body_skip (fuel : nat) (a : LogAssembler) (s : list ascii) (n : Z) :
  body_done a -> write_body fuel (patched s n a) = Continue (patched s n a).
Proof.
  unfold body_done. intros H.
  destruct (static_log_info_ a) as [info|] eqn:Einfo; [|contradiction].
  destruct (dynamic_log_info_ a) as [dynamic_info|] eqn:Edyn; [|contradiction].
  destruct fuel; cbn [log_info.write_body]; unfold write_body_iteration;
    change (static_log_info_ (patched s n a)) with (static_log_info_ a);
    change (dynamic_log_info_ (patched s n a)) with (dynamic_log_info_ a);
    change (indices (patched s n a)) with (indices a);
    rewrite Einfo, Edyn, H; reflexivity.
Qed.

(** [write] after its first two statements, from each phase on. *)
Definition rest5 (fuel : nat) (a : LogAssembler) : flow :=
  and_then (write_body fuel a) write_end_of_log.
Definition rest4 (fuel : nat) (a : LogAssembler) : flow :=
  and_then (write_producer_id a) (rest5 fuel).
Definition rest3 (fuel : nat) (a : LogAssembler) : flow :=
  and_then (write_severity a) (rest4 fuel).
Definition rest2 (fuel : nat) (a : LogAssembler) : flow :=
  and_then (write_filename_and_linenum a) (rest3 fuel).
Definition rest1 (fuel : nat) (a : LogAssembler) : flow :=
  and_then (write_timestamp a) (rest2 fuel).

Lemma and_then_keeps (ph R : LogAssembler -> flow) :
  (forall a0 a, keeps a0 a -> flow_keeps (keeps a0) (ph a)) ->
  (forall a0 a, keeps a0 a -> flow_keeps (keeps a0) (R a)) ->
  forall a0 a, keeps a0 a -> flow_keeps (keeps a0) (and_then (ph a) R).
Proof.
  intros Hph HR a0 a Hk. apply flow_keeps_and_then; [apply Hph; exact Hk|].
  intros a1 H1. apply HR. exact H1.
Qed.

Lemma and_then_stalls (ph R R' : LogAssembler -> flow) (fl : Flags -> bool) :
  phase_ok ph fl ->
  (forall a a1, R a = Returned a1 -> is_full_ (output a1) = false -> stalls R' a1) ->
  (forall a0 a, keeps a0 a -> flow_keeps (keeps a0) (R a)) ->
  (forall a a', keeps a a' -> fl (log_info.flags a) = true ->
                fl (log_info.flags a') = true) ->
  forall a a1,
    and_then (ph a) R = Returned a1 -> is_full_ (output a1) = false ->
    stalls (fun x => and_then (ph x) R') a1.
Proof.
  intros (Hret & Hcont & Hskip & _) HR Hkeeps Hfl a a1 H Hfull s n.
  destruct (ph a) as [a2|a2|] eqn:E; cbn [and_then] in H; [| |discriminate H].
  - pose proof (Hkeeps a2 a2 (keeps_refl a2)) as Hk. rewrite H in Hk. cbn in Hk.
    rewrite (Hskip a1 (Hfl _ _ Hk (Hcont _ _ E)) s n). cbn [and_then].
    exact (HR _ _ H Hfull s n).
  - inversion H; subst a2.
    destruct (Hret _ _ E Hfull) as [Hstall _].
    destruct (Hstall s n) as [s' Hs']. exists s'. rewrite Hs'. reflexivity.
Qed.

Lemma rest5_stalls (fuel fuel' : nat) (a a1 : LogAssembler) :
  rest5 fuel a = Returned a1 -> is_full_ (output a1) = false ->
  stalls (rest5 fuel') a1.
Proof.
  unfold rest5. intros H Hfull s n.
  destruct (write_body fuel a) as [a2|a2|] eqn:E; cbn [and_then] in H;
    [| |discriminate H].
  - destruct write_end_of_log_ok as (Hret & _).
    destruct (Hret _ _ H Hfull) as [Hstall (s0 & m & Ha1)].
    assert (Hdone : body_done a1)
      by (subst a1; exact (write_body_continue _ _ _ E)).
    rewrite (write_body_skip fuel' a1 s n Hdone). cbn [and_then].
    exact (Hstall s n).
  - inversion H; subst a2.
    destruct (body_stall _ _ _ E Hfull fuel' s n) as [s' Hs'].
    exists s'. rewrite Hs'. reflexivity.
Qed.

Lemma rest5_keeps (fuel : nat) (a0 a : LogAssembler) :
  keeps a0 a -> flow_keeps (keeps a0) (rest5 fuel a).
Proof.
  apply (and_then_keeps (write_body fuel) write_end_of_log).
  - intros b0 b. apply write_body_keeps.
  - apply write_end_of_log_ok.
Qed.

Lemma rest1_stalls (fuel fuel' : nat) (a a1 : LogAssembler) :
  rest1 fuel a = Returned a1 -> is_full_ (output a1) = false ->
  stalls (rest1 fuel') a1.
Proof.
  assert (K4 : forall a0 a, keeps a0 a -> flow_keeps (keeps a0) (rest4 fuel a)).
  { apply and_then_keeps; [apply write_producer_id_ok | apply rest5_keeps]. }
  assert (K3 : forall a0 a, keeps a0 a -> flow_keeps (keeps a0) (rest3 fuel a)).
  { apply and_then_keeps; [apply write_severity_ok | exact K4]. }
  assert (K2 : forall a0 a, keeps a0 a -> flow_keeps (keeps a0) (rest2 fuel a)).
  { apply and_then_keeps; [apply write_filename_and_linenum_ok | exact K3]. }
  assert (S4 : forall a a1, rest4 fuel a = Returned a1 ->
                            is_full_ (output a1) = false -> stalls (rest4 fuel') a1).
  { apply (and_then_stalls write_producer_id (rest5 fuel) (rest5 fuel')
             is_producer_id_writed_);
      [apply write_producer_id_ok | apply rest5_stalls | apply rest5_keeps|].
    intros x x' Hk. apply Hk. }
  assert (S3 : forall a a1, rest3 fuel a = Returned a1 ->
                            is_full_ (output a1) = false -> stalls (rest3 fuel') a1).
  { apply (and_then_stalls write_severity (rest4 fuel) (rest4 fuel')
             is_severity_writed_);
      [apply write_severity_ok | exact S4 | exact K4|].
    intros x x' Hk. apply Hk. }
  assert (S2 : forall a a1, rest2 fuel a = Returned a1 ->
                            is_full_ (output a1) = false -> stalls (rest2 fuel') a1).
  { apply (and_then_stalls write_filename_and_linenum (rest3 fuel) (rest3 fuel')
             is_filename_and_linenum_writed_);
      [apply write_filename_and_linenum_ok | exact S3 | exact K3|].
    intros x x' Hk. apply Hk. }
  apply (and_then_stalls write_timestamp (rest2 fuel) (rest2 fuel')
           is_timestamp_writed_);
    [apply write_timestamp_ok | exact S2 | exact K2|].
  intros x x' Hk. apply Hk.
Qed.

Lemma write_rest1 (fuel : nat) (a : LogAssembler) :
  write fuel a =
  if is_full_ (output a) then inr (a, 0)
  else
    match rest1 fuel (set_bytes_last_writed a 0) with
    | Continue a' => inr (a', bytes_last_writed_ (output a'))
    | Returned a' => inr (a', bytes_last_writed_ (output a'))
    | Aborted why => inl why
    end.
Proof. reflexivity. Qed.

Lemma rest1_continue (fuel : nat) (a a1 : LogAssembler) :
  rest1 fuel a = Continue a1 -> is_end_of_log_writed_ (log_info.flags a1) = true.
Proof.
  unfold rest1, rest2, rest3, rest4, rest5. intros H.
  destruct (write_timestamp a) as [x1| |]; cbn [and_then] in H; try discriminate H.
  destruct (write_filename_and_linenum x1) as [x2| |]; cbn [and_then] in H;
    try discriminate H.
  destruct (write_severity x2) as [x3| |]; cbn [and_then] in H; try discriminate H.
  destruct (write_producer_id x3) as [x4| |]; cbn [and_then] in H; try discriminate H.
  destruct (write_body fuel x4) as [x5| |]; cbn [and_then] in H; try discriminate H.
  destruct write_end_of_log_ok as (_ & Hcont & _). exact (Hcont _ _ H).
Qed.

Lemma full_record_is_never_written (fuel passes : nat) (a : LogAssembler) :
  is_full_ (output a) = true -> hasRemainingData a = true ->
  write_record passes fuel a = inl FuelExhausted.
Proof.
  revert a. induction passes as [|passes IH]; intros a Hfull Hrem;
    cbn [consumer.write_record]; rewrite Hrem; [reflexivity|].
  rewrite write_rest1, Hfull. unfold isBufferFull. rewrite Hfull.
  apply IH; [exact Hfull | exact Hrem].
Qed.

Lemma stalled_record_is_never_written (fuel passes : nat) (a : LogAssembler) :
  is_full_ (output a) = false -> hasRemainingData a = true ->
  (forall fuel', stalls (rest1 fuel') a) ->
  forall s n, write_record passes fuel (patched s n a) = inl FuelExhausted.
Proof.
  intros Hfull Hrem Hstall.
  induction passes as [|passes IH]; intros s n; cbn [consumer.write_record];
    change (hasRemainingData (patched s n a)) with (hasRemainingData a);
    rewrite Hrem; [reflexivity|].
  rewrite write_rest1.
  change (is_full_ (output (patched s n a))) with (is_full_ (output a)).
  rewrite Hfull.
  change (set_bytes_last_writed (patched s n a) 0) with (patched s 0 a).
  destruct (Hstall fuel s 0) as [s' Hs']. rewrite Hs'.
  unfold isBufferFull.
  change (is_full_ (output (patched s' 0 a))) with (is_full_ (output a)).
  rewrite Hfull. apply IH.
Qed.

(** X21. The loop in which the consumer thread writes a record ends only
    if the first call of [write] completes the record.  If the first call
    leaves data behind, every further pass of the loop leaves the record
    where it is and the loop never ends: when the buffer was full the flag
    stays set after [setBuffer], and when the call returned for another
    reason (a conversion that printed nothing for an argument of positive
    size, or a copy of no byte) the next call returns at the same place
    without writing and without setting the flag.  If the first call
    completes the record the loop ends after it. *)
Theorem record_is_written_at_once_or_never (fuel : nat) (a a1 : LogAssembler) (n : Z) :
  hasRemainingData a = true ->
  write fuel a = inr (a1, n) ->
  (hasRemainingData a1 = true ->
   forall passes, write_record passes fuel a = inl FuelExhausted) /\
  (hasRemainingData a1 = false ->
   forall passes,
     write_record (S passes) fuel a =
     inr (if isBufferFull a1 then setBuffer a1 config.DOUBLE_BUFFER_SIZE else a1)).
Proof.
  intros Hrem Hw. split.
  - intros Hrem1 passes.
    destruct passes as [|passes]; cbn [consumer.write_record]; rewrite Hrem;
      [reflexivity|].
    rewrite Hw. unfold isBufferFull.
    destruct (is_full_ (output a1)) eqn:Hfull1.
    { apply full_record_is_never_written; [exact Hfull1 | exact Hrem1]. }
    rewrite write_rest1 in Hw.
    destruct (is_full_ (output a)) eqn:Hfull.
    { inversion Hw; subst a1. congruence. }
    destruct (rest1 fuel (set_bytes_last_writed a 0)) as [a'|a'|] eqn:E;
      [| |discriminate Hw]; inversion Hw; subst a'; clear Hw.
    + exfalso. apply rest1_continue in E. unfold hasRemainingData in Hrem1.
      destruct (static_log_info_ a1); [|discriminate Hrem1].
      destruct (dynamic_log_info_ a1); [|discriminate Hrem1].
      rewrite E in Hrem1. discriminate Hrem1.
    + rewrite (patched_self a1).
      apply stalled_record_is_never_written; [exact Hfull1 | exact Hrem1|].
      intros fuel'. exact (rest1_stalls _ fuel' _ _ E Hfull1).
  - intros Hrem1 passes. cbn [consumer.write_record]. rewrite Hrem, Hw.
    assert (H : hasRemainingData
                  (if isBufferFull a1 then setBuffer a1 config.DOUBLE_BUFFER_SIZE
                   else a1) = false)
      by (destruct (isBufferFull a1); exact Hrem1).
    destruct passes; cbn [consumer.write_record]; rewrite H; reflexivity.
Qed.

End UnfinishedRecords.

Section UnfinishedRecordRuns.

Import log_info consumer examples libc.

Local Abbreviation utc := strftime_utc_1700000000.

(** A C library for which [printf("%.0d", 0)] prints no character, as the
    C standard requires. *)
Definition printf_with_empty_zero : list ascii -> list PrintfArg -> option (list ascii) :=
  printf_known (text "%.0d") [PInteger 0] [] printf_reference.

(** [OLOG(LogLevel::INFO, "%.0d", 0)]. *)
Definition empty_zero : result (StaticLogInfo * DynamicLogInfo) :=
  OLOG 0 (text "a.cc") 10 logger.INFO "%.0d" 1700000000000 [ArgInteger 4 0].

Lemma record_is_written_at_once_or_never_witness :
  exists a a1 n,
    loaded utc config.DOUBLE_BUFFER_SIZE empty_zero = Some a /\
    hasRemainingData a = true /\
    log_info.write printf_with_empty_zero 3 a = inr (a1, n) /\
    hasRemainingData a1 = true /\
    isBufferFull a1 = false /\
    written (output a1) = utc 1700000000 ++ text "000 a.cc:10 [INFO][0]: " /\
    forall passes,
      write_record printf_with_empty_zero passes 3 a = inl FuelExhausted.
Proof.
  assert (Hcall : exists s d, empty_zero = Return (s, d)) by (vm_compute; eauto).
  destruct Hcall as (s & d & Hcall). unfold loaded. rewrite Hcall.
  vm_compute in Hcall. inversion Hcall; subst s d; clear Hcall.
  match goal with
  | |- context [loadLogInfo ?u ?b ?s ?d ?i] =>
      let v := eval vm_compute in
        (log_info.write printf_with_empty_zero 3 (loadLogInfo u b s d i)) in
      assert (Ew : log_info.write printf_with_empty_zero 3 (loadLogInfo u b s d i) = v)
        by (vm_compute; reflexivity)
  end.
  match type of Ew with
  | log_info.write _ _ ?a = inr (?a', ?n) => exists a, a', n
  end.
  split; [reflexivity|]. split; [reflexivity|]. split; [exact Ew|].
  split; [reflexivity|]. split; [reflexivity|]. split; [reflexivity|].
  match type of Ew with
  | log_info.write _ _ ?a = inr (?a', ?n) =>
      apply (record_is_written_at_once_or_never printf_with_empty_zero 3 a a' n
               eq_refl Ew)
  end.
  reflexivity.
Defined.

End UnfinishedRecordRuns.

(** ** A conversion moves the reader by what the writer stored *)

Section ReaderInStep.

Import log_info.

Variable printf_render : list ascii -> list PrintfArg -> option (list ascii).

Local Abbreviation write_conversion := (write_conversion printf_render).
Local Abbreviation write_argument := (write_argument printf_render).
Local Abbreviation tryToWriteArgToBuffer := (tryToWriteArgToBuffer printf_render).

(** The argument is one the conversion can take: an integer of one, two,
    four or eight bytes for an integer conversion, a floating-point value of
    4, 8 or 16 bytes for a floating-point conversion, a pointer for [%p], a
    string for [%s]. *)
Definition argument_fits (conversion_type : ConversionType) (param_type : ParamType)
    (pre_precision : Z) (arg : Arg) : Prop :=
  match arg with
  | ArgInteger size _ =>
      In size [1; 2; 4; 8]%nat /\ integer_type conversion_type <> None
  | ArgFloating image =>
      In (List.length image) [4; 8; 16]%nat /\
      (conversion_type = double_t \/ conversion_type = long_double_t)
  | ArgVoidPtr _ => conversion_type = const_void_ptr_t
  | ArgCharPtr _ str =>
      if param_type <=? NON_STRING then conversion_type = const_void_ptr_t
      else
        conversion_type = const_char_ptr_t /\ no_NUL str /\
        Z.of_nat (List.length str) < 2 ^ 64 /\ 0 <= pre_precision < 2 ^ 64
  end.

Lemma tryToWriteArgToBuffer_indices (a a1 : LogAssembler) (fmt : list ascii)
    (width precision : Z) (arg : PrintfArg) (tmp : Z) :
  tryToWriteArgToBuffer a fmt width precision arg = (a1, tmp) ->
  indices a1 = indices a.
Proof.
  unfold log_info.tryToWriteArgToBuffer.
  destruct (snprintf printf_render _ _ _ _) as [ret bytes].
  destruct (_ >=? _); intros H; inversion H; subst; reflexivity.
Qed.

Lemma write_argument_integer (data : list ascii) (a : LogAssembler)
    (conversion_type : ConversionType) (conversion_fmt : list ascii)
    (width precision : Z) (arg_size : nat) (is_signed : bool) (bits : Z) :
  integer_type conversion_type = Some (is_signed, bits) ->
  write_argument data a conversion_type conversion_fmt width precision arg_size =
  match (if is_signed then LoadArgument_signed else LoadArgument_unsigned)
          bits data (args_read_pos_ (indices a)) arg_size with
  | inl why => inl why
  | inr value =>
      let '(a1, tmp) :=
        tryToWriteArgToBuffer a conversion_fmt width precision (PInteger value) in
      inr (a1, tmp, Z.of_nat arg_size)
  end.
Proof.
  destruct conversion_type; cbn [integer_type]; intros H; try discriminate H;
    inversion H; subst; reflexivity.
Qed.

Lemma LoadArgument_integer_in_range (is_signed : bool) (bits : Z)
    (before bytes after : list ascii) :
  In (List.length bytes) [1; 2; 4; 8]%nat ->
  exists value,
    (if is_signed then LoadArgument_signed else LoadArgument_unsigned)
      bits (before ++ bytes ++ after) (List.length before) (List.length bytes) =
    inr value.
Proof.
  intros Hsize. pose proof (read_bytes_at before bytes after) as Hread.
  destruct is_signed; unfold LoadArgument_signed, LoadArgument_unsigned;
    rewrite Hread; cbn in Hsize;
    destruct Hsize as [<-|[<-|[<-|[<-|[]]]]]; cbn [Nat.eqb orb]; eexists; reflexivity.
Qed.

(** What [write_conversion] does once the argument has been expanded,
    when the parameter is not a dynamic width or precision. *)
Lemma conversion_outcome (info : StaticLogInfo) (data : list ascii)
    (fragment : FormatFragment) (a a3 : LogAssembler) (param_type : ParamType)
    (size moved : nat) (tmp arg_size' : Z) :
  nth_error (param_types_ info) (parameter_index_ (indices a)) = Some param_type ->
  param_type <> DYNAMIC_WIDTH -> param_type <> DYNAMIC_PRECISION ->
  nth_error (param_sizes_ info) (parameter_index_ (indices a)) = Some size ->
  write_argument data a (conversion_type_ fragment)
    (c_str_at (conversion_storage_ info) (storage_pos_ fragment)) (-1) (-1) size =
    inr (a3, tmp, arg_size') ->
  indices a3 =
    mkIndices (conversion_index_ (indices a)) (parameter_index_ (indices a))
      (format_index_ (indices a)) (args_read_pos_ (indices a) + moved) ->
  match write_conversion info data fragment a with
  | Continue a' =>
      args_read_pos_ (indices a') = (args_read_pos_ (indices a) + moved + size)%nat /\
      parameter_index_ (indices a') = S (parameter_index_ (indices a)) /\
      conversion_index_ (indices a') = S (conversion_index_ (indices a)) /\
      format_index_ (indices a') =
        (format_index_ (indices a) + specifier_length_ fragment)%nat
  | Returned a' => indices a' = indices a
  | Aborted _ => False
  end.
Proof.
  intros Ht Hw Hp Hs Harg Hi. unfold log_info.write_conversion, load_dynamic.
  rewrite Ht.
  destruct (Z.eqb_spec param_type DYNAMIC_WIDTH) as [?|_]; [contradiction|].
  rewrite Ht.
  destruct (Z.eqb_spec param_type DYNAMIC_PRECISION) as [?|_]; [contradiction|].
  rewrite Hs, Harg.
  destruct ((tmp =? 0) && (arg_size' >? 0)).
  - unfold restore. rewrite Hi. cbn. apply indices_eta.
  - change (parameter_index_ (indices (finishWriting a3 tmp)))
      with (parameter_index_ (indices a3)).
    rewrite Hi. cbn [parameter_index_]. rewrite Hs.
    cbn. rewrite Hi. cbn. repeat split; lia.
Qed.

Lemma indices_add_0 (a : LogAssembler) :
  indices a =
  mkIndices (conversion_index_ (indices a)) (parameter_index_ (indices a))
    (format_index_ (indices a)) (args_read_pos_ (indices a) + 0).
Proof. rewrite Nat.add_0_r. symmetry. apply indices_eta. Qed.

(** X22. A conversion keeps the reader in step with the writer.  When the
    record holds, at the read position, the bytes [StoreArgument] wrote for
    an argument that the conversion can take (and the parameter is not a
    dynamic width or precision), the expansion of the conversion never
    fails: either it goes on, and then the read position has moved by
    exactly the number of bytes stored for the argument and the three
    indices point to the next parameter, the next conversion and the
    character after the specifier; or it makes [write] return, and then all
    positions are as before. *)
Theorem conversion_keeps_the_reader_in_step (info : StaticLogInfo)
    (fragment : FormatFragment) (a : LogAssembler) (param_type : ParamType)
    (pre_precision : Z) (arg : Arg) (before after : list ascii) :
  let string_size :=
    match snd (fst (GetArgSize param_type pre_precision arg)) with
    | Some n => n
    | None => 0
    end in
  let stored := StoreArgument param_type string_size arg in
  nth_error (param_types_ info) (parameter_index_ (indices a)) = Some param_type ->
  param_type <> DYNAMIC_WIDTH -> param_type <> DYNAMIC_PRECISION ->
  nth_error (param_sizes_ info) (parameter_index_ (indices a)) =
    Some (GetParamSize param_type arg) ->
  args_read_pos_ (indices a) = List.length before ->
  argument_fits (conversion_type_ fragment) param_type pre_precision arg ->
  match write_conversion info (before ++ stored ++ after) fragment a with
  | Continue a' =>
      args_read_pos_ (indices a') = (List.length before + List.length stored)%nat /\
      parameter_index_ (indices a') = S (parameter_index_ (indices a)) /\
      conversion_index_ (indices a') = S (conversion_index_ (indices a)) /\
      format_index_ (indices a') =
        (format_index_ (indices a) + specifier_length_ fragment)%nat
  | Returned a' => indices a' = indices a
  | Aborted _ => False
  end.
Proof.
  intros string_size stored Ht Hw Hp Hs Hpos Hfits.
  assert (Hplain : forall parg,
             List.length stored = GetParamSize param_type arg ->
             write_argument (before ++ stored ++ after) a (conversion_type_ fragment)
               (c_str_at (conversion_storage_ info) (storage_pos_ fragment)) (-1) (-1)
               (GetParamSize param_type arg) =
             (let '(a1, tmp) :=
                tryToWriteArgToBuffer a
                  (c_str_at (conversion_storage_ info) (storage_pos_ fragment))
                  (-1) (-1) parg in
              inr (a1, tmp, Z.of_nat (GetParamSize param_type arg))) ->
             match write_conversion info (before ++ stored ++ after) fragment a with
             | Continue a' =>
                 args_read_pos_ (indices a') =
                   (List.length before + List.length stored)%nat /\
                 parameter_index_ (indices a') = S (parameter_index_ (indices a)) /\
                 conversion_index_ (indices a') = S (conversion_index_ (indices a)) /\
                 format_index_ (indices a') =
                   (format_index_ (indices a) + specifier_length_ fragment)%nat
             | Returned a' => indices a' = indices a
             | Aborted _ => False
             end).
  { intros parg Hlen Harg.
    destruct (tryToWriteArgToBuffer a _ (-1) (-1) parg) as [a1 tmp] eqn:E.
    pose proof (tryToWriteArgToBuffer_indices _ _ _ _ _ _ _ E) as Hi.
    rewrite (indices_add_0 a) in Hi.
    pose proof (conversion_outcome info (before ++ stored ++ after) fragment a a1
                  param_type (GetParamSize param_type arg) 0 tmp _ Ht Hw Hp Hs Harg Hi)
      as H.
    rewrite Hlen, <- Hpos.
    rewrite Nat.add_0_r in H. exact H. }
  destruct arg as [size value|image|address str|address];
    cbn [argument_fits] in Hfits.
  - destruct Hfits as [Hsize Hint].
    destruct (integer_type (conversion_type_ fragment)) as [[is_signed bits]|] eqn:Ei;
      [|contradiction].
    subst stored string_size. cbn [StoreArgument GetParamSize] in *.
    destruct (LoadArgument_integer_in_range is_signed bits before (le_bytes size value)
                after) as [v Hv]; [rewrite length_le_bytes; exact Hsize|].
    rewrite length_le_bytes in Hv.
    apply (Hplain (PInteger v)); [apply length_le_bytes|].
    rewrite (write_argument_integer _ _ _ _ _ _ _ _ _ Ei), Hpos, Hv. reflexivity.
  - destruct Hfits as [Hsize Hfloat].
    subst stored string_size. cbn [StoreArgument GetParamSize] in *.
    apply (Hplain (PFloating image)); [reflexivity|].
    assert (Hload : LoadArgument_floating (before ++ image ++ after)
                      (List.length before) (List.length image) = inr image).
    { unfold LoadArgument_floating. rewrite read_bytes_at.
      cbn in Hsize. destruct Hsize as [<-|[<-|[<-|[]]]]; reflexivity. }
    unfold log_info.write_argument.
    destruct Hfloat as [-> | ->]; rewrite Hpos, Hload; reflexivity.
  - destruct (Z.leb_spec param_type NON_STRING) as [Hns|Hstring].
    + subst stored string_size. unfold StoreArgument, GetParamSize in *.
      destruct (Z.leb_spec param_type NON_STRING) as [_|?]; [|lia].
      apply (Hplain (PPointer (args_read_pos_ (indices a))));
        [apply length_le_bytes|].
      unfold log_info.write_argument. rewrite Hfits. reflexivity.
    + destruct Hfits as (Hct & Hstr & Hlen & Hpre).
      destruct (stored_string_is_read printf_render param_type pre_precision address
                  str before after a
                  (c_str_at (conversion_storage_ info) (storage_pos_ fragment))
                  (-1) (-1) (GetParamSize param_type (ArgCharPtr address str))
                  Hstring Hpre Hlen Hstr Hpos)
        as (byte_length & Hsize & Hrange & Harg).
      assert (Hss : string_size = byte_length)
        by (subst string_size; rewrite Hsize; reflexivity).
      subst stored. rewrite Hss. rewrite <- Hct in Harg.
      destruct (tryToWriteArgToBuffer (add_args_read_pos a sizeof_size_t) _ (-1) (-1) _)
        as [a2 tmp] eqn:E.
      pose proof (tryToWriteArgToBuffer_indices _ _ _ _ _ _ _ E) as Hi.
      assert (Hi3 : indices (add_args_read_pos a2 (Z.to_nat (byte_length + 1))) =
                    mkIndices (conversion_index_ (indices a))
                      (parameter_index_ (indices a)) (format_index_ (indices a))
                      (args_read_pos_ (indices a) +
                       (sizeof_size_t + Z.to_nat (byte_length + 1)))).
      { unfold add_args_read_pos at 1. cbn [indices with_indices]. rewrite Hi.
        cbn [add_args_read_pos indices with_indices conversion_index_
             parameter_index_ format_index_ args_read_pos_].
        f_equal. lia. }
      pose proof (conversion_outcome info _ fragment a _ param_type _ _ tmp _
                    Ht Hw Hp Hs Harg Hi3) as H.
      assert (Hstored : List.length
                          (StoreArgument param_type byte_length (ArgCharPtr address str)) =
                        (sizeof_size_t + Z.to_nat (byte_length + 1))%nat).
      { unfold StoreArgument.
        destruct (Z.leb_spec param_type NON_STRING) as [?|_]; [lia|].
        rewrite !length_app, length_le_bytes, length_firstn. cbn [List.length]. lia. }
      assert (Hzero : GetParamSize param_type (ArgCharPtr address str) = 0%nat).
      { unfold GetParamSize.
        destruct (Z.leb_spec param_type NON_STRING) as [?|_]; [lia | reflexivity]. }
      rewrite Hstored, <- Hpos.
      rewrite Hzero, Nat.add_0_r in H. exact H.
  - subst stored string_size. cbn [StoreArgument GetParamSize] in *.
    apply (Hplain (PPointer (args_read_pos_ (indices a))));
      [apply length_le_bytes|].
    unfold log_info.write_argument. rewrite Hfits. reflexivity.
Qed.

End ReaderInStep.

Section ReaderInStepRuns.

Import log_info libc.

(** The static information of [OLOG(LogLevel::INFO, "%d", 42)] at a.cc:7. *)
Definition integer_site : StaticLogInfo :=
  mkStaticLogInfo (c_array "a.cc") 7 3 3 1 1 (c_array "%d") (c_array "%d")
    [mkFormatFragment int_t 2 0 0] [NON_STRING] [4%nat].

Lemma conversion_keeps_the_reader_in_step_witness :
  nth_error (param_types_ integer_site)
    (parameter_index_ (indices (setBuffer LogAssembler_new 64))) = Some NON_STRING /\
  NON_STRING <> DYNAMIC_WIDTH /\ NON_STRING <> DYNAMIC_PRECISION /\
  nth_error (param_sizes_ integer_site)
    (parameter_index_ (indices (setBuffer LogAssembler_new 64))) =
    Some (GetParamSize NON_STRING (ArgInteger 4 42)) /\
  args_read_pos_ (indices (setBuffer LogAssembler_new 64)) = List.length (@nil ascii) /\
  argument_fits (conversion_type_ (mkFormatFragment int_t 2 0 0)) NON_STRING 0
    (ArgInteger 4 42) /\
  exists a',
    write_conversion printf_reference integer_site
      ([] ++ StoreArgument NON_STRING 0 (ArgInteger 4 42) ++ [])
      (mkFormatFragment int_t 2 0 0) (setBuffer LogAssembler_new 64) = Continue a' /\
    args_read_pos_ (indices a') = 4%nat /\
    parameter_index_ (indices a') = 1%nat /\
    conversion_index_ (indices a') = 1%nat /\
    format_index_ (indices a') = 2%nat.
Proof.
  assert (Hfits : argument_fits (conversion_type_ (mkFormatFragment int_t 2 0 0))
                    NON_STRING 0 (ArgInteger 4 42))
    by (cbn; split; [tauto | discriminate]).
  split; [reflexivity|]. split; [discriminate|]. split; [discriminate|].
  split; [reflexivity|]. split; [reflexivity|]. split; [exact Hfits|].
  pose proof (conversion_keeps_the_reader_in_step printf_reference integer_site
                (mkFormatFragment int_t 2 0 0) (setBuffer LogAssembler_new 64)
                NON_STRING 0 (ArgInteger 4 42) [] [] eq_refl
                ltac:(discriminate) ltac:(discriminate) eq_refl eq_refl Hfits) as H.
  cbv zeta in H.
  destruct (write_conversion printf_reference integer_site _ _ _) as [a'|a'|] eqn:E.
  - exists a'. split; [reflexivity | exact H].
  - vm_compute in E. discriminate E.
  - contradiction.
Defined.

End ReaderInStepRuns.

Section DynamicParameters.

Import log_info.

(** X23. A dynamic width or precision, an [int] that [Log] stored, is read
    back with its value by [write], which then stands at the next parameter
    and past the four bytes.  But -1 is also the value [write] starts from
    when the specifier has no [*]: a width or a precision of -1 is not passed
    on, and [snprintf] is called with one argument fewer than the specifier
    takes. *)
Theorem dynamic_parameter_is_read_back (info : StaticLogInfo) (kind : ParamType)
    (a : LogAssembler) (value : Z) (before after : list ascii) (arg : PrintfArg) :
  kind = DYNAMIC_WIDTH \/ kind = DYNAMIC_PRECISION ->
  nth_error (param_types_ info) (parameter_index_ (indices a)) = Some kind ->
  nth_error (param_sizes_ info) (parameter_index_ (indices a)) =
    Some (GetParamSize kind (ArgInteger 4 value)) ->
  - 2 ^ 31 <= value < 2 ^ 31 ->
  args_read_pos_ (indices a) = List.length before ->
  load_dynamic info (before ++ StoreArgument kind 0 (ArgInteger 4 value) ++ after)
    kind a = inr (next_parameter (add_args_read_pos a 4), value) /\
  snprintf_args value (-1) arg = (if value =? -1 then [arg] else [PInteger value; arg]) /\
  snprintf_args (-1) value arg = (if value =? -1 then [arg] else [PInteger value; arg]).
Proof.
  intros Hkind Ht Hs Hv Hpos. split; [|split].
  - unfold load_dynamic. rewrite Ht, Z.eqb_refl, Hs.
    cbn [GetParamSize StoreArgument].
    assert (Hload : LoadArgument_signed 32 (before ++ le_bytes 4 value ++ after)
                      (args_read_pos_ (indices a)) 4 = inr value).
    { unfold LoadArgument_signed. rewrite Hpos.
      pose proof (read_bytes_at before (le_bytes 4 value) after) as Hread.
      rewrite length_le_bytes in Hread. rewrite Hread. cbn [Nat.eqb orb].
      rewrite le_value_le_bytes. change (8 * Z.of_nat 4) with 32.
      rewrite signed_of_mod by lia. rewrite (signed_of_small 32 value) by lia.
      rewrite signed_of_small by lia. reflexivity. }
    rewrite Hload. reflexivity.
  - unfold snprintf_args. destruct (value =? -1); reflexivity.
  - unfold snprintf_args. destruct (value =? -1); reflexivity.
Qed.

Lemma dynamic_parameter_is_read_back_witness :
  (DYNAMIC_WIDTH = DYNAMIC_WIDTH \/ DYNAMIC_WIDTH = DYNAMIC_PRECISION) /\
  nth_error [DYNAMIC_WIDTH; NON_STRING]
    (parameter_index_ (indices (setBuffer LogAssembler_new 64))) = Some DYNAMIC_WIDTH /\
  nth_error [4%nat; 4%nat]
    (parameter_index_ (indices (setBuffer LogAssembler_new 64))) =
    Some (GetParamSize DYNAMIC_WIDTH (ArgInteger 4 (-1))) /\
  - 2 ^ 31 <= -1 < 2 ^ 31 /\
  args_read_pos_ (indices (setBuffer LogAssembler_new 64)) = List.length (@nil ascii) /\
  load_dynamic
    (mkStaticLogInfo (c_array "a.cc") 7 3 4 1 2 (c_array "%*d") (c_array "%*d")
       [mkFormatFragment int_t 3 0 0] [DYNAMIC_WIDTH; NON_STRING] [4%nat; 4%nat])
    ([] ++ StoreArgument DYNAMIC_WIDTH 0 (ArgInteger 4 (-1)) ++
     StoreArgument NON_STRING 0 (ArgInteger 4 42))
    DYNAMIC_WIDTH (setBuffer LogAssembler_new 64) =
    inr (next_parameter (add_args_read_pos (setBuffer LogAssembler_new 64) 4), -1) /\
  snprintf_args (-1) (-1) (PInteger 42) = [PInteger 42].
Proof.
  assert (Hv : - 2 ^ 31 <= -1 < 2 ^ 31) by lia.
  split; [left; reflexivity|]. split; [reflexivity|]. split; [reflexivity|].
  split; [exact Hv|]. split; [reflexivity|].
  destruct (dynamic_parameter_is_read_back
              (mkStaticLogInfo (c_array "a.cc") 7 3 4 1 2 (c_array "%*d") (c_array "%*d")
                 [mkFormatFragment int_t 3 0 0] [DYNAMIC_WIDTH; NON_STRING]
                 [4%nat; 4%nat])
              DYNAMIC_WIDTH (setBuffer LogAssembler_new 64) (-1) []
              (StoreArgument NON_STRING 0 (ArgInteger 4 42)) (PInteger 42)
              (or_introl eq_refl) eq_refl eq_refl Hv eq_refl) as (H1 & H2 & _).
  split; [exact H1 | exact H2].
Defined.

End DynamicParameters.
